(** * GQ-CNN network builder and batched inference (gqcnn/model/tf/network_tf.py)

    A shallow embedding of the TensorFlow implementation of the GQ-CNN
    network class [GQCNNTF]:

    - the computation graph the [_build_*] methods assemble is a value of
      the inductive type [tensor] (TensorFlow builds the graph symbolically,
      so the embedding keeps the nodes the code creates);
    - Python exceptions and attribute mutation are a state-and-error monad:
      the state survives a raised exception, as Python objects do;
    - the class attribute [GQCNNWeights.weights] lives in the process state,
      apart from the instances that reach it through attribute lookup;
    - the process state counts the TensorFlow variables created, those of
      [tf.Variable] and those a [tf.layers.batch_normalization] layer makes
      for itself;
    - [predict] and [featurize] are modelled on the leading (batch) axis of
      their arrays: a row is an abstract value, the per-row arithmetic
      [(x - mean) / std] is a parameter, and numpy's slice assignment keeps
      its broadcasting rule on the leading axis.

    The source is Python 2 ([iteritems], the builtin [reduce]): [/] on ints
    is floor division. *)

From Stdlib Require Import ZArith QArith Qcanon List Ascii String Bool Lia.
From stdpp Require Import base gmap strings list fin_maps.

Set Warnings "-register-all".
Open Scope string_scope.
Open Scope list_scope.
Open Scope Z_scope.

(* ===================================================================== *)
(** * Python: exceptions and mutable state *)
(* ===================================================================== *)

Module Py.

Inductive exn : Type :=
| ValueError (msg : string)
| RuntimeError (msg : string)
| KeyError (key : string)
| IndexError (msg : string)
| AttributeError (attr : string)
| UnboundLocalError (var : string)
| TypeError (msg : string)
| ZeroDivisionError.

(** What running a piece of code gives: a value, a raised exception, or
    [OutOfFuel] when a bounded loop of the model was cut before the
    Python loop ended. *)
Inductive outcome (A : Type) : Type :=
| Ok (a : A)
| Raise (e : exn)
| OutOfFuel.
Arguments Ok {A} a.
Arguments Raise {A} e.
Arguments OutOfFuel {A}.

(** Computations over a mutable state [S]; the state is returned in every
    case, since an exception does not undo earlier mutations. *)
Definition M (S A : Type) : Type := S -> outcome A * S.

Definition ret {S A} (a : A) : M S A := fun s => (Ok a, s).

Definition bind {S A B} (c : M S A) (k : A -> M S B) : M S B :=
  fun s =>
    match c s with
    | (Ok a, s') => k a s'
    | (Raise e, s') => (Raise e, s')
    | (OutOfFuel, s') => (OutOfFuel, s')
    end.

Definition raise {S A} (e : exn) : M S A := fun s => (Raise e, s).
Definition get {S} : M S S := fun s => (Ok s, s).
Definition gets {S A} (f : S -> A) : M S A := fun s => (Ok (f s), s).
Definition modify {S} (f : S -> S) : M S unit := fun s => (Ok tt, f s).

(** [d[key]] on a dict: [KeyError] when the key is absent. *)
Definition getitem {S A} (d : gmap string A) (key : string) : M S A :=
  match d !! key with
  | Some a => ret a
  | None => raise (KeyError key)
  end.

(** Python 2 [a / b] on ints. *)
Definition int_div {S} (a b : Z) : M S Z :=
  if (b =? 0)%Z then raise ZeroDivisionError else ret (a / b)%Z.

(** [sub in s] on strings. *)
Fixpoint occurs_in (sub s : string) : bool :=
  String.prefix sub s ||
  match s with
  | EmptyString => false
  | String _ rest => occurs_in sub rest
  end.

End Py.
Import Py.

Declare Scope py_scope.
Delimit Scope py_scope with py.
Notation "'let*' x ':=' c 'in' k" := (bind c (fun x => k))
  (at level 10, x name, c at level 100, k at level 200) : py_scope.
Notation "'let*' ' p ':=' c 'in' k" := (bind c (fun x => match x with p => k end))
  (at level 10, p pattern, c at level 100, k at level 200) : py_scope.
Notation "c1 ;;; c2" := (bind c1 (fun _ => c2))
  (at level 100, c2 at level 200, right associativity) : py_scope.
Open Scope py_scope.

(* ===================================================================== *)
(** * The TensorFlow graph *)
(* ===================================================================== *)

Module TF.

Inductive padding : Type := SAME | VALID.

(** Graph nodes, one constructor per TensorFlow (or numpy) call of the
    source.  A [tf_Variable] carries the identity [uid] TensorFlow gives
    each variable it creates: two calls of [tf.Variable] never return the
    same object. *)
Inductive tensor : Type :=
| Placeholder (name : string)
| tf_Variable (uid : nat) (initial_value : tensor) (name : string)
| py_int (z : Z)
| py_float (q : Q)
| py_list (l : list tensor)
| np_array (values : list Q)
| checkpoint_tensor (full_var_name : string)   (* reader.get_tensor(name) *)
| get_shape_at (t : tensor) (axis : nat)       (* t.get_shape().as_list()[axis] *)
| flat_shape (t : tensor)                      (* [-1, reduce_shape(t.get_shape())] *)
| tf_zeros (shape : tensor)
| tf_truncated_normal (shape : list Z) (stddev_two_over : Z) (* stddev = sqrt(2.0 / n) *)
| tf_constant (value : Q) (shape : list Z)
| tf_matmul (a b : tensor)
| tf_add (a b : tensor)
| tf_subtract (a b : tensor)
| tf_multiply (a b : tensor)
| tf_div (a b : tensor)
| tf_maximum (a b : tensor)
| tf_reshape (t shape : tensor)
| tf_shape (t : tensor)
| tf_index (t : tensor) (i : nat)              (* t[i] *)
| tf_slice (t : tensor) (lo : nat) (hi : option nat)   (* t[lo:hi] *)
| tf_concat (values : list tensor) (axis : Z)
| tf_tile (t : tensor) (multiples : tensor)
| tf_nn_conv2d (input filter : tensor) (strides : list Z) (pad : padding)
| tf_nn_local_response_normalization (input : tensor) (depth_radius : Z) (alpha beta bias : Q)
| tf_nn_max_pool (value : tensor) (ksize strides : list Z) (pad : padding)
| tf_nn_dropout (x keep_prob : tensor)
| tf_layers_batch_normalization (inputs training : tensor) (epsilon : Q)
| tf_nn_softmax (logits : tensor)
| transformer (U theta : tensor) (out_size : Z * Z).

End TF.
Import TF.

(* ===================================================================== *)
(** * The network object and the weight store *)
(* ===================================================================== *)

Module Net.

(** An attribute held in the [__dict__] of a [GQCNNWeights] instance. *)
Inductive attr : Type :=
| ATensor (t : tensor)
| ADict (d : gmap string tensor).

(** [class GQCNNWeights]: an instance is its own [__dict__]; the class
    attribute [weights = {}] is not part of it (see [process]). *)
Record GQCNNWeights : Type := { w__dict__ : gmap string attr }.

(** [GQCNNWeights.__init__]: [pass]. *)
Definition GQCNNWeights__init__ : GQCNNWeights := {| w__dict__ := ∅ |}.

(** One entry of a stream of the architecture: [layer_config['type']] and
    the numeric parameters of the layer ([norm] is a truth value). *)
Record layer_config : Type := { l_type : string; l_params : gmap string Z }.

(** A stream is an [OrderedDict]: iteration follows insertion order. *)
Definition layers : Type := list (string * layer_config).

Record GQCNNTF : Type := {
  _weights : GQCNNWeights;
  _feature_tensors : gmap string tensor;
  _architecture : gmap string layers;
  _fully_conv : bool;
  _train_im_width : Z;
  _im_height : Z;
  _im_width : Z;
  _num_channels : Z;
  _pose_dim : Z;
  _gripper_dim : Z;
  _normalization_radius : Z;
  _normalization_alpha : Q;
  _normalization_beta : Q;
  _normalization_bias : Q
}.

(** What every object of the Python process shares: the dict bound to the
    class attribute [GQCNNWeights.weights] when the class statement ran,
    and the number of TensorFlow variables created so far. *)
Record process : Type := {
  GQCNNWeights_weights : gmap string tensor;
  tf_variables : nat
}.

Record state : Type := { self : GQCNNTF; proc : process }.

Definition set_weights_obj (w : GQCNNWeights) (n : GQCNNTF) : GQCNNTF :=
  {| _weights := w; _feature_tensors := _feature_tensors n;
     _architecture := _architecture n; _fully_conv := _fully_conv n;
     _train_im_width := _train_im_width n; _im_height := _im_height n;
     _im_width := _im_width n; _num_channels := _num_channels n;
     _pose_dim := _pose_dim n; _gripper_dim := _gripper_dim n;
     _normalization_radius := _normalization_radius n;
     _normalization_alpha := _normalization_alpha n;
     _normalization_beta := _normalization_beta n;
     _normalization_bias := _normalization_bias n |}.

Definition set_feature_tensors (f : gmap string tensor) (n : GQCNNTF) : GQCNNTF :=
  {| _weights := _weights n; _feature_tensors := f;
     _architecture := _architecture n; _fully_conv := _fully_conv n;
     _train_im_width := _train_im_width n; _im_height := _im_height n;
     _im_width := _im_width n; _num_channels := _num_channels n;
     _pose_dim := _pose_dim n; _gripper_dim := _gripper_dim n;
     _normalization_radius := _normalization_radius n;
     _normalization_alpha := _normalization_alpha n;
     _normalization_beta := _normalization_beta n;
     _normalization_bias := _normalization_bias n |}.

(** [self._weights.weights]: the instance [__dict__] is searched first,
    then the class. *)
Definition weights_dict : M state (gmap string tensor) := fun s =>
  match w__dict__ (_weights (self s)) !! "weights" with
  | Some (ADict d) => (Ok d, s)
  | Some (ATensor _) => (Raise (AttributeError "keys"), s)
  | None => (Ok (GQCNNWeights_weights (proc s)), s)
  end.

(** [key in self._weights.weights.keys()] *)
Definition weights_contains (key : string) : M state bool :=
  let* d := weights_dict in
  ret (bool_decide (is_Some (d !! key))).

(** [self._weights.weights[key]] *)
Definition weights_getitem (key : string) : M state tensor :=
  let* d := weights_dict in getitem d key.

(** [self._weights.weights[key] = v]: the dict found by the lookup is
    mutated in place. *)
Definition weights_setitem (key : string) (v : tensor) : M state unit := fun s =>
  match w__dict__ (_weights (self s)) !! "weights" with
  | Some (ADict d) =>
      (Ok tt,
       {| self := set_weights_obj
                    {| w__dict__ := <["weights" := ADict (<[key := v]> d)]>
                                      (w__dict__ (_weights (self s))) |}
                    (self s);
          proc := proc s |})
  | Some (ATensor _) => (Raise (TypeError "object does not support item assignment"), s)
  | None =>
      (Ok tt,
       {| self := self s;
          proc := {| GQCNNWeights_weights := <[key := v]> (GQCNNWeights_weights (proc s));
                     tf_variables := tf_variables (proc s) |} |})
  end.

(** [tf.Variable(initial_value, name=name)]: a new variable each call. *)
Definition new_Variable (initial_value : tensor) (name : string) : M state tensor := fun s =>
  (Ok (tf_Variable (tf_variables (proc s)) initial_value name),
   {| self := self s;
      proc := {| GQCNNWeights_weights := GQCNNWeights_weights (proc s);
                 tf_variables := S (tf_variables (proc s)) |} |}).

(** [self._feature_tensors[name] = t] *)
Definition register_feature (name : string) (t : tensor) (s : state) : state :=
  {| self := set_feature_tensors (<[name := t]> (_feature_tensors (self s))) (self s);
     proc := proc s |}.

Definition feature_setitem (name : string) (t : tensor) : M state unit :=
  modify (register_feature name t).

(** The Weight Store of a network: the dict [self._weights.weights]
    denotes, if it denotes one. *)
Definition store_of (s : state) : option (gmap string tensor) :=
  match w__dict__ (_weights (self s)) !! "weights" with
  | Some (ADict d) => Some d
  | Some (ATensor _) => None
  | None => Some (GQCNNWeights_weights (proc s))
  end.

(** [np.sqrt(2.0 / fan_in)], kept as the [fan_in] it is computed from;
    dividing the float by the int [0] raises. *)
Definition np_sqrt_2_over (fan_in : Z) : M state Z :=
  if (fan_in =? 0)%Z then raise ZeroDivisionError else ret fan_in.

Definition _leaky_relu (x : tensor) : tensor :=
  tf_maximum (tf_multiply (py_float (1 # 10)) x) x.

(** The key of a layer parameter: ['{}_weights'.format(name)]. *)
Definition fmt (name suffix : string) : string := name +:+ suffix.

(* ------------------------------------------------------------------- *)
(** ** Layer library *)

Definition _build_spatial_transformer (input_node : tensor)
    (input_height input_width input_channels num_transform_params
     output_width output_height : Z) (name : string)
  : M state (tensor * Z * Z * Z) :=
  let* has := weights_contains (fmt name "_weights") in
  let* '(transformW, transformb) :=
    (if has : bool then
       let* w := weights_getitem (fmt name "_weights") in
       let* b := weights_getitem (fmt name "_bias") in
       ret (w, b)
     else
       let* w := new_Variable
                   (tf_zeros (py_list [py_int (input_height * input_width * input_channels);
                                       py_int num_transform_params]))
                   (fmt name "_weights") in
       let initial := np_array [1 # 2; 0; 0; 0; 1 # 2; 0]%Q in
       let* b := new_Variable initial (fmt name "_bias") in
       weights_setitem (fmt name "_weights") w ;;;
       weights_setitem (fmt name "_bias") b ;;;
       ret (w, b)) in
  let loc_network :=
    tf_add (tf_matmul
              (tf_zeros (py_list [get_shape_at input_node 0;
                                  py_int (input_height * input_width * input_channels)]))
              transformW)
           transformb in
  let transform_layer := transformer input_node loc_network (output_width, output_height) in
  feature_setitem name transform_layer ;;;
  ret (transform_layer, output_height, output_width, input_channels).

Definition _build_conv_layer (input_node : tensor)
    (input_height input_width input_channels filter_h filter_w num_filt
     pool_stride_h pool_stride_w pool_size : Z) (name : string) (norm : bool)
  : M state (tensor * Z * Z * Z) :=
  let* has := weights_contains (fmt name "_weights") in
  let* '(convW, convb) :=
    (if has : bool then
       let* w := weights_getitem (fmt name "_weights") in
       let* b := weights_getitem (fmt name "_bias") in
       ret (w, b)
     else
       let convW_shape := [filter_h; filter_w; input_channels; num_filt] in
       let fan_in := filter_h * filter_w * input_channels in
       let* std := np_sqrt_2_over fan_in in
       let* w := new_Variable (tf_truncated_normal convW_shape std) (fmt name "_weights") in
       let* b := new_Variable (tf_truncated_normal [num_filt] std) (fmt name "_bias") in
       weights_setitem (fmt name "_weights") w ;;;
       weights_setitem (fmt name "_bias") b ;;;
       ret (w, b)) in
  let* out_height := int_div input_height pool_stride_h in
  let* out_width := int_div input_width pool_stride_w in
  let out_channels := num_filt in
  let convh := tf_add (tf_nn_conv2d input_node convW [1; 1; 1; 1] SAME) convb in
  let convh := _leaky_relu convh in
  let* convh :=
    (if norm then
       let* radius := gets (fun s => _normalization_radius (self s)) in
       let* alpha := gets (fun s => _normalization_alpha (self s)) in
       let* beta := gets (fun s => _normalization_beta (self s)) in
       let* bias := gets (fun s => _normalization_bias (self s)) in
       ret (tf_nn_local_response_normalization convh radius alpha beta bias)
     else ret convh) in
  let pool := tf_nn_max_pool convh [1; pool_size; pool_size; 1]
                             [1; pool_stride_h; pool_stride_w; 1] SAME in
  feature_setitem name pool ;;;
  ret (pool, out_height, out_width, out_channels).

Definition _pack (dim data : tensor) (vector : bool) : tensor :=
  if vector then
    let reshaped := tf_reshape data (tf_concat [py_list [py_int 1; py_int 1]; tf_shape data] 0) in
    tf_tile reshaped (py_list [dim; dim; py_int 1])
  else
    let reshaped :=
      tf_reshape data (tf_concat [tf_slice (tf_shape data) 0 (Some 1%nat);
                                  py_list [py_int 1; py_int 1];
                                  tf_slice (tf_shape data) 1 None] 0) in
    tf_tile reshaped (py_list [py_int 1; dim; dim; py_int 1]).

(** The kernel a dense weight matrix is reshaped into. *)
Definition fully_conv_kernel (fcW : tensor) (filter_dim : Z) : tensor :=
  tf_reshape fcW
    (tf_concat [py_list [py_int filter_dim; py_int filter_dim];
                py_list [tf_div (tf_index (tf_shape fcW) 0) (py_int (filter_dim * filter_dim))];
                tf_slice (tf_shape fcW) 1 None] 0).

Definition _build_fully_conv_layer (input_node : tensor) (filter_dim : Z) (fc_name : string)
  : M state tensor :=
  let* fcW := weights_getitem (fmt fc_name "_weights") in
  let* convW := new_Variable (fully_conv_kernel fcW filter_dim)
                             (fmt fc_name "_fully_conv_weights") in
  weights_setitem (fmt fc_name "_fully_conv_weights") convW ;;;
  let* convb := weights_getitem (fmt fc_name "_bias") in
  let convh := tf_nn_conv2d input_node convW [1; 1; 1; 1] VALID in
  let bias_packed := _pack (tf_index (tf_shape convh) 1) convb true in
  let convh := tf_add convh bias_packed in
  let convh := _leaky_relu convh in
  ret convh.

Definition _build_fully_conv_merge_layer (input_node_im input_node_pose : tensor)
    (filter_dim : Z) (fc_name : string) : M state tensor :=
  let* fcW_im := weights_getitem (fmt fc_name "_input_1_weights") in
  let* convW := new_Variable (fully_conv_kernel fcW_im filter_dim)
                             (fmt fc_name "_im_fully_conv_weights") in
  weights_setitem (fmt fc_name "_im_fully_conv_weights") convW ;;;
  let convh_im := tf_nn_conv2d input_node_im convW [1; 1; 1; 1] VALID in
  let* fcW_pose := weights_getitem (fmt fc_name "_input_2_weights") in
  let pose_out := tf_matmul input_node_pose fcW_pose in
  let pose_packed := _pack (tf_index (tf_shape convh_im) 1) pose_out false in
  let convh := tf_add convh_im pose_packed in
  let* fc_bias := weights_getitem (fmt fc_name "_bias") in
  let bias_packed := _pack (tf_index (tf_shape convh_im) 1) fc_bias true in
  let convh := _leaky_relu (tf_add convh bias_packed) in
  ret convh.

(** The weights and bias of a dense layer: reused when ['{}_weights'] is
    a key of the store, created and stored otherwise.  [bias_zero] is the
    [tf.constant(0.0, ...)] bias of a final layer. *)
Definition _build_fc_layer (input_node : tensor) (fan_in out_size : Z) (name : string)
    (input_is_multi : bool) (drop_rate : tensor) (final_fc_layer : bool)
  : M state (tensor * Z) :=
  let* has := weights_contains (fmt name "_weights") in
  let* '(fcW, fcb) :=
    (if has : bool then
       let* w := weights_getitem (fmt name "_weights") in
       let* b := weights_getitem (fmt name "_bias") in
       ret (w, b)
     else
       let* std := np_sqrt_2_over fan_in in
       let* w := new_Variable (tf_truncated_normal [fan_in; out_size] std) (fmt name "_weights") in
       let* b :=
         (if final_fc_layer then
            new_Variable (tf_constant 0 [out_size]) (fmt name "_bias")
          else
            new_Variable (tf_truncated_normal [out_size] std) (fmt name "_bias")) in
       weights_setitem (fmt name "_weights") w ;;;
       weights_setitem (fmt name "_bias") b ;;;
       ret (w, b)) in
  let input_node :=
    if input_is_multi then tf_reshape input_node (flat_shape input_node) else input_node in
  let fc :=
    if final_fc_layer then tf_add (tf_matmul input_node fcW) fcb
    else _leaky_relu (tf_add (tf_matmul input_node fcW) fcb) in
  let fc := tf_nn_dropout fc (tf_subtract (py_int 1) drop_rate) in
  feature_setitem name fc ;;;
  ret (fc, out_size).

Definition _build_pc_layer (input_node : tensor) (fan_in out_size : Z) (name : string)
  : M state (tensor * Z) :=
  let* has := weights_contains (fmt name "_weights") in
  let* '(pcW, pcb) :=
    (if has : bool then
       let* w := weights_getitem (fmt name "_weights") in
       let* b := weights_getitem (fmt name "_bias") in
       ret (w, b)
     else
       let* std := np_sqrt_2_over fan_in in
       let* w := new_Variable (tf_truncated_normal [fan_in; out_size] std) (fmt name "_weights") in
       let* b := new_Variable (tf_truncated_normal [out_size] std) (fmt name "_bias") in
       weights_setitem (fmt name "_weights") w ;;;
       weights_setitem (fmt name "_bias") b ;;;
       ret (w, b)) in
  let pc := _leaky_relu (tf_add (tf_matmul input_node pcW) pcb) in
  feature_setitem name pc ;;;
  ret (pc, out_size).

Definition _build_gc_layer (input_node : tensor) (fan_in out_size : Z) (name : string)
  : M state (tensor * Z) :=
  let* has := weights_contains (fmt name "_weights") in
  let* '(gcW, gcb) :=
    (if has : bool then
       let* w := weights_getitem (fmt name "_weights") in
       let* b := weights_getitem (fmt name "_bias") in
       ret (w, b)
     else
       let* std := np_sqrt_2_over fan_in in
       let* w := new_Variable (tf_truncated_normal [fan_in; out_size] std) (fmt name "_weights") in
       let* b := new_Variable (tf_truncated_normal [out_size] std) (fmt name "_bias") in
       weights_setitem (fmt name "_weights") w ;;;
       weights_setitem (fmt name "_bias") b ;;;
       ret (w, b)) in
  let gc := _leaky_relu (tf_add (tf_matmul input_node gcW) gcb) in
  feature_setitem name gc ;;;
  ret (gc, out_size).

(** The operand [fan_in_3] of [fan_in_1 + fan_in_2 + fan_in_3], whose
    default is [None]. *)
Definition int_operand (fan_in_3 : option Z) : M state Z :=
  match fan_in_3 with
  | Some c => ret c
  | None => raise (TypeError "unsupported operand type(s) for +: 'int' and 'NoneType'")
  end.

Definition _build_fc_merge (input_fc_node_1 input_fc_node_2 : tensor)
    (fan_in_1 fan_in_2 out_size : Z) (drop_rate : tensor) (name : string)
    (input_fc_node_3 : option tensor) (fan_in_3 : option Z)
  : M state (tensor * Z) :=
  let* fc :=
    match input_fc_node_3 with
    | Some node_3 =>
        let* has := weights_contains (fmt name "_input_1_weights") in
        let* '(input1W, input2W, input3W, fcb) :=
          (if has : bool then
             let* w1 := weights_getitem (fmt name "_input_1_weights") in
             let* w2 := weights_getitem (fmt name "_input_2_weights") in
             let* w3 := weights_getitem (fmt name "_input_3_weights") in
             let* b := weights_getitem (fmt name "_bias") in
             ret (w1, w2, w3, b)
           else
             let* f3 := int_operand fan_in_3 in
             let* std := np_sqrt_2_over (fan_in_1 + fan_in_2 + f3) in
             let* w1 := new_Variable (tf_truncated_normal [fan_in_1; out_size] std)
                                     (fmt name "_input_1_weights") in
             let* w2 := new_Variable (tf_truncated_normal [fan_in_2; out_size] std)
                                     (fmt name "_input_2_weights") in
             let* w3 := new_Variable (tf_truncated_normal [f3; out_size] std)
                                     (fmt name "_input_3_weights") in
             let* b := new_Variable (tf_truncated_normal [out_size] std) (fmt name "_bias") in
             weights_setitem (fmt name "_input_1_weights") w1 ;;;
             weights_setitem (fmt name "_input_2_weights") w2 ;;;
             weights_setitem (fmt name "_input_3_weights") w3 ;;;
             weights_setitem (fmt name "_bias") b ;;;
             ret (w1, w2, w3, b)) in
        ret (_leaky_relu (tf_add (tf_add (tf_add (tf_matmul input_fc_node_1 input1W)
                                                 (tf_matmul input_fc_node_2 input2W))
                                         (tf_matmul node_3 input3W))
                                 fcb))
    | None =>
        let* has := weights_contains (fmt name "_input_1_weights") in
        let* '(input1W, input2W, fcb) :=
          (if has : bool then
             let* w1 := weights_getitem (fmt name "_input_1_weights") in
             let* w2 := weights_getitem (fmt name "_input_2_weights") in
             let* b := weights_getitem (fmt name "_bias") in
             ret (w1, w2, b)
           else
             let* std := np_sqrt_2_over (fan_in_1 + fan_in_2) in
             let* w1 := new_Variable (tf_truncated_normal [fan_in_1; out_size] std)
                                     (fmt name "_input_1_weights") in
             let* w2 := new_Variable (tf_truncated_normal [fan_in_2; out_size] std)
                                     (fmt name "_input_2_weights") in
             let* b := new_Variable (tf_truncated_normal [out_size] std) (fmt name "_bias") in
             weights_setitem (fmt name "_input_1_weights") w1 ;;;
             weights_setitem (fmt name "_input_2_weights") w2 ;;;
             weights_setitem (fmt name "_bias") b ;;;
             ret (w1, w2, b)) in
        ret (_leaky_relu (tf_add (tf_add (tf_matmul input_fc_node_1 input1W)
                                         (tf_matmul input_fc_node_2 input2W))
                                 fcb))
    end in
  let fc := tf_nn_dropout fc (tf_subtract (py_int 1) drop_rate) in
  feature_setitem name fc ;;;
  ret (fc, out_size).

(** [tf.layers.batch_normalization(inputs, training=..., epsilon=...)]
    makes a new normalization layer at every call, and the layer creates
    its variables in the graph: [gamma], [beta], [moving_mean] and
    [moving_variance].  They are variables of the process and no entries
    of the Weight Store.  The node keeps the operation, its input, the
    training flag and epsilon. *)
Definition batch_normalization_variables : nat := 4.

Definition batch_norm_created (s : state) : state :=
  {| self := self s;
     proc := {| GQCNNWeights_weights := GQCNNWeights_weights (proc s);
                tf_variables := batch_normalization_variables + tf_variables (proc s) |} |}.

Definition new_batch_normalization (inputs training : tensor) (epsilon : Q)
  : M state tensor := fun s =>
  (Ok (tf_layers_batch_normalization inputs training epsilon), batch_norm_created s).

Definition _build_batch_norm (input_node : tensor) (ep : Q) (drop_rate : tensor)
  : M state tensor :=
  let output_node := input_node in
  let* output_node := new_batch_normalization output_node drop_rate ep in
  ret output_node.

Definition _build_residual_layer (input_node : tensor)
    (input_channels fan_in num_filt filt_h filt_w : Z) (drop_rate : tensor)
    (name : string) (first : bool) : M state (tensor * Z) :=
  let* has := weights_contains (fmt name "_conv1_weights") in
  let* '(conv1W, conv1b, conv2W, conv2b) :=
    (if has : bool then
       let* w1 := weights_getitem (fmt name "_conv1_weights") in
       let* b1 := weights_getitem (fmt name "_conv1_bias") in
       let* w2 := weights_getitem (fmt name "_conv2_weights") in
       let* b2 := weights_getitem (fmt name "_conv2_bias") in
       ret (w1, b1, w2, b2)
     else
       let* std := np_sqrt_2_over fan_in in
       let conv1_shape := [filt_h; filt_w; input_channels; num_filt] in
       let conv2_shape := [filt_h; filt_w; num_filt; num_filt] in
       let* w1 := new_Variable (tf_truncated_normal conv1_shape std) (fmt name "_conv1_weights") in
       let* b1 := new_Variable (tf_truncated_normal [num_filt] std) (fmt name "_conv1_bias") in
       let* w2 := new_Variable (tf_truncated_normal conv2_shape std) (fmt name "_conv2_weights") in
       let* b2 := new_Variable (tf_truncated_normal [num_filt] std) (fmt name "_conv2_bias") in
       weights_setitem (fmt name "_conv1_weights") w1 ;;;
       weights_setitem (fmt name "_conv1_bias") b1 ;;;
       weights_setitem (fmt name "_conv2_weights") w2 ;;;
       weights_setitem (fmt name "_conv2_bias") b2 ;;;
       ret (w1, b1, w2, b2)) in
  let EP := (1 # 1000)%Q in
  let output_node := input_node in
  let* output_node :=
    (if negb first then
       let* output_node := _build_batch_norm output_node EP drop_rate in
       let output_node := _leaky_relu output_node in
       ret output_node
     else ret output_node) in
  let output_node := tf_add (tf_nn_conv2d output_node conv1W [1; 1; 1; 1] SAME) conv1b in
  let* output_node := _build_batch_norm output_node EP drop_rate in
  let output_node := _leaky_relu output_node in
  let output_node := tf_add (tf_nn_conv2d output_node conv2W [1; 1; 1; 1] SAME) conv2b in
  let output_node := tf_add input_node output_node in
  feature_setitem name output_node ;;;
  ret (output_node, num_filt).

(* ------------------------------------------------------------------- *)
(** ** Stream composer *)

(** [for ... in layers.iteritems(): body], the locals the body assigns
    threaded as [L]. *)
Fixpoint for_each {A L : Type} (body : L -> A -> M state L) (l : list A) (locals : L)
  : M state L :=
  match l with
  | [] => ret locals
  | x :: rest => let* locals' := body locals x in for_each body rest locals'
  end.

(** [layer_config[key]] for a numeric parameter. *)
Definition cfg (layer_config : layer_config) (key : string) : M state Z :=
  getitem (l_params layer_config) key.

(** Reading a local that may not have been assigned yet. *)
Definition local {A} (name : string) (v : option A) : M state A :=
  match v with
  | Some a => ret a
  | None => raise (UnboundLocalError name)
  end.

(** The locals of [_build_im_stream] that the loop assigns. *)
Record im_locals : Type := {
  im_output_node : tensor;
  im_input_height : Z;
  im_input_width : Z;
  im_input_channels : Z;
  im_prev_layer : string;
  im_first_residual : bool;
  im_filter_dim : Z;
  im_fan_in : option Z
}.

Definition _build_im_stream_body (drop_rate : tensor) (v : im_locals)
    (item : string * layer_config) : M state im_locals :=
  let '(layer_name, layer_config) := item in
  let layer_type := l_type layer_config in
  if String.eqb layer_type "spatial_transformer" then
    let* num_transform_params := cfg layer_config "num_transform_params" in
    let* out_size := cfg layer_config "out_size" in
    let* '(output_node, input_height, input_width, input_channels) :=
      _build_spatial_transformer (im_output_node v) (im_input_height v) (im_input_width v)
        (im_input_channels v) num_transform_params out_size out_size layer_name in
    ret {| im_output_node := output_node; im_input_height := input_height;
           im_input_width := input_width; im_input_channels := input_channels;
           im_prev_layer := layer_type; im_first_residual := true;
           im_filter_dim := im_filter_dim v; im_fan_in := im_fan_in v |}
  else if String.eqb layer_type "conv" then
    if String.eqb (im_prev_layer v) "fc" then
      raise (ValueError "Cannot have conv layer after fc layer")
    else
      let* filt_dim := cfg layer_config "filt_dim" in
      let* num_filt := cfg layer_config "num_filt" in
      let* pool_stride := cfg layer_config "pool_stride" in
      let* pool_size := cfg layer_config "pool_size" in
      let* norm := cfg layer_config "norm" in
      let* '(output_node, input_height, input_width, input_channels) :=
        _build_conv_layer (im_output_node v) (im_input_height v) (im_input_width v)
          (im_input_channels v) filt_dim filt_dim num_filt pool_stride pool_stride pool_size
          layer_name (negb (norm =? 0)%Z) in
      let* pool_stride' := cfg layer_config "pool_stride" in
      let* filter_dim := int_div (im_filter_dim v) pool_stride' in
      ret {| im_output_node := output_node; im_input_height := input_height;
             im_input_width := input_width; im_input_channels := input_channels;
             im_prev_layer := layer_type; im_first_residual := true;
             im_filter_dim := filter_dim; im_fan_in := im_fan_in v |}
  else if String.eqb layer_type "fc" then
    let prev_layer_is_conv_or_res :=
      String.eqb (im_prev_layer v) "conv" || String.eqb (im_prev_layer v) "residual" in
    let fan_in :=
      if prev_layer_is_conv_or_res
      then Some (im_input_height v * im_input_width v * im_input_channels v)
      else im_fan_in v in
    let* fully_conv := gets (fun s => _fully_conv (self s)) in
    if fully_conv : bool then
      let* output_node := _build_fully_conv_layer (im_output_node v) (im_filter_dim v) layer_name in
      ret {| im_output_node := output_node; im_input_height := im_input_height v;
             im_input_width := im_input_width v; im_input_channels := im_input_channels v;
             im_prev_layer := im_prev_layer v; im_first_residual := true;
             im_filter_dim := im_filter_dim v; im_fan_in := fan_in |}
    else
      let* fan_in_arg := local "fan_in" fan_in in
      let* out_size := cfg layer_config "out_size" in
      let* '(output_node, fan_in') :=
        _build_fc_layer (im_output_node v) fan_in_arg out_size layer_name
                        prev_layer_is_conv_or_res drop_rate false in
      ret {| im_output_node := output_node; im_input_height := im_input_height v;
             im_input_width := im_input_width v; im_input_channels := im_input_channels v;
             im_prev_layer := layer_type; im_first_residual := true;
             im_filter_dim := 1; im_fan_in := Some fan_in' |}
  else if String.eqb layer_type "pc" then
    raise (ValueError "Cannot have pose-connected layer in image stream")
  else if String.eqb layer_type "fc_merge" then
    raise (ValueError "Cannot have merge layer in image stream")
  else if String.eqb layer_type "residual" then
    let fan_in := im_input_height v * im_input_width v * im_input_channels v in
    let* num_filt := cfg layer_config "num_filt" in
    let* filt_dim := cfg layer_config "filt_dim" in
    let* '(output_node, input_channels) :=
      _build_residual_layer (im_output_node v) (im_input_channels v) fan_in num_filt
                            filt_dim filt_dim drop_rate layer_name (im_first_residual v) in
    ret {| im_output_node := output_node; im_input_height := im_input_height v;
           im_input_width := im_input_width v; im_input_channels := input_channels;
           im_prev_layer := layer_type; im_first_residual := false;
           im_filter_dim := im_filter_dim v; im_fan_in := Some fan_in |}
  else
    raise (ValueError ("Unsupported layer type: " +:+ layer_type)).

(** The locals of [_build_im_stream] before the loop; [fan_in] is not
    assigned yet. *)
Definition im_locals_init (input_node : tensor) (input_height input_width input_channels : Z)
    (train_im_width : Z) : im_locals :=
  {| im_output_node := input_node; im_input_height := input_height;
     im_input_width := input_width; im_input_channels := input_channels;
     im_prev_layer := "start"; im_first_residual := true;
     im_filter_dim := train_im_width; im_fan_in := None |}.

Definition _build_im_stream (input_node : tensor)
    (input_height input_width input_channels : Z) (drop_rate : tensor) (layers : layers)
  : M state (tensor * Z) :=
  let* train_im_width := gets (fun s => _train_im_width (self s)) in
  let* v := for_each (_build_im_stream_body drop_rate) layers
              (im_locals_init input_node input_height input_width input_channels train_im_width) in
  let* fan_in := local "fan_in" (im_fan_in v) in
  ret (im_output_node v, fan_in).

(** The locals of [_build_pose_stream] and [_build_gripper_stream] that
    are read again: [output_node] and [fan_in] ([prev_layer] is only
    written there). *)
Definition _build_pose_stream_body (v : tensor * Z) (item : string * layer_config)
  : M state (tensor * Z) :=
  let '(output_node, fan_in) := v in
  let '(layer_name, layer_config) := item in
  let layer_type := l_type layer_config in
  if String.eqb layer_type "spatial_transformer" then
    raise (ValueError "Cannot have spatial transformer in pose stream")
  else if String.eqb layer_type "conv" then
    raise (ValueError "Cannot have conv layer in pose stream")
  else if String.eqb layer_type "fc" then
    raise (ValueError "Cannot have fc layer in pose stream")
  else if String.eqb layer_type "pc" then
    let* out_size := cfg layer_config "out_size" in
    _build_pc_layer output_node fan_in out_size layer_name
  else if String.eqb layer_type "fc_merge" then
    raise (ValueError "Cannot have merge layer in pose stream")
  else if String.eqb layer_type "residual" then
    raise (ValueError "Cannot have residual in pose stream")
  else
    raise (ValueError ("Unsupported layer type: " +:+ layer_type)).

Definition _build_pose_stream (input_node : tensor) (fan_in : Z) (layers : layers)
  : M state (tensor * Z) :=
  for_each _build_pose_stream_body layers (input_node, fan_in).

Definition _build_gripper_stream_body (v : tensor * Z) (item : string * layer_config)
  : M state (tensor * Z) :=
  let '(output_node, fan_in) := v in
  let '(layer_name, layer_config) := item in
  let layer_type := l_type layer_config in
  if String.eqb layer_type "spatial_transformer" then
    raise (ValueError "Cannot have spatial transformer in gripper stream")
  else if String.eqb layer_type "conv" then
    raise (ValueError "Cannot have conv layer in gripper stream")
  else if String.eqb layer_type "fc" then
    raise (ValueError "Cannot have fc layer in gripper stream")
  else if String.eqb layer_type "pc" then
    raise (ValueError "Cannot have pc layer in gripper stream")
  else if String.eqb layer_type "gc" then
    let* out_size := cfg layer_config "out_size" in
    _build_gc_layer output_node fan_in out_size layer_name
  else if String.eqb layer_type "fc_merge" then
    raise (ValueError "Cannot have merge layer in gripper stream")
  else if String.eqb layer_type "residual" then
    raise (ValueError "Cannot have residual in gripper stream")
  else
    raise (ValueError ("Unsupported layer type: " +:+ layer_type)).

Definition _build_gripper_stream (input_node : tensor) (fan_in : Z) (layers : layers)
  : M state (tensor * Z) :=
  for_each _build_gripper_stream_body layers (input_node, fan_in).

(** [enumerate(layers.iteritems())] *)
Fixpoint enumerate_from {A} (i : Z) (l : list A) : list (Z * A) :=
  match l with
  | [] => []
  | x :: rest => (i, x) :: enumerate_from (i + 1) rest
  end.

(** In [_build_merge_stream], [output_node] has no value before the
    first layer is built. *)
Definition _build_merge_stream_body (input_stream_1 input_stream_2 : tensor)
    (fan_in_1 fan_in_2 : Z) (drop_rate : tensor)
    (input_stream_3 : option tensor) (fan_in_3 : option Z)
    (last_index filter_dim : Z)
    (v : option tensor * Z) (item : Z * (string * layer_config))
  : M state (option tensor * Z) :=
  let '(output_node, fan_in) := v in
  let '(layer_index, (layer_name, layer_config)) := item in
  let layer_type := l_type layer_config in
  if String.eqb layer_type "spatial_transformer" then
    raise (ValueError "Cannot have spatial transformer in merge stream")
  else if String.eqb layer_type "conv" then
    raise (ValueError "Cannot have conv layer in merge stream")
  else if String.eqb layer_type "fc" then
    let* fully_conv := gets (fun s => _fully_conv (self s)) in
    if fully_conv : bool then
      let* node := local "output_node" output_node in
      let* out := _build_fully_conv_layer node filter_dim layer_name in
      ret (Some out, fan_in)
    else
      let* node := local "output_node" output_node in
      let* out_size := cfg layer_config "out_size" in
      let* '(out, fan_in') :=
        _build_fc_layer node fan_in out_size layer_name false drop_rate
                        (layer_index =? last_index)%Z in
      ret (Some out, fan_in')
  else if String.eqb layer_type "pc" then
    raise (ValueError "Cannot have pose-connected layer in merge stream")
  else if String.eqb layer_type "fc_merge" then
    let* fully_conv := gets (fun s => _fully_conv (self s)) in
    if fully_conv : bool then
      let* out := _build_fully_conv_merge_layer input_stream_1 input_stream_2 filter_dim layer_name in
      ret (Some out, fan_in)
    else
      let* out_size := cfg layer_config "out_size" in
      let* '(out, fan_in') :=
        match input_stream_3 with
        | Some _ =>
            _build_fc_merge input_stream_1 input_stream_2 fan_in_1 fan_in_2 out_size
                            drop_rate layer_name input_stream_3 fan_in_3
        | None =>
            _build_fc_merge input_stream_1 input_stream_2 fan_in_1 fan_in_2 out_size
                            drop_rate layer_name None None
        end in
      ret (Some out, fan_in')
  else if String.eqb layer_type "residual" then
    raise (ValueError "Cannot have residual in merge stream")
  else
    raise (ValueError ("Unsupported layer type: " +:+ layer_type)).

Definition _build_merge_stream (input_stream_1 input_stream_2 : tensor)
    (fan_in_1 fan_in_2 : Z) (drop_rate : tensor) (layers : layers)
    (input_stream_3 : option tensor) (fan_in_3 : option Z)
  : M state (tensor * Z) :=
  match layers with
  | [] => raise (IndexError "list index out of range")
  | (_, first_config) :: _ =>
      if negb (String.eqb (l_type first_config) "fc_merge") then
        raise (ValueError "First layer in merge stream must be a fc_merge layer")
      else
        let last_index := Z.of_nat (length layers) - 1 in
        let filter_dim := 1 in
        let* v := for_each
                    (_build_merge_stream_body input_stream_1 input_stream_2 fan_in_1 fan_in_2
                       drop_rate input_stream_3 fan_in_3 last_index filter_dim)
                    (enumerate_from 0 layers) (None, -1) in
        let* output_node := local "output_node" (fst v) in
        ret (output_node, snd v)
  end.

(* ------------------------------------------------------------------- *)
(** ** Network builder *)

(** [self._architecture[key]] *)
Definition architecture (key : string) : M state layers :=
  let* a := gets (fun s => _architecture (self s)) in getitem a key.

Definition _build_network (input_im_node input_pose_node input_drop_rate_node : tensor)
    (input_gripper_node : option tensor) : M state tensor :=
  let* im_height := gets (fun s => _im_height (self s)) in
  let* im_width := gets (fun s => _im_width (self s)) in
  let* num_channels := gets (fun s => _num_channels (self s)) in
  let* im_layers := architecture "im_stream" in
  let* '(output_im_stream, fan_out_im) :=
    _build_im_stream input_im_node im_height im_width num_channels input_drop_rate_node im_layers in
  let* pose_dim := gets (fun s => _pose_dim (self s)) in
  let* pose_layers := architecture "pose_stream" in
  let* '(output_pose_stream, fan_out_pose) :=
    _build_pose_stream input_pose_node pose_dim pose_layers in
  match input_gripper_node with
  | Some gripper_node =>
      let* gripper_dim := gets (fun s => _gripper_dim (self s)) in
      let* gripper_layers := architecture "gripper_stream" in
      let* '(output_gripper_stream, fan_out_gripper) :=
        _build_gripper_stream gripper_node gripper_dim gripper_layers in
      let* a := gets (fun s => _architecture (self s)) in
      if bool_decide (is_Some (a !! "gripper_pose_merge_stream")) then
        let* gpm_layers := architecture "gripper_pose_merge_stream" in
        let* '(output_gpm, fan_out_gpm) :=
          _build_merge_stream output_pose_stream output_gripper_stream fan_out_pose
                              fan_out_gripper input_drop_rate_node gpm_layers None None in
        let* merge_layers := architecture "merge_stream" in
        let* r := _build_merge_stream output_im_stream output_gpm fan_out_im fan_out_gpm
                                      input_drop_rate_node merge_layers None None in
        ret (fst r)
      else
        let* merge_layers := architecture "merge_stream" in
        let* r := _build_merge_stream output_im_stream output_pose_stream fan_out_im fan_out_pose
                                      input_drop_rate_node merge_layers
                                      (Some output_gripper_stream) (Some fan_out_gripper) in
        ret (fst r)
  | None =>
      let* merge_layers := architecture "merge_stream" in
      let* r := _build_merge_stream output_im_stream output_pose_stream fan_out_im fan_out_pose
                                    input_drop_rate_node merge_layers None None in
      ret (fst r)
  end.

(* ------------------------------------------------------------------- *)
(** ** Construction and checkpoint loading *)

(** [variable.split('/')[-1]] *)
Fixpoint after_last_slash (s acc : string) : string :=
  match s with
  | EmptyString => acc
  | String c rest =>
      if Ascii.eqb c "/"%char then after_last_slash rest rest
      else after_last_slash rest acc
  end.

Definition short_name (variable : string) : string := after_last_slash variable variable.

(** [self._weights = GQCNNWeights()] *)
Definition assign_new_weights_object : M state unit :=
  modify (fun s => {| self := set_weights_obj GQCNNWeights__init__ (self s); proc := proc s |}).

(** [init_weights_file]: [ckpt_vars] are the variable names
    [tcf.list_variables(ckpt_file)] lists. *)
Definition init_weights_file (ckpt_vars : list string) : M state unit :=
  assign_new_weights_object ;;;
  let full_var_names := ckpt_vars in
  let short_names := map short_name ckpt_vars in
  let* _ := for_each
              (fun (_ : unit) (names : string * string) =>
                 let '(full_var_name, short_name) := names in
                 let* v := new_Variable (checkpoint_tensor full_var_name) "Variable" in
                 weights_setitem short_name v)
              (zip full_var_names short_names) tt in
  ret tt.

(** The fields [__init__] and [_parse_config] give a new network; the
    pose and gripper dimensions are taken as already derived from the
    input modes.  [self._weights = GQCNNWeights()]. *)
Definition GQCNNTF__init__ (architecture : gmap string layers)
    (im_height im_width im_channels pose_dim gripper_dim radius : Z)
    (alpha beta bias : Q) (fully_conv_config : option (Z * Z)) : GQCNNTF :=
  {| _weights := GQCNNWeights__init__;
     _feature_tensors := ∅;
     _architecture := architecture;
     _fully_conv := match fully_conv_config with Some _ => true | None => false end;
     _train_im_width := im_width;
     _im_height := match fully_conv_config with Some (_, h) => h | None => im_height end;
     _im_width := match fully_conv_config with Some (w, _) => w | None => im_width end;
     _num_channels := im_channels;
     _pose_dim := pose_dim;
     _gripper_dim := gripper_dim;
     _normalization_radius := radius;
     _normalization_alpha := alpha;
     _normalization_beta := beta;
     _normalization_bias := bias |}.

(** [get_weights]: [return self._weights.weights] *)
Definition get_weights : M state (gmap string tensor) := weights_dict.

(** The instance of [GQCNNWeights] a network holds has no [weights] of
    its own: the lookup reaches the class attribute. *)
Definition class_level (s : state) : Prop :=
  w__dict__ (_weights (self s)) !! "weights" = None.

(** Whether the last layer of a stream prefix is a residual block. *)
Definition ends_with_residual (pre : layers) : bool :=
  match last pre with
  | Some (_, c) => String.eqb (l_type c) "residual"
  | None => false
  end.

(** [ceil(a / b)] for a positive [b]. *)
Definition ceil_div (a b : Z) : Z := (a + b - 1) / b.

(** The residual block in the words of the specification:
    [input + conv2(activation(bn(conv1(input))))] when [first], and
    [input + conv2(activation(bn(conv1(activation(bn(input))))))]
    otherwise. *)
Definition spec_residual_output (first : bool) (bn activation conv1 conv2 : tensor -> tensor)
    (input : tensor) : tensor :=
  if first then tf_add input (conv2 (activation (bn (conv1 input))))
  else tf_add input (conv2 (activation (bn (conv1 (activation (bn input)))))).

(** A convolution of the residual block: SAME padding, stride 1, plus bias. *)
Definition residual_conv (W b : tensor) (x : tensor) : tensor :=
  tf_add (tf_nn_conv2d x W [1; 1; 1; 1] SAME) b.

(** Batch normalization as the residual block applies it: epsilon 1e-3. *)
Definition residual_bn (drop_rate : tensor) (x : tensor) : tensor :=
  tf_layers_batch_normalization x drop_rate (1 # 1000).

(** The state after the normalization layers of a residual block have
    been made: one layer when [first], two otherwise. *)
Definition batch_norms_created (first : bool) (s : state) : state :=
  if first then batch_norm_created s else batch_norm_created (batch_norm_created s).

(** The messages of the stream composers for a layer type they refuse. *)
Definition im_stream_refusal (layer_type : string) : string :=
  if String.eqb layer_type "pc" then "Cannot have pose-connected layer in image stream"
  else if String.eqb layer_type "fc_merge" then "Cannot have merge layer in image stream"
  else "Unsupported layer type: " +:+ layer_type.

Definition pose_stream_refusal (layer_type : string) : string :=
  if String.eqb layer_type "spatial_transformer" then "Cannot have spatial transformer in pose stream"
  else if String.eqb layer_type "conv" then "Cannot have conv layer in pose stream"
  else if String.eqb layer_type "fc" then "Cannot have fc layer in pose stream"
  else if String.eqb layer_type "fc_merge" then "Cannot have merge layer in pose stream"
  else if String.eqb layer_type "residual" then "Cannot have residual in pose stream"
  else "Unsupported layer type: " +:+ layer_type.

Definition gripper_stream_refusal (layer_type : string) : string :=
  if String.eqb layer_type "spatial_transformer" then "Cannot have spatial transformer in gripper stream"
  else if String.eqb layer_type "conv" then "Cannot have conv layer in gripper stream"
  else if String.eqb layer_type "fc" then "Cannot have fc layer in gripper stream"
  else if String.eqb layer_type "pc" then "Cannot have pc layer in gripper stream"
  else if String.eqb layer_type "fc_merge" then "Cannot have merge layer in gripper stream"
  else if String.eqb layer_type "residual" then "Cannot have residual in gripper stream"
  else "Unsupported layer type: " +:+ layer_type.

Definition merge_stream_refusal (layer_type : string) : string :=
  if String.eqb layer_type "spatial_transformer" then "Cannot have spatial transformer in merge stream"
  else if String.eqb layer_type "conv" then "Cannot have conv layer in merge stream"
  else if String.eqb layer_type "pc" then "Cannot have pose-connected layer in merge stream"
  else if String.eqb layer_type "residual" then "Cannot have residual in merge stream"
  else "Unsupported layer type: " +:+ layer_type.

(** The layer types each stream builds. *)
Definition im_stream_builds (layer_type : string) : bool :=
  String.eqb layer_type "spatial_transformer" || String.eqb layer_type "conv"
  || String.eqb layer_type "fc" || String.eqb layer_type "residual".

Definition merge_stream_builds (layer_type : string) : bool :=
  String.eqb layer_type "fc" || String.eqb layer_type "fc_merge".

End Net.

(* ===================================================================== *)
(** * Normalization parameters: the accessors of [GQCNNTF] *)
(* ===================================================================== *)

Module Norm.

(** A Python value held in an attribute: a number, a numpy vector, [None]
    or some other object. *)
Inductive value : Type :=
| Num (q : Q)
| Arr (a : list Q)
| NoneV
| Obj (repr : string).

(** The instance [__dict__]. *)
Definition instance : Type := gmap string value.

(** What a [def] of the class body binds its name to, for the bodies of
    the accessors:
    - [Property a]: [@property def x(self): return self.a]
    - [Getter a]:   [def get_x(self): return self.a]
    - [Setter a]:   [def update_x(self, v): self.a = v]
    - [Method]:     any other function of the class. *)
Inductive member : Type :=
| Property (attr : string)
| Getter (attr : string)
| Setter (attr : string)
| Method.

(** The [def]s of [class GQCNNTF], in the order of the source. *)
Definition class_body : list (string * member) :=
  [ ("__init__", Method); ("load", Method); ("get_tf_graph", Getter "_graph");
    ("get_weights", Method); ("init_mean_and_std", Method);
    ("init_weights_file", Method); ("reinitialize_layers", Method);
    ("_parse_config", Method); ("initialize_network", Method);
    ("open_session", Method); ("close_session", Method);
    ("batch_size", Property "_batch_size"); ("im_height", Property "_im_height");
    ("im_width", Property "_im_width"); ("num_channels", Property "_num_channels");
    ("pose_dim", Property "_pose_dim"); ("input_pose_mode", Property "_input_pose_mode");
    ("input_im_node", Property "_input_im_node");
    ("input_pose_node", Property "_input_pose_node");
    ("input_drop_rate_node", Property "_input_drop_rate_node");
    ("output", Property "_output_tensor"); ("weights", Property "_weights");
    ("graph", Property "_graph"); ("sess", Property "_sess");
    ("set_mask_and_inpaint", Setter "_mask_and_inpaint");
    ("set_summary_writer", Setter "_summary_writer");
    ("set_save_histograms", Setter "_save_histograms");
    ("update_im_mean", Setter "_im_mean");
    ("get_im_mean", Getter "im_mean");
    ("update_im_std", Setter "_im_std");
    ("get_im_std", Getter "im_std");
    ("update_pose_mean", Setter "_pose_mean");
    ("get_pose_mean", Getter "_pose_mean");
    ("update_pose_std", Setter "_pose_std");
    ("get_pose_std", Getter "_pose_std");
    ("update_gripper_mean", Setter "_gripper_mean");
    ("get_gripper_mean", Getter "_gripper_mean");
    ("update_gripper_std", Setter "_gripper_std");
    ("get_gripper_std", Getter "_gripper_std");
    ("update_gripper_depth_mask_mean", Setter "_gripper_depth_mask_mean");
    ("get_gripper_mean", Getter "_gripper_depth_mask_mean");
    ("update_gripper_depth_mask_std", Setter "_gripper_depth_mask_std");
    ("get_gripper_std", Getter "_gripper_depth_mask_std");
    ("add_softmax_to_output", Method);
    ("update_batch_size", Setter "_batch_size");
    ("predict", Method); ("featurize", Method); ("_leaky_relu", Method);
    ("_build_spatial_transformer", Method); ("_build_conv_layer", Method);
    ("_pack", Method); ("_build_fully_conv_layer", Method);
    ("_build_fully_conv_merge_layer", Method); ("_build_fc_layer", Method);
    ("_build_pc_layer", Method); ("_build_gc_layer", Method);
    ("_build_fc_merge", Method); ("_build_batch_norm", Method);
    ("_build_residual_layer", Method); ("_build_im_stream", Method);
    ("_build_pose_stream", Method); ("_build_gripper_stream", Method);
    ("_build_merge_stream", Method); ("_build_network", Method) ].

(** Executing the class body: a later [def] rebinds the name of an
    earlier one. *)
Definition class_dict : gmap string member :=
  fold_left (fun ns d => <[fst d := snd d]> ns) class_body ∅.

(** [self.name]: a property of the class first, then the instance
    [__dict__], then the other class attributes. *)
Definition getattr (name : string) : M instance value := fun self =>
  match class_dict !! name with
  | Some (Property a) =>
      match self !! a with
      | Some v => (Ok v, self)
      | None => (Raise (AttributeError a), self)
      end
  | other =>
      match self !! name with
      | Some v => (Ok v, self)
      | None =>
          match other with
          | Some _ => (Ok (Obj "bound method"), self)
          | None => (Raise (AttributeError name), self)
          end
      end
  end.

(** [self.name = v] *)
Definition setattr (name : string) (v : value) : M instance unit := fun self =>
  match class_dict !! name with
  | Some (Property _) => (Raise (AttributeError "can't set attribute"), self)
  | _ => (Ok tt, <[name := v]> self)
  end.

(** [self.name(args)] for the accessors; [None] for a member whose body
    is not an accessor (those are modelled in [Net] and [Inference]). *)
Definition call (name : string) (args : list value)
  : option (M instance value) :=
  match class_dict !! name with
  | Some (Getter a) =>
      Some (match args with
            | [] => getattr a
            | _ => raise (TypeError "takes exactly 1 argument")
            end)
  | Some (Setter a) =>
      Some (match args with
            | [v] => setattr a v ;;; ret NoneV
            | _ => raise (TypeError "takes exactly 2 arguments")
            end)
  | Some (Property _) => None
  | Some Method => None
  | None => Some (raise (AttributeError name))
  end.

(** The attributes [__init__] and [_parse_config] leave on a new object
    (lines 45-47, 194-260); the gripper statistics only when
    [gripper_dim > 0], the depth-mask statistics never. *)
Definition new_instance (pose_dim gripper_dim : nat) : instance :=
  let base : instance :=
    list_to_map
      [ ("_sess", NoneV); ("_weights", Obj "GQCNNWeights"); ("_graph", Obj "tf.Graph");
        ("_batch_size", Obj "int"); ("_train_im_height", Obj "int");
        ("_train_im_width", Obj "int"); ("_im_height", Obj "int"); ("_im_width", Obj "int");
        ("_num_channels", Obj "int"); ("_input_pose_mode", Obj "str");
        ("_input_gripper_mode", Obj "str"); ("_pose_dim", Obj "int");
        ("_gripper_dim", Obj "int"); ("_architecture", Obj "dict");
        ("_normalization_radius", Obj "int"); ("_normalization_alpha", Obj "float");
        ("_normalization_beta", Obj "float"); ("_normalization_bias", Obj "float");
        ("_im_mean", Num 0); ("_im_std", Num 1);
        ("_pose_mean", Arr (repeat 0%Q pose_dim));
        ("_pose_std", Arr (repeat 1%Q pose_dim));
        ("_feature_tensors", Obj "dict"); ("_summary_writer", NoneV);
        ("_mask_and_inpaint", Obj "bool"); ("_save_histograms", Obj "bool");
        ("_fully_conv", Obj "bool") ] in
  if (0 <? gripper_dim)%nat then
    <["_gripper_std" := Arr (repeat 1%Q gripper_dim)]>
      (<["_gripper_mean" := Arr (repeat 0%Q gripper_dim)]> base)
  else base.

(** [self.setter(v)] followed by [self.getter()]: what the getter
    gives. *)
Definition set_then_get (setter getter : string) (v : value) (self : instance)
  : option (outcome value) :=
  match call setter [v], call getter [] with
  | Some set, Some get => Some (fst ((set ;;; get) self))
  | _, _ => None
  end.

End Norm.

(* ===================================================================== *)
(** * Batched inference: [predict] and [featurize] *)
(* ===================================================================== *)

Module Inference.

(** What [sess.run] is asked for: the output tensor of the network or
    the feature tensor registered under a layer name. *)
Inductive fetch : Type := Output | Feature (layer : string).

(** numpy [buf[lo:hi, ...] = src] on the leading axis.  The rows
    [lo .. min hi (len buf)] are the target; [src] must have as many rows,
    or one row, which is then broadcast; anything else raises.  [upd x old]
    is the new row, so that an assignment to one channel of the rows fits
    too. *)
Definition assign_rows {A B S : Type} (upd : B -> A -> A) (lo hi : nat)
    (buf : list A) (src : list B) : M S (list A) :=
  let stop := Nat.min hi (length buf) in
  let target := firstn (stop - lo) (skipn lo buf) in
  if (length src =? length target)%nat then
    ret (firstn lo buf ++ zip_with upd src target ++ skipn (lo + length target) buf)%list
  else
    match src with
    | [x] => ret (firstn lo buf ++ map (upd x) target ++ skipn (lo + length target) buf)%list
    | _ => raise (ValueError "could not broadcast input array")
    end.

(** [arr[lo:hi]] *)
Definition slice {A} (lo hi : nat) (arr : list A) : list A :=
  firstn (hi - lo) (skipn lo arr).

(** Reading an attribute that exists only once it has been assigned. *)
Definition attribute {S A} (name : string) (v : option A) : M S A :=
  match v with
  | Some a => ret a
  | None => raise (AttributeError name)
  end.

Section Arrays.

(** One row (leading-axis entry) of the image, pose, gripper and output
    arrays, and the type of a mean or standard deviation. *)
Variables Im Pose Grip Out Stat : Type.

(** [(x - mean) / std] on one row. *)
Variable normalize_im : Stat -> Stat -> Im -> Im.
Variable normalize_pose : Stat -> Stat -> Pose -> Pose.
Variable normalize_gripper : Stat -> Stat -> Grip -> Grip.
(** [normalize_channel c k mean std x old]: the row [old] with channel
    [c] replaced by [(x[:, :, c] - mean[k]) / std[k]]. *)
Variable normalize_channel : nat -> nat -> Stat -> Stat -> Im -> Im -> Im.
(** The rows of [np.zeros]. *)
Variables (zero_im : Im) (zero_pose : Pose) (zero_grip : Grip) (zero_out : Out).
(** Executing the graph on one feed. *)
Variable sess_run : fetch -> list Im -> list Pose -> option (list Grip) -> outcome (list Out).

Record GQCNNTF : Type := {
  _sess : option nat;
  _batch_size : nat;
  _gripper_dim : Z;
  _input_im_arr : option (list Im);
  _input_pose_arr : option (list Pose);
  _input_gripper_arr : option (list Grip);
  _input_gripper_node : bool;
  _im_mean : Stat;
  _im_std : Stat;
  _pose_mean : Stat;
  _pose_std : Stat;
  _gripper_mean : option Stat;
  _gripper_std : option Stat;
  _gripper_depth_mask_mean : option Stat;
  _gripper_depth_mask_std : option Stat;
  _feature_tensors : list string
}.

(** The TensorFlow runtime: the sessions that are open, the number of
    sessions created, and the feeds the sessions have been run on, the
    oldest first. *)
Record runtime : Type := {
  open_sessions : list nat;
  sessions_created : nat;
  run_log : list (fetch * list Im * list Pose * option (list Grip))
}.

Record state : Type := { self : GQCNNTF; tf : runtime }.

Definition with_self (f : GQCNNTF -> GQCNNTF) (s : state) : state :=
  {| self := f (self s); tf := tf s |}.

Definition set_sess (v : option nat) (n : GQCNNTF) : GQCNNTF :=
  {| _sess := v; _batch_size := _batch_size n; _gripper_dim := _gripper_dim n;
     _input_im_arr := _input_im_arr n; _input_pose_arr := _input_pose_arr n;
     _input_gripper_arr := _input_gripper_arr n;
     _input_gripper_node := _input_gripper_node n;
     _im_mean := _im_mean n; _im_std := _im_std n;
     _pose_mean := _pose_mean n; _pose_std := _pose_std n;
     _gripper_mean := _gripper_mean n; _gripper_std := _gripper_std n;
     _gripper_depth_mask_mean := _gripper_depth_mask_mean n;
     _gripper_depth_mask_std := _gripper_depth_mask_std n;
     _feature_tensors := _feature_tensors n |}.

Definition set_batch_size (v : nat) (n : GQCNNTF) : GQCNNTF :=
  {| _sess := _sess n; _batch_size := v; _gripper_dim := _gripper_dim n;
     _input_im_arr := _input_im_arr n; _input_pose_arr := _input_pose_arr n;
     _input_gripper_arr := _input_gripper_arr n;
     _input_gripper_node := _input_gripper_node n;
     _im_mean := _im_mean n; _im_std := _im_std n;
     _pose_mean := _pose_mean n; _pose_std := _pose_std n;
     _gripper_mean := _gripper_mean n; _gripper_std := _gripper_std n;
     _gripper_depth_mask_mean := _gripper_depth_mask_mean n;
     _gripper_depth_mask_std := _gripper_depth_mask_std n;
     _feature_tensors := _feature_tensors n |}.

Definition set_input_im_arr (v : option (list Im)) (n : GQCNNTF) : GQCNNTF :=
  {| _sess := _sess n; _batch_size := _batch_size n; _gripper_dim := _gripper_dim n;
     _input_im_arr := v; _input_pose_arr := _input_pose_arr n;
     _input_gripper_arr := _input_gripper_arr n;
     _input_gripper_node := _input_gripper_node n;
     _im_mean := _im_mean n; _im_std := _im_std n;
     _pose_mean := _pose_mean n; _pose_std := _pose_std n;
     _gripper_mean := _gripper_mean n; _gripper_std := _gripper_std n;
     _gripper_depth_mask_mean := _gripper_depth_mask_mean n;
     _gripper_depth_mask_std := _gripper_depth_mask_std n;
     _feature_tensors := _feature_tensors n |}.

Definition set_input_pose_arr (v : option (list Pose)) (n : GQCNNTF) : GQCNNTF :=
  {| _sess := _sess n; _batch_size := _batch_size n; _gripper_dim := _gripper_dim n;
     _input_im_arr := _input_im_arr n; _input_pose_arr := v;
     _input_gripper_arr := _input_gripper_arr n;
     _input_gripper_node := _input_gripper_node n;
     _im_mean := _im_mean n; _im_std := _im_std n;
     _pose_mean := _pose_mean n; _pose_std := _pose_std n;
     _gripper_mean := _gripper_mean n; _gripper_std := _gripper_std n;
     _gripper_depth_mask_mean := _gripper_depth_mask_mean n;
     _gripper_depth_mask_std := _gripper_depth_mask_std n;
     _feature_tensors := _feature_tensors n |}.

Definition set_input_gripper_arr (v : option (list Grip)) (n : GQCNNTF) : GQCNNTF :=
  {| _sess := _sess n; _batch_size := _batch_size n; _gripper_dim := _gripper_dim n;
     _input_im_arr := _input_im_arr n; _input_pose_arr := _input_pose_arr n;
     _input_gripper_arr := v;
     _input_gripper_node := _input_gripper_node n;
     _im_mean := _im_mean n; _im_std := _im_std n;
     _pose_mean := _pose_mean n; _pose_std := _pose_std n;
     _gripper_mean := _gripper_mean n; _gripper_std := _gripper_std n;
     _gripper_depth_mask_mean := _gripper_depth_mask_mean n;
     _gripper_depth_mask_std := _gripper_depth_mask_std n;
     _feature_tensors := _feature_tensors n |}.

(** [initialize_network], lines 301-305: the feed arrays for
    prediction. *)
Definition create_feed_tensors : M state unit :=
  modify (fun s =>
    let n := self s in
    let n := set_input_im_arr (Some (repeat zero_im (_batch_size n))) n in
    let n := set_input_pose_arr (Some (repeat zero_pose (_batch_size n))) n in
    let n := if (0 <? _gripper_dim n)%Z
             then set_input_gripper_arr (Some (repeat zero_grip (_batch_size n))) n
             else n in
    {| self := n; tf := tf s |}).

(** [open_session]: [self._sess = tf.Session(...)]. *)
Definition open_session : M state nat := fun s =>
  let sid := sessions_created (tf s) in
  (Ok sid,
   {| self := set_sess (Some sid) (self s);
      tf := {| open_sessions := sid :: open_sessions (tf s);
               sessions_created := S sid;
               run_log := run_log (tf s) |} |}).

(** [close_session]: [self._sess.close(); self._sess = None]. *)
Definition close_session : M state unit := fun s =>
  match _sess (self s) with
  | None => (Raise (AttributeError "close"), s)
  | Some sid =>
      (Ok tt,
       {| self := set_sess None (self s);
          tf := {| open_sessions := filter (fun x => x ≠ sid) (open_sessions (tf s));
                   sessions_created := sessions_created (tf s);
                   run_log := run_log (tf s) |} |})
  end.

(** [update_batch_size] *)
Definition update_batch_size (batch_size : nat) : M state unit :=
  modify (with_self (set_batch_size batch_size)).

(** [self._sess.run(fetch, feed_dict=...)] on the feed arrays as they
    are now; the feed is recorded in the log of the runtime. *)
Definition run (f : fetch) (with_gripper : bool) : M state (list Out) :=
  let* ims := (let* a := gets (fun s => _input_im_arr (self s)) in attribute "_input_im_arr" a) in
  let* poses := (let* a := gets (fun s => _input_pose_arr (self s)) in attribute "_input_pose_arr" a) in
  let* grips :=
    (if with_gripper then
       let* has_node := gets (fun s => _input_gripper_node (self s)) in
       if has_node : bool then
         let* a := gets (fun s => _input_gripper_arr (self s)) in
         let* g := attribute "_input_gripper_arr" a in ret (Some g)
       else raise (AttributeError "_input_gripper_node")
     else ret None) in
  modify (fun s =>
    {| self := self s;
       tf := {| open_sessions := open_sessions (tf s);
                sessions_created := sessions_created (tf s);
                run_log := (run_log (tf s) ++ [(f, ims, poses, grips)])%list |} |}) ;;;
  fun s => (sess_run f ims poses grips, s).

(** [self._input_im_arr[:dim, ...] = (image_arr[cur_ind:end_ind, ...] -
    self._im_mean) / self._im_std] *)
Definition fill_input_im (dim cur_ind end_ind : nat) (image_arr : list Im) : M state unit :=
  let* mean := gets (fun s => _im_mean (self s)) in
  let* std := gets (fun s => _im_std (self s)) in
  let rows := map (normalize_im mean std) (slice cur_ind end_ind image_arr) in
  let* buf := (let* a := gets (fun s => _input_im_arr (self s)) in attribute "_input_im_arr" a) in
  let* buf' := assign_rows (fun x _ => x) 0 dim buf rows in
  modify (with_self (set_input_im_arr (Some buf'))).

Definition fill_input_pose (dim cur_ind end_ind : nat) (pose_arr : list Pose) : M state unit :=
  let* mean := gets (fun s => _pose_mean (self s)) in
  let* std := gets (fun s => _pose_std (self s)) in
  let rows := map (normalize_pose mean std) (slice cur_ind end_ind pose_arr) in
  let* buf := (let* a := gets (fun s => _input_pose_arr (self s)) in attribute "_input_pose_arr" a) in
  let* buf' := assign_rows (fun x _ => x) 0 dim buf rows in
  modify (with_self (set_input_pose_arr (Some buf'))).

Definition fill_input_gripper (dim cur_ind end_ind : nat) (gripper_arr : list Grip)
  : M state unit :=
  let* mean := (let* a := gets (fun s => _gripper_mean (self s)) in attribute "_gripper_mean" a) in
  let* std := (let* a := gets (fun s => _gripper_std (self s)) in attribute "_gripper_std" a) in
  let rows := map (normalize_gripper mean std) (slice cur_ind end_ind gripper_arr) in
  let* buf := (let* a := gets (fun s => _input_gripper_arr (self s)) in
               attribute "_input_gripper_arr" a) in
  let* buf' := assign_rows (fun x _ => x) 0 dim buf rows in
  modify (with_self (set_input_gripper_arr (Some buf'))).

(** [self._input_im_arr[:dim, :, :, c] = (image_arr[cur_ind:end_ind, :, :, c]
    - self._gripper_depth_mask_mean[k]) / self._gripper_depth_mask_std[k]] *)
Definition fill_mask_channel (c k : nat) (dim cur_ind end_ind : nat) (image_arr : list Im)
  : M state unit :=
  let* mean := (let* a := gets (fun s => _gripper_depth_mask_mean (self s)) in
                attribute "_gripper_depth_mask_mean" a) in
  let* std := (let* a := gets (fun s => _gripper_depth_mask_std (self s)) in
               attribute "_gripper_depth_mask_std" a) in
  let* buf := (let* a := gets (fun s => _input_im_arr (self s)) in attribute "_input_im_arr" a) in
  let* buf' := assign_rows (normalize_channel c k mean std) 0 dim buf
                           (slice cur_ind end_ind image_arr) in
  modify (with_self (set_input_im_arr (Some buf'))).

Definition out_of_fuel {A} : M state A := fun s => (OutOfFuel, s).

(** One pass through the body of the [while] loop of [predict], from
    the index [i] and the output array so far ([None] before the first
    pass); gives [end_ind] and the output array. *)
Definition predict_chunk (image_arr : list Im) (pose_arr : list Pose)
    (gripper_arr : option (list Grip)) (gripper_depth_mask : bool)
    (i : nat) (output_arr : option (list Out)) : M state (nat * list Out) :=
  let num_images := length image_arr in
  let* batch_size := gets (fun s => _batch_size (self s)) in
  let dim := Nat.min batch_size (num_images - i) in
  let cur_ind := i in
  let end_ind := (cur_ind + dim)%nat in
  fill_input_im dim cur_ind end_ind image_arr ;;;
  fill_input_pose dim cur_ind end_ind pose_arr ;;;
  match gripper_arr with
  | Some g => fill_input_gripper dim cur_ind end_ind g
  | None => ret tt
  end ;;;
  (if gripper_depth_mask then
     fill_mask_channel 1 0 dim cur_ind end_ind image_arr ;;;
     fill_mask_channel 2 1 dim cur_ind end_ind image_arr
   else ret tt) ;;;
  let* gqcnn_output :=
    run Output (match gripper_arr with Some _ => true | None => false end) in
  let output_arr :=
    match output_arr with
    | None => repeat zero_out num_images
    | Some o => o
    end in
  let* output_arr := assign_rows (fun x _ => x) cur_ind end_ind output_arr
                                 (firstn dim gqcnn_output) in
  ret (end_ind, output_arr).

(** [while i < num_images: ...], at most [fuel] passes. *)
Fixpoint predict_loop (fuel : nat) (image_arr : list Im) (pose_arr : list Pose)
    (gripper_arr : option (list Grip)) (gripper_depth_mask : bool)
    (i : nat) (output_arr : option (list Out)) : M state (option (list Out)) :=
  if (i <? length image_arr)%nat then
    match fuel with
    | O => out_of_fuel
    | S fuel' =>
        let* '(end_ind, out) :=
          predict_chunk image_arr pose_arr gripper_arr gripper_depth_mask i output_arr in
        predict_loop fuel' image_arr pose_arr gripper_arr gripper_depth_mask end_ind (Some out)
    end
  else ret output_arr.

(** [predict]; the result is [None] when [output_arr] was never
    allocated. *)
Definition predict (fuel : nat) (image_arr : list Im) (pose_arr : list Pose)
    (gripper_arr : option (list Grip)) (gripper_depth_mask : bool)
  : M state (option (list Out)) :=
  let num_images := length image_arr in
  let num_poses := length pose_arr in
  if negb (num_images =? num_poses)%nat then
    raise (ValueError "Must provide same number of images and poses")
  else
    match gripper_arr with
    | Some g =>
        if negb (num_images =? length g)%nat then
          raise (ValueError "Must provide same number of images and gripper parameters")
        else ret tt
    | None => ret tt
    end ;;;
    let* sess := gets (fun s => _sess (self s)) in
    match sess with
    | None => raise (RuntimeError "No TF session open. Please call open_session() first.")
    | Some _ =>
        predict_loop fuel image_arr pose_arr gripper_arr gripper_depth_mask 0 None
    end.

(** One pass through the loop body of [featurize]. *)
Definition featurize_chunk (image_arr : list Im) (pose_arr : list Pose)
    (feature_layer : string) (i : nat) (output_arr : option (list Out))
  : M state (nat * list Out) :=
  let num_images := length image_arr in
  let* batch_size := gets (fun s => _batch_size (self s)) in
  let dim := Nat.min batch_size (num_images - i) in
  let cur_ind := i in
  let end_ind := (cur_ind + dim)%nat in
  fill_input_im dim cur_ind end_ind image_arr ;;;
  fill_input_pose dim cur_ind end_ind pose_arr ;;;
  let* gqcnn_output := run (Feature feature_layer) false in
  let output_arr :=
    match output_arr with
    | None => gqcnn_output
    | Some o => (o ++ gqcnn_output)%list
    end in
  ret (end_ind, output_arr).

Fixpoint featurize_loop (fuel : nat) (image_arr : list Im) (pose_arr : list Pose)
    (feature_layer : string) (i : nat) (output_arr : option (list Out))
  : M state (option (list Out)) :=
  if (i <? length image_arr)%nat then
    match fuel with
    | O => out_of_fuel
    | S fuel' =>
        let* '(end_ind, out) := featurize_chunk image_arr pose_arr feature_layer i output_arr in
        featurize_loop fuel' image_arr pose_arr feature_layer end_ind (Some out)
    end
  else ret output_arr.

Definition featurize (fuel : nat) (image_arr : list Im) (pose_arr : list Pose)
    (feature_layer : string) : M state (list Out) :=
  let* keys := gets (fun s => _feature_tensors (self s)) in
  if negb (existsb (String.eqb feature_layer) keys) then
    raise (ValueError ("Feature layer " +:+ feature_layer +:+ " not recognized"))
  else
    let num_images := length image_arr in
    let num_poses := length pose_arr in
    if negb (num_images =? num_poses)%nat then
      raise (ValueError "Must provide same number of images and poses")
    else
      let* sess := gets (fun s => _sess (self s)) in
      let* close_sess :=
        match sess with
        | None => open_session ;;; ret true
        | Some _ => ret false
        end in
      let* output_arr := featurize_loop fuel image_arr pose_arr feature_layer 0 None in
      (if close_sess : bool then close_session else ret tt) ;;;
      match output_arr with
      | None => raise (TypeError "'NoneType' object has no attribute '__getitem__'")
      | Some o => ret (firstn num_images o)
      end.

(* ----------------------------------------------------------------- *)
(** ** Vocabulary of the statements about [predict] *)

(** The attributes of a network that [predict] does not assign. *)
Definition static (n : GQCNNTF) :=
  (_sess n, _batch_size n, _gripper_dim n, _input_gripper_node n,
   (_im_mean n, _im_std n, _pose_mean n, _pose_std n),
   (_gripper_mean n, _gripper_std n),
   (_gripper_depth_mask_mean n, _gripper_depth_mask_std n),
   _feature_tensors n).

(** The row a pass of the loop writes into the image feed for the
    image [x]: normalized, then its channels 1 and 2 normalized again
    against the depth-mask statistics when [gripper_depth_mask]. *)
Definition image_feed_row (gripper_depth_mask : bool) (n : GQCNNTF) (x : Im) : Im :=
  let row := normalize_im (_im_mean n) (_im_std n) x in
  if gripper_depth_mask then
    match _gripper_depth_mask_mean n, _gripper_depth_mask_std n with
    | Some mean, Some std =>
        normalize_channel 2 1 mean std x (normalize_channel 1 0 mean std x row)
    | _, _ => row
    end
  else row.

Definition pose_feed_row (n : GQCNNTF) (p : Pose) : Pose :=
  normalize_pose (_pose_mean n) (_pose_std n) p.

Definition gripper_feed_row (n : GQCNNTF) (g : Grip) : Grip :=
  match _gripper_mean n, _gripper_std n with
  | Some mean, Some std => normalize_gripper mean std g
  | _, _ => g
  end.

(** Whether the call gives gripper parameters. *)
Definition uses_gripper (gripper_arr : option (list Grip)) : bool :=
  match gripper_arr with Some _ => true | None => false end.

(** The gripper feed after the pass at the index [i]: rewritten when
    the call has gripper parameters, untouched otherwise. *)
Definition gripper_feed_after_chunk (n : GQCNNTF)
    (gripper_arr : option (list Grip)) (i dim : nat) : option (list Grip) :=
  match gripper_arr with
  | Some g =>
      (fun gr => map (gripper_feed_row n) (slice i (i + dim) g) ++ skipn dim gr)
        <$> _input_gripper_arr n
  | None => _input_gripper_arr n
  end.

(** A feed array [buf] after the passes of the loop from the index [i]
    on: each pass writes the rows of its chunk over the first [dim]
    rows and leaves the others. *)
Fixpoint feed_after {A B : Type} (row : B -> A) (batch_size fuel : nat) (data : list B)
    (i : nat) (buf : list A) : list A :=
  if (i <? length data)%nat then
    match fuel with
    | O => buf
    | S fuel' =>
        let dim := Nat.min batch_size (length data - i) in
        feed_after row batch_size fuel' data (i + dim)%nat
                   (map row (slice i (i + dim) data) ++ skipn dim buf)
    end
  else buf.

(** A network on which [predict] can run with batches of [B] rows: a
    session is open, the feed arrays have been allocated with [B] rows
    for the batch size [B], and the gripper and depth-mask attributes
    are there when the call uses them. *)
Definition ready_to_predict (B : nat) (with_gripper gripper_depth_mask : bool)
    (s : state) : Prop :=
  is_Some (_sess (self s))
  /\ _batch_size (self s) = B
  /\ (exists im, _input_im_arr (self s) = Some im /\ length im = B)
  /\ (exists po, _input_pose_arr (self s) = Some po /\ length po = B)
  /\ (with_gripper = true ->
      _input_gripper_node (self s) = true
      /\ (exists gr, _input_gripper_arr (self s) = Some gr /\ length gr = B)
      /\ is_Some (_gripper_mean (self s)) /\ is_Some (_gripper_std (self s)))
  /\ (gripper_depth_mask = true ->
      is_Some (_gripper_depth_mask_mean (self s))
      /\ is_Some (_gripper_depth_mask_std (self s))).

(** The graph gives one output row per row of its feed of [B] rows. *)
Definition graph_keeps_rows (B : nat) : Prop :=
  forall f ims poses grips,
    length ims = B ->
    exists out, sess_run f ims poses grips = Ok out /\ length out = B.

End Arrays.

Arguments Build_GQCNNTF {Im Pose Grip Stat}.
Arguments Build_runtime {Im Pose Grip}.
Arguments Build_state {Im Pose Grip Stat}.
Arguments self {Im Pose Grip Stat}.
Arguments tf {Im Pose Grip Stat}.
Arguments _sess {Im Pose Grip Stat}.
Arguments _batch_size {Im Pose Grip Stat}.
Arguments _gripper_dim {Im Pose Grip Stat}.
Arguments _input_im_arr {Im Pose Grip Stat}.
Arguments _input_pose_arr {Im Pose Grip Stat}.
Arguments _input_gripper_arr {Im Pose Grip Stat}.
Arguments _input_gripper_node {Im Pose Grip Stat}.
Arguments _im_mean {Im Pose Grip Stat}.
Arguments _im_std {Im Pose Grip Stat}.
Arguments _pose_mean {Im Pose Grip Stat}.
Arguments _pose_std {Im Pose Grip Stat}.
Arguments _gripper_mean {Im Pose Grip Stat}.
Arguments _gripper_std {Im Pose Grip Stat}.
Arguments _gripper_depth_mask_mean {Im Pose Grip Stat}.
Arguments _gripper_depth_mask_std {Im Pose Grip Stat}.
Arguments _feature_tensors {Im Pose Grip Stat}.
Arguments open_sessions {Im Pose Grip}.
Arguments sessions_created {Im Pose Grip}.
Arguments run_log {Im Pose Grip}.
Arguments create_feed_tensors {Im Pose Grip Stat}.
Arguments open_session {Im Pose Grip Stat}.
Arguments close_session {Im Pose Grip Stat}.
Arguments update_batch_size {Im Pose Grip Stat}.
Arguments run {Im Pose Grip Out Stat}.
Arguments fill_input_im {Im Pose Grip Stat}.
Arguments fill_input_pose {Im Pose Grip Stat}.
Arguments fill_input_gripper {Im Pose Grip Stat}.
Arguments fill_mask_channel {Im Pose Grip Stat}.
Arguments predict_chunk {Im Pose Grip Out Stat}.
Arguments predict_loop {Im Pose Grip Out Stat}.
Arguments predict {Im Pose Grip Out Stat}.
Arguments featurize_chunk {Im Pose Grip Out Stat}.
Arguments featurize_loop {Im Pose Grip Out Stat}.
Arguments featurize {Im Pose Grip Out Stat}.
Arguments static {Im Pose Grip Stat}.
Arguments image_feed_row {Im Pose Grip Stat}.
Arguments pose_feed_row {Im Pose Grip Stat}.
Arguments gripper_feed_row {Im Pose Grip Stat}.
Arguments ready_to_predict {Im Pose Grip Stat}.
Arguments uses_gripper {Grip}.
Arguments gripper_feed_after_chunk {Im Pose Grip Stat}.
Arguments graph_keeps_rows {Im Pose Grip Out}.
Arguments with_self {Im Pose Grip Stat}.
Arguments set_sess {Im Pose Grip Stat}.
Arguments set_batch_size {Im Pose Grip Stat}.
Arguments set_input_im_arr {Im Pose Grip Stat}.
Arguments set_input_pose_arr {Im Pose Grip Stat}.
Arguments set_input_gripper_arr {Im Pose Grip Stat}.

End Inference.

(* ===================================================================== *)
(** * The value of the dense part of a graph *)
(* ===================================================================== *)

(** What [sess.run] computes for the nodes the localisation network of the
    spatial transformer is made of: placeholders, variables, [tf.zeros],
    [tf.matmul], [+] with a bias vector and a flattening [tf.reshape].
    Scalars are exact rationals; rounding is outside the model.  A batch is
    a list of rows, each row flattened. *)
Module Dense.

Inductive value : Type :=
| VMat (rows : list (list Qc))
| VVec (v : list Qc).

(** The current value of each variable, by identity, and the fed value of
    each placeholder, by name. *)
Record env : Type := {
  variables : nat -> option value;
  placeholders : string -> option value
}.

Definition vadd (u v : list Qc) : list Qc := zip_with Qcplus u v.
Definition vscale (c : Qc) (v : list Qc) : list Qc := map (Qcmult c) v.

(** [row . B] for a matrix [B] of [k] columns given by its rows. *)
Definition row_times (k : nat) (B : list (list Qc)) (row : list Qc) : list Qc :=
  fold_right vadd (repeat (Q2Qc 0) k) (zip_with vscale row B).

Definition matmul (A B : list (list Qc)) : option (list (list Qc)) :=
  let k := length (hd [] B) in
  if forallb (fun r => (length r =? length B)%nat) A
     && forallb (fun r => (length r =? k)%nat) B
  then Some (map (row_times k B) A)
  else None.

Fixpoint eval (e : env) (t : tensor) : option value :=
  match t with
  | Placeholder name => placeholders e name
  | tf_Variable uid _ _ => variables e uid
  | np_array values => Some (VVec (map Q2Qc values))
  | tf_zeros (py_list [get_shape_at u O; py_int n]) =>
      match eval e u with
      | Some (VMat x) => Some (VMat (repeat (repeat (Q2Qc 0) (Z.to_nat n)) (length x)))
      | _ => None
      end
  | tf_zeros (py_list [py_int m; py_int n]) =>
      Some (VMat (repeat (repeat (Q2Qc 0) (Z.to_nat n)) (Z.to_nat m)))
  | tf_matmul a b =>
      match eval e a, eval e b with
      | Some (VMat x), Some (VMat y) => VMat <$> matmul x y
      | _, _ => None
      end
  | tf_add a b =>
      match eval e a, eval e b with
      | Some (VMat x), Some (VVec v) =>
          if forallb (fun r => (length r =? length v)%nat) x
          then Some (VMat (map (fun r => vadd r v) x))
          else None
      | _, _ => None
      end
  | tf_reshape u (py_list [py_int (-1); py_int n]) =>
      match eval e u with
      | Some (VMat x) =>
          if forallb (fun r => (length r =? Z.to_nat n)%nat) x then Some (VMat x) else None
      | _ => None
      end
  | _ => None
  end.

(** A dense layer over the flattened input: [reshape(input, [-1, n]) . W + b]. *)
Definition dense_over_flattened_input (input_node : tensor) (n : Z) (W b : tensor) : tensor :=
  tf_add (tf_matmul (tf_reshape input_node (py_list [py_int (-1); py_int n])) W) b.

(** Equality of values, decided on the numerators and denominators. *)
Definition row_eqb (u v : list Qc) : bool :=
  (length u =? length v)%nat && forallb (fun p => Qeq_bool (this (fst p)) (this (snd p))) (zip u v).

Definition value_eqb (x y : value) : bool :=
  match x, y with
  | VMat a, VMat b =>
      (length a =? length b)%nat && forallb (fun p => row_eqb (fst p) (snd p)) (zip a b)
  | VVec u, VVec v => row_eqb u v
  | _, _ => false
  end.

End Dense.

(* ===================================================================== *)
(** * Concrete networks and inputs *)
(* ===================================================================== *)

Module Examples.

(** ** Network builder *)

Definition conv (pool_stride : Z) : Net.layer_config :=
  {| Net.l_type := "conv";
     Net.l_params := list_to_map [("filt_dim", 3); ("num_filt", 4);
                                  ("pool_stride", pool_stride); ("pool_size", 2);
                                  ("norm", 0)] |}.

Definition residual : Net.layer_config :=
  {| Net.l_type := "residual";
     Net.l_params := list_to_map [("filt_dim", 3); ("num_filt", 4)] |}.

Definition pc : Net.layer_config :=
  {| Net.l_type := "pc"; Net.l_params := list_to_map [("out_size", 16)] |}.

Definition fc : Net.layer_config :=
  {| Net.l_type := "fc"; Net.l_params := list_to_map [("out_size", 8)] |}.

Definition input_im_node : tensor := Placeholder "input_im_node".
Definition input_drop_rate_node : tensor := Placeholder "input_drop_rate_node".

(** A network for 32 x 32 images of one channel, just constructed, in a
    process that has created no variable and whose [GQCNNWeights.weights]
    is still empty. *)
Definition network (architecture : gmap string Net.layers) : Net.GQCNNTF :=
  Net.GQCNNTF__init__ architecture 32 32 1 1 0 2 (1 # 10000) (3 # 4) 1 None.

Definition fresh : Net.state :=
  {| Net.self := network ∅;
     Net.proc := {| Net.GQCNNWeights_weights := ∅; Net.tf_variables := 0 |} |}.

(** An image stream with a [pc] layer after a convolution. *)
Definition im_stream_with_pc : Net.layers := [("conv1_1", conv 2); ("pc1", pc)].

(** An image stream whose convolution pools with stride 2, followed by a
    dense layer. *)
Definition im_stream_conv_fc : Net.layers := [("conv1_1", conv 2); ("fc3", fc)].

(** An image stream with a convolution between two residual blocks. *)
Definition im_stream_res_conv_res : Net.layers :=
  [("res1", residual); ("conv1", conv 1); ("res2", residual)].

Import Net.

(** The locals of [_build_im_stream] after the layer [conv1_1] of the
    example stream. *)
Definition after_conv1_1 : im_locals :=
  let W := tf_Variable 0 (tf_truncated_normal [3; 3; 1; 4] 9) "conv1_1_weights" in
  let b := tf_Variable 1 (tf_truncated_normal [4] 9) "conv1_1_bias" in
  {| im_output_node :=
       tf_nn_max_pool
         (_leaky_relu (tf_add (tf_nn_conv2d input_im_node W [1; 1; 1; 1] SAME) b))
         [1; 2; 2; 1] [1; 2; 2; 1] SAME;
     im_input_height := 16; im_input_width := 16; im_input_channels := 4;
     im_prev_layer := "conv"; im_first_residual := true;
     im_filter_dim := 16; im_fan_in := None |}.

(** The state after the dense layer [fc3] has been built in a new process:
    its keys are in the store. *)
Definition after_fc3 : state :=
  snd (_build_fc_layer input_im_node 8 4 "fc3" false input_drop_rate_node
                       false fresh).

(** A process that has loaded a checkpoint holding the two variables of
    a spatial-transformer layer [st]. *)
Definition loaded_st : state :=
  snd (init_weights_file ["im_stream/st/st_weights"; "im_stream/st/st_bias"] fresh).

Definition st_weights : tensor :=
  tf_Variable 0 (checkpoint_tensor "im_stream/st/st_weights") "Variable".
Definition st_bias : tensor :=
  tf_Variable 1 (checkpoint_tensor "im_stream/st/st_bias") "Variable".

(** The values of a run: the checkpoint gave a weight matrix of one row
    [1 0 0 0 0 0] and the bias [0.5 0 0 0 0.5 0]; one image of one pixel of
    value 1 is fed. *)
Definition st_run : Dense.env :=
  {| Dense.variables := fun uid =>
       match uid with
       | O => Some (Dense.VMat [map Q2Qc [1; 0; 0; 0; 0; 0]%Q])
       | S O => Some (Dense.VVec (map Q2Qc [1 # 2; 0; 0; 0; 1 # 2; 0]%Q))
       | _ => None
       end;
     Dense.placeholders := fun name =>
       if String.eqb name "input_im_node" then Some (Dense.VMat [[Q2Qc 1]]) else None |}.

(** ** Inference on one-pixel images, with exact rationals for floats *)

Definition normalize (mean std x : Q) : Q := ((x - mean) / std)%Q.

(** Images of one channel: there is no channel 1 or 2 to rewrite. *)
Definition normalize_channel (c k : nat) (mean std x old : Q) : Q := old.

(** A graph that returns its image feed: one output row per feed row. *)
Definition identity_graph (f : Inference.fetch) (ims poses : list Q)
    (grips : option (list Q)) : outcome (list Q) := Ok ims.

Definition constructed (batch_size : nat) : Inference.state Q Q Q Q :=
  {| Inference.self :=
       {| Inference._sess := None;
          Inference._batch_size := batch_size;
          Inference._gripper_dim := 0;
          Inference._input_im_arr := None;
          Inference._input_pose_arr := None;
          Inference._input_gripper_arr := None;
          Inference._input_gripper_node := false;
          Inference._im_mean := 0%Q;
          Inference._im_std := 1%Q;
          Inference._pose_mean := 0%Q;
          Inference._pose_std := 1%Q;
          Inference._gripper_mean := None;
          Inference._gripper_std := None;
          Inference._gripper_depth_mask_mean := None;
          Inference._gripper_depth_mask_std := None;
          Inference._feature_tensors := ["conv2_2"] |};
     Inference.tf := {| Inference.open_sessions := [];
                        Inference.sessions_created := 0;
                        Inference.run_log := [] |} |}.

(** After [initialize_network] has allocated the feed arrays. *)
Definition initialized (batch_size : nat) : Inference.state Q Q Q Q :=
  snd (Inference.create_feed_tensors 0%Q 0%Q 0%Q (constructed batch_size)).

(** After [initialize_network] and [open_session]. *)
Definition ready (batch_size : nat) : Inference.state Q Q Q Q :=
  snd (Inference.open_session (initialized batch_size)).

Definition predict :=
  Inference.predict normalize normalize normalize normalize_channel 0%Q identity_graph.

Definition featurize := Inference.featurize normalize normalize identity_graph.

End Examples.

(* ===================================================================== *)
(** * Vocabulary of the properties of [predict] and [featurize] *)
(* ===================================================================== *)

Module Batching.
Import Inference.

Section Rows.

Variables Im Pose Grip Out Stat : Type.

(** The outputs of a network that computes each row of its output from
    the same row of its feeds. *)
Definition rows_of (net : Im -> Pose -> option Grip -> Out)
    (ims : list Im) (poses : list Pose) (grips : option (list Grip)) : list Out :=
  match grips with
  | Some gs => zip_with (fun xp g => net (fst xp) (snd xp) (Some g)) (zip ims poses) gs
  | None => zip_with (fun x p => net x p None) ims poses
  end.

(** The graph computes the tensor [f] row by row, as [net]. *)
Definition graph_is_rowwise
    (sess_run : fetch -> list Im -> list Pose -> option (list Grip) -> outcome (list Out))
    (f : fetch) (net : Im -> Pose -> option Grip -> Out) : Prop :=
  forall ims poses grips, sess_run f ims poses grips = Ok (rows_of net ims poses grips).

(** The feed arrays exist and have [R] rows, and the gripper and
    depth-mask attributes are there when the call uses them. *)
Definition feeds_allocated (R : nat) (with_gripper gripper_depth_mask : bool)
    (s : state Im Pose Grip Stat) : Prop :=
  (exists im, _input_im_arr (self s) = Some im /\ length im = R)
  /\ (exists po, _input_pose_arr (self s) = Some po /\ length po = R)
  /\ (with_gripper = true ->
      _input_gripper_node (self s) = true
      /\ (exists gr, _input_gripper_arr (self s) = Some gr /\ length gr = R)
      /\ is_Some (_gripper_mean (self s)) /\ is_Some (_gripper_std (self s)))
  /\ (gripper_depth_mask = true ->
      is_Some (_gripper_depth_mask_mean (self s))
      /\ is_Some (_gripper_depth_mask_std (self s))).


(** The sessions that are open were created by [tf.Session]: their
    identities are below the number of sessions created. *)
Definition runtime_ok (r : runtime Im Pose Grip) : Prop :=
  Forall (fun sid => (sid < sessions_created r)%nat) (open_sessions r).

End Rows.

Arguments rows_of {Im Pose Grip Out}.
Arguments graph_is_rowwise {Im Pose Grip Out}.
Arguments feeds_allocated {Im Pose Grip Stat}.
Arguments runtime_ok {Im Pose Grip}.

End Batching.

Module BatchingExamples.
Import Inference Batching.

(** A network that adds the pose to the image, row by row. *)
Definition add_net (x p : Q) (g : option Q) : Q := (x + p)%Q.

Definition add_graph (f : fetch) (ims poses : list Q) (grips : option (list Q))
  : outcome (list Q) := Ok (rows_of add_net ims poses grips).

Definition predict_add :=
  Inference.predict Examples.normalize Examples.normalize Examples.normalize
                    Examples.normalize_channel 0%Q add_graph.

Definition featurize_add :=
  Inference.featurize Examples.normalize Examples.normalize add_graph.

(** A network initialized for batches of [rows] rows, whose batch size
    was then set to [batch_size]. *)
Definition resized (rows batch_size : nat) : Inference.state Q Q Q Q :=
  snd (update_batch_size batch_size (Examples.initialized rows)).

(** The same with a session open. *)
Definition resized_ready (rows batch_size : nat) : Inference.state Q Q Q Q :=
  snd (open_session (resized rows batch_size)).

End BatchingExamples.

(* ===================================================================== *)
(** * Vocabulary of the properties of the layer builders *)
(* ===================================================================== *)

Module Layers.
Import Net.

(** The local-response normalization a convolution applies when [norm]. *)
Definition norm_of (norm : bool) (n : GQCNNTF) : option (Z * Q * Q * Q) :=
  if norm then Some (_normalization_radius n, _normalization_alpha n,
                     _normalization_beta n, _normalization_bias n)
  else None.

(** The weights and the bias of a layer of two keys are in the store,
    under the keys of the layer. *)
Definition two_keys (name : string) (s : state) (W b : tensor) : Prop :=
  exists d, store_of s = Some d
            /\ d !! fmt name "_weights" = Some W /\ d !! fmt name "_bias" = Some b.

(** How a layer of two keys came to its weights in the state [s], giving
    the state [s0]: it found them in the store, or it created them, with
    the initial values [iW] and [ib], as the next two variables of the
    process, and stored them. *)
Definition reused_or_created (name : string) (iW ib : tensor) (s s0 : state)
    (W b : tensor) : Prop :=
  (s0 = s
   /\ exists d, store_of s = Some d /\ d !! fmt name "_weights" = Some W)
  \/ (exists d,
        store_of s = Some d
        /\ d !! fmt name "_weights" = None
        /\ W = tf_Variable (tf_variables (proc s)) iW (fmt name "_weights")
        /\ b = tf_Variable (S (tf_variables (proc s))) ib (fmt name "_bias")
        /\ store_of s0 = Some (<[fmt name "_bias" := b]> (<[fmt name "_weights" := W]> d))
        /\ tf_variables (proc s0) = S (S (tf_variables (proc s)))
        /\ _feature_tensors (self s0) = _feature_tensors (self s)
        /\ (forall norm, norm_of norm (self s0) = norm_of norm (self s))).

(** The node of each kind of layer, from its input and its weights. *)
Definition spatial_transformer_node_of (x : tensor) (h w c ow oh : Z) (W b : tensor) : tensor :=
  transformer x
    (tf_add (tf_matmul (tf_zeros (py_list [get_shape_at x 0; py_int (h * w * c)])) W) b)
    (ow, oh).

Definition conv_node_of (x : tensor) (norm : option (Z * Q * Q * Q)) (ps sh sw : Z)
    (W b : tensor) : tensor :=
  let convh := _leaky_relu (tf_add (tf_nn_conv2d x W [1; 1; 1; 1] SAME) b) in
  let convh :=
    match norm with
    | Some (radius, alpha, beta, bias) =>
        tf_nn_local_response_normalization convh radius alpha beta bias
    | None => convh
    end in
  tf_nn_max_pool convh [1; ps; ps; 1] [1; sh; sw; 1] SAME.

Definition fc_node_of (x : tensor) (multi final : bool) (drop W b : tensor) : tensor :=
  let x' := if multi then tf_reshape x (flat_shape x) else x in
  tf_nn_dropout (if final then tf_add (tf_matmul x' W) b
                 else _leaky_relu (tf_add (tf_matmul x' W) b))
                (tf_subtract (py_int 1) drop).

Definition pc_node_of (x W b : tensor) : tensor :=
  _leaky_relu (tf_add (tf_matmul x W) b).

Definition merge_node_of (x1 x2 : tensor) (x3 : option tensor) (drop W1 W2 : tensor)
    (W3 : option tensor) (b : tensor) : tensor :=
  let sum := tf_add (tf_matmul x1 W1) (tf_matmul x2 W2) in
  let sum := match x3, W3 with
             | Some x3, Some W3 => tf_add sum (tf_matmul x3 W3)
             | _, _ => sum
             end in
  tf_nn_dropout (_leaky_relu (tf_add sum b)) (tf_subtract (py_int 1) drop).



(** A computation that changes no entry of the feature dict, whatever its
    outcome. *)
Definition keeps_features {A} (c : M state A) : Prop :=
  forall s r s', c s = (r, s') -> _feature_tensors (self s') = _feature_tensors (self s).

End Layers.

Module LayerExamples.
Import Net Examples.

(** The weights and the bias the dense layer [fc3] of the examples creates
    in a new process, and its node. *)
Definition fc3_weights : tensor :=
  tf_Variable 0 (tf_truncated_normal [8; 4] 8) "fc3_weights".
Definition fc3_bias : tensor :=
  tf_Variable 1 (tf_truncated_normal [4] 8) "fc3_bias".
Definition fc3_node : tensor :=
  Layers.fc_node_of input_im_node false false input_drop_rate_node fc3_weights fc3_bias.

(** A process that has loaded a checkpoint that holds the weights of the
    layer [fc3] and not its bias. *)
Definition weights_only : state :=
  snd (init_weights_file ["im_stream/fc3/fc3_weights"] fresh).

Definition loaded_fc3_weights : tensor :=
  tf_Variable 0 (checkpoint_tensor "im_stream/fc3/fc3_weights") "Variable".



End LayerExamples.

(* ===================================================================== *)
(** * Vocabulary of the properties of the streams *)
(* ===================================================================== *)

Module Streams.
Import Net.

(** What [_parse_config] gives a network: every attribute the builders
    read, that is all but the weights object and the feature dict. *)
Definition configuration (n : GQCNNTF) :=
  (_architecture n, _fully_conv n, _train_im_width n, _im_height n, _im_width n,
   _num_channels n, _pose_dim n, _gripper_dim n,
   _normalization_radius n, _normalization_alpha n, _normalization_beta n,
   _normalization_bias n).

(** A computation that leaves the configuration as it is, whatever its
    outcome. *)
Definition keeps_configuration {A} (c : M state A) : Prop :=
  forall s r s', c s = (r, s') -> configuration (self s') = configuration (self s).

(** The branches of the loop of [_build_im_stream] that do not assign
    [fan_in]. *)
Definition leaves_fan_in (layer_type : string) : bool :=
  String.eqb layer_type "spatial_transformer" || String.eqb layer_type "conv".

(** The locals of [_build_im_stream] when the loop starts in the state
    [s]. *)
Definition im_start (input_node : tensor) (h w ch : Z) (s : state) : im_locals :=
  im_locals_init input_node h w ch (_train_im_width (self s)).

End Streams.

Module StreamExamples.
Import Net Examples.

(** An image stream that ends with a convolution, after a residual
    block. *)
Definition im_stream_res_conv : layers := [("res1", residual); ("conv1", conv 1)].

(** A merge stream of a merge layer and a last dense layer. *)
Definition fc_merge : layer_config :=
  {| l_type := "fc_merge"; l_params := list_to_map [("out_size", 8)] |}.

Definition fc5 : layer_config :=
  {| l_type := "fc"; l_params := list_to_map [("out_size", 2)] |}.

Definition merge_stream_fc4_fc5 : layers := [("fc4", fc_merge); ("fc5", fc5)].

Definition input_pose_node : tensor := Placeholder "input_pose_node".

(** A pose stream of one layer. *)
Definition pose_stream_pc1 : layers := [("pc1", pc)].

(** The loop of [_build_im_stream] on the layers [ls], for 32 x 32 images
    of one channel in a new process: its outcome, the locals it leaves
    and the state it leaves. *)
Definition im_loop (ls : layers) : outcome im_locals * state :=
  for_each (_build_im_stream_body input_drop_rate_node) ls
           (Streams.im_start input_im_node 32 32 1 fresh) fresh.

Definition locals_after (ls : layers) : im_locals :=
  match fst (im_loop ls) with
  | Ok v => v
  | _ => Streams.im_start input_im_node 32 32 1 fresh
  end.

Definition state_after (ls : layers) : state := snd (im_loop ls).

(** The merge stream [fc4, fc5] built on two inputs of 8 and 16 columns
    in a new process, and its output node. *)
Definition merge_built : outcome (tensor * Z) * state :=
  _build_merge_stream input_im_node input_pose_node 8 16 input_drop_rate_node
                      merge_stream_fc4_fc5 None None fresh.

Definition merge_output : tensor :=
  match fst merge_built with
  | Ok (out, _) => out
  | _ => input_im_node
  end.

(** The weights and the node of the layer [pc1] built on the pose
    placeholder, for poses of one column, in a new process. *)
Definition pc1_weights : tensor :=
  tf_Variable 0 (tf_truncated_normal [1; 16] 1) "pc1_weights".
Definition pc1_bias : tensor :=
  tf_Variable 1 (tf_truncated_normal [16] 1) "pc1_bias".
Definition pc1_node : tensor := Layers.pc_node_of input_pose_node pc1_weights pc1_bias.

(** A gripper stream of one layer, for gripper parameters of one
    column, and the weights and the node of its layer in a new
    process. *)
Definition gc : layer_config :=
  {| l_type := "gc"; l_params := list_to_map [("out_size", 16)] |}.

Definition gripper_stream_gc1 : layers := [("gc1", gc)].

Definition input_gripper_node : tensor := Placeholder "input_gripper_node".

Definition gc1_weights : tensor :=
  tf_Variable 0 (tf_truncated_normal [1; 16] 1) "gc1_weights".
Definition gc1_bias : tensor :=
  tf_Variable 1 (tf_truncated_normal [16] 1) "gc1_bias".
Definition gc1_node : tensor := Layers.pc_node_of input_gripper_node gc1_weights gc1_bias.

(** A network of an image stream [conv1_1, fc3], a pose stream [pc1] and
    a merge stream [fc4, fc5], just constructed in a new process. *)
Definition small_architecture : gmap string layers :=
  list_to_map [("im_stream", im_stream_conv_fc); ("pose_stream", pose_stream_pc1);
               ("merge_stream", merge_stream_fc4_fc5)].

Definition small_network : state :=
  {| self := network small_architecture; proc := proc fresh |}.

Definition small_network_built : outcome tensor * state :=
  _build_network input_im_node input_pose_node input_drop_rate_node None small_network.

End StreamExamples.

(* ===================================================================== *)
(** * Checkpoint variables and flattened shapes *)
(* ===================================================================== *)

Module Checkpoint.
Import Net.

(** Whether a name has a scope separator. *)
Fixpoint has_slash (s : string) : bool :=
  match s with
  | EmptyString => false
  | String c rest => Ascii.eqb c "/"%char || has_slash rest
  end.

(** The variable [init_weights_file] creates for the [i]-th variable of
    the checkpoint, in a process that had created [n] variables. *)
Definition loaded_variable (n i : nat) (full_var_name : string) : tensor :=
  tf_Variable (n + i) (checkpoint_tensor full_var_name) "Variable".

End Checkpoint.

Module Shapes.

(** [reduce_shape(shape)] (lines 19-23): [shape] is the list of the
    [Dimension.value]s of a [TensorShape] of known rank, [None] for an
    unknown dimension; [shape[1:]] drops the batch dimension and
    [reduce(f, shape, 1)] folds from the left. *)
Definition reduce_shape (shape : list (option Z)) : Z :=
  let shape := tail shape in
  let f := fun (x : Z) (y : option Z) =>
             match y with
             | None => 1
             | Some y => x * y
             end in
  fold_left f shape 1.

End Shapes.

Module CheckpointExamples.
Import Net.

(** The variables of a checkpoint written while training with an
    optimizer that keeps its slots under the name of the variable. *)
Definition with_optimizer_slots : list string :=
  ["im_stream/conv1_1_weights"; "im_stream/conv1_1_weights/Adam";
   "im_stream/fc3_weights"; "im_stream/fc3_weights/Adam"].

End CheckpointExamples.

(* ===================================================================== *)
(** * Properties of the network builder *)
(* ===================================================================== *)

Module NetFacts.
Import Net.

(** ** Keys *)

Lemma fmt_inj name a b : fmt name a = fmt name b -> a = b.
Proof.
  unfold fmt. induction name as [|c name IH]; simpl; [done|].
  intros H. injection H as H. auto.
Qed.

Lemma fmt_ne name a b : a <> b -> fmt name a <> fmt name b.
Proof. intros Hne H. apply Hne. eapply fmt_inj, H. Qed.

(** ** The store through the monad *)

Lemma weights_dict_store s d : store_of s = Some d -> weights_dict s = (Ok d, s).
Proof.
  unfold store_of, weights_dict.
  destruct (w__dict__ (_weights (self s)) !! "weights") as [[t|d']|]; congruence.
Qed.

Lemma weights_contains_store s d key :
  store_of s = Some d ->
  weights_contains key s = (Ok (bool_decide (is_Some (d !! key))), s).
Proof.
  intros H. unfold weights_contains, bind. by rewrite (weights_dict_store _ _ H).
Qed.

Lemma weights_contains_true s d key v :
  store_of s = Some d -> d !! key = Some v -> weights_contains key s = (Ok true, s).
Proof.
  intros H Hk. rewrite (weights_contains_store _ _ _ H), Hk.
  rewrite bool_decide_eq_true_2; [done | by eexists].
Qed.

Lemma weights_contains_false s d key :
  store_of s = Some d -> d !! key = None -> weights_contains key s = (Ok false, s).
Proof.
  intros H Hk. rewrite (weights_contains_store _ _ _ H), Hk.
  rewrite bool_decide_eq_false_2; [done | by intros [? ?]].
Qed.

Lemma weights_getitem_store s d key v :
  store_of s = Some d -> d !! key = Some v -> weights_getitem key s = (Ok v, s).
Proof.
  intros H Hk. unfold weights_getitem, bind, getitem.
  by rewrite (weights_dict_store _ _ H), Hk.
Qed.

Lemma weights_setitem_store s d key v :
  store_of s = Some d ->
  exists s', weights_setitem key v s = (Ok tt, s')
             /\ store_of s' = Some (<[key := v]> d)
             /\ tf_variables (proc s') = tf_variables (proc s)
             /\ _feature_tensors (self s') = _feature_tensors (self s).
Proof.
  unfold store_of, weights_setitem.
  destruct (w__dict__ (_weights (self s)) !! "weights") as [[t|d']|] eqn:E; intros H;
    simplify_eq; eexists; (split; [reflexivity|]); simpl.
  - by rewrite lookup_insert_eq.
  - by rewrite E.
Qed.

Lemma store_of_register_feature name t s : store_of (register_feature name t s) = store_of s.
Proof. reflexivity. Qed.

Lemma store_of_new_Variable init name s :
  store_of (snd (new_Variable init name s)) = store_of s.
Proof. reflexivity. Qed.


(** ** Rebuilding a layer whose keys are in the store *)

Ltac reuse H :=
  unfold bind;
  repeat first
    [ erewrite (weights_contains_true _ _ _ _ H) by eassumption
    | erewrite (weights_getitem_store _ _ _ _ H) by eassumption ];
  try reflexivity.

Lemma spatial_transformer_reuse s d input h w c ntp ow oh name W b :
  store_of s = Some d ->
  d !! fmt name "_weights" = Some W -> d !! fmt name "_bias" = Some b ->
  _build_spatial_transformer input h w c ntp ow oh name s =
    let theta := tf_add (tf_matmul (tf_zeros (py_list [get_shape_at input 0; py_int (h * w * c)])) W) b in
    let node := transformer input theta (ow, oh) in
    (Ok (node, oh, ow, c), register_feature name node s).
Proof. intros H HW Hb. unfold _build_spatial_transformer. reuse H. Qed.

Lemma conv_layer_reuse s d input h w c fh fw nf sh sw ps name norm W b :
  store_of s = Some d ->
  d !! fmt name "_weights" = Some W -> d !! fmt name "_bias" = Some b ->
  sh <> 0 -> sw <> 0 ->
  _build_conv_layer input h w c fh fw nf sh sw ps name norm s =
    let convh := _leaky_relu (tf_add (tf_nn_conv2d input W [1; 1; 1; 1] SAME) b) in
    let convh :=
      if norm then
        tf_nn_local_response_normalization convh
          (_normalization_radius (self s)) (_normalization_alpha (self s))
          (_normalization_beta (self s)) (_normalization_bias (self s))
      else convh in
    let node := tf_nn_max_pool convh [1; ps; ps; 1] [1; sh; sw; 1] SAME in
    (Ok (node, h / sh, w / sw, nf), register_feature name node s).
Proof.
  intros H HW Hb Hsh Hsw. unfold _build_conv_layer. reuse H.
  unfold int_div. apply Z.eqb_neq in Hsh, Hsw. rewrite Hsh, Hsw.
  destruct norm; reflexivity.
Qed.

Lemma fc_layer_reuse s d input fan_in out_size name multi drop final W b :
  store_of s = Some d ->
  d !! fmt name "_weights" = Some W -> d !! fmt name "_bias" = Some b ->
  _build_fc_layer input fan_in out_size name multi drop final s =
    let x := if multi then tf_reshape input (flat_shape input) else input in
    let fc := if final then tf_add (tf_matmul x W) b
              else _leaky_relu (tf_add (tf_matmul x W) b) in
    let node := tf_nn_dropout fc (tf_subtract (py_int 1) drop) in
    (Ok (node, out_size), register_feature name node s).
Proof. intros H HW Hb. unfold _build_fc_layer. reuse H. Qed.

Lemma pc_layer_reuse s d input fan_in out_size name W b :
  store_of s = Some d ->
  d !! fmt name "_weights" = Some W -> d !! fmt name "_bias" = Some b ->
  _build_pc_layer input fan_in out_size name s =
    let node := _leaky_relu (tf_add (tf_matmul input W) b) in
    (Ok (node, out_size), register_feature name node s).
Proof. intros H HW Hb. unfold _build_pc_layer. reuse H. Qed.

Lemma gc_layer_reuse s d input fan_in out_size name W b :
  store_of s = Some d ->
  d !! fmt name "_weights" = Some W -> d !! fmt name "_bias" = Some b ->
  _build_gc_layer input fan_in out_size name s =
    let node := _leaky_relu (tf_add (tf_matmul input W) b) in
    (Ok (node, out_size), register_feature name node s).
Proof. intros H HW Hb. unfold _build_gc_layer. reuse H. Qed.

Lemma fc_merge_reuse_2 s d in1 in2 f1 f2 out_size drop name W1 W2 b :
  store_of s = Some d ->
  d !! fmt name "_input_1_weights" = Some W1 ->
  d !! fmt name "_input_2_weights" = Some W2 ->
  d !! fmt name "_bias" = Some b ->
  _build_fc_merge in1 in2 f1 f2 out_size drop name None None s =
    let fc := _leaky_relu (tf_add (tf_add (tf_matmul in1 W1) (tf_matmul in2 W2)) b) in
    let node := tf_nn_dropout fc (tf_subtract (py_int 1) drop) in
    (Ok (node, out_size), register_feature name node s).
Proof. intros H H1 H2 Hb. unfold _build_fc_merge. reuse H. Qed.

Lemma fc_merge_reuse_3 s d in1 in2 in3 f1 f2 f3 out_size drop name W1 W2 W3 b :
  store_of s = Some d ->
  d !! fmt name "_input_1_weights" = Some W1 ->
  d !! fmt name "_input_2_weights" = Some W2 ->
  d !! fmt name "_input_3_weights" = Some W3 ->
  d !! fmt name "_bias" = Some b ->
  _build_fc_merge in1 in2 f1 f2 out_size drop name (Some in3) f3 s =
    let fc := _leaky_relu (tf_add (tf_add (tf_add (tf_matmul in1 W1) (tf_matmul in2 W2))
                                          (tf_matmul in3 W3)) b) in
    let node := tf_nn_dropout fc (tf_subtract (py_int 1) drop) in
    (Ok (node, out_size), register_feature name node s).
Proof. intros H H1 H2 H3 Hb. unfold _build_fc_merge. reuse H. Qed.

Lemma residual_layer_reuse s d input c fan_in nf fh fw drop name first W1 b1 W2 b2 :
  store_of s = Some d ->
  d !! fmt name "_conv1_weights" = Some W1 -> d !! fmt name "_conv1_bias" = Some b1 ->
  d !! fmt name "_conv2_weights" = Some W2 -> d !! fmt name "_conv2_bias" = Some b2 ->
  _build_residual_layer input c fan_in nf fh fw drop name first s =
    let bn x := tf_layers_batch_normalization x drop (1 # 1000) in
    let x := if first then input else _leaky_relu (bn input) in
    let y := tf_add (tf_nn_conv2d x W1 [1; 1; 1; 1] SAME) b1 in
    let y := _leaky_relu (bn y) in
    let y := tf_add (tf_nn_conv2d y W2 [1; 1; 1; 1] SAME) b2 in
    let node := tf_add input y in
    (Ok (node, nf), register_feature name node (batch_norms_created first s)).
Proof.
  intros H H1 H2 H3 H4. unfold _build_residual_layer. reuse H.
  destruct first; reflexivity.
Qed.


Lemma fully_conv_layer_store s d input fd name fcW fcb :
  store_of s = Some d ->
  d !! fmt name "_weights" = Some fcW -> d !! fmt name "_bias" = Some fcb ->
  exists node s',
    _build_fully_conv_layer input fd name s = (Ok node, s')
    /\ store_of s' =
         Some (<[fmt name "_fully_conv_weights" :=
                   tf_Variable (tf_variables (proc s)) (fully_conv_kernel fcW fd)
                               (fmt name "_fully_conv_weights")]> d)
    /\ tf_variables (proc s') = S (tf_variables (proc s)).
Proof.
  intros H HW Hb. unfold _build_fully_conv_layer, bind.
  rewrite (weights_getitem_store _ _ _ _ H HW).
  unfold new_Variable at 1.
  match goal with |- context [weights_setitem ?k ?v ?s0] =>
    destruct (weights_setitem_store s0 d k v) as (s1 & E & Hs1 & Hv & _); [exact H|]
  end.
  rewrite E.
  erewrite (weights_getitem_store _ _ _ _ Hs1).
  2:{ rewrite lookup_insert_ne; [exact Hb|]. apply fmt_ne. discriminate. }
  do 2 eexists. split; [reflexivity|]. split; [exact Hs1|]. exact Hv.
Qed.

Lemma fully_conv_merge_layer_store s d in_im in_pose fd name W1 W2 b :
  store_of s = Some d ->
  d !! fmt name "_input_1_weights" = Some W1 ->
  d !! fmt name "_input_2_weights" = Some W2 ->
  d !! fmt name "_bias" = Some b ->
  exists node s',
    _build_fully_conv_merge_layer in_im in_pose fd name s = (Ok node, s')
    /\ store_of s' =
         Some (<[fmt name "_im_fully_conv_weights" :=
                   tf_Variable (tf_variables (proc s)) (fully_conv_kernel W1 fd)
                               (fmt name "_im_fully_conv_weights")]> d)
    /\ tf_variables (proc s') = S (tf_variables (proc s)).
Proof.
  intros H H1 H2 Hb. unfold _build_fully_conv_merge_layer, bind.
  rewrite (weights_getitem_store _ _ _ _ H H1).
  unfold new_Variable at 1.
  match goal with |- context [weights_setitem ?k ?v ?s0] =>
    destruct (weights_setitem_store s0 d k v) as (s1 & E & Hs1 & Hv & _); [exact H|]
  end.
  rewrite E.
  erewrite (weights_getitem_store _ _ _ _ Hs1).
  2:{ rewrite lookup_insert_ne; [exact H2|]. apply fmt_ne. discriminate. }
  erewrite (weights_getitem_store _ _ _ _ Hs1).
  2:{ rewrite lookup_insert_ne; [exact Hb|]. apply fmt_ne. discriminate. }
  do 2 eexists. split; [reflexivity|]. split; [exact Hs1|]. exact Hv.
Qed.

(** ** Loops *)

Lemma for_each_app {A L} (body : L -> A -> M state L) l1 l2 v s :
  for_each body (l1 ++ l2)%list v s = bind (for_each body l1 v) (for_each body l2) s.
Proof.
  revert v s. induction l1 as [|x l1 IH]; intros v s; simpl.
  - reflexivity.
  - unfold bind in *. destruct (body v x s) as [[v'| |] s']; try reflexivity.
    apply IH.
Qed.

Lemma for_each_app_ok {A L} (body : L -> A -> M state L) l1 l2 v s v1 s1 :
  for_each body l1 v s = (Ok v1, s1) ->
  for_each body (l1 ++ l2)%list v s = for_each body l2 v1 s1.
Proof. intros H. rewrite for_each_app. unfold bind. by rewrite H. Qed.

(** After a prefix of the image stream has been built, [first_residual]
    is false exactly when the last layer built is a residual block. *)
Lemma im_body_first_residual drop v name c s v' s' :
  _build_im_stream_body drop v (name, c) s = (Ok v', s') ->
  im_first_residual v' = negb (String.eqb (l_type c) "residual").
Proof.
  unfold _build_im_stream_body.
  destruct (String.eqb (l_type c) "spatial_transformer") eqn:E1.
  { apply String.eqb_eq in E1. rewrite E1. unfold bind.
    repeat match goal with
           | |- context [match ?x with _ => _ end] => destruct x eqn:?; try discriminate
           end.
    intros [= <- <-]; reflexivity. }
  destruct (String.eqb (l_type c) "conv") eqn:E2.
  { apply String.eqb_eq in E2. rewrite E2. unfold bind, raise.
    repeat match goal with
           | |- context [match ?x with _ => _ end] => destruct x eqn:?; try discriminate
           | |- context [if ?x then _ else _] => destruct x eqn:?; try discriminate
           end.
    all: intros [= <- <-]; reflexivity. }
  destruct (String.eqb (l_type c) "fc") eqn:E3.
  { apply String.eqb_eq in E3. rewrite E3. unfold bind, raise, gets.
    repeat match goal with
           | |- context [match ?x with _ => _ end] => destruct x eqn:?; try discriminate
           | |- context [if ?x then _ else _] => destruct x eqn:?; try discriminate
           end.
    all: intros [= <- <-]; reflexivity. }
  destruct (String.eqb (l_type c) "pc") eqn:E4; [discriminate|].
  destruct (String.eqb (l_type c) "fc_merge") eqn:E5; [discriminate|].
  destruct (String.eqb (l_type c) "residual") eqn:E6; [|discriminate].
  unfold bind.
  repeat match goal with
         | |- context [match ?x with _ => _ end] => destruct x eqn:?; try discriminate
         end.
  intros [= <- <-]; reflexivity.
Qed.


Lemma for_each_app_inv {A L} (body : L -> A -> M state L) l1 l2 v s v2 s2 :
  for_each body (l1 ++ l2)%list v s = (Ok v2, s2) ->
  exists v1 s1, for_each body l1 v s = (Ok v1, s1) /\ for_each body l2 v1 s1 = (Ok v2, s2).
Proof.
  rewrite for_each_app. unfold bind.
  destruct (for_each body l1 v s) as [[v1| |] s1]; try discriminate.
  intros H. by exists v1, s1.
Qed.

Lemma for_each_singleton {A L} (body : L -> A -> M state L) x v s :
  for_each body [x] v s = body v x s.
Proof.
  simpl. unfold bind, ret. by destruct (body v x s) as [[?| |] ?].
Qed.

Lemma ends_with_residual_snoc pre name c :
  ends_with_residual (pre ++ [(name, c)])%list = String.eqb (l_type c) "residual".
Proof. unfold ends_with_residual. by rewrite last_snoc. Qed.

Lemma im_loop_first_residual drop pre v0 s v1 s1 :
  for_each (_build_im_stream_body drop) pre v0 s = (Ok v1, s1) ->
  im_first_residual v1 =
    match pre with
    | [] => im_first_residual v0
    | _ => negb (ends_with_residual pre)
    end.
Proof.
  destruct pre as [|x pre] using rev_ind.
  - simpl. by intros [= <- <-].
  - intros H. apply for_each_app_inv in H as (vm & sm & _ & H).
    rewrite for_each_singleton in H. destruct x as [name c].
    rewrite ends_with_residual_snoc.
    apply im_body_first_residual in H. rewrite H.
    by destruct pre.
Qed.


(** ** The residual block *)

Lemma weights_contains_no_store s key :
  store_of s = None -> exists e, weights_contains key s = (Raise e, s).
Proof.
  unfold store_of, weights_contains, bind, weights_dict.
  destruct (w__dict__ (_weights (self s)) !! "weights") as [[t|d']|]; try discriminate.
  intros _. by eexists.
Qed.

Lemma weights_getitem_ok s key v s' :
  weights_getitem key s = (Ok v, s') ->
  s' = s /\ exists d, store_of s = Some d /\ d !! key = Some v.
Proof.
  unfold weights_getitem, bind, weights_dict, store_of, getitem.
  destruct (w__dict__ (_weights (self s)) !! "weights") as [[t|d']|]; try discriminate.
  - destruct (d' !! key) eqn:E; [|discriminate]. intros [= <- <-]. eauto.
  - destruct (GQCNNWeights_weights (proc s) !! key) eqn:E; [|discriminate].
    intros [= <- <-]. eauto.
Qed.

(** Stepping through [tf.Variable] and an item assignment at the head of
    a computation. *)
Lemma new_Variable_run init name s :
  new_Variable init name s =
    (Ok (tf_Variable (tf_variables (proc s)) init name), snd (new_Variable init name s)).
Proof. reflexivity. Qed.

Lemma weights_setitem_run s d key v :
  store_of s = Some d ->
  weights_setitem key v s = (Ok tt, snd (weights_setitem key v s))
  /\ store_of (snd (weights_setitem key v s)) = Some (<[key := v]> d).
Proof.
  intros H. destruct (weights_setitem_store s d key v H) as (s' & E & Hs' & _).
  rewrite E. simpl. auto.
Qed.

Ltac new_var H W s1 H1 :=
  unfold bind at 1;
  match goal with
  | |- context [new_Variable ?i ?n ?s] =>
      rewrite (new_Variable_run i n s);
      pose proof (eq_trans (store_of_new_Variable i n s) H) as H1;
      set (W := tf_Variable (tf_variables (proc s)) i n) in *;
      generalize dependent (snd (new_Variable i n s)); intros s1 H1
  end.

Ltac set_item H s1 H1 :=
  unfold bind at 1;
  match goal with
  | |- context [weights_setitem ?k ?v ?s] =>
      destruct (weights_setitem_run s _ k v H) as [-> H1];
      generalize dependent (snd (weights_setitem k v s)); intros s1 H1
  end.

Lemma residual_layer_node s input c fan_in nf fh fw drop name first r s' :
  _build_residual_layer input c fan_in nf fh fw drop name first s = (Ok r, s') ->
  exists d' W1 b1 W2 b2,
    store_of s' = Some d'
    /\ d' !! fmt name "_conv1_weights" = Some W1 /\ d' !! fmt name "_conv1_bias" = Some b1
    /\ d' !! fmt name "_conv2_weights" = Some W2 /\ d' !! fmt name "_conv2_bias" = Some b2
    /\ r = (spec_residual_output first (residual_bn drop) _leaky_relu
              (residual_conv W1 b1) (residual_conv W2 b2) input, nf).
Proof.
  destruct (store_of s) as [d|] eqn:Hs.
  2:{ unfold _build_residual_layer, bind.
      destruct (weights_contains_no_store s (fmt name "_conv1_weights") Hs) as [e ->].
      discriminate. }
  destruct (d !! fmt name "_conv1_weights") as [W1|] eqn:H1.
  - unfold _build_residual_layer. unfold bind at 1.
    rewrite (weights_contains_true _ _ _ _ Hs H1).
    unfold bind at 1. unfold bind at 1.
    rewrite (weights_getitem_store _ _ _ _ Hs H1).
    unfold bind at 1.
    destruct (weights_getitem (fmt name "_conv1_bias") s) as [[b1| |] sa] eqn:E1; try discriminate.
    apply weights_getitem_ok in E1 as (-> & d1 & Hd1 & H2). simplify_eq.
    unfold bind at 1.
    destruct (weights_getitem (fmt name "_conv2_weights") s) as [[W2| |] sa] eqn:E2; try discriminate.
    apply weights_getitem_ok in E2 as (-> & d1 & Hd1 & H3). simplify_eq.
    unfold bind at 1.
    destruct (weights_getitem (fmt name "_conv2_bias") s) as [[b2| |] sa] eqn:E3; try discriminate.
    apply weights_getitem_ok in E3 as (-> & d1 & Hd1 & H4). simplify_eq.
    destruct first; unfold ret, bind, feature_setitem, modify, _build_batch_norm,
      new_batch_normalization; intros [= <- <-];
      exists d, W1, b1, W2, b2; rewrite store_of_register_feature;
      repeat split; assumption.
  - unfold _build_residual_layer. unfold bind at 1.
    rewrite (weights_contains_false _ _ _ Hs H1).
    unfold bind at 1. unfold bind at 1. unfold np_sqrt_2_over.
    destruct (fan_in =? 0)%Z; [discriminate|]. unfold ret at 1.
    new_var Hs W1 s1 Hs1. new_var Hs1 b1 s2 Hs2.
    new_var Hs2 W2 s3 Hs3. new_var Hs3 b2 s4 Hs4.
    set_item Hs4 s5 Hs5. set_item Hs5 s6 Hs6. set_item Hs6 s7 Hs7. set_item Hs7 s8 Hs8.
    assert (Hne : forall a b : string, a <> b -> fmt name a <> fmt name b)
      by (intros; by apply fmt_ne).
    destruct first; unfold ret, bind, feature_setitem, modify, _build_batch_norm,
      new_batch_normalization; intros [= <- <-];
      eexists _, W1, b1, W2, b2; rewrite store_of_register_feature;
      (split; [exact Hs8|]); repeat split;
      try (rewrite !lookup_insert_ne by (apply Hne; discriminate); apply lookup_insert_eq);
      apply lookup_insert_eq.
Qed.


(** ** Layers a stream refuses *)

Lemma im_body_refuses drop v name c s :
  im_stream_builds (l_type c) = false ->
  _build_im_stream_body drop v (name, c) s
  = (Raise (ValueError (im_stream_refusal (l_type c))), s).
Proof.
  unfold im_stream_builds. intros H.
  apply orb_false_elim in H as [H H4]. apply orb_false_elim in H as [H H3].
  apply orb_false_elim in H as [H1 H2].
  unfold _build_im_stream_body, im_stream_refusal. rewrite H1, H2, H3, H4.
  destruct (String.eqb (l_type c) "pc"); [reflexivity|].
  destruct (String.eqb (l_type c) "fc_merge"); reflexivity.
Qed.

Lemma pose_body_refuses v name c s :
  String.eqb (l_type c) "pc" = false ->
  _build_pose_stream_body v (name, c) s
  = (Raise (ValueError (pose_stream_refusal (l_type c))), s).
Proof.
  intros H. destruct v as [node fan_in].
  unfold _build_pose_stream_body, pose_stream_refusal. rewrite H.
  repeat match goal with
         | |- context [String.eqb ?a ?b] => destruct (String.eqb a b); try reflexivity
         end.
Qed.

Lemma gripper_body_refuses v name c s :
  String.eqb (l_type c) "gc" = false ->
  _build_gripper_stream_body v (name, c) s
  = (Raise (ValueError (gripper_stream_refusal (l_type c))), s).
Proof.
  intros H. destruct v as [node fan_in].
  unfold _build_gripper_stream_body, gripper_stream_refusal. rewrite H.
  repeat match goal with
         | |- context [String.eqb ?a ?b] => destruct (String.eqb a b); try reflexivity
         end.
Qed.

Lemma merge_body_refuses in1 in2 f1 f2 drop in3 f3 last fd v i name c s :
  merge_stream_builds (l_type c) = false ->
  _build_merge_stream_body in1 in2 f1 f2 drop in3 f3 last fd v (i, (name, c)) s
  = (Raise (ValueError (merge_stream_refusal (l_type c))), s).
Proof.
  unfold merge_stream_builds. intros H. apply orb_false_elim in H as [H1 H2].
  destruct v as [node fan_in].
  unfold _build_merge_stream_body, merge_stream_refusal. rewrite H1, H2.
  repeat match goal with
         | |- context [String.eqb ?a ?b] => destruct (String.eqb a b); try reflexivity
         end.
Qed.

Lemma for_each_refused {A L} (body : L -> A -> M state L) l1 x l2 v s v1 s1 e :
  for_each body l1 v s = (Ok v1, s1) ->
  body v1 x s1 = (Raise e, s1) ->
  for_each body (l1 ++ x :: l2)%list v s = (Raise e, s1).
Proof.
  intros H Hx. rewrite (for_each_app_ok _ _ _ _ _ _ _ H). simpl.
  unfold bind. by rewrite Hx.
Qed.

Lemma enumerate_from_app {A} (l1 l2 : list A) i :
  enumerate_from i (l1 ++ l2)%list
  = (enumerate_from i l1 ++ enumerate_from (i + Z.of_nat (length l1)) l2)%list.
Proof.
  revert i. induction l1 as [|x l1 IH]; intros i; simpl.
  - by rewrite Z.add_0_r.
  - rewrite IH. do 3 f_equal. lia.
Qed.


Lemma conv_layer_out_size s input h w c fh fw nf sh sw ps name norm node oh ow oc s' :
  _build_conv_layer input h w c fh fw nf sh sw ps name norm s = (Ok (node, oh, ow, oc), s') ->
  oh = h / sh /\ ow = w / sw.
Proof.
  unfold _build_conv_layer. unfold bind at 1.
  destruct (weights_contains _ s) as [[has| |] s0]; try discriminate.
  unfold bind at 1.
  match goal with |- context [match ?c s0 with _ => _ end] =>
    destruct (c s0) as [[[W b]| |] s1]; try discriminate
  end.
  unfold bind at 1, int_div at 1. destruct (sh =? 0)%Z; [discriminate|]. unfold ret at 1.
  unfold bind at 1, int_div at 1. destruct (sw =? 0)%Z; [discriminate|]. unfold ret at 1.
  unfold bind at 1.
  match goal with |- context [match ?c s1 with _ => _ end] =>
    destruct (c s1) as [[convh| |] s2]; try discriminate
  end.
  unfold bind, feature_setitem, modify, ret. intros [= <- <- <- <- <-]. auto.
Qed.

End NetFacts.

Import Net NetFacts.

(** C5, amended.  When a stream meets a layer of a type it does not build,
    after the layers before it have been built, the build raises a
    [ValueError] whose message is fixed by the stream and the type of the
    layer (it does not depend on the layer's name), and the state, the
    Weight Store included, is the one the earlier layers left: their
    weights stay.  This holds for the image, pose, gripper and merge
    streams.  The first layer of a merge stream is checked before the
    loop: when it is not a [fc_merge] layer, whatever its type, the
    build raises a [ValueError] with the message of that check and the
    state is as it was; a merge stream without layers raises an
    [IndexError]. *)
Theorem refused_layer_keeps_earlier_weights :
  forall (pre rest : layers) (name : string) (c : layer_config),
    (forall input h w ch drop s v1 s1,
        for_each (_build_im_stream_body drop) pre
                 (im_locals_init input h w ch (_train_im_width (self s))) s = (Ok v1, s1) ->
        im_stream_builds (l_type c) = false ->
        _build_im_stream input h w ch drop (pre ++ (name, c) :: rest) s
        = (Raise (ValueError (im_stream_refusal (l_type c))), s1))
    /\ (forall input fan_in s v1 s1,
           for_each _build_pose_stream_body pre (input, fan_in) s = (Ok v1, s1) ->
           String.eqb (l_type c) "pc" = false ->
           _build_pose_stream input fan_in (pre ++ (name, c) :: rest) s
           = (Raise (ValueError (pose_stream_refusal (l_type c))), s1))
    /\ (forall input fan_in s v1 s1,
           for_each _build_gripper_stream_body pre (input, fan_in) s = (Ok v1, s1) ->
           String.eqb (l_type c) "gc" = false ->
           _build_gripper_stream input fan_in (pre ++ (name, c) :: rest) s
           = (Raise (ValueError (gripper_stream_refusal (l_type c))), s1))
    /\ (forall in1 in2 f1 f2 drop in3 f3 s v1 s1,
           (exists n0 c0 pre', pre = (n0, c0) :: pre' /\ l_type c0 = "fc_merge") ->
           for_each (_build_merge_stream_body in1 in2 f1 f2 drop in3 f3
                       (Z.of_nat (length (pre ++ (name, c) :: rest)) - 1) 1)
                    (enumerate_from 0 pre) (None, -1) s = (Ok v1, s1) ->
           merge_stream_builds (l_type c) = false ->
           _build_merge_stream in1 in2 f1 f2 drop (pre ++ (name, c) :: rest) in3 f3 s
           = (Raise (ValueError (merge_stream_refusal (l_type c))), s1))
    /\ (forall in1 in2 f1 f2 drop in3 f3 s,
           l_type c <> "fc_merge" ->
           _build_merge_stream in1 in2 f1 f2 drop ((name, c) :: rest) in3 f3 s
           = (Raise (ValueError "First layer in merge stream must be a fc_merge layer"), s))
    /\ (forall in1 in2 f1 f2 drop in3 f3 s,
           _build_merge_stream in1 in2 f1 f2 drop [] in3 f3 s
           = (Raise (IndexError "list index out of range"), s)).
Proof.
  intros pre rest name c.
  split; [|split; [|split; [|split; [|split]]]].
  - intros input h w ch drop s v1 s1 Hpre Hc.
    unfold _build_im_stream. unfold bind at 1, gets at 1. unfold bind at 1.
    erewrite for_each_refused; [reflexivity | exact Hpre | by apply im_body_refuses].
  - intros input fan_in s v1 s1 Hpre Hc. unfold _build_pose_stream.
    eapply for_each_refused; [exact Hpre | by apply pose_body_refuses].
  - intros input fan_in s v1 s1 Hpre Hc. unfold _build_gripper_stream.
    eapply for_each_refused; [exact Hpre | by apply gripper_body_refuses].
  - intros in1 in2 f1 f2 drop in3 f3 s v1 s1 (n0 & c0 & pre' & -> & Hc0) Hpre Hc.
    unfold _build_merge_stream.
    change (((n0, c0) :: pre') ++ (name, c) :: rest)%list
      with ((n0, c0) :: (pre' ++ (name, c) :: rest))%list.
    cbv iota beta. rewrite Hc0. change (negb ("fc_merge" =? "fc_merge")%string) with false.
    cbv iota. unfold bind at 1.
    change ((n0, c0) :: (pre' ++ (name, c) :: rest))%list
      with (((n0, c0) :: pre') ++ (name, c) :: rest)%list.
    rewrite enumerate_from_app. simpl enumerate_from at 2.
    erewrite for_each_refused; [reflexivity | exact Hpre | by apply merge_body_refuses].
  - intros in1 in2 f1 f2 drop in3 f3 s Hc. unfold _build_merge_stream.
    apply String.eqb_neq in Hc. by rewrite Hc.
  - reflexivity.
Qed.

(** The theorem at the image stream [conv1_1, pc1]. *)
Lemma refused_layer_keeps_earlier_weights_witness :
  let built :=
    for_each (_build_im_stream_body Examples.input_drop_rate_node) [("conv1_1", Examples.conv 2)]
             (im_locals_init Examples.input_im_node 32 32 1 (_train_im_width (self Examples.fresh)))
             Examples.fresh in
  built = (Ok Examples.after_conv1_1, snd built)
  /\ im_stream_builds (l_type Examples.pc) = false
  /\ _build_im_stream Examples.input_im_node 32 32 1 Examples.input_drop_rate_node
                      ([("conv1_1", Examples.conv 2)] ++ ("pc1", Examples.pc) :: []) Examples.fresh
     = (Raise (ValueError (im_stream_refusal (l_type Examples.pc))), snd built).
Proof.
  cbv zeta.
  assert (H : for_each (_build_im_stream_body Examples.input_drop_rate_node)
                [("conv1_1", Examples.conv 2)]
                (im_locals_init Examples.input_im_node 32 32 1
                   (_train_im_width (self Examples.fresh)))
                Examples.fresh
              = (Ok Examples.after_conv1_1,
                 snd (for_each (_build_im_stream_body Examples.input_drop_rate_node)
                        [("conv1_1", Examples.conv 2)]
                        (im_locals_init Examples.input_im_node 32 32 1
                           (_train_im_width (self Examples.fresh)))
                        Examples.fresh)))
    by (vm_compute; reflexivity).
  split; [exact H|]. split; [reflexivity|].
  exact (proj1 (refused_layer_keeps_earlier_weights _ [] "pc1" Examples.pc)
           _ _ _ _ _ _ _ _ H eq_refl).
Defined.

(** C5 as stated fails on the image stream [conv1_1, pc1]: the message of
    the error does not contain the name [pc1] of the offending layer, and
    the Weight Store, empty before, has gained the weights of [conv1_1]. *)
Lemma refused_layer_counterexample :
  let r := _build_im_stream Examples.input_im_node 32 32 1 Examples.input_drop_rate_node
                            Examples.im_stream_with_pc Examples.fresh in
  fst r = Raise (ValueError "Cannot have pose-connected layer in image stream")
  /\ occurs_in "pc1" "Cannot have pose-connected layer in image stream" = false
  /\ store_of Examples.fresh = Some ∅
  /\ (store_of (snd r) ≫= (fun d => d !! "conv1_1_weights"))
     = Some (tf_Variable 0 (tf_truncated_normal [3; 3; 1; 4] 9) "conv1_1_weights")
  /\ store_of (snd r) <> store_of Examples.fresh.
Proof.
  cbv zeta.
  assert (H : (store_of (snd (_build_im_stream Examples.input_im_node 32 32 1
                                Examples.input_drop_rate_node Examples.im_stream_with_pc
                                Examples.fresh))
               ≫= (fun d => d !! "conv1_1_weights"))
              = Some (tf_Variable 0 (tf_truncated_normal [3; 3; 1; 4] 9) "conv1_1_weights"))
    by (vm_compute; reflexivity).
  split; [vm_compute; reflexivity|].
  split; [vm_compute; reflexivity|]. split; [reflexivity|].
  split; [exact H|].
  intros E. rewrite E in H. discriminate H.
Qed.

(** C6, amended.  For the convolution, dense (fc), pose (pc), gripper (gc),
    merge (two and three inputs), residual and spatial-transformer layers,
    building a layer whose weight keys are all in the Weight Store returns
    the layer made of the stored tensors and leaves the store unchanged.
    All but the residual block change the state only by registering the
    feature tensor: no variable is created.  The residual block also
    makes its normalization layers, at every build: one when [first],
    two otherwise, each with four new variables of the process that are
    no entries of the store.  The fully-convolutional conversions are
    different: each call creates a variable and stores it under
    ['{}_fully_conv_weights'] (['{}_im_fully_conv_weights'] for a merge
    layer), adding or replacing that entry and no other. *)
Theorem rebuilding_a_layer_reuses_stored_weights :
  forall (s : state) (d : gmap string tensor) (name : string) (x : tensor) (drop : tensor),
    store_of s = Some d ->
    (forall node, store_of (register_feature name node s) = Some d
                  /\ proc (register_feature name node s) = proc s)
    /\ (forall node first,
           let s' := register_feature name node (batch_norms_created first s) in
           store_of s' = Some d
           /\ GQCNNWeights_weights (proc s') = GQCNNWeights_weights (proc s)
           /\ tf_variables (proc s')
              = ((if first then 4 else 8) + tf_variables (proc s))%nat)
    /\ (forall W b h w c ntp ow oh,
           d !! fmt name "_weights" = Some W -> d !! fmt name "_bias" = Some b ->
           _build_spatial_transformer x h w c ntp ow oh name s =
             let theta := tf_add (tf_matmul (tf_zeros (py_list [get_shape_at x 0; py_int (h * w * c)])) W) b in
             let node := transformer x theta (ow, oh) in
             (Ok (node, oh, ow, c), register_feature name node s))
    /\ (forall W b h w c fh fw nf sh sw ps norm,
           d !! fmt name "_weights" = Some W -> d !! fmt name "_bias" = Some b ->
           sh <> 0 -> sw <> 0 ->
           _build_conv_layer x h w c fh fw nf sh sw ps name norm s =
             let convh := _leaky_relu (tf_add (tf_nn_conv2d x W [1; 1; 1; 1] SAME) b) in
             let convh :=
               if norm then
                 tf_nn_local_response_normalization convh
                   (_normalization_radius (self s)) (_normalization_alpha (self s))
                   (_normalization_beta (self s)) (_normalization_bias (self s))
               else convh in
             let node := tf_nn_max_pool convh [1; ps; ps; 1] [1; sh; sw; 1] SAME in
             (Ok (node, h / sh, w / sw, nf), register_feature name node s))
    /\ (forall W b fan_in out_size multi final,
           d !! fmt name "_weights" = Some W -> d !! fmt name "_bias" = Some b ->
           _build_fc_layer x fan_in out_size name multi drop final s =
             let x' := if multi then tf_reshape x (flat_shape x) else x in
             let fc := if final then tf_add (tf_matmul x' W) b
                       else _leaky_relu (tf_add (tf_matmul x' W) b) in
             let node := tf_nn_dropout fc (tf_subtract (py_int 1) drop) in
             (Ok (node, out_size), register_feature name node s))
    /\ (forall W b fan_in out_size,
           d !! fmt name "_weights" = Some W -> d !! fmt name "_bias" = Some b ->
           _build_pc_layer x fan_in out_size name s =
             let node := _leaky_relu (tf_add (tf_matmul x W) b) in
             (Ok (node, out_size), register_feature name node s))
    /\ (forall W b fan_in out_size,
           d !! fmt name "_weights" = Some W -> d !! fmt name "_bias" = Some b ->
           _build_gc_layer x fan_in out_size name s =
             let node := _leaky_relu (tf_add (tf_matmul x W) b) in
             (Ok (node, out_size), register_feature name node s))
    /\ (forall W1 W2 b x2 f1 f2 out_size,
           d !! fmt name "_input_1_weights" = Some W1 ->
           d !! fmt name "_input_2_weights" = Some W2 ->
           d !! fmt name "_bias" = Some b ->
           _build_fc_merge x x2 f1 f2 out_size drop name None None s =
             let fc := _leaky_relu (tf_add (tf_add (tf_matmul x W1) (tf_matmul x2 W2)) b) in
             let node := tf_nn_dropout fc (tf_subtract (py_int 1) drop) in
             (Ok (node, out_size), register_feature name node s))
    /\ (forall W1 W2 W3 b x2 x3 f1 f2 f3 out_size,
           d !! fmt name "_input_1_weights" = Some W1 ->
           d !! fmt name "_input_2_weights" = Some W2 ->
           d !! fmt name "_input_3_weights" = Some W3 ->
           d !! fmt name "_bias" = Some b ->
           _build_fc_merge x x2 f1 f2 out_size drop name (Some x3) f3 s =
             let fc := _leaky_relu (tf_add (tf_add (tf_add (tf_matmul x W1) (tf_matmul x2 W2))
                                                   (tf_matmul x3 W3)) b) in
             let node := tf_nn_dropout fc (tf_subtract (py_int 1) drop) in
             (Ok (node, out_size), register_feature name node s))
    /\ (forall W1 b1 W2 b2 c fan_in nf fh fw first,
           d !! fmt name "_conv1_weights" = Some W1 -> d !! fmt name "_conv1_bias" = Some b1 ->
           d !! fmt name "_conv2_weights" = Some W2 -> d !! fmt name "_conv2_bias" = Some b2 ->
           _build_residual_layer x c fan_in nf fh fw drop name first s =
             let node := spec_residual_output first (residual_bn drop) _leaky_relu
                           (residual_conv W1 b1) (residual_conv W2 b2) x in
             (Ok (node, nf), register_feature name node (batch_norms_created first s)))
    /\ (forall fcW fcb fd,
           d !! fmt name "_weights" = Some fcW -> d !! fmt name "_bias" = Some fcb ->
           exists node s',
             _build_fully_conv_layer x fd name s = (Ok node, s')
             /\ store_of s' =
                  Some (<[fmt name "_fully_conv_weights" :=
                            tf_Variable (tf_variables (proc s)) (fully_conv_kernel fcW fd)
                                        (fmt name "_fully_conv_weights")]> d)
             /\ tf_variables (proc s') = S (tf_variables (proc s)))
    /\ (forall W1 W2 b x2 fd,
           d !! fmt name "_input_1_weights" = Some W1 ->
           d !! fmt name "_input_2_weights" = Some W2 ->
           d !! fmt name "_bias" = Some b ->
           exists node s',
             _build_fully_conv_merge_layer x x2 fd name s = (Ok node, s')
             /\ store_of s' =
                  Some (<[fmt name "_im_fully_conv_weights" :=
                            tf_Variable (tf_variables (proc s)) (fully_conv_kernel W1 fd)
                                        (fmt name "_im_fully_conv_weights")]> d)
             /\ tf_variables (proc s') = S (tf_variables (proc s))).
Proof.
  intros s d name x drop H.
  split; [intros node; split; [by rewrite store_of_register_feature | reflexivity]|].
  split.
  { intros node first s'. subst s'. rewrite store_of_register_feature.
    destruct first; (split; [exact H|]); split; reflexivity. }
  split; [intros; by eapply spatial_transformer_reuse|].
  split; [intros; by eapply conv_layer_reuse|].
  split; [intros; by eapply fc_layer_reuse|].
  split; [intros; by eapply pc_layer_reuse|].
  split; [intros; by eapply gc_layer_reuse|].
  split; [intros; by eapply fc_merge_reuse_2|].
  split; [intros; by eapply fc_merge_reuse_3|].
  split.
  { intros W1 b1 W2 b2 c fan_in nf fh fw first H1 H2 H3 H4.
    rewrite (residual_layer_reuse _ _ _ _ _ _ _ _ _ _ _ _ _ _ _ H H1 H2 H3 H4).
    by destruct first. }
  split; [intros; by eapply fully_conv_layer_store|].
  intros; by eapply fully_conv_merge_layer_store.
Qed.

(** The theorem at the store that holds [fc3]: building [fc3] again gives
    the layer of the stored tensors. *)
Lemma rebuilding_a_layer_reuses_stored_weights_witness :
  let d := GQCNNWeights_weights (proc Examples.after_fc3) in
  let W := tf_Variable 0 (tf_truncated_normal [8; 4] 8) "fc3_weights" in
  let b := tf_Variable 1 (tf_truncated_normal [4] 8) "fc3_bias" in
  store_of Examples.after_fc3 = Some d
  /\ d !! fmt "fc3" "_weights" = Some W /\ d !! fmt "fc3" "_bias" = Some b
  /\ _build_fc_layer Examples.input_im_node 8 4 "fc3" false Examples.input_drop_rate_node
                     false Examples.after_fc3
     = (let x' := if false then tf_reshape Examples.input_im_node
                                           (flat_shape Examples.input_im_node)
                  else Examples.input_im_node in
        let fc := if false then tf_add (tf_matmul x' W) b
                  else _leaky_relu (tf_add (tf_matmul x' W) b) in
        let node := tf_nn_dropout fc (tf_subtract (py_int 1) Examples.input_drop_rate_node) in
        (Ok (node, 4), register_feature "fc3" node Examples.after_fc3)).
Proof.
  intros d W b.
  assert (H : store_of Examples.after_fc3 = Some d) by (vm_compute; reflexivity).
  assert (HW : d !! fmt "fc3" "_weights" = Some W) by (vm_compute; reflexivity).
  assert (Hb : d !! fmt "fc3" "_bias" = Some b) by (vm_compute; reflexivity).
  split; [exact H|]. split; [exact HW|]. split; [exact Hb|].
  exact (proj1 (proj2 (proj2 (proj2 (proj2
           (rebuilding_a_layer_reuses_stored_weights Examples.after_fc3 d "fc3" Examples.input_im_node
              Examples.input_drop_rate_node H)))))
           W b 8 4 false false HW Hb).
Defined.

(** C6 as stated fails on the fully-convolutional conversion: with the keys
    [fc3_weights], [fc3_bias] and [fc3_fully_conv_weights] all in the store,
    converting [fc3] again succeeds and replaces the entry
    [fc3_fully_conv_weights] by a new variable. *)
Lemma rebuilding_fully_conv_layer_counterexample :
  let s2 := snd (_build_fully_conv_layer Examples.input_im_node 1 "fc3" Examples.after_fc3) in
  let r := _build_fully_conv_layer Examples.input_im_node 1 "fc3" s2 in
  let W := tf_Variable 0 (tf_truncated_normal [8; 4] 8) "fc3_weights" in
  let look (s : state) (key : string) := store_of s ≫= (fun d => d !! key) in
  look s2 "fc3_weights" = Some W
  /\ look s2 "fc3_bias" = Some (tf_Variable 1 (tf_truncated_normal [4] 8) "fc3_bias")
  /\ look s2 "fc3_fully_conv_weights"
     = Some (tf_Variable 2 (fully_conv_kernel W 1) "fc3_fully_conv_weights")
  /\ (exists node, fst r = Ok node)
  /\ look (snd r) "fc3_fully_conv_weights"
     = Some (tf_Variable 3 (fully_conv_kernel W 1) "fc3_fully_conv_weights")
  /\ store_of (snd r) <> store_of s2.
Proof.
  intros s2 r W look.
  assert (H2 : look s2 "fc3_fully_conv_weights"
               = Some (tf_Variable 2 (fully_conv_kernel W 1) "fc3_fully_conv_weights"))
    by (vm_compute; reflexivity).
  assert (H3 : look (snd r) "fc3_fully_conv_weights"
               = Some (tf_Variable 3 (fully_conv_kernel W 1) "fc3_fully_conv_weights"))
    by (vm_compute; reflexivity).
  split; [vm_compute; reflexivity|]. split; [vm_compute; reflexivity|].
  split; [exact H2|].
  split; [destruct (fst r) as [node| |] eqn:E;
          [by exists node | vm_compute in E; discriminate E | vm_compute in E; discriminate E]|].
  split; [exact H3|].
  intros E. unfold look in H2, H3. rewrite E, H2 in H3. discriminate H3.
Qed.

(** C7: the claim is right about the tensor (max-pooling with SAME padding
    gives [ceil(h / s)] rows) and the code records something else.  For a
    5 x 5 input and pool stride 2, [_build_conv_layer] records an output of
    2 x 2, the floor of 5 / 2 that Python 2 computes for [input_height /
    pool_stride_h], where [ceil(5 / 2)] is 3; the dense layer built next
    gets the fan-in 2 * 2 * 4 = 16 instead of 3 * 3 * 4 = 36. *)
Theorem conv_layer_records_floor_not_ceil :
  (exists node s',
      _build_conv_layer Examples.input_im_node 5 5 1 3 3 4 2 2 2 "conv1_1" false Examples.fresh
      = (Ok (node, 2, 2, 4), s'))
  /\ ceil_div 5 2 = 3
  /\ (store_of (snd (_build_im_stream Examples.input_im_node 5 5 1 Examples.input_drop_rate_node
                                      Examples.im_stream_conv_fc Examples.fresh))
      ≫= (fun d => d !! "fc3_weights"))
     = Some (tf_Variable 2 (tf_truncated_normal [16; 8] 16) "fc3_weights").
Proof.
  split; [|split].
  - destruct (_build_conv_layer Examples.input_im_node 5 5 1 3 3 4 2 2 2 "conv1_1" false
                                Examples.fresh) as [[[[[node oh] ow] oc]| |] s'] eqn:E.
    + destruct (conv_layer_out_size _ _ _ _ _ _ _ _ _ _ _ _ _ _ _ _ _ _ E) as [-> ->].
      assert (oc = 4).
      { apply (f_equal (fun r => match fst r with Ok (_, _, _, c) => c | _ => 0 end)) in E.
        vm_compute in E. congruence. }
      subst. by exists node, s'.
    + apply (f_equal fst) in E. vm_compute in E. discriminate E.
    + apply (f_equal fst) in E. vm_compute in E. discriminate E.
  - reflexivity.
  - vm_compute. reflexivity.
Qed.

(** ** Residual blocks in the image stream *)

Lemma cfg_ok c key s z s' : cfg c key s = (Ok z, s') -> s' = s.
Proof.
  unfold cfg, getitem. destruct (l_params c !! key); [|discriminate].
  by intros [= _ <-].
Qed.

Lemma residual_body_node drop v1 name c s1 v2 s2 :
  l_type c = "residual" ->
  _build_im_stream_body drop v1 (name, c) s1 = (Ok v2, s2) ->
  exists d' W1 b1 W2 b2,
    store_of s2 = Some d'
    /\ d' !! fmt name "_conv1_weights" = Some W1 /\ d' !! fmt name "_conv1_bias" = Some b1
    /\ d' !! fmt name "_conv2_weights" = Some W2 /\ d' !! fmt name "_conv2_bias" = Some b2
    /\ im_output_node v2
       = spec_residual_output (im_first_residual v1) (residual_bn drop) _leaky_relu
           (residual_conv W1 b1) (residual_conv W2 b2) (im_output_node v1).
Proof.
  intros Hty. unfold _build_im_stream_body. rewrite Hty.
  change (String.eqb "residual" "spatial_transformer") with false.
  change (String.eqb "residual" "conv") with false.
  change (String.eqb "residual" "fc") with false.
  change (String.eqb "residual" "pc") with false.
  change (String.eqb "residual" "fc_merge") with false.
  change (String.eqb "residual" "residual") with true.
  cbv iota.
  unfold bind at 1. destruct (cfg c "num_filt" s1) as [[nf| |] sa] eqn:E1; try discriminate.
  apply cfg_ok in E1 as ->.
  unfold bind at 1. destruct (cfg c "filt_dim" s1) as [[fd| |] sa] eqn:E2; try discriminate.
  apply cfg_ok in E2 as ->.
  unfold bind at 1.
  destruct (_build_residual_layer _ _ _ _ _ _ _ _ _ s1) as [[[node ch]| |] sa] eqn:E3;
    try discriminate.
  apply residual_layer_node in E3 as (d' & W1 & b1 & W2 & b2 & Hs & H1 & H2 & H3 & H4 & Hr).
  unfold ret. intros [= <- <-]. injection Hr as -> ->.
  exists d', W1, b1, W2, b2. by repeat split.
Qed.

(** C8, amended.  A residual block built with [first=True] outputs
    [input + conv2(activation(bn(conv1(input))))] and one built with
    [first=False] outputs
    [input + conv2(activation(bn(conv1(activation(bn(input))))))], with the
    convolutions of the block's stored weights.  In the image stream the
    leading normalization and activation are skipped by every residual
    block that opens the stream or follows a layer that is not a residual
    block (a convolution, a dense layer, a spatial transformer), not by the
    first residual block of the stream only; a residual block that follows
    a residual block applies them. *)
Theorem residual_block_output :
  (forall s input c fan_in nf fh fw drop name first r s',
      _build_residual_layer input c fan_in nf fh fw drop name first s = (Ok r, s') ->
      exists d' W1 b1 W2 b2,
        store_of s' = Some d'
        /\ d' !! fmt name "_conv1_weights" = Some W1 /\ d' !! fmt name "_conv1_bias" = Some b1
        /\ d' !! fmt name "_conv2_weights" = Some W2 /\ d' !! fmt name "_conv2_bias" = Some b2
        /\ r = (spec_residual_output first (residual_bn drop) _leaky_relu
                  (residual_conv W1 b1) (residual_conv W2 b2) input, nf))
  /\ (forall drop pre input h w ch tw s v1 s1 name c v2 s2,
         for_each (_build_im_stream_body drop) pre (im_locals_init input h w ch tw) s
         = (Ok v1, s1) ->
         l_type c = "residual" ->
         _build_im_stream_body drop v1 (name, c) s1 = (Ok v2, s2) ->
         exists d' W1 b1 W2 b2,
           store_of s2 = Some d'
           /\ d' !! fmt name "_conv1_weights" = Some W1 /\ d' !! fmt name "_conv1_bias" = Some b1
           /\ d' !! fmt name "_conv2_weights" = Some W2 /\ d' !! fmt name "_conv2_bias" = Some b2
           /\ im_output_node v2
              = spec_residual_output (negb (ends_with_residual pre)) (residual_bn drop)
                  _leaky_relu (residual_conv W1 b1) (residual_conv W2 b2) (im_output_node v1)).
Proof.
  split.
  - intros. by eapply residual_layer_node.
  - intros drop pre input h w ch tw s v1 s1 name c v2 s2 Hpre Hty Hbody.
    destruct (residual_body_node _ _ _ _ _ _ _ Hty Hbody)
      as (d' & W1 & b1 & W2 & b2 & Hs & H1 & H2 & H3 & H4 & Hr).
    exists d', W1, b1, W2, b2. repeat split; try assumption.
    rewrite Hr. f_equal.
    rewrite (im_loop_first_residual _ _ _ _ _ _ Hpre).
    by destruct pre.
Qed.

(** The theorem at the image stream [conv1_1, res1]: the residual block
    follows a convolution and is built without the leading normalization
    and activation. *)
Lemma residual_block_output_witness :
  let drop := Examples.input_drop_rate_node in
  let pre := [("conv1_1", Examples.conv 2)] in
  let built := for_each (_build_im_stream_body drop) pre
                        (im_locals_init Examples.input_im_node 32 32 1 32) Examples.fresh in
  let step := _build_im_stream_body drop Examples.after_conv1_1 ("res1", Examples.residual)
                                    (snd built) in
  let v2 := match fst step with Ok v => v | _ => Examples.after_conv1_1 end in
  built = (Ok Examples.after_conv1_1, snd built)
  /\ l_type Examples.residual = "residual"
  /\ step = (Ok v2, snd step)
  /\ exists d' W1 b1 W2 b2,
       store_of (snd step) = Some d'
       /\ d' !! fmt "res1" "_conv1_weights" = Some W1 /\ d' !! fmt "res1" "_conv1_bias" = Some b1
       /\ d' !! fmt "res1" "_conv2_weights" = Some W2 /\ d' !! fmt "res1" "_conv2_bias" = Some b2
       /\ im_output_node v2
          = spec_residual_output (negb (ends_with_residual pre)) (residual_bn drop)
              _leaky_relu (residual_conv W1 b1) (residual_conv W2 b2)
              (im_output_node Examples.after_conv1_1).
Proof.
  intros drop pre built step v2.
  assert (H1 : built = (Ok Examples.after_conv1_1, snd built)) by (vm_compute; reflexivity).
  assert (H3 : step = (Ok v2, snd step)) by (vm_compute; reflexivity).
  split; [exact H1|]. split; [reflexivity|]. split; [exact H3|].
  exact (proj2 residual_block_output drop pre Examples.input_im_node 32 32 1 32
           Examples.fresh Examples.after_conv1_1 (snd built) "res1" Examples.residual
           v2 (snd step) H1 eq_refl H3).
Defined.

(** C8 as stated fails on the image stream [res1, conv1, res2]: [res2] is
    not the first residual block of the stream, and it is built in the
    form of a first block, its first convolution applied to the input [x]
    of the block and not to [activation(bn(x))]. *)
Lemma later_residual_block_counterexample :
  let drop := Examples.input_drop_rate_node in
  let built := for_each (_build_im_stream_body drop)
                        [("res1", Examples.residual); ("conv1", Examples.conv 1)]
                        (im_locals_init Examples.input_im_node 32 32 1 32) Examples.fresh in
  let x := match fst built with Ok v => im_output_node v | _ => Examples.input_im_node end in
  let r := _build_im_stream Examples.input_im_node 32 32 1 drop
                            Examples.im_stream_res_conv_res Examples.fresh in
  let conv1 := residual_conv (tf_Variable 10 (tf_truncated_normal [3; 3; 4; 4] 4096) "res2_conv1_weights")
                             (tf_Variable 11 (tf_truncated_normal [4] 4096) "res2_conv1_bias") in
  let conv2 := residual_conv (tf_Variable 12 (tf_truncated_normal [3; 3; 4; 4] 4096) "res2_conv2_weights")
                             (tf_Variable 13 (tf_truncated_normal [4] 4096) "res2_conv2_bias") in
  (exists v, fst built = Ok v /\ im_first_residual v = true)
  /\ _feature_tensors (self (snd r)) !! "res2"
     = Some (spec_residual_output true (residual_bn drop) _leaky_relu conv1 conv2 x)
  /\ spec_residual_output true (residual_bn drop) _leaky_relu conv1 conv2 x
     <> spec_residual_output false (residual_bn drop) _leaky_relu conv1 conv2 x.
Proof.
  intros drop built x r conv1 conv2.
  split; [|split].
  - assert (Hc : match fst built with Ok v => im_first_residual v | _ => false end = true)
      by (vm_compute; reflexivity).
    destruct (fst built) as [v| |]; [by exists v | discriminate Hc | discriminate Hc].
  - vm_compute. reflexivity.
  - assert (Hx : match x with tf_nn_max_pool _ _ _ _ => true | _ => false end = true)
      by (vm_compute; reflexivity).
    clearbody x. clear built r. unfold spec_residual_output, conv1, residual_conv.
    intros E. injection E as E.
    destruct x; try discriminate Hx; discriminate E.
Qed.

(** ** One store for every network *)


Lemma class_level_store s : class_level s -> store_of s = Some (GQCNNWeights_weights (proc s)).
Proof. unfold class_level, store_of. by intros ->. Qed.

Lemma weights_setitem_class_level key v s :
  class_level s ->
  weights_setitem key v s
  = (Ok tt, {| self := self s;
               proc := {| GQCNNWeights_weights := <[key := v]> (GQCNNWeights_weights (proc s));
                          tf_variables := tf_variables (proc s) |} |}).
Proof. unfold class_level, weights_setitem. by intros ->. Qed.

Lemma weights_getitem_state key s r s' : weights_getitem key s = (r, s') -> s' = s.
Proof.
  unfold weights_getitem, bind, weights_dict, getitem, ret, raise.
  destruct (w__dict__ (_weights (self s)) !! "weights") as [[t|d]|];
    repeat case_match; by intros [= _ <-].
Qed.

Lemma fc_layer_keeps_weights_object x fan_in out_size name multi drop final s r s' :
  class_level s ->
  _build_fc_layer x fan_in out_size name multi drop final s = (r, s') ->
  _weights (self s') = _weights (self s).
Proof.
  intros Hc. pose proof (class_level_store _ Hc) as Hs.
  unfold _build_fc_layer. unfold bind at 1.
  rewrite (weights_contains_store _ _ _ Hs).
  destruct (bool_decide _).
  - unfold bind at 1. unfold bind at 1.
    destruct (weights_getitem _ s) as [[W| |] sa] eqn:E1.
    2,3: apply weights_getitem_state in E1 as ->; by intros [= _ <-].
    apply weights_getitem_ok in E1 as [-> _].
    unfold bind at 1.
    destruct (weights_getitem _ s) as [[b| |] sa] eqn:E2.
    2,3: apply weights_getitem_state in E2 as ->; by intros [= _ <-].
    apply weights_getitem_ok in E2 as [-> _].
    unfold ret, bind, feature_setitem, modify. by intros [= _ <-].
  - unfold bind at 1. unfold bind at 1. unfold np_sqrt_2_over.
    destruct (fan_in =? 0)%Z; [unfold raise; by intros [= _ <-]|]. unfold ret at 1.
    unfold bind at 1. rewrite new_Variable_run.
    set (s1 := snd (new_Variable _ _ s)).
    assert (H1 : class_level s1 /\ _weights (self s1) = _weights (self s)) by (by split).
    clearbody s1. destruct H1 as [Hc1 Hw1].
    unfold bind at 1.
    assert (exists i n, (if final
                         then new_Variable (tf_constant 0 [out_size]) (fmt name "_bias")
                         else new_Variable (tf_truncated_normal [out_size] fan_in) (fmt name "_bias"))
                        = new_Variable i n) as (i & n & ->)
      by (destruct final; eauto).
    rewrite new_Variable_run.
    set (s2 := snd (new_Variable _ _ s1)).
    assert (H2 : class_level s2 /\ _weights (self s2) = _weights (self s)) by (by split).
    clearbody s2. destruct H2 as [Hc2 Hw2].
    unfold bind at 1. rewrite (weights_setitem_class_level _ _ _ Hc2).
    unfold bind at 1. rewrite weights_setitem_class_level by exact Hc2.
    unfold ret, bind, feature_setitem, modify. by intros [= _ <-].
Qed.

Lemma fc_layer_node x fan_in out_size name multi drop final s r s' :
  _build_fc_layer x fan_in out_size name multi drop final s = (Ok r, s') ->
  exists d' W b,
    store_of s' = Some d'
    /\ d' !! fmt name "_weights" = Some W /\ d' !! fmt name "_bias" = Some b
    /\ r = (tf_nn_dropout
              (let x' := if multi then tf_reshape x (flat_shape x) else x in
               if final then tf_add (tf_matmul x' W) b
               else _leaky_relu (tf_add (tf_matmul x' W) b))
              (tf_subtract (py_int 1) drop), out_size).
Proof.
  destruct (store_of s) as [d|] eqn:Hs.
  2:{ unfold _build_fc_layer, bind.
      destruct (weights_contains_no_store s (fmt name "_weights") Hs) as [e ->].
      discriminate. }
  destruct (d !! fmt name "_weights") as [W|] eqn:H1.
  - unfold _build_fc_layer. unfold bind at 1.
    rewrite (weights_contains_true _ _ _ _ Hs H1).
    unfold bind at 1. unfold bind at 1.
    rewrite (weights_getitem_store _ _ _ _ Hs H1).
    unfold bind at 1.
    destruct (weights_getitem (fmt name "_bias") s) as [[b| |] sa] eqn:E1; try discriminate.
    apply weights_getitem_ok in E1 as (-> & d1 & Hd1 & H2). simplify_eq.
    unfold ret, bind, feature_setitem, modify. intros [= <- <-].
    exists d, W, b. rewrite store_of_register_feature. by repeat split.
  - unfold _build_fc_layer. unfold bind at 1.
    rewrite (weights_contains_false _ _ _ Hs H1).
    unfold bind at 1. unfold bind at 1. unfold np_sqrt_2_over.
    destruct (fan_in =? 0)%Z; [discriminate|]. unfold ret at 1.
    new_var Hs W s1 Hs1.
    assert (exists i n, (if final
                         then new_Variable (tf_constant 0 [out_size]) (fmt name "_bias")
                         else new_Variable (tf_truncated_normal [out_size] fan_in) (fmt name "_bias"))
                        = new_Variable i (fmt name "_bias")) as (i & n & ->)
      by (destruct final; eauto).
    new_var Hs1 b s2 Hs2.
    set_item Hs2 s3 Hs3. set_item Hs3 s4 Hs4.
    unfold ret, bind, feature_setitem, modify. intros [= <- <-].
    eexists _, W, b. rewrite store_of_register_feature.
    split; [exact Hs4|]. repeat split.
    + rewrite lookup_insert_ne by (apply fmt_ne; discriminate). apply lookup_insert_eq.
    + apply lookup_insert_eq.
Qed.




(* ===================================================================== *)
(** * Properties of the localisation network *)
(* ===================================================================== *)

Module DenseFacts.
Import Dense.

Local Abbreviation zero := (Q2Qc 0).

Lemma vscale_zero (r : list Qc) : vscale zero r = repeat zero (length r).
Proof.
  unfold vscale. induction r as [|q r IH]; simpl; [done|].
  rewrite IH. f_equal. apply Qcmult_0_l.
Qed.

Lemma vadd_zeros_l (v : list Qc) : vadd (repeat zero (length v)) v = v.
Proof.
  unfold vadd. induction v as [|q v IH]; simpl; [done|].
  rewrite IH. f_equal. apply Qcplus_0_l.
Qed.

Lemma vadd_zeros (k : nat) : vadd (repeat zero k) (repeat zero k) = repeat zero k.
Proof.
  pose proof (vadd_zeros_l (repeat zero k)) as H. by rewrite repeat_length in H.
Qed.

(** A row of zeros times any matrix of [k] columns is the zero row. *)
Lemma row_times_zeros (k : nat) (B : list (list Qc)) :
  Forall (fun row => length row = k) B ->
  row_times k B (repeat zero (length B)) = repeat zero k.
Proof.
  unfold row_times. induction 1 as [|row B Hrow HB IH]; simpl; [done|].
  rewrite IH, vscale_zero, Hrow. apply vadd_zeros.
Qed.

Lemma forallb_repeat {A} (f : A -> bool) (x : A) (n : nat) :
  f x = true -> forallb f (repeat x n) = true.
Proof. intros H. induction n; simpl; [done|]. by rewrite H. Qed.

Lemma forallb_lengths (k : nat) (B : list (list Qc)) :
  Forall (fun row => length row = k) B ->
  forallb (fun r => (length r =? k)%nat) B = true.
Proof.
  induction 1 as [|row B Hrow HB IH]; simpl; [done|].
  rewrite IH, andb_true_r. by apply Nat.eqb_eq.
Qed.

Lemma matmul_zeros (m k : nat) (B : list (list Qc)) :
  B <> [] ->
  Forall (fun row => length row = k) B ->
  matmul (repeat (repeat zero (length B)) m) B = Some (repeat (repeat zero k) m).
Proof.
  intros Hne HB. unfold matmul.
  assert (Hk : length (hd [] B) = k).
  { destruct B as [|row B]; [done|]. simpl. by inversion HB. }
  rewrite Hk.
  rewrite forallb_repeat by (rewrite repeat_length; apply Nat.eqb_refl).
  rewrite (forallb_lengths _ _ HB). simpl.
  f_equal. induction m as [|m IH]; simpl; [done|].
  rewrite IH. f_equal. by apply row_times_zeros.
Qed.

(** What the localisation network computes: the bias, on every row. *)
Lemma eval_zeros_dense e x n W b xv Wv bv :
  eval e x = Some (VMat xv) ->
  eval e W = Some (VMat Wv) ->
  eval e b = Some (VVec bv) ->
  Wv <> [] -> length Wv = Z.to_nat n ->
  Forall (fun row => length row = length bv) Wv ->
  eval e (tf_add (tf_matmul (tf_zeros (py_list [get_shape_at x 0; py_int n])) W) b)
  = Some (VMat (repeat bv (length xv))).
Proof.
  intros Hx HW Hb Hne Hn Hrows. simpl. rewrite Hx, HW, Hb. rewrite <- Hn.
  rewrite (matmul_zeros _ _ _ Hne Hrows). simpl.
  rewrite forallb_repeat by (rewrite repeat_length; apply Nat.eqb_refl).
  f_equal. f_equal. induction (length xv) as [|m IH]; simpl; [done|].
  rewrite IH. f_equal. apply vadd_zeros_l.
Qed.

Lemma row_eqb_refl u : row_eqb u u = true.
Proof.
  unfold row_eqb. rewrite Nat.eqb_refl. simpl.
  induction u as [|q u IH]; simpl; [done|].
  rewrite IH, andb_true_r. apply Qeq_bool_iff. reflexivity.
Qed.

Lemma value_eqb_refl v : value_eqb v v = true.
Proof.
  destruct v as [rows|u]; simpl; [|apply row_eqb_refl].
  rewrite Nat.eqb_refl. simpl.
  induction rows as [|r rows IH]; simpl; [done|].
  by rewrite row_eqb_refl, IH.
Qed.

Lemma value_eqb_false_ne (a b : option value) :
  match a, b with
  | Some x, Some y => negb (value_eqb x y)
  | _, _ => false
  end = true ->
  a <> b.
Proof.
  destruct a as [x|], b as [y|]; try discriminate.
  intros H [= ->]. by rewrite value_eqb_refl in H.
Qed.

End DenseFacts.

Lemma spatial_transformer_node s x h w c ntp ow oh name r s' :
  _build_spatial_transformer x h w c ntp ow oh name s = (Ok r, s') ->
  exists d' W b,
    store_of s' = Some d'
    /\ d' !! fmt name "_weights" = Some W /\ d' !! fmt name "_bias" = Some b
    /\ r = (transformer x
              (tf_add (tf_matmul (tf_zeros (py_list [get_shape_at x 0; py_int (h * w * c)])) W) b)
              (ow, oh), oh, ow, c)
    /\ (forall d, store_of s = Some d -> d !! fmt name "_weights" = None ->
          exists u1 u2,
            W = tf_Variable u1 (tf_zeros (py_list [py_int (h * w * c); py_int ntp]))
                            (fmt name "_weights")
            /\ b = tf_Variable u2 (np_array [1 # 2; 0; 0; 0; 1 # 2; 0]%Q) (fmt name "_bias")).
Proof.
  destruct (store_of s) as [d|] eqn:Hs.
  2:{ unfold _build_spatial_transformer, bind.
      destruct (weights_contains_no_store s (fmt name "_weights") Hs) as [e ->].
      discriminate. }
  destruct (d !! fmt name "_weights") as [W|] eqn:H1.
  - unfold _build_spatial_transformer. unfold bind at 1.
    rewrite (weights_contains_true _ _ _ _ Hs H1).
    unfold bind at 1. unfold bind at 1.
    rewrite (weights_getitem_store _ _ _ _ Hs H1).
    unfold bind at 1.
    destruct (weights_getitem (fmt name "_bias") s) as [[b| |] sa] eqn:E1; try discriminate.
    apply weights_getitem_ok in E1 as (-> & d1 & Hd1 & H2). simplify_eq.
    unfold ret, bind, feature_setitem, modify. intros [= <- <-].
    exists d, W, b. rewrite store_of_register_feature. repeat split; try assumption.
    intros d0 [= <-] Hnone. congruence.
  - unfold _build_spatial_transformer. unfold bind at 1.
    rewrite (weights_contains_false _ _ _ Hs H1).
    unfold bind at 1.
    new_var Hs W s1 Hs1. new_var Hs1 b s2 Hs2.
    set_item Hs2 s3 Hs3. set_item Hs3 s4 Hs4.
    unfold ret, bind, feature_setitem, modify. intros [= <- <-].
    eexists _, W, b. rewrite store_of_register_feature.
    split; [exact Hs4|]. repeat split.
    + rewrite lookup_insert_ne by (apply fmt_ne; discriminate). apply lookup_insert_eq.
    + apply lookup_insert_eq.
    + intros _ _ _. by eexists _, _.
Qed.

(** C2, amended.  The affine parameters a spatial-transformer layer feeds
    to the sampling primitive are [tf.zeros([batch, h * w * c]) . W + b]:
    a dense layer applied to a tensor of zeros of the shape of the
    flattened input, not to the input.  Whatever the image and the weight
    matrix, every row of the parameters is the bias.  When the layer is
    new to the Weight Store the weights start as zeros and the bias as
    the transform [[0.5, 0, 0], [0, 0.5, 0]]. *)
Theorem localisation_network_feeds_the_bias :
  forall s x h w c ntp ow oh name r s',
    _build_spatial_transformer x h w c ntp ow oh name s = (Ok r, s') ->
    exists d' W b,
      store_of s' = Some d'
      /\ d' !! fmt name "_weights" = Some W /\ d' !! fmt name "_bias" = Some b
      /\ r = (transformer x
                (tf_add (tf_matmul (tf_zeros (py_list [get_shape_at x 0; py_int (h * w * c)])) W) b)
                (ow, oh), oh, ow, c)
      /\ (forall d, store_of s = Some d -> d !! fmt name "_weights" = None ->
            exists u1 u2,
              W = tf_Variable u1 (tf_zeros (py_list [py_int (h * w * c); py_int ntp]))
                              (fmt name "_weights")
              /\ b = tf_Variable u2 (np_array [1 # 2; 0; 0; 0; 1 # 2; 0]%Q) (fmt name "_bias"))
      /\ (forall e xv Wv bv,
            Dense.eval e x = Some (Dense.VMat xv) ->
            Dense.eval e W = Some (Dense.VMat Wv) ->
            Dense.eval e b = Some (Dense.VVec bv) ->
            Wv <> [] -> length Wv = Z.to_nat (h * w * c) ->
            Forall (fun row => length row = length bv) Wv ->
            Dense.eval e
              (tf_add (tf_matmul (tf_zeros (py_list [get_shape_at x 0; py_int (h * w * c)])) W) b)
            = Some (Dense.VMat (repeat bv (length xv)))).
Proof.
  intros s x h w c ntp ow oh name r s' E.
  destruct (spatial_transformer_node _ _ _ _ _ _ _ _ _ _ _ E)
    as (d' & W & b & Hs & HW & Hb & Hr & Hinit).
  exists d', W, b. repeat split; try assumption.
  intros e xv Wv bv. apply DenseFacts.eval_zeros_dense.
Qed.

(** The theorem at the layer [st] of the loaded checkpoint, on a 1 x 1
    image of one channel. *)
Lemma localisation_network_feeds_the_bias_witness :
  let x := Examples.input_im_node in
  let theta := tf_add (tf_matmul (tf_zeros (py_list [get_shape_at x 0; py_int (1 * 1 * 1)]))
                                 Examples.st_weights) Examples.st_bias in
  let built := _build_spatial_transformer x 1 1 1 6 1 1 "st" Examples.loaded_st in
  built = (Ok (transformer x theta (1, 1), 1, 1, 1), snd built)
  /\ exists d' W b,
       store_of (snd built) = Some d'
       /\ d' !! fmt "st" "_weights" = Some W /\ d' !! fmt "st" "_bias" = Some b
       /\ (transformer x theta (1, 1), 1, 1, 1)
          = (transformer x
               (tf_add (tf_matmul (tf_zeros (py_list [get_shape_at x 0; py_int (1 * 1 * 1)])) W) b)
               (1, 1), 1, 1, 1).
Proof.
  intros x theta built.
  assert (H : built = (Ok (transformer x theta (1, 1), 1, 1, 1), snd built))
    by (vm_compute; reflexivity).
  split; [exact H|].
  destruct (localisation_network_feeds_the_bias Examples.loaded_st x 1 1 1 6 1 1 "st" _ _ H)
    as (d' & W & b & Hs & HW & Hb & Hr & _).
  exists d', W, b. by repeat split.
Defined.

(** C2 as stated fails for a layer whose weights were loaded: with the
    weight matrix [1 0 0 0 0 0] and the bias [0.5 0 0 0 0.5 0], on one
    image of one pixel of value 1, the parameters the layer feeds to the
    sampling primitive are [0.5 0 0 0 0.5 0], where the flattened input
    times the weights plus the bias is [1.5 0 0 0 0.5 0]. *)
Lemma localisation_network_counterexample :
  let x := Examples.input_im_node in
  let W := Examples.st_weights in
  let b := Examples.st_bias in
  let theta := tf_add (tf_matmul (tf_zeros (py_list [get_shape_at x 0; py_int (1 * 1 * 1)])) W) b in
  fst (_build_spatial_transformer x 1 1 1 6 1 1 "st" Examples.loaded_st)
  = Ok (transformer x theta (1, 1), 1, 1, 1)
  /\ (exists v, Dense.eval Examples.st_run theta = Some v
                /\ Dense.value_eqb v (Dense.VMat [map Q2Qc [1 # 2; 0; 0; 0; 1 # 2; 0]%Q]) = true)
  /\ (exists v, Dense.eval Examples.st_run (Dense.dense_over_flattened_input x (1 * 1 * 1) W b)
                = Some v
                /\ Dense.value_eqb v (Dense.VMat [map Q2Qc [3 # 2; 0; 0; 0; 1 # 2; 0]%Q]) = true)
  /\ Dense.eval Examples.st_run theta
     <> Dense.eval Examples.st_run (Dense.dense_over_flattened_input x (1 * 1 * 1) W b).
Proof.
  intros x W b theta.
  split; [vm_compute; reflexivity|].
  split; [|split].
  - assert (H : match Dense.eval Examples.st_run theta with
                | Some v => Dense.value_eqb v (Dense.VMat [map Q2Qc [1 # 2; 0; 0; 0; 1 # 2; 0]%Q])
                | None => false
                end = true) by (vm_compute; reflexivity).
    destruct (Dense.eval Examples.st_run theta) as [v|]; [by exists v | discriminate H].
  - assert (H : match Dense.eval Examples.st_run
                        (Dense.dense_over_flattened_input x (1 * 1 * 1) W b) with
                | Some v => Dense.value_eqb v (Dense.VMat [map Q2Qc [3 # 2; 0; 0; 0; 1 # 2; 0]%Q])
                | None => false
                end = true) by (vm_compute; reflexivity).
    destruct (Dense.eval Examples.st_run (Dense.dense_over_flattened_input x (1 * 1 * 1) W b))
      as [v|]; [by exists v | discriminate H].
  - apply DenseFacts.value_eqb_false_ne. vm_compute. reflexivity.
Qed.

(* ===================================================================== *)
(** * Properties of the accessors *)
(* ===================================================================== *)

Module NormFacts.
Import Norm.

(** C9: the claim is what the docstrings of the getters say, and the
    code misses it.  On a new network with a gripper (pose and gripper
    dimension 1): [get_im_mean] and [get_im_std] read [self.im_mean] and
    [self.im_std], which nothing defines, and raise [AttributeError]
    after any update; [get_gripper_mean] and [get_gripper_std] are
    defined twice, the second definitions (the getters of the depth-mask
    statistics) replace the first, so after [update_gripper_mean(v)] the
    getter raises [AttributeError] for [_gripper_depth_mask_mean], or
    gives the depth-mask mean when one was set, not [v].  Only the pose
    statistics, and the depth-mask statistics under the names
    [get_gripper_mean] and [get_gripper_std], come back. *)
Theorem accessors_do_not_round_trip :
  let o := new_instance 1 1 in
  class_dict !! "get_im_mean" = Some (Getter "im_mean")
  /\ class_dict !! "im_mean" = None
  /\ o !! "im_mean" = None
  /\ class_dict !! "get_gripper_mean" = Some (Getter "_gripper_depth_mask_mean")
  /\ class_dict !! "get_gripper_std" = Some (Getter "_gripper_depth_mask_std")
  /\ set_then_get "update_im_mean" "get_im_mean" (Num 5) o
     = Some (Raise (AttributeError "im_mean"))
  /\ set_then_get "update_im_std" "get_im_std" (Num 2) o
     = Some (Raise (AttributeError "im_std"))
  /\ set_then_get "update_gripper_mean" "get_gripper_mean" (Arr [3]%Q) o
     = Some (Raise (AttributeError "_gripper_depth_mask_mean"))
  /\ set_then_get "update_gripper_std" "get_gripper_std" (Arr [4]%Q) o
     = Some (Raise (AttributeError "_gripper_depth_mask_std"))
  /\ set_then_get "update_gripper_mean" "get_gripper_mean" (Arr [3]%Q)
                  (<["_gripper_depth_mask_mean" := Arr [8; 9]%Q]> o)
     = Some (Ok (Arr [8; 9]%Q))
  /\ set_then_get "update_pose_mean" "get_pose_mean" (Arr [6]%Q) o = Some (Ok (Arr [6]%Q))
  /\ set_then_get "update_pose_std" "get_pose_std" (Arr [7]%Q) o = Some (Ok (Arr [7]%Q))
  /\ set_then_get "update_gripper_depth_mask_mean" "get_gripper_mean" (Arr [8; 9]%Q) o
     = Some (Ok (Arr [8; 9]%Q))
  /\ set_then_get "update_gripper_depth_mask_std" "get_gripper_std" (Arr [1; 2]%Q) o
     = Some (Ok (Arr [1; 2]%Q)).
Proof. cbv zeta. repeat split; vm_compute; reflexivity. Qed.

End NormFacts.

(* ===================================================================== *)
(** * Properties of batched inference *)
(* ===================================================================== *)

Module InferenceFacts.
Import Inference.
Open Scope nat_scope.

(** ** Slices and slice assignment *)

Lemma slice_length {A} (lo hi : nat) (arr : list A) :
  hi <= length arr -> length (slice lo hi arr) = hi - lo.
Proof. intros H. unfold slice. rewrite length_take, length_drop. lia. Qed.

Lemma zip_with_const_l {A B} (src : list B) (target : list A) :
  length src = length target -> zip_with (fun x _ => x) src target = src.
Proof.
  revert target. induction src as [|x src IH]; intros [|y target]; simpl; try done.
  intros [= H]. by rewrite IH.
Qed.

Lemma zip_with_map_r {A B} (upd : B -> A -> A) (f : B -> A) (src : list B) :
  zip_with upd src (map f src) = map (fun x => upd x (f x)) src.
Proof. induction src as [|x src IH]; simpl; [done|]. by rewrite IH. Qed.

(** Assigning [dim] rows to the first [dim] rows of a buffer that has
    them. *)
Lemma assign_rows_prefix {A B S} (upd : B -> A -> A) (dim : nat) (buf : list A)
    (src : list B) (s : S) :
  length src = dim -> dim <= length buf ->
  assign_rows upd 0 dim buf src s
  = (Ok (zip_with upd src (take dim buf) ++ drop dim buf), s).
Proof.
  intros Hsrc Hdim. unfold assign_rows.
  rewrite Nat.min_l by exact Hdim. rewrite Nat.sub_0_r.
  change (drop 0 buf) with buf. change (take 0 buf) with (@nil A).
  rewrite length_take, Nat.min_l by exact Hdim.
  rewrite Hsrc, Nat.eqb_refl. reflexivity.
Qed.

(** Assigning rows to the rows [lo .. hi] of an array that has them. *)
Lemma assign_rows_slice {A S} (lo hi : nat) (buf src : list A) (s : S) :
  lo <= hi -> hi <= length buf -> length src = hi - lo ->
  assign_rows (fun x _ => x) lo hi buf src s
  = (Ok (take lo buf ++ src ++ drop hi buf), s).
Proof.
  intros Hlo Hhi Hsrc. unfold assign_rows.
  rewrite Nat.min_l by exact Hhi.
  assert (Ht : length (take (hi - lo) (drop lo buf)) = hi - lo)
    by (rewrite length_take, length_drop; lia).
  rewrite Ht, Hsrc, Nat.eqb_refl.
  rewrite zip_with_const_l by (rewrite Ht; exact Hsrc).
  replace (lo + (hi - lo)) with hi by lia. reflexivity.
Qed.


(** ** The rows a partial last pass leaves in a feed array *)

Lemma map_lookup {A B} (f : A -> B) (l : list A) (i : nat) :
  map f l !! i = f <$> l !! i.
Proof.
  revert i. induction l as [|x l IH]; intros [|i]; simpl; auto.
Qed.

Lemma slice_lookup {A} (lo hi j : nat) (arr : list A) :
  j < hi - lo -> slice lo hi arr !! j = arr !! (lo + j).
Proof. intros H. unfold slice. by rewrite lookup_take_lt, lookup_drop. Qed.

Lemma feed_after_done {A B} (row : B -> A) batch_size fuel data i buf :
  length data <= i -> feed_after row batch_size fuel data i buf = buf.
Proof.
  intros H. destruct fuel; simpl; by rewrite (proj2 (Nat.ltb_ge _ _) H).
Qed.

(** From the index [i], [q] full chunks and a last chunk of [r] rows,
    [0 < r < batch_size], remain.  The rows from [r] on are then those of
    the chunk before the last, or those of the array at the start when
    the last chunk is the only one. *)
Lemma feed_after_stale {A B} (row : B -> A) (batch_size r : nat) (data : list B) :
  0 < r < batch_size ->
  forall q fuel i buf,
    length buf = batch_size ->
    length data = i + q * batch_size + r ->
    q + 1 <= fuel ->
    length (feed_after row batch_size fuel data i buf) = batch_size
    /\ forall j, r <= j < batch_size ->
         feed_after row batch_size fuel data i buf !! j
         = if q =? 0 then buf !! j
           else row <$> data !! (i + (q - 1) * batch_size + j).
Proof.
  intros Hr. induction q as [|q IH]; intros fuel i buf Hbuf Hdata Hfuel.
  - destruct fuel as [|fuel]; [lia|]. simpl.
    rewrite (proj2 (Nat.ltb_lt i (length data))) by lia.
    replace (batch_size `min` (length data - i)) with r by lia.
    rewrite feed_after_done by lia.
    split.
    + rewrite length_app, length_map, slice_length, length_drop by lia. lia.
    + intros j Hj.
      rewrite lookup_app_r by (rewrite length_map, slice_length by lia; lia).
      rewrite length_map, slice_length, lookup_drop by lia.
      f_equal. lia.
  - destruct fuel as [|fuel]; [lia|]. simpl feed_after.
    rewrite (proj2 (Nat.ltb_lt i (length data))) by lia.
    replace (batch_size `min` (length data - i)) with batch_size by lia.
    set (buf1 := map row (slice i (i + batch_size) data) ++ drop batch_size buf).
    assert (Hbuf1 : length buf1 = batch_size).
    { unfold buf1. rewrite length_app, length_map, slice_length, length_drop by lia. lia. }
    destruct (IH fuel (i + batch_size) buf1 Hbuf1) as [Hlen Hrows]; [lia | lia |].
    split; [exact Hlen|].
    intros j Hj. rewrite (Hrows j Hj).
    change (S q =? 0) with false. cbv iota.
    destruct q as [|q]; simpl.
    + unfold buf1.
      rewrite lookup_app_l by (rewrite length_map, slice_length by lia; lia).
      rewrite map_lookup, slice_lookup by lia. do 2 f_equal. lia.
    + do 2 f_equal. lia.
Qed.

Section Predict.

Variables Im Pose Grip Out Stat : Type.
Variable normalize_im : Stat -> Stat -> Im -> Im.
Variable normalize_pose : Stat -> Stat -> Pose -> Pose.
Variable normalize_gripper : Stat -> Stat -> Grip -> Grip.
Variable normalize_channel : nat -> nat -> Stat -> Stat -> Im -> Im -> Im.
Variable zero_out : Out.
Variable sess_run : fetch -> list Im -> list Pose -> option (list Grip) -> outcome (list Out).

Local Abbreviation state := (Inference.state Im Pose Grip Stat).

(** ** The passes that fill the feed arrays *)

Lemma fill_input_im_run (s : state) im dim cur_ind end_ind image_arr :
  _input_im_arr (self s) = Some im ->
  length (slice cur_ind end_ind image_arr) = dim -> dim <= length im ->
  fill_input_im normalize_im dim cur_ind end_ind image_arr s
  = (Ok tt,
     with_self (set_input_im_arr
                  (Some (map (normalize_im (_im_mean (self s)) (_im_std (self s)))
                             (slice cur_ind end_ind image_arr) ++ drop dim im))) s).
Proof.
  intros Him Hlen Hdim. unfold fill_input_im, bind, gets, attribute, modify, ret.
  rewrite Him. rewrite assign_rows_prefix by (rewrite ?length_map; assumption).
  rewrite zip_with_const_l by (rewrite length_map, length_take; lia).
  reflexivity.
Qed.

Lemma fill_input_pose_run (s : state) po dim cur_ind end_ind pose_arr :
  _input_pose_arr (self s) = Some po ->
  length (slice cur_ind end_ind pose_arr) = dim -> dim <= length po ->
  fill_input_pose normalize_pose dim cur_ind end_ind pose_arr s
  = (Ok tt,
     with_self (set_input_pose_arr
                  (Some (map (normalize_pose (_pose_mean (self s)) (_pose_std (self s)))
                             (slice cur_ind end_ind pose_arr) ++ drop dim po))) s).
Proof.
  intros Hpo Hlen Hdim. unfold fill_input_pose, bind, gets, attribute, modify, ret.
  rewrite Hpo. rewrite assign_rows_prefix by (rewrite ?length_map; assumption).
  rewrite zip_with_const_l by (rewrite length_map, length_take; lia).
  reflexivity.
Qed.

Lemma fill_input_gripper_run (s : state) gr mean std dim cur_ind end_ind gripper_arr :
  _input_gripper_arr (self s) = Some gr ->
  _gripper_mean (self s) = Some mean -> _gripper_std (self s) = Some std ->
  length (slice cur_ind end_ind gripper_arr) = dim -> dim <= length gr ->
  fill_input_gripper normalize_gripper dim cur_ind end_ind gripper_arr s
  = (Ok tt,
     with_self (set_input_gripper_arr
                  (Some (map (normalize_gripper mean std)
                             (slice cur_ind end_ind gripper_arr) ++ drop dim gr))) s).
Proof.
  intros Hgr Hm Hs Hlen Hdim.
  unfold fill_input_gripper, bind, gets, attribute, modify, ret.
  rewrite Hm, Hs, Hgr. rewrite assign_rows_prefix by (rewrite ?length_map; assumption).
  rewrite zip_with_const_l by (rewrite length_map, length_take; lia).
  reflexivity.
Qed.

Lemma fill_mask_channel_run (s : state) (f : Im -> Im) rest mean std c k dim
    cur_ind end_ind image_arr :
  _input_im_arr (self s) = Some (map f (slice cur_ind end_ind image_arr) ++ rest) ->
  _gripper_depth_mask_mean (self s) = Some mean ->
  _gripper_depth_mask_std (self s) = Some std ->
  length (slice cur_ind end_ind image_arr) = dim ->
  fill_mask_channel normalize_channel c k dim cur_ind end_ind image_arr s
  = (Ok tt,
     with_self (set_input_im_arr
                  (Some (map (fun x => normalize_channel c k mean std x (f x))
                             (slice cur_ind end_ind image_arr) ++ rest))) s).
Proof.
  intros Him Hm Hs Hlen.
  unfold fill_mask_channel, bind, gets, attribute, modify, ret.
  rewrite Hm, Hs, Him.
  rewrite assign_rows_prefix
    by (rewrite ?length_app, ?length_map; try assumption; lia).
  rewrite take_app_length' by (by rewrite length_map).
  rewrite drop_app_length' by (by rewrite length_map).
  by rewrite zip_with_map_r.
Qed.

Lemma run_ok (s : state) f with_gripper im po :
  _input_im_arr (self s) = Some im ->
  _input_pose_arr (self s) = Some po ->
  (with_gripper = true ->
   _input_gripper_node (self s) = true /\ is_Some (_input_gripper_arr (self s))) ->
  let grips := if with_gripper then _input_gripper_arr (self s) else None in
  run sess_run f with_gripper s
  = (sess_run f im po grips,
     {| self := self s;
        tf := {| open_sessions := open_sessions (tf s);
                 sessions_created := sessions_created (tf s);
                 run_log := run_log (tf s) ++ [(f, im, po, grips)] |} |}).
Proof.
  intros Him Hpo Hg. unfold run, bind, gets, attribute, modify, ret.
  rewrite Him, Hpo. destruct with_gripper.
  - destruct (Hg eq_refl) as [-> [gr ->]]. reflexivity.
  - reflexivity.
Qed.


Local Abbreviation predict_chunk' :=
  (predict_chunk normalize_im normalize_pose normalize_gripper normalize_channel
                 zero_out sess_run).
Local Abbreviation predict_loop' :=
  (predict_loop normalize_im normalize_pose normalize_gripper normalize_channel
                zero_out sess_run).
Local Abbreviation predict' :=
  (predict normalize_im normalize_pose normalize_gripper normalize_channel
           zero_out sess_run).
Local Abbreviation im_row := (image_feed_row normalize_im normalize_channel).
Local Abbreviation po_row := (pose_feed_row normalize_pose).
Local Abbreviation gr_row := (gripper_feed_row normalize_gripper).

(** One pass of the loop of [predict] on a ready network. *)
Lemma predict_chunk_ok (s : state) B image_arr pose_arr gripper_arr gdm i out0 im po :
  i < length image_arr ->
  length pose_arr = length image_arr ->
  (forall g, gripper_arr = Some g -> length g = length image_arr) ->
  ready_to_predict B (uses_gripper gripper_arr) gdm s ->
  _input_im_arr (self s) = Some im ->
  _input_pose_arr (self s) = Some po ->
  graph_keeps_rows sess_run B ->
  (forall o, out0 = Some o -> length o = length image_arr) ->
  let dim := B `min` (length image_arr - i) in
  let im' := map (im_row gdm (self s)) (slice i (i + dim) image_arr) ++ drop dim im in
  let po' := map (po_row (self s)) (slice i (i + dim) pose_arr) ++ drop dim po in
  let gr' := gripper_feed_after_chunk normalize_gripper (self s) gripper_arr i dim in
  exists out s',
    predict_chunk' image_arr pose_arr gripper_arr gdm i out0 s = (Ok (i + dim, out), s')
    /\ length out = length image_arr
    /\ static (self s') = static (self s)
    /\ _input_im_arr (self s') = Some im'
    /\ _input_pose_arr (self s') = Some po'
    /\ _input_gripper_arr (self s') = gr'
    /\ open_sessions (tf s') = open_sessions (tf s)
    /\ sessions_created (tf s') = sessions_created (tf s)
    /\ run_log (tf s') = run_log (tf s)
                         ++ [(Output, im', po', if uses_gripper gripper_arr then gr' else None)]
    /\ exists gq,
         sess_run Output im' po' (if uses_gripper gripper_arr then gr' else None) = Ok gq
         /\ length gq = B
         /\ out = take i (match out0 with
                          | Some o => o
                          | None => repeat zero_out (length image_arr)
                          end)
                  ++ take dim gq
                  ++ drop (i + dim) (match out0 with
                                     | Some o => o
                                     | None => repeat zero_out (length image_arr)
                                     end).
Proof.
  intros Hi Hpose Hgrip (Hsess & HB & (im0 & Him0 & Hlim) & (po0 & Hpo0 & Hlpo) & Hg & Hm)
         Him Hpo Hgraph Hout dim im' po' gr'.
  rewrite Him in Him0. injection Him0 as <-.
  rewrite Hpo in Hpo0. injection Hpo0 as <-.
  assert (Hdim : dim <= B) by (unfold dim; lia).
  assert (Hdimi : i + dim <= length image_arr) by (unfold dim; lia).
  assert (Hsl : length (slice i (i + dim) image_arr) = dim)
    by (rewrite slice_length by exact Hdimi; lia).
  assert (Hslp : length (slice i (i + dim) pose_arr) = dim)
    by (rewrite slice_length by (rewrite Hpose; exact Hdimi); lia).
  unfold predict_chunk. unfold bind at 1, gets at 1. rewrite HB. fold dim.
  (* image feed *)
  unfold bind at 1.
  rewrite (fill_input_im_run s im dim i (i + dim) image_arr Him Hsl) by lia.
  set (s1 := with_self _ s).
  (* pose feed *)
  unfold bind at 1.
  rewrite (fill_input_pose_run s1 po dim i (i + dim) pose_arr Hpo Hslp) by lia.
  set (s2 := with_self _ s1).
  (* gripper feed *)
  unfold bind at 1.
  assert (Hgstep :
    exists s3 : state,
      match gripper_arr with
      | Some g => fill_input_gripper normalize_gripper dim i (i + dim) g
      | None => ret tt
      end s2 = (Ok tt, s3)
      /\ static (self s3) = static (self s)
      /\ _input_im_arr (self s3)
         = Some (map (normalize_im (_im_mean (self s)) (_im_std (self s)))
                     (slice i (i + dim) image_arr) ++ drop dim im)
      /\ _input_pose_arr (self s3) = Some po'
      /\ _input_gripper_arr (self s3) = gr'
      /\ tf s3 = tf s).
  { destruct gripper_arr as [g|].
    - destruct (Hg eq_refl) as (Hnode & (gr & Hgr & Hlgr) & [mean Hmean] & [std Hstd]).
      assert (Hslg : length (slice i (i + dim) g) = dim)
        by (rewrite slice_length by (rewrite (Hgrip g eq_refl); exact Hdimi); lia).
      eexists. split.
      + apply (fill_input_gripper_run s2 gr mean std dim i (i + dim) g Hgr Hmean Hstd Hslg).
        lia.
      + repeat split. unfold gr', gripper_feed_after_chunk, gripper_feed_row.
        rewrite Hgr, Hmean, Hstd. reflexivity.
    - exists s2. by repeat split. }
  destruct Hgstep as (s3 & -> & Hst3 & Him3 & Hpo3 & Hgr3 & Htf3).
  (* depth-mask channels *)
  unfold bind at 1.
  assert (Hmstep :
    exists s4 : state,
      (if gdm
       then fill_mask_channel normalize_channel 1 0 dim i (i + dim) image_arr ;;;
            fill_mask_channel normalize_channel 2 1 dim i (i + dim) image_arr
       else ret tt) s3 = (Ok tt, s4)
      /\ static (self s4) = static (self s)
      /\ _input_im_arr (self s4) = Some im'
      /\ _input_pose_arr (self s4) = Some po'
      /\ _input_gripper_arr (self s4) = gr'
      /\ tf s4 = tf s).
  { assert (Hstat : _gripper_depth_mask_mean (self s3) = _gripper_depth_mask_mean (self s)
                    /\ _gripper_depth_mask_std (self s3) = _gripper_depth_mask_std (self s))
      by (unfold static in Hst3; by simplify_eq).
    destruct Hstat as [Hmm Hms].
    destruct gdm.
    - destruct (Hm eq_refl) as ([mean Hmean] & [std Hstd]).
      rewrite <- Hmm in Hmean. rewrite <- Hms in Hstd.
      unfold bind at 1.
      rewrite (fill_mask_channel_run s3 _ _ mean std 1 0 dim i (i + dim) image_arr
                 Him3 Hmean Hstd Hsl).
      set (s3' := with_self _ s3).
      eexists. split.
      + apply (fill_mask_channel_run s3' _ _ mean std 2 1 dim i (i + dim) image_arr
                 eq_refl Hmean Hstd Hsl).
      + repeat split; try assumption.
        simpl. unfold im', image_feed_row. rewrite <- Hmm, <- Hms, Hmean, Hstd. reflexivity.
    - exists s3. by repeat split. }
  destruct Hmstep as (s4 & -> & Hst4 & Him4 & Hpo4 & Hgr4 & Htf4).
  (* the run *)
  assert (Hlen' : length im' = B).
  { unfold im'. rewrite length_app, length_map, Hsl, length_drop. lia. }
  unfold bind at 1.
  assert (Hnode4 : uses_gripper gripper_arr = true ->
                   _input_gripper_node (self s4) = true
                   /\ is_Some (_input_gripper_arr (self s4))).
  { intros Hu. destruct (Hg Hu) as (Hnode & (gr & Hgr & Hlgr) & _).
    split; [unfold static in Hst4; injection Hst4; intros; congruence|].
    rewrite Hgr4. unfold gr', gripper_feed_after_chunk.
    destruct gripper_arr; [|discriminate Hu]. rewrite Hgr. by eexists. }
  change (match gripper_arr with Some _ => true | None => false end)
    with (uses_gripper gripper_arr).
  rewrite (run_ok s4 Output (uses_gripper gripper_arr) im' po' Him4 Hpo4 Hnode4).
  destruct (Hgraph Output im' po'
              (if uses_gripper gripper_arr then _input_gripper_arr (self s4) else None)
              Hlen') as (gq & Egq & Hgq).
  rewrite Egq. rewrite Hgr4 in Egq.
  (* the output array *)
  set (o := match out0 with Some o => o | None => repeat zero_out (length image_arr) end).
  assert (Ho : length o = length image_arr).
  { unfold o. destruct out0 as [o0|]; [by apply Hout | apply repeat_length]. }
  unfold bind at 1.
  rewrite assign_rows_slice
    by (rewrite ?length_take, ?Ho, ?Hgq; lia).
  unfold ret. eexists. eexists. split; [reflexivity|].
  split.
  { rewrite !length_app, length_take, length_take, length_drop, Ho, Hgq. lia. }
  simpl. rewrite Htf4, Hgr4. repeat (split; [done|]).
  exists gq. by repeat split.
Qed.


(** ** The loop *)

Lemma feed_after_ext {A B} (f g : B -> A) batch_size fuel data i buf :
  (forall x, f x = g x) ->
  feed_after f batch_size fuel data i buf = feed_after g batch_size fuel data i buf.
Proof.
  intros Hfg. revert i buf. induction fuel as [|fuel IH]; intros i buf; simpl; [done|].
  destruct (i <? length data); [|done].
  rewrite IH. do 2 f_equal. apply map_ext. auto.
Qed.

Lemma feed_rows_static (n n' : GQCNNTF Im Pose Grip Stat) gdm :
  static n' = static n ->
  (forall x, im_row gdm n' x = im_row gdm n x)
  /\ (forall p, po_row n' p = po_row n p)
  /\ (forall g, gr_row n' g = gr_row n g).
Proof.
  unfold static, image_feed_row, pose_feed_row, gripper_feed_row.
  intros H. injection H as _ _ _ _ -> -> -> -> -> -> -> -> _. auto.
Qed.

Lemma ready_to_predict_step (s s' : state) B g gdm im' po' :
  ready_to_predict B g gdm s ->
  static (self s') = static (self s) ->
  _input_im_arr (self s') = Some im' -> length im' = B ->
  _input_pose_arr (self s') = Some po' -> length po' = B ->
  (g = true -> exists gr, _input_gripper_arr (self s') = Some gr /\ length gr = B) ->
  ready_to_predict B g gdm s'.
Proof.
  intros (Hsess & HB & _ & _ & Hg & Hm) Hst Him Hlim Hpo Hlpo Hgr.
  unfold static in Hst.
  injection Hst as Es Eb _ En _ _ _ _ Egm Egs Emm Ems _.
  unfold ready_to_predict. rewrite Es, Eb, En, Egm, Egs, Emm, Ems.
  split; [done|]. split; [done|]. split; [eauto|]. split; [eauto|].
  split; [|exact Hm].
  intros Hgt. destruct (Hg Hgt) as (Hn & _ & Hmean & Hstd). auto.
Qed.

Lemma predict_loop_ok fuel :
  forall (s : state) B image_arr pose_arr gripper_arr gdm i out0 im po,
    1 <= B ->
    i <= length image_arr ->
    length pose_arr = length image_arr ->
    (forall g, gripper_arr = Some g -> length g = length image_arr) ->
    ready_to_predict B (uses_gripper gripper_arr) gdm s ->
    _input_im_arr (self s) = Some im ->
    _input_pose_arr (self s) = Some po ->
    graph_keeps_rows sess_run B ->
    (forall o, out0 = Some o -> length o = length image_arr) ->
    length image_arr - i <= fuel ->
    exists res s',
      predict_loop' fuel image_arr pose_arr gripper_arr gdm i out0 s = (Ok res, s')
      /\ (i < length image_arr -> exists out, res = Some out /\ length out = length image_arr)
      /\ (length image_arr <= i -> res = out0)
      /\ static (self s') = static (self s)
      /\ _input_im_arr (self s')
         = Some (feed_after (im_row gdm (self s)) B fuel image_arr i im)
      /\ _input_pose_arr (self s')
         = Some (feed_after (po_row (self s)) B fuel pose_arr i po)
      /\ _input_gripper_arr (self s')
         = match gripper_arr with
           | Some g => feed_after (gr_row (self s)) B fuel g i <$> _input_gripper_arr (self s)
           | None => _input_gripper_arr (self s)
           end
      /\ open_sessions (tf s') = open_sessions (tf s)
      /\ sessions_created (tf s') = sessions_created (tf s)
      /\ (i < length image_arr ->
          last (run_log (tf s'))
          = Some (Output,
                  feed_after (im_row gdm (self s)) B fuel image_arr i im,
                  feed_after (po_row (self s)) B fuel pose_arr i po,
                  if uses_gripper gripper_arr then _input_gripper_arr (self s') else None))
      /\ (forall k r out,
            length image_arr - i = k * B + r -> 0 < r <= B -> res = Some out ->
            exists gq,
              sess_run Output
                       (feed_after (im_row gdm (self s)) B fuel image_arr i im)
                       (feed_after (po_row (self s)) B fuel pose_arr i po)
                       (if uses_gripper gripper_arr then _input_gripper_arr (self s') else None)
              = Ok gq
              /\ drop (i + k * B) out = take r gq).
Proof.
  induction fuel as [|fuel IH];
    intros s B image_arr pose_arr gripper_arr gdm i out0 im po
           HB1 Hi Hpose Hgrip Hready Him Hpo Hgraph Hout Hfuel.
  - assert (i = length image_arr) as -> by lia.
    exists out0, s. simpl. rewrite Nat.ltb_irrefl.
    split; [reflexivity|]. split; [lia|]. split; [done|]. split; [done|].
    rewrite Hpose, Nat.ltb_irrefl. split; [done|]. split; [done|].
    split; [|split; [done|split; [done|split; [lia|intros; lia]]]].
    destruct gripper_arr as [g|]; [|done].
    rewrite (Hgrip g eq_refl), Nat.ltb_irrefl. by destruct (_input_gripper_arr (self s)).
  - destruct (Nat.ltb_spec i (length image_arr)) as [Hlt|Hge].
    2:{ exists out0, s. simpl. rewrite (proj2 (Nat.ltb_ge _ _) Hge).
        split; [reflexivity|]. split; [lia|]. split; [done|]. split; [done|].
        rewrite Hpose, (proj2 (Nat.ltb_ge _ _) Hge).
        split; [done|]. split; [done|].
        split; [|split; [done|split; [done|split; [lia|intros; lia]]]].
        destruct gripper_arr as [g|]; [|done].
        rewrite (Hgrip g eq_refl), (proj2 (Nat.ltb_ge _ _) Hge).
        by destruct (_input_gripper_arr (self s)). }
    destruct (predict_chunk_ok s B image_arr pose_arr gripper_arr gdm i out0 im po
                Hlt Hpose Hgrip Hready Him Hpo Hgraph Hout)
      as (out1 & s1 & E1 & Hlen1 & Hst1 & Him1 & Hpo1 & Hgr1 & Hos1 & Hsc1 & Hlog1
          & gq1 & Egq1 & Hlgq1 & Hout1).
    set (dim := B `min` (length image_arr - i)) in *.
    assert (Hdim1 : 1 <= dim) by (unfold dim; lia).
    assert (Hdimi : i + dim <= length image_arr) by (unfold dim; lia).
    assert (HdimB : dim <= B) by (unfold dim; lia).
    destruct Hready as (Hsess & HBs & (im0 & Him0 & Hlim) & (po0 & Hpo0 & Hlpo) & Hg & Hm).
    rewrite Him in Him0. injection Him0 as <-.
    rewrite Hpo in Hpo0. injection Hpo0 as <-.
    assert (Hready : ready_to_predict B (uses_gripper gripper_arr) gdm s).
    { split; [done|]. split; [done|]. split; [by exists im|]. split; [by exists po|].
      by split. }
    set (im1 := map (im_row gdm (self s)) (slice i (i + dim) image_arr) ++ drop dim im) in *.
    set (po1 := map (po_row (self s)) (slice i (i + dim) pose_arr) ++ drop dim po) in *.
    assert (Hlim1 : length im1 = B).
    { unfold im1. rewrite length_app, length_map, slice_length, length_drop by lia. lia. }
    assert (Hlpo1 : length po1 = B).
    { unfold po1. rewrite length_app, length_map, slice_length, length_drop by lia. lia. }
    assert (Hready1 : ready_to_predict B (uses_gripper gripper_arr) gdm s1).
    { apply (ready_to_predict_step s s1 B _ gdm im1 po1); try assumption.
      intros Hu. destruct (Hg Hu) as (_ & (gr & Hgr & Hlgr) & _).
      rewrite Hgr1. unfold gripper_feed_after_chunk.
      destruct gripper_arr as [g|]; [|discriminate Hu].
      rewrite Hgr. eexists. split; [reflexivity|].
      rewrite length_app, length_map, slice_length, length_drop
        by (rewrite (Hgrip g eq_refl); lia).
      lia. }
    destruct (IH s1 B image_arr pose_arr gripper_arr gdm (i + dim) (Some out1) im1 po1
                HB1 Hdimi Hpose Hgrip Hready1 Him1 Hpo1 Hgraph)
      as (res & s' & E & Hres & Hres0 & Hst & Himf & Hpof & Hgrf & Hos & Hsc & Hlast & Hrows).
    { by intros o [= <-]. }
    { lia. }
    destruct (feed_rows_static (self s) (self s1) gdm Hst1) as (Hrow_im & Hrow_po & Hrow_gr).
    assert (Eim : feed_after (im_row gdm (self s)) B (S fuel) image_arr i im
                  = feed_after (im_row gdm (self s1)) B fuel image_arr (i + dim) im1).
    { simpl. rewrite (proj2 (Nat.ltb_lt _ _) Hlt). fold dim. fold im1.
      symmetry. by apply feed_after_ext. }
    assert (Epo : feed_after (po_row (self s)) B (S fuel) pose_arr i po
                  = feed_after (po_row (self s1)) B fuel pose_arr (i + dim) po1).
    { simpl. rewrite Hpose, (proj2 (Nat.ltb_lt _ _) Hlt). fold dim. fold po1.
      symmetry. by apply feed_after_ext. }
    exists res, s'. split.
    { simpl. rewrite (proj2 (Nat.ltb_lt _ _) Hlt). unfold bind. rewrite E1. exact E. }
    split.
    { intros _. destruct (Nat.lt_ge_cases (i + dim) (length image_arr)) as [Hl|Hg'].
      - exact (Hres Hl).
      - rewrite (Hres0 Hg'). by exists out1. }
    split; [intros; lia|].
    split; [by rewrite Hst|].
    split; [by rewrite Himf, Eim|].
    split; [by rewrite Hpof, Epo|].
    split.
    { rewrite Hgrf, Hgr1. unfold gripper_feed_after_chunk.
      destruct gripper_arr as [g|]; [|done].
      destruct (_input_gripper_arr (self s)) as [gr|]; [|done]. simpl.
      rewrite (Hgrip g eq_refl), (proj2 (Nat.ltb_lt _ _) Hlt). fold dim.
      f_equal. by apply feed_after_ext. }
    split; [congruence|]. split; [congruence|].
    split.
    { intros _. rewrite Eim, Epo.
      destruct (Nat.lt_ge_cases (i + dim) (length image_arr)) as [Hl|Hg'].
      + exact (Hlast Hl).
      + (* the pass at [i] was the last one *)
        assert (Hs' : s' = s1).
        { destruct fuel; simpl in E;
            rewrite (proj2 (Nat.ltb_ge _ _) Hg') in E; by injection E. }
        subst s'. rewrite Hlog1, last_snoc.
        assert (Ei : feed_after (im_row gdm (self s1)) B fuel image_arr (i + dim) im1 = im1)
          by (destruct fuel; simpl; by rewrite (proj2 (Nat.ltb_ge _ _) Hg')).
        assert (Ep : feed_after (po_row (self s1)) B fuel pose_arr (i + dim) po1 = po1)
          by (destruct fuel; simpl; by rewrite Hpose, (proj2 (Nat.ltb_ge _ _) Hg')).
        by rewrite Ei, Ep, Hgr1. }
    (* the rows of the result that the last pass wrote *)
    intros k r out Hk Hr Hresout. rewrite Eim, Epo.
    destruct k as [|k].
    + (* the pass at [i] is the last one *)
      assert (Hdimr : dim = r) by (unfold dim; lia).
      assert (Hg' : length image_arr <= i + dim) by lia.
      assert (Hs' : s' = s1).
      { destruct fuel; simpl in E;
          rewrite (proj2 (Nat.ltb_ge _ _) Hg') in E; by injection E. }
      subst s'.
      assert (Ei : feed_after (im_row gdm (self s1)) B fuel image_arr (i + dim) im1 = im1)
        by (destruct fuel; simpl; by rewrite (proj2 (Nat.ltb_ge _ _) Hg')).
      assert (Ep : feed_after (po_row (self s1)) B fuel pose_arr (i + dim) po1 = po1)
        by (destruct fuel; simpl; by rewrite Hpose, (proj2 (Nat.ltb_ge _ _) Hg')).
      rewrite Ei, Ep, Hgr1. exists gq1. split; [exact Egq1|].
      rewrite (Hres0 Hg') in Hresout. injection Hresout as <-.
      rewrite Hout1, Hdimr.
      set (o := match out0 with
                | Some o => o
                | None => repeat zero_out (length image_arr)
                end).
      assert (Ho : length o = length image_arr).
      { unfold o. destruct out0 as [o0|]; [by apply Hout | apply repeat_length]. }
      rewrite (drop_ge o) by lia. rewrite app_nil_r.
      rewrite Nat.mul_0_l, Nat.add_0_r.
      rewrite drop_app_length' by (rewrite length_take; lia). reflexivity.
    + (* a later pass is the last one *)
      assert (HdimB' : dim = B) by (unfold dim; lia).
      destruct (Hrows k r out) as (gq & Egq & Hdrop); [lia | exact Hr | exact Hresout |].
      exists gq. split; [exact Egq|].
      replace (i + S k * B) with (i + dim + k * B) by lia. exact Hdrop.
Qed.


(** [predict] on a ready network, down to its loop. *)
Lemma predict_enters_loop (s : state) B image_arr pose_arr gripper_arr gdm fuel :
  length pose_arr = length image_arr ->
  (forall g, gripper_arr = Some g -> length g = length image_arr) ->
  ready_to_predict B (uses_gripper gripper_arr) gdm s ->
  predict' fuel image_arr pose_arr gripper_arr gdm s
  = predict_loop' fuel image_arr pose_arr gripper_arr gdm 0 None s.
Proof.
  intros Hpose Hgrip (Hsess & _). unfold predict.
  rewrite Hpose, Nat.eqb_refl. cbv iota beta. change (negb true) with false. cbv iota.
  unfold bind at 1.
  assert (Hcheck : match gripper_arr with
                   | Some g =>
                       if negb (length image_arr =? length g)
                       then raise (ValueError
                              "Must provide same number of images and gripper parameters")
                       else ret tt
                   | None => ret tt
                   end s = (Ok tt, s)).
  { destruct gripper_arr as [g|]; [|reflexivity].
    by rewrite (Hgrip g eq_refl), Nat.eqb_refl. }
  rewrite Hcheck. unfold bind, gets. destruct Hsess as [sid ->]. reflexivity.
Qed.

(** C1, amended.  On a network ready for batches of [B >= 1] rows (a
    session open, the feed arrays allocated with [B] rows for the batch
    size [B]) whose graph gives one output row per row of its feed,
    [predict] on [N >= 1] images and as many poses (and gripper
    parameters when given) returns an array of exactly [N] rows,
    whatever [N mod B]; the loop ends within [N] passes.  On no image
    at all it returns [None], the output array never having been
    allocated, not an array of zero rows. *)
Theorem predict_gives_a_row_per_image :
  forall (s : state) B image_arr pose_arr gripper_arr gdm fuel,
    1 <= B ->
    length pose_arr = length image_arr ->
    (forall g, gripper_arr = Some g -> length g = length image_arr) ->
    ready_to_predict B (uses_gripper gripper_arr) gdm s ->
    graph_keeps_rows sess_run B ->
    length image_arr <= fuel ->
    (1 <= length image_arr ->
     exists out s',
       predict' fuel image_arr pose_arr gripper_arr gdm s = (Ok (Some out), s')
       /\ length out = length image_arr)
    /\ (length image_arr = 0 ->
        predict' fuel image_arr pose_arr gripper_arr gdm s = (Ok None, s)).
Proof.
  intros s B image_arr pose_arr gripper_arr gdm fuel HB Hpose Hgrip Hready Hgraph Hfuel.
  rewrite (predict_enters_loop s B) by assumption.
  pose proof Hready as (_ & _ & (im & Him & _) & (po & Hpo & _) & _).
  destruct (predict_loop_ok fuel s B image_arr pose_arr gripper_arr gdm 0 None im po)
    as (res & s' & E & Hres & Hres0 & _); try assumption; try lia; try discriminate.
  split.
  - intros HN. destruct (Hres HN) as (out & -> & Hlen). by exists out, s'.
  - intros HN. destruct image_arr; [|discriminate HN].
    destruct fuel; reflexivity.
Qed.

(** C3, amended.  When the last chunk is partial ([N = q * B + r] with
    [0 < r < B]), the feed arrays of the last run of the graph are
    those the call leaves behind, and their rows from [r] on are not
    zeroed: they are the rows the chunk before wrote there (the
    normalized rows [(q - 1) * B + j] of the inputs), or, when the last
    chunk is the only one, the rows the arrays held before the call,
    which are zeros only if nothing was written there since
    [initialize_network].  The result has a row for every input, and
    its rows from [q * B] on are the first [r] rows of the output of
    that last run: the rows of the output from [r] on, computed from
    the stale rows of the feeds, are not copied. *)
Theorem partial_chunk_keeps_earlier_rows :
  forall (s : state) B image_arr pose_arr gripper_arr gdm fuel q r im po,
    length pose_arr = length image_arr ->
    (forall g, gripper_arr = Some g -> length g = length image_arr) ->
    ready_to_predict B (uses_gripper gripper_arr) gdm s ->
    _input_im_arr (self s) = Some im ->
    _input_pose_arr (self s) = Some po ->
    graph_keeps_rows sess_run B ->
    length image_arr = q * B + r ->
    0 < r < B ->
    length image_arr <= fuel ->
    exists out s' imF poF,
      predict' fuel image_arr pose_arr gripper_arr gdm s = (Ok (Some out), s')
      /\ _input_im_arr (self s') = Some imF
      /\ _input_pose_arr (self s') = Some poF
      /\ last (run_log (tf s'))
         = Some (Output, imF, poF,
                 if uses_gripper gripper_arr then _input_gripper_arr (self s') else None)
      /\ length imF = B /\ length poF = B
      /\ (forall j, r <= j < B ->
            imF !! j = if q =? 0 then im !! j
                       else im_row gdm (self s) <$> image_arr !! ((q - 1) * B + j))
      /\ (forall j, r <= j < B ->
            poF !! j = if q =? 0 then po !! j
                       else po_row (self s) <$> pose_arr !! ((q - 1) * B + j))
      /\ (forall g gr,
            gripper_arr = Some g -> _input_gripper_arr (self s) = Some gr ->
            exists grF,
              _input_gripper_arr (self s') = Some grF
              /\ length grF = B
              /\ forall j, r <= j < B ->
                   grF !! j = if q =? 0 then gr !! j
                              else gr_row (self s) <$> g !! ((q - 1) * B + j))
      /\ length out = length image_arr
      /\ (exists gq,
            sess_run Output imF poF
                     (if uses_gripper gripper_arr then _input_gripper_arr (self s') else None)
            = Ok gq
            /\ drop (q * B) out = take r gq).
Proof.
  intros s B image_arr pose_arr gripper_arr gdm fuel q r im po
         Hpose Hgrip Hready Him Hpo Hgraph HN Hr Hfuel.
  rewrite (predict_enters_loop s B) by assumption.
  pose proof Hready as (_ & _ & (im0 & Him0 & Hlim) & (po0 & Hpo0 & Hlpo) & Hg & _).
  rewrite Him in Him0. injection Him0 as <-.
  rewrite Hpo in Hpo0. injection Hpo0 as <-.
  destruct (predict_loop_ok fuel s B image_arr pose_arr gripper_arr gdm 0 None im po)
    as (res & s' & E & Hres & _ & _ & Himf & Hpof & Hgrf & _ & _ & Hlast & Hrows);
    try assumption; try lia; try discriminate.
  destruct Hres as (out & -> & Hlenout); [lia|].
  assert (Hq : q + 1 <= fuel) by nia.
  destruct (feed_after_stale (im_row gdm (self s)) B r image_arr Hr q fuel 0 im Hlim)
    as [Hlen_im Hrows_im]; [lia | exact Hq |].
  destruct (feed_after_stale (po_row (self s)) B r pose_arr Hr q fuel 0 po Hlpo)
    as [Hlen_po Hrows_po]; [lia | exact Hq |].
  exists out, s'. eexists. eexists.
  split; [exact E|]. split; [exact Himf|]. split; [exact Hpof|].
  split; [apply Hlast; lia|].
  split; [exact Hlen_im|]. split; [exact Hlen_po|].
  split; [exact Hrows_im|]. split; [exact Hrows_po|].
  split; [|split; [exact Hlenout | apply (Hrows q r out); [lia | lia | reflexivity]]].
  intros g gr -> Hgr. rewrite Hgrf, Hgr. simpl.
  destruct (Hg eq_refl) as (_ & (gr0 & Hgr0 & Hlgr) & _).
  rewrite Hgr in Hgr0. injection Hgr0 as <-.
  destruct (feed_after_stale (gr_row (self s)) B r g Hr q fuel 0 gr Hlgr)
    as [Hlen_gr Hrows_gr]; [rewrite (Hgrip g eq_refl); lia | exact Hq |].
  eexists. split; [reflexivity|]. by split.
Qed.

End Predict.

(** ** At concrete inputs *)

Lemma ready_example : ready_to_predict 2 false false (Examples.ready 2).
Proof.
  unfold ready_to_predict. split; [by eexists|]. split; [reflexivity|].
  split; [by eexists|]. split; [by eexists|]. split; discriminate.
Defined.

Lemma identity_graph_keeps_rows B : graph_keeps_rows Examples.identity_graph B.
Proof. intros f ims poses grips H. exists ims. by split. Defined.

(** The theorem at three images and a batch size of two. *)
Lemma predict_gives_a_row_per_image_witness :
  ready_to_predict 2 false false (Examples.ready 2)
  /\ graph_keeps_rows Examples.identity_graph 2
  /\ exists out s',
       Examples.predict 3 [1; 2; 3]%Q [4; 5; 6]%Q None false (Examples.ready 2)
       = (Ok (Some out), s')
       /\ length out = 3.
Proof.
  split; [exact ready_example|]. split; [exact (identity_graph_keeps_rows 2)|].
  refine (proj1 (predict_gives_a_row_per_image Q Q Q Q Q
                   Examples.normalize Examples.normalize Examples.normalize
                   Examples.normalize_channel 0%Q Examples.identity_graph
                   (Examples.ready 2) 2 [1; 2; 3]%Q [4; 5; 6]%Q None false 3
                   _ eq_refl _ ready_example (identity_graph_keeps_rows 2) _) _);
    simpl; try lia; discriminate.
Defined.

(** C1 as stated fails for [N = 0]: on a ready network, [predict] on no
    image returns [None] and no array of zero rows. *)
Lemma predict_on_no_image_counterexample :
  ready_to_predict 2 false false (Examples.ready 2)
  /\ Examples.predict 5 [] [] None false (Examples.ready 2) = (Ok None, Examples.ready 2)
  /\ ~ (exists out s',
          Examples.predict 5 [] [] None false (Examples.ready 2) = (Ok (Some out), s')
          /\ length out = 0).
Proof.
  split; [exact ready_example|].
  assert (H : Examples.predict 5 [] [] None false (Examples.ready 2)
              = (Ok None, Examples.ready 2)) by reflexivity.
  split; [exact H|]. intros (out & s' & E & _). rewrite H in E. discriminate E.
Qed.

(** The theorem at three images and a batch size of two: one full chunk
    and a last chunk of one row. *)
Lemma partial_chunk_keeps_earlier_rows_witness :
  ready_to_predict 2 false false (Examples.ready 2)
  /\ graph_keeps_rows Examples.identity_graph 2
  /\ 3 = 1 * 2 + 1 /\ 0 < 1 < 2
  /\ exists out s' imF poF,
       Examples.predict 3 [1; 2; 3]%Q [4; 5; 6]%Q None false (Examples.ready 2)
       = (Ok (Some out), s')
       /\ last (run_log (tf s')) = Some (Output, imF, poF, None)
       /\ (forall j, 1 <= j < 2 ->
             imF !! j = Examples.normalize 0 1 <$> [1; 2; 3]%Q !! ((1 - 1) * 2 + j))
       /\ (exists gq,
             Examples.identity_graph Output imF poF None = Ok gq
             /\ drop (1 * 2) out = take 1 gq).
Proof.
  split; [exact ready_example|]. split; [exact (identity_graph_keeps_rows 2)|].
  split; [reflexivity|]. split; [lia|].
  destruct (partial_chunk_keeps_earlier_rows Q Q Q Q Q
              Examples.normalize Examples.normalize Examples.normalize
              Examples.normalize_channel 0%Q Examples.identity_graph
              (Examples.ready 2) 2 [1; 2; 3]%Q [4; 5; 6]%Q None false 3 1 1
              [0; 0]%Q [0; 0]%Q eq_refl)
    as (out & s' & imF & poF & E & _ & _ & Hlast & _ & _ & Him & _ & _ & _ & Hout).
  - discriminate.
  - exact ready_example.
  - reflexivity.
  - reflexivity.
  - exact (identity_graph_keeps_rows 2).
  - reflexivity.
  - lia.
  - simpl. lia.
  - exists out, s', imF, poF. split; [exact E|]. split; [exact Hlast|].
    split; [exact Him | exact Hout].
Defined.

(** C3 as stated fails on three images with a batch size of two: when
    the graph runs on the last chunk, of one row, the second row of the
    image feed holds the second image of the first chunk, 2, and the
    second row of the pose feed its pose, 5; neither is zero. *)
Lemma partial_chunk_counterexample :
  let r := Examples.predict 3 [1; 2; 3]%Q [4; 5; 6]%Q None false (Examples.ready 2) in
  _input_im_arr (self (Examples.ready 2)) = Some [0; 0]%Q
  /\ fst r = Ok (Some [1; 2; 3]%Q)
  /\ last (run_log (tf (snd r))) = Some (Output, [3; 2]%Q, [6; 5]%Q, None)
  /\ [3; 2]%Q !! 1 = Some 2%Q
  /\ ~ (2 == 0)%Q.
Proof.
  cbv zeta. split; [reflexivity|]. split; [vm_compute; reflexivity|].
  split; [vm_compute; reflexivity|]. split; [reflexivity|]. discriminate.
Qed.

(** C4: the claim is what the flag [close_sess] of [featurize] is for,
    and the code misses the case of an error.  On a network initialized
    for batches of two rows whose batch size was then updated to three,
    with no session open, [featurize] on three images opens a session,
    fails in its loop (numpy cannot assign three rows to the two rows of
    the feed array) and returns with the session still open and still
    held in [_sess]; on the same network without the update it returns
    the features and leaves no session open. *)
Theorem featurize_leaves_session_open_on_error :
  let s := snd (update_batch_size 3 (Examples.initialized 2)) in
  let r := Examples.featurize 3 [1; 2; 3]%Q [4; 5; 6]%Q "conv2_2" s in
  let ok := Examples.featurize 3 [1; 2; 3]%Q [4; 5; 6]%Q "conv2_2" (Examples.initialized 2) in
  _sess (self s) = None
  /\ open_sessions (tf s) = []
  /\ fst r = Raise (ValueError "could not broadcast input array")
  /\ _sess (self (snd r)) = Some 0
  /\ open_sessions (tf (snd r)) = [0]
  /\ fst ok = Ok [1; 2; 3]%Q
  /\ _sess (self (snd ok)) = None
  /\ open_sessions (tf (snd ok)) = [].
Proof. cbv zeta. repeat split; vm_compute; reflexivity. Qed.

End InferenceFacts.

(* ===================================================================== *)
(** * [predict] and [featurize] on row-wise graphs *)
(* ===================================================================== *)

Module BatchingFacts.
Import Inference InferenceFacts Batching.
Open Scope nat_scope.

Lemma rows_of_take {Im Pose Grip Out} (net : Im -> Pose -> option Grip -> Out) n ims poses grips :
  take n (rows_of net ims poses grips)
  = rows_of net (take n ims) (take n poses) (take n <$> grips).
Proof.
  destruct grips as [gs|]; simpl.
  - rewrite zip_with_take. by rewrite (zip_with_take pair).
  - by rewrite zip_with_take.
Qed.

Lemma rows_of_drop {Im Pose Grip Out} (net : Im -> Pose -> option Grip -> Out) n ims poses grips :
  drop n (rows_of net ims poses grips)
  = rows_of net (drop n ims) (drop n poses) (drop n <$> grips).
Proof.
  destruct grips as [gs|]; simpl.
  - rewrite zip_with_drop. by rewrite (zip_with_drop pair).
  - by rewrite zip_with_drop.
Qed.

Lemma rows_of_slice {Im Pose Grip Out} (net : Im -> Pose -> option Grip -> Out)
    lo hi ims poses grips :
  slice lo hi (rows_of net ims poses grips)
  = rows_of net (slice lo hi ims) (slice lo hi poses) (slice lo hi <$> grips).
Proof.
  unfold slice. rewrite rows_of_drop, rows_of_take. by destruct grips.
Qed.

Lemma rows_of_length {Im Pose Grip Out} (net : Im -> Pose -> option Grip -> Out)
    ims poses grips n :
  length ims = n -> length poses = n -> (forall g, grips = Some g -> length g = n) ->
  length (rows_of net ims poses grips) = n.
Proof.
  intros Hi Hp Hg. destruct grips as [gs|]; simpl.
  - rewrite length_zip_with, (length_zip_with pair), Hi, Hp, (Hg gs eq_refl). lia.
  - rewrite length_zip_with. lia.
Qed.

Lemma slice_map {A B} (f : A -> B) lo hi (l : list A) :
  slice lo hi (map f l) = map f (slice lo hi l).
Proof. unfold slice. by rewrite <- fmap_drop, <- fmap_take. Qed.


Section Loop.

Variables Im Pose Grip Out Stat : Type.
Variable normalize_im : Stat -> Stat -> Im -> Im.
Variable normalize_pose : Stat -> Stat -> Pose -> Pose.
Variable normalize_gripper : Stat -> Stat -> Grip -> Grip.
Variable normalize_channel : nat -> nat -> Stat -> Stat -> Im -> Im -> Im.
Variable zero_out : Out.
Variable sess_run : fetch -> list Im -> list Pose -> option (list Grip) -> outcome (list Out).

Local Abbreviation state := (Inference.state Im Pose Grip Stat).
Local Abbreviation predict_chunk' :=
  (predict_chunk normalize_im normalize_pose normalize_gripper normalize_channel
                 zero_out sess_run).
Local Abbreviation predict_loop' :=
  (predict_loop normalize_im normalize_pose normalize_gripper normalize_channel
                zero_out sess_run).
Local Abbreviation predict' :=
  (predict normalize_im normalize_pose normalize_gripper normalize_channel
           zero_out sess_run).
Local Abbreviation im_row := (image_feed_row normalize_im normalize_channel).
Local Abbreviation po_row := (pose_feed_row normalize_pose).
Local Abbreviation gr_row := (gripper_feed_row normalize_gripper).

(** One pass of the loop of [predict] when the batch size is [B] and
    the feed arrays have [R] rows, [dim <= R]: the feeds, the run and
    the rows of the output array the pass writes. *)
Lemma predict_chunk_rows (s : state) B R image_arr pose_arr gripper_arr gdm i out0 im po :
  i <= length image_arr ->
  length pose_arr = length image_arr ->
  (forall g, gripper_arr = Some g -> length g = length image_arr) ->
  _batch_size (self s) = B ->
  feeds_allocated R (uses_gripper gripper_arr) gdm s ->
  _input_im_arr (self s) = Some im ->
  _input_pose_arr (self s) = Some po ->
  (forall o, out0 = Some o -> length o = length image_arr) ->
  let dim := B `min` (length image_arr - i) in
  dim <= R ->
  let im' := map (im_row gdm (self s)) (slice i (i + dim) image_arr) ++ drop dim im in
  let po' := map (po_row (self s)) (slice i (i + dim) pose_arr) ++ drop dim po in
  let gr' := gripper_feed_after_chunk normalize_gripper (self s) gripper_arr i dim in
  let feed := (Output, im', po', if uses_gripper gripper_arr then gr' else None) in
  let o := match out0 with Some o => o | None => repeat zero_out (length image_arr) end in
  exists s',
    static (self s') = static (self s)
    /\ _input_im_arr (self s') = Some im'
    /\ _input_pose_arr (self s') = Some po'
    /\ _input_gripper_arr (self s') = gr'
    /\ feeds_allocated R (uses_gripper gripper_arr) gdm s'
    /\ open_sessions (tf s') = open_sessions (tf s)
    /\ sessions_created (tf s') = sessions_created (tf s)
    /\ run_log (tf s') = run_log (tf s) ++ [feed]
    /\ predict_chunk' image_arr pose_arr gripper_arr gdm i out0 s
       = bind (fun _ => (sess_run Output im' po' (if uses_gripper gripper_arr then gr' else None),
                         s'))
              (fun gq => let* out := assign_rows (fun x _ => x) i (i + dim) o (take dim gq) in
                         ret (i + dim, out)) s.
Proof.
  intros Hi Hpose Hgrip HB ((im0 & Him0 & Hlim) & (po0 & Hpo0 & Hlpo) & Hg & Hm)
         Him Hpo Hout dim HdimR im' po' gr' feed o.
  rewrite Him in Him0. injection Him0 as <-.
  rewrite Hpo in Hpo0. injection Hpo0 as <-.
  assert (Hdim : dim <= B) by (unfold dim; lia).
  assert (Hdimi : i + dim <= length image_arr) by (unfold dim; lia).
  assert (Hsl : length (slice i (i + dim) image_arr) = dim)
    by (rewrite slice_length by exact Hdimi; lia).
  assert (Hslp : length (slice i (i + dim) pose_arr) = dim)
    by (rewrite slice_length by (rewrite Hpose; exact Hdimi); lia).
  unfold predict_chunk. unfold bind at 1, gets at 1. rewrite HB. fold dim.
  (* image feed *)
  unfold bind at 1.
  rewrite (fill_input_im_run _ _ _ _ normalize_im s im dim i (i + dim) image_arr Him Hsl) by lia.
  set (s1 := with_self _ s).
  (* pose feed *)
  unfold bind at 1.
  rewrite (fill_input_pose_run _ _ _ _ normalize_pose s1 po dim i (i + dim) pose_arr Hpo Hslp) by lia.
  set (s2 := with_self _ s1).
  (* gripper feed *)
  unfold bind at 1.
  assert (Hgstep :
    exists s3 : state,
      match gripper_arr with
      | Some g => fill_input_gripper normalize_gripper dim i (i + dim) g
      | None => ret tt
      end s2 = (Ok tt, s3)
      /\ static (self s3) = static (self s)
      /\ _input_im_arr (self s3)
         = Some (map (normalize_im (_im_mean (self s)) (_im_std (self s)))
                     (slice i (i + dim) image_arr) ++ drop dim im)
      /\ _input_pose_arr (self s3) = Some po'
      /\ _input_gripper_arr (self s3) = gr'
      /\ tf s3 = tf s).
  { destruct gripper_arr as [g|].
    - destruct (Hg eq_refl) as (Hnode & (gr & Hgr & Hlgr) & [mean Hmean] & [std Hstd]).
      assert (Hslg : length (slice i (i + dim) g) = dim)
        by (rewrite slice_length by (rewrite (Hgrip g eq_refl); exact Hdimi); lia).
      eexists. split.
      + apply (fill_input_gripper_run _ _ _ _ normalize_gripper s2 gr mean std dim i (i + dim) g
                 Hgr Hmean Hstd Hslg).
        lia.
      + repeat split. unfold gr', gripper_feed_after_chunk, gripper_feed_row.
        rewrite Hgr, Hmean, Hstd. reflexivity.
    - exists s2. by repeat split. }
  destruct Hgstep as (s3 & -> & Hst3 & Him3 & Hpo3 & Hgr3 & Htf3).
  (* depth-mask channels *)
  unfold bind at 1.
  assert (Hmstep :
    exists s4 : state,
      (if gdm
       then fill_mask_channel normalize_channel 1 0 dim i (i + dim) image_arr ;;;
            fill_mask_channel normalize_channel 2 1 dim i (i + dim) image_arr
       else ret tt) s3 = (Ok tt, s4)
      /\ static (self s4) = static (self s)
      /\ _input_im_arr (self s4) = Some im'
      /\ _input_pose_arr (self s4) = Some po'
      /\ _input_gripper_arr (self s4) = gr'
      /\ tf s4 = tf s).
  { assert (Hstat : _gripper_depth_mask_mean (self s3) = _gripper_depth_mask_mean (self s)
                    /\ _gripper_depth_mask_std (self s3) = _gripper_depth_mask_std (self s))
      by (unfold static in Hst3; by simplify_eq).
    destruct Hstat as [Hmm Hms].
    destruct gdm.
    - destruct (Hm eq_refl) as ([mean Hmean] & [std Hstd]).
      rewrite <- Hmm in Hmean. rewrite <- Hms in Hstd.
      unfold bind at 1.
      rewrite (fill_mask_channel_run _ _ _ _ normalize_channel s3 _ _ mean std 1 0 dim i (i + dim)
                 image_arr Him3 Hmean Hstd Hsl).
      set (s3' := with_self _ s3).
      eexists. split.
      + apply (fill_mask_channel_run _ _ _ _ normalize_channel s3' _ _ mean std 2 1 dim i (i + dim)
                 image_arr eq_refl Hmean Hstd Hsl).
      + repeat split; try assumption.
        simpl. unfold im', image_feed_row. rewrite <- Hmm, <- Hms, Hmean, Hstd. reflexivity.
    - exists s3. by repeat split. }
  destruct Hmstep as (s4 & -> & Hst4 & Him4 & Hpo4 & Hgr4 & Htf4).
  (* the run *)
  assert (Hlen' : length im' = R).
  { unfold im'. rewrite length_app, length_map, Hsl, length_drop. lia. }
  assert (Hlenp' : length po' = R).
  { unfold po'. rewrite length_app, length_map, Hslp, length_drop. lia. }
  unfold bind at 1.
  assert (Hnode4 : uses_gripper gripper_arr = true ->
                   _input_gripper_node (self s4) = true
                   /\ is_Some (_input_gripper_arr (self s4))).
  { intros Hu. destruct (Hg Hu) as (Hnode & (gr & Hgr & Hlgr) & _).
    split; [unfold static in Hst4; injection Hst4; intros; congruence|].
    rewrite Hgr4. unfold gr', gripper_feed_after_chunk.
    destruct gripper_arr; [|discriminate Hu]. rewrite Hgr. by eexists. }
  change (match gripper_arr with Some _ => true | None => false end)
    with (uses_gripper gripper_arr).
  rewrite (run_ok _ _ _ _ _ sess_run s4 Output (uses_gripper gripper_arr) im' po' Him4 Hpo4 Hnode4).
  rewrite Hgr4, Htf4.
  set (s5 := {| self := self s4; tf := _ |}).
  exists s5.
  split; [exact Hst4|]. split; [exact Him4|]. split; [exact Hpo4|]. split; [exact Hgr4|].
  split.
  { unfold feeds_allocated. simpl.
    split; [by exists im'|]. split; [by exists po'|].
    unfold static in Hst4. injection Hst4 as _ _ _ En _ _ _ _ Egm Egs Emm Ems _.
    rewrite En, Egm, Egs, Emm, Ems. split; [|exact Hm].
    intros Hu. destruct (Hg Hu) as (Hn & (gr & Hgr & Hlgr) & Hmean & Hstd).
    split; [done|]. split; [|done].
    rewrite Hgr4. unfold gr', gripper_feed_after_chunk.
    destruct gripper_arr as [g|]; [|discriminate Hu].
    rewrite Hgr. eexists. split; [reflexivity|].
    rewrite length_app, length_map, slice_length, length_drop
      by (rewrite (Hgrip g eq_refl); lia).
    lia. }
  split; [done|]. split; [done|]. split; [done|].
  reflexivity.
Qed.


(** The rows [predict] is to return for a network [net] that works row
    by row: the network on the normalized rows of the inputs. *)
Local Abbreviation expected net gdm n image_arr pose_arr gripper_arr :=
  (rows_of net (map (im_row gdm n) image_arr) (map (po_row n) pose_arr)
           (map (gr_row n) <$> gripper_arr)).

Lemma predict_loop_rowwise fuel :
  forall (s : state) B R image_arr pose_arr gripper_arr gdm i out0 net,
    1 <= B <= R ->
    i <= length image_arr ->
    length pose_arr = length image_arr ->
    (forall g, gripper_arr = Some g -> length g = length image_arr) ->
    _batch_size (self s) = B ->
    feeds_allocated R (uses_gripper gripper_arr) gdm s ->
    graph_is_rowwise sess_run Output net ->
    match out0 with
    | Some o => length o = length image_arr
                /\ take i o = take i (expected net gdm (self s) image_arr pose_arr gripper_arr)
    | None => i = 0
    end ->
    length image_arr - i <= fuel ->
    exists res s',
      predict_loop' fuel image_arr pose_arr gripper_arr gdm i out0 s = (Ok res, s')
      /\ (i < length image_arr ->
          res = Some (expected net gdm (self s) image_arr pose_arr gripper_arr))
      /\ (length image_arr <= i -> res = out0).
Proof.
  induction fuel as [|fuel IH];
    intros s B R image_arr pose_arr gripper_arr gdm i out0 net
           HB Hi Hpose Hgrip HBs Hfeeds Hrow Hout Hfuel.
  - exists out0, s. simpl.
    rewrite (proj2 (Nat.ltb_ge _ _)) by lia. split; [reflexivity|]. split; [lia|done].
  - destruct (Nat.ltb_spec i (length image_arr)) as [Hlt|Hge].
    2:{ exists out0, s. simpl. rewrite (proj2 (Nat.ltb_ge _ _) Hge).
        split; [reflexivity|]. split; [lia|done]. }
    set (E := expected net gdm (self s) image_arr pose_arr gripper_arr) in *.
    assert (HE : length E = length image_arr).
    { unfold E. apply rows_of_length; rewrite ?length_map; try done.
      intros g Hgm. destruct gripper_arr as [g0|]; [|done]. simpl in Hgm.
      injection Hgm as <-. rewrite length_map. by apply Hgrip. }
    pose proof Hfeeds as ((im & Him & Hlim) & (po & Hpo & Hlpo) & Hg & Hm).
    set (dim := B `min` (length image_arr - i)).
    assert (Hdim1 : 1 <= dim) by (unfold dim; lia).
    assert (Hdimi : i + dim <= length image_arr) by (unfold dim; lia).
    assert (HdimR : dim <= R) by (unfold dim; lia).
    assert (Hlen0 : forall o, out0 = Some o -> length o = length image_arr).
    { intros o ->. by destruct Hout. }
    destruct (predict_chunk_rows s B R image_arr pose_arr gripper_arr gdm i out0 im po
                ltac:(lia) Hpose Hgrip HBs Hfeeds Him Hpo Hlen0 HdimR)
      as (s1 & Hst1 & Him1 & Hpo1 & Hgr1 & Hfeeds1 & Hos1 & Hsc1 & Hlog1 & E1).
    fold dim in Him1, Hpo1, Hgr1, Hlog1, E1.
    set (im1 := map (im_row gdm (self s)) (slice i (i + dim) image_arr) ++ drop dim im) in *.
    set (po1 := map (po_row (self s)) (slice i (i + dim) pose_arr) ++ drop dim po) in *.
    set (gr1 := gripper_feed_after_chunk normalize_gripper (self s) gripper_arr i dim) in *.
    set (grf := if uses_gripper gripper_arr then gr1 else None) in *.
    set (o := match out0 with Some o => o | None => repeat zero_out (length image_arr) end) in *.
    assert (Ho : length o = length image_arr /\ take i o = take i E).
    { unfold o. destruct out0 as [o0|]; [exact Hout|].
      subst i. split; [apply repeat_length | reflexivity]. }
    destruct Ho as [Ho Htake].
    (* the rows of this pass *)
    assert (Hgq : take dim (rows_of net im1 po1 grf) = slice i (i + dim) E).
    { rewrite rows_of_take. unfold E. rewrite rows_of_slice, !slice_map.
      unfold im1, po1.
      rewrite !take_app_length'
        by (rewrite length_map, slice_length by (rewrite ?Hpose; lia); lia).
      f_equal. unfold grf, gr1, gripper_feed_after_chunk.
      destruct gripper_arr as [g|]; [|reflexivity]. simpl.
      destruct (Hg eq_refl) as (_ & (gr & -> & Hlgr) & _). simpl.
      rewrite slice_map.
      rewrite take_app_length'
        by (rewrite length_map, slice_length by (rewrite (Hgrip g eq_refl); lia); lia).
      reflexivity. }
    assert (Hlgq : length (rows_of net im1 po1 grf) = R).
    { apply rows_of_length.
      - unfold im1. rewrite length_app, length_map, slice_length, length_drop by lia. lia.
      - unfold po1. rewrite length_app, length_map, slice_length, length_drop
          by (rewrite ?Hpose; lia). lia.
      - intros g Hgm. unfold grf, gr1, gripper_feed_after_chunk in Hgm.
        destruct gripper_arr as [g0|]; [|discriminate Hgm]. simpl in Hgm.
        destruct (Hg eq_refl) as (_ & (gr & Hgr & Hlgr) & _).
        rewrite Hgr in Hgm. simpl in Hgm. injection Hgm as <-.
        rewrite length_app, length_map, slice_length, length_drop
          by (rewrite (Hgrip g0 eq_refl); lia). lia. }
    set (out1 := take i o ++ take dim (rows_of net im1 po1 grf) ++ drop (i + dim) o).
    assert (Echunk : predict_chunk' image_arr pose_arr gripper_arr gdm i out0 s
                     = (Ok (i + dim, out1), s1)).
    { rewrite E1. unfold bind at 1. rewrite (Hrow im1 po1 grf).
      unfold bind at 1.
      rewrite assign_rows_slice by (rewrite ?length_take, ?Ho, ?Hlgq; lia).
      reflexivity. }
    assert (Hlout1 : length out1 = length image_arr).
    { unfold out1. rewrite !length_app, !length_take, length_drop, Ho, Hlgq. lia. }
    assert (Htake1 : take (i + dim) out1 = take (i + dim) E).
    { unfold out1. rewrite Hgq, app_assoc.
      rewrite take_app_length'
        by (rewrite length_app, length_take, slice_length, Ho by (rewrite HE; lia); lia).
      rewrite Htake. unfold slice.
      replace (i + dim - i) with dim by lia. apply take_take_drop. }
    destruct (feed_rows_static _ _ _ _ normalize_im normalize_pose normalize_gripper
                normalize_channel (self s) (self s1) gdm Hst1)
      as (Hrow_im & Hrow_po & Hrow_gr).
    assert (EE : expected net gdm (self s1) image_arr pose_arr gripper_arr = E).
    { unfold E. f_equal; [by apply map_ext | by apply map_ext |].
      destruct gripper_arr; [|done]. simpl. f_equal. by apply map_ext. }
    assert (HBs1 : _batch_size (self s1) = B).
    { unfold static in Hst1. injection Hst1; intros; congruence. }
    destruct (IH s1 B R image_arr pose_arr gripper_arr gdm (i + dim) (Some out1) net
                HB Hdimi Hpose Hgrip HBs1 Hfeeds1 Hrow)
      as (res & s' & Eloop & Hres & Hres0).
    { rewrite EE. by split. }
    { lia. }
    exists res, s'. split.
    { simpl. rewrite (proj2 (Nat.ltb_lt _ _) Hlt). unfold bind. rewrite Echunk. exact Eloop. }
    split; [|lia].
    intros _. destruct (Nat.lt_ge_cases (i + dim) (length image_arr)) as [Hl|Hg'].
    + rewrite (Hres Hl). by rewrite EE.
    + rewrite (Hres0 Hg'). f_equal.
      rewrite <- (take_ge out1 (i + dim)) by lia.
      rewrite Htake1. apply take_ge. lia.
Qed.

(** X1: batching is transparent.  For a graph that computes its output
    row by row, [predict] on [N >= 1] images, with a batch size [B >= 1]
    that does not exceed the [R] rows of the feed arrays, returns the
    network applied to the normalized row of every input, in order:
    neither the chunking, nor the rows a partial chunk leaves in the feed
    arrays, nor the lazy allocation of the output array shows in the
    result. *)
Theorem predict_maps_the_network_over_the_rows :
  forall (s : state) B R image_arr pose_arr gripper_arr gdm fuel net,
    1 <= B <= R ->
    length pose_arr = length image_arr ->
    (forall g, gripper_arr = Some g -> length g = length image_arr) ->
    is_Some (_sess (self s)) ->
    _batch_size (self s) = B ->
    feeds_allocated R (uses_gripper gripper_arr) gdm s ->
    graph_is_rowwise sess_run Output net ->
    1 <= length image_arr <= fuel ->
    exists s',
      predict' fuel image_arr pose_arr gripper_arr gdm s
      = (Ok (Some (rows_of net (map (im_row gdm (self s)) image_arr)
                               (map (po_row (self s)) pose_arr)
                               (map (gr_row (self s)) <$> gripper_arr))), s').
Proof.
  intros s B R image_arr pose_arr gripper_arr gdm fuel net
         HB Hpose Hgrip [sid Hsess] HBs Hfeeds Hrow HN.
  destruct (predict_loop_rowwise fuel s B R image_arr pose_arr gripper_arr gdm 0 None net
              HB ltac:(lia) Hpose Hgrip HBs Hfeeds Hrow eq_refl ltac:(lia))
    as (res & s' & E & Hres & _).
  exists s'. rewrite <- (Hres ltac:(lia)), <- E.
  unfold predict. rewrite Hpose, Nat.eqb_refl. cbv iota beta. change (negb true) with false.
  cbv iota. unfold bind at 1.
  assert (Hcheck : match gripper_arr with
                   | Some g =>
                       if negb (length image_arr =? length g)
                       then raise (ValueError
                              "Must provide same number of images and gripper parameters")
                       else ret tt
                   | None => ret tt
                   end s = (Ok tt, s)).
  { destruct gripper_arr as [g|]; [|reflexivity].
    by rewrite (Hgrip g eq_refl), Nat.eqb_refl. }
  rewrite Hcheck. unfold bind, gets. rewrite Hsess. reflexivity.
Qed.


(** ** [featurize] *)

Local Abbreviation featurize_chunk' := (featurize_chunk normalize_im normalize_pose sess_run).
Local Abbreviation featurize_loop' := (featurize_loop normalize_im normalize_pose sess_run).
Local Abbreviation featurize' := (featurize normalize_im normalize_pose sess_run).
Local Abbreviation fim n := (normalize_im (_im_mean n) (_im_std n)).
Local Abbreviation fexpected net n image_arr pose_arr :=
  (rows_of net (map (fim n) image_arr) (map (po_row n) pose_arr) None).

(** One pass of the loop of [featurize]. *)
Lemma featurize_chunk_rows (s : state) B R image_arr pose_arr layer i out0 im po :
  i <= length image_arr ->
  length pose_arr = length image_arr ->
  _batch_size (self s) = B ->
  _input_im_arr (self s) = Some im -> length im = R ->
  _input_pose_arr (self s) = Some po -> length po = R ->
  let dim := B `min` (length image_arr - i) in
  dim <= R ->
  let im' := map (fim (self s)) (slice i (i + dim) image_arr) ++ drop dim im in
  let po' := map (po_row (self s)) (slice i (i + dim) pose_arr) ++ drop dim po in
  let s' : state :=
    {| self := set_input_pose_arr (Some po') (set_input_im_arr (Some im') (self s));
       tf := {| open_sessions := open_sessions (tf s);
                sessions_created := sessions_created (tf s);
                run_log := run_log (tf s) ++ [(Feature layer, im', po', None)] |} |} in
  featurize_chunk' image_arr pose_arr layer i out0 s
  = bind (fun _ => (sess_run (Feature layer) im' po' None, s'))
         (fun gq => ret (i + dim, match out0 with Some o => o ++ gq | None => gq end)) s.
Proof.
  intros Hi Hpose HB Him Hlim Hpo Hlpo dim HdimR im' po' s'.
  assert (Hdimi : i + dim <= length image_arr) by (unfold dim; lia).
  assert (Hsl : length (slice i (i + dim) image_arr) = dim)
    by (rewrite slice_length by exact Hdimi; lia).
  assert (Hslp : length (slice i (i + dim) pose_arr) = dim)
    by (rewrite slice_length by (rewrite Hpose; exact Hdimi); lia).
  unfold featurize_chunk. unfold bind at 1, gets at 1. rewrite HB. fold dim.
  unfold bind at 1.
  rewrite (fill_input_im_run _ _ _ _ normalize_im s im dim i (i + dim) image_arr Him Hsl) by lia.
  set (s1 := with_self _ s).
  unfold bind at 1.
  rewrite (fill_input_pose_run _ _ _ _ normalize_pose s1 po dim i (i + dim) pose_arr Hpo Hslp) by lia.
  set (s2 := with_self _ s1).
  unfold bind at 1.
  rewrite (run_ok _ _ _ _ _ sess_run s2 (Feature layer) false im' po' eq_refl eq_refl)
    by discriminate.
  reflexivity.
Qed.


Lemma featurize_loop_rowwise fuel :
  forall (s : state) B image_arr pose_arr layer i out0 net,
    1 <= B ->
    i <= length image_arr ->
    length pose_arr = length image_arr ->
    _batch_size (self s) = B ->
    feeds_allocated B false false s ->
    graph_is_rowwise sess_run (Feature layer) net ->
    match out0 with
    | Some o => take i o = take i (fexpected net (self s) image_arr pose_arr)
                /\ (i < length image_arr -> length o = i)
    | None => i = 0
    end ->
    length image_arr - i <= fuel ->
    exists res s',
      featurize_loop' fuel image_arr pose_arr layer i out0 s = (Ok res, s')
      /\ (i < length image_arr ->
          exists o, res = Some o
                    /\ take (length image_arr) o
                       = fexpected net (self s) image_arr pose_arr)
      /\ (length image_arr <= i -> res = out0)
      /\ _sess (self s') = _sess (self s)
      /\ _feature_tensors (self s') = _feature_tensors (self s)
      /\ open_sessions (tf s') = open_sessions (tf s)
      /\ sessions_created (tf s') = sessions_created (tf s).
Proof.
  induction fuel as [|fuel IH];
    intros s B image_arr pose_arr layer i out0 net HB Hi Hpose HBs Hfeeds Hrow Hout Hfuel.
  - exists out0, s. simpl.
    rewrite (proj2 (Nat.ltb_ge _ _)) by lia. split; [reflexivity|]. split; [lia|done].
  - destruct (Nat.ltb_spec i (length image_arr)) as [Hlt|Hge].
    2:{ exists out0, s. simpl. rewrite (proj2 (Nat.ltb_ge _ _) Hge).
        split; [reflexivity|]. split; [lia|done]. }
    set (E := fexpected net (self s) image_arr pose_arr) in *.
    assert (HE : length E = length image_arr).
    { unfold E. apply rows_of_length; rewrite ?length_map; done. }
    pose proof Hfeeds as ((im & Him & Hlim) & (po & Hpo & Hlpo) & _).
    set (dim := B `min` (length image_arr - i)).
    assert (Hdim1 : 1 <= dim) by (unfold dim; lia).
    assert (Hdimi : i + dim <= length image_arr) by (unfold dim; lia).
    assert (HdimB : dim <= B) by (unfold dim; lia).
    pose proof (featurize_chunk_rows s B B image_arr pose_arr layer i out0 im po
                  ltac:(lia) Hpose HBs Him Hlim Hpo Hlpo HdimB) as E1.
    cbv zeta in E1. fold dim in E1.
    set (im1 := map (fim (self s)) (slice i (i + dim) image_arr) ++ drop dim im) in *.
    set (po1 := map (po_row (self s)) (slice i (i + dim) pose_arr) ++ drop dim po) in *.
    set (s1 := {| self := set_input_pose_arr (Some po1) (set_input_im_arr (Some im1) (self s));
                  tf := _ |}) in E1.
    assert (Hlim1 : length im1 = B).
    { unfold im1. rewrite length_app, length_map, slice_length, length_drop by lia. lia. }
    assert (Hlpo1 : length po1 = B).
    { unfold po1. rewrite length_app, length_map, slice_length, length_drop
        by (rewrite ?Hpose; lia). lia. }
    set (gq := rows_of net im1 po1 None).
    assert (Hlgq : length gq = B) by (apply rows_of_length; done).
    assert (Hgq : take dim gq = slice i (i + dim) E).
    { unfold gq. rewrite rows_of_take. unfold E. rewrite rows_of_slice, !slice_map.
      unfold im1, po1.
      rewrite !take_app_length'
        by (rewrite length_map, slice_length by (rewrite ?Hpose; lia); lia).
      reflexivity. }
    set (out1 := match out0 with Some o => o ++ gq | None => gq end).
    assert (Echunk : featurize_chunk' image_arr pose_arr layer i out0 s
                     = (Ok (i + dim, out1), s1)).
    { rewrite E1. unfold bind at 1. rewrite (Hrow im1 po1 None). reflexivity. }
    assert (Hinv1 : take (i + dim) out1 = take (i + dim) E
                    /\ (i + dim < length image_arr -> length out1 = i + dim)).
    { assert (Hpre : exists o, out1 = o ++ gq /\ length o = i /\ o = take i E).
      { unfold out1. destruct out0 as [o|].
        - destruct Hout as [Ht Hl]. exists o. split; [done|]. split; [auto|].
          rewrite <- Ht. symmetry. apply take_ge. rewrite Hl by lia. lia.
        - subst i. exists []. by repeat split. }
      destruct Hpre as (o & -> & Hlo & Ho). split.
      - rewrite take_app_add' by (symmetry; exact Hlo).
        rewrite Hgq, Ho. unfold slice. replace (i + dim - i) with dim by lia.
        apply take_take_drop.
      - intros Hl. rewrite length_app, Hlo, Hlgq. unfold dim. lia. }
    assert (EE : fexpected net (self s1) image_arr pose_arr = E) by reflexivity.
    destruct (IH s1 B image_arr pose_arr layer (i + dim) (Some out1) net
                HB Hdimi Hpose HBs) as (res & s' & Eloop & Hres & Hres0 & Hs & Hf & Hos & Hsc).
    { unfold feeds_allocated. simpl. split; [by exists im1|]. split; [by exists po1|].
      split; discriminate. }
    { exact Hrow. }
    { rewrite EE. exact Hinv1. }
    { lia. }
    exists res, s'. split.
    { simpl. rewrite (proj2 (Nat.ltb_lt _ _) Hlt). unfold bind. rewrite Echunk. exact Eloop. }
    split.
    { intros _. destruct (Nat.lt_ge_cases (i + dim) (length image_arr)) as [Hl|Hg'].
      - destruct (Hres Hl) as (o & -> & Ho). exists o. by rewrite <- EE.
      - rewrite (Hres0 Hg'). exists out1. split; [done|].
        assert (i + dim = length image_arr) as Heq by lia.
        rewrite <- Heq at 1. rewrite (proj1 Hinv1). apply take_ge. lia. }
    split; [lia|]. by repeat split.
Qed.

Lemma close_after_open (s : state) :
  runtime_ok (tf s) ->
  filter (fun x => x <> sessions_created (tf s)) (open_sessions (tf s)) = open_sessions (tf s).
Proof.
  unfold runtime_ok. induction (open_sessions (tf s)) as [|x l IH]; [done|].
  intros H. apply Forall_cons in H as [Hx Hl].
  rewrite filter_cons_True by lia. by rewrite IH.
Qed.

(** X6: for a graph that computes the feature tensor row by row,
    [featurize] on [N >= 1] images, when the batch size is the number [B]
    of rows of the feed arrays, returns the features of the normalized
    rows of the inputs, in order, and leaves the session as it found it:
    it closes the session it opened when none was open, and keeps open
    the one that was. *)
Theorem featurize_maps_the_network_over_the_rows :
  forall (s : state) B image_arr pose_arr layer fuel net,
    1 <= B ->
    length pose_arr = length image_arr ->
    existsb (String.eqb layer) (_feature_tensors (self s)) = true ->
    _batch_size (self s) = B ->
    feeds_allocated B false false s ->
    runtime_ok (tf s) ->
    graph_is_rowwise sess_run (Feature layer) net ->
    1 <= length image_arr <= fuel ->
    exists s',
      featurize' fuel image_arr pose_arr layer s
      = (Ok (rows_of net (map (fim (self s)) image_arr)
                         (map (po_row (self s)) pose_arr) None), s')
      /\ _sess (self s') = _sess (self s)
      /\ open_sessions (tf s') = open_sessions (tf s).
Proof.
  intros s B image_arr pose_arr layer fuel net HB Hpose Hlayer HBs Hfeeds Hrt Hrow HN.
  unfold featurize. unfold bind at 1, gets at 1. rewrite Hlayer. cbv iota beta.
  change (negb true) with false. cbv iota.
  rewrite Hpose, Nat.eqb_refl. change (negb true) with false. cbv iota.
  unfold bind at 1, gets at 1.
  destruct (_sess (self s)) as [sid|] eqn:Hsess.
  - unfold bind at 1, ret at 1. unfold bind at 1.
    destruct (featurize_loop_rowwise fuel s B image_arr pose_arr layer 0 None net
                HB ltac:(lia) Hpose HBs Hfeeds Hrow eq_refl ltac:(lia))
      as (res & s' & E & Hres & _ & Hs & _ & Hos & _).
    destruct (Hres ltac:(lia)) as (o & -> & Ho).
    rewrite E. exists s'. unfold bind, ret. rewrite Ho.
    split; [reflexivity|]. split; [congruence|exact Hos].
  - unfold bind at 1. unfold bind at 1, open_session at 1, ret at 1.
    set (s0 := {| self := set_sess (Some (sessions_created (tf s))) (self s); tf := _ |}).
    unfold bind at 1.
    destruct (featurize_loop_rowwise fuel s0 B image_arr pose_arr layer 0 None net
                HB ltac:(lia) Hpose HBs) as (res & s' & E & Hres & _ & Hs & _ & Hos & Hsc).
    { destruct Hfeeds as (Hi & Hp & _). split; [exact Hi|]. split; [exact Hp|].
      split; discriminate. }
    { exact Hrow. }
    { reflexivity. }
    { lia. }
    destruct (Hres ltac:(lia)) as (o & -> & Ho).
    rewrite E. unfold bind at 1, close_session at 1. rewrite Hs. simpl _sess.
    eexists. unfold bind, ret. split; [f_equal; f_equal; exact Ho|].
    simpl. split; [reflexivity|].
    rewrite Hos. simpl. rewrite filter_cons_False by (intros H; by apply H).
    by apply close_after_open.
Qed.


(** ** The runs of the graph *)

Lemma chunks_step (B n : nat) :
  1 <= B -> 1 <= n ->
  (n + B - 1) / B = S ((n - B `min` n + B - 1) / B).
Proof.
  intros HB Hn. destruct (Nat.le_gt_cases B n) as [Hle|Hgt].
  - rewrite Nat.min_l by exact Hle.
    replace (n + B - 1) with ((n - B + B - 1) + 1 * B) by lia.
    rewrite Nat.div_add by lia. lia.
  - rewrite Nat.min_r by lia.
    replace (n - n + B - 1) with (B - 1) by lia.
    rewrite (Nat.div_small (B - 1)) by lia.
    replace (n + B - 1) with ((n - 1) + 1 * B) by lia.
    rewrite Nat.div_add by lia. rewrite Nat.div_small by lia. reflexivity.
Qed.

Lemma predict_loop_runs fuel :
  forall (s : state) B R image_arr pose_arr gripper_arr gdm i out0,
    1 <= B <= R ->
    i <= length image_arr ->
    length pose_arr = length image_arr ->
    (forall g, gripper_arr = Some g -> length g = length image_arr) ->
    _batch_size (self s) = B ->
    feeds_allocated R (uses_gripper gripper_arr) gdm s ->
    graph_keeps_rows sess_run R ->
    (forall o, out0 = Some o -> length o = length image_arr) ->
    length image_arr - i <= fuel ->
    exists res s' feeds,
      predict_loop' fuel image_arr pose_arr gripper_arr gdm i out0 s = (Ok res, s')
      /\ run_log (tf s') = run_log (tf s) ++ feeds
      /\ length feeds = (length image_arr - i + B - 1) / B
      /\ Forall (fun fd => exists ims poses grips,
                             fd = (Output, ims, poses, grips)
                             /\ length ims = R /\ length poses = R) feeds.
Proof.
  induction fuel as [|fuel IH];
    intros s B R image_arr pose_arr gripper_arr gdm i out0
           HB Hi Hpose Hgrip HBs Hfeeds Hgraph Hout Hfuel.
  - exists out0, s, []. simpl. rewrite (proj2 (Nat.ltb_ge _ _)) by lia.
    split; [reflexivity|]. split; [by rewrite app_nil_r|].
    split; [|constructor].
    replace (length image_arr - i) with 0 by lia. simpl.
    symmetry. apply Nat.div_small. lia.
  - destruct (Nat.ltb_spec i (length image_arr)) as [Hlt|Hge].
    2:{ exists out0, s, []. simpl. rewrite (proj2 (Nat.ltb_ge _ _) Hge).
        split; [reflexivity|]. split; [by rewrite app_nil_r|].
        split; [|constructor].
        replace (length image_arr - i) with 0 by lia. simpl.
        symmetry. apply Nat.div_small. lia. }
    pose proof Hfeeds as ((im & Him & Hlim) & (po & Hpo & Hlpo) & Hg & Hm).
    set (dim := B `min` (length image_arr - i)).
    assert (Hdim1 : 1 <= dim) by (unfold dim; lia).
    assert (Hdimi : i + dim <= length image_arr) by (unfold dim; lia).
    assert (HdimR : dim <= R) by (unfold dim; lia).
    destruct (predict_chunk_rows s B R image_arr pose_arr gripper_arr gdm i out0 im po
                ltac:(lia) Hpose Hgrip HBs Hfeeds Him Hpo Hout HdimR)
      as (s1 & Hst1 & Him1 & Hpo1 & Hgr1 & Hfeeds1 & Hos1 & Hsc1 & Hlog1 & E1).
    fold dim in Him1, Hpo1, Hgr1, Hlog1, E1.
    set (im1 := map (im_row gdm (self s)) (slice i (i + dim) image_arr) ++ drop dim im) in *.
    set (po1 := map (po_row (self s)) (slice i (i + dim) pose_arr) ++ drop dim po) in *.
    set (grf := if uses_gripper gripper_arr then _ else None) in *.
    set (o := match out0 with Some o => o | None => repeat zero_out (length image_arr) end) in *.
    assert (Ho : length o = length image_arr).
    { unfold o. destruct out0 as [o0|]; [by apply Hout | apply repeat_length]. }
    assert (Hlim1 : length im1 = R).
    { unfold im1. rewrite length_app, length_map, slice_length, length_drop by lia. lia. }
    assert (Hlpo1 : length po1 = R).
    { unfold po1. rewrite length_app, length_map, slice_length, length_drop
        by (rewrite ?Hpose; lia). lia. }
    destruct (Hgraph Output im1 po1 grf Hlim1) as (gq & Egq & Hlgq).
    set (out1 := take i o ++ take dim gq ++ drop (i + dim) o).
    assert (Echunk : predict_chunk' image_arr pose_arr gripper_arr gdm i out0 s
                     = (Ok (i + dim, out1), s1)).
    { rewrite E1. unfold bind at 1. rewrite Egq. unfold bind at 1.
      rewrite assign_rows_slice by (rewrite ?length_take, ?Ho, ?Hlgq; lia).
      reflexivity. }
    assert (Hlout1 : length out1 = length image_arr).
    { unfold out1. rewrite !length_app, !length_take, length_drop, Ho, Hlgq. lia. }
    assert (HBs1 : _batch_size (self s1) = B).
    { unfold static in Hst1. injection Hst1; intros; congruence. }
    destruct (IH s1 B R image_arr pose_arr gripper_arr gdm (i + dim) (Some out1)
                HB Hdimi Hpose Hgrip HBs1 Hfeeds1 Hgraph)
      as (res & s' & feeds & Eloop & Hlog & Hlen & Hall).
    { by intros ? [= <-]. }
    { lia. }
    exists res, s', ((Output, im1, po1, grf) :: feeds). split.
    { simpl. rewrite (proj2 (Nat.ltb_lt _ _) Hlt). unfold bind. rewrite Echunk. exact Eloop. }
    split; [by rewrite Hlog, Hlog1, <- app_assoc|].
    split.
    { simpl. rewrite Hlen.
      rewrite (chunks_step B (length image_arr - i)) by lia.
      fold dim. do 2 f_equal. lia. }
    constructor; [|exact Hall]. by exists im1, po1, grf.
Qed.

(** X2: [predict] runs the graph [ceil(N / B)] times (not at all for
    [N = 0]), every time on the whole feed arrays of [R] rows, whatever
    the size of the chunk. *)
Theorem predict_runs_the_graph_once_per_chunk :
  forall (s : state) B R image_arr pose_arr gripper_arr gdm fuel,
    1 <= B <= R ->
    length pose_arr = length image_arr ->
    (forall g, gripper_arr = Some g -> length g = length image_arr) ->
    is_Some (_sess (self s)) ->
    _batch_size (self s) = B ->
    feeds_allocated R (uses_gripper gripper_arr) gdm s ->
    graph_keeps_rows sess_run R ->
    length image_arr <= fuel ->
    exists res s' feeds,
      predict' fuel image_arr pose_arr gripper_arr gdm s = (Ok res, s')
      /\ run_log (tf s') = run_log (tf s) ++ feeds
      /\ length feeds = (length image_arr + B - 1) / B
      /\ Forall (fun fd => exists ims poses grips,
                             fd = (Output, ims, poses, grips)
                             /\ length ims = R /\ length poses = R) feeds.
Proof.
  intros s B R image_arr pose_arr gripper_arr gdm fuel
         HB Hpose Hgrip [sid Hsess] HBs Hfeeds Hgraph HN.
  destruct (predict_loop_runs fuel s B R image_arr pose_arr gripper_arr gdm 0 None
              HB ltac:(lia) Hpose Hgrip HBs Hfeeds Hgraph ltac:(discriminate) ltac:(lia))
    as (res & s' & feeds & E & Hlog & Hlen & Hall).
  exists res, s', feeds. rewrite Nat.sub_0_r in Hlen.
  split; [|by repeat split]. rewrite <- E.
  unfold predict. rewrite Hpose, Nat.eqb_refl. cbv iota beta. change (negb true) with false.
  cbv iota. unfold bind at 1.
  assert (Hcheck : match gripper_arr with
                   | Some g =>
                       if negb (length image_arr =? length g)
                       then raise (ValueError
                              "Must provide same number of images and gripper parameters")
                       else ret tt
                   | None => ret tt
                   end s = (Ok tt, s)).
  { destruct gripper_arr as [g|]; [|reflexivity].
    by rewrite (Hgrip g eq_refl), Nat.eqb_refl. }
  rewrite Hcheck. unfold bind, gets. rewrite Hsess. reflexivity.
Qed.


(** ** Arguments and batch sizes [predict] cannot work with *)

Lemma predict_with_session (s : state) image_arr pose_arr gripper_arr gdm fuel :
  length pose_arr = length image_arr ->
  (forall g, gripper_arr = Some g -> length g = length image_arr) ->
  is_Some (_sess (self s)) ->
  predict' fuel image_arr pose_arr gripper_arr gdm s
  = predict_loop' fuel image_arr pose_arr gripper_arr gdm 0 None s.
Proof.
  intros Hpose Hgrip [sid Hsess].
  unfold predict. rewrite Hpose, Nat.eqb_refl. cbv iota beta. change (negb true) with false.
  cbv iota. unfold bind at 1.
  assert (Hcheck : match gripper_arr with
                   | Some g =>
                       if negb (length image_arr =? length g)
                       then raise (ValueError
                              "Must provide same number of images and gripper parameters")
                       else ret tt
                   | None => ret tt
                   end s = (Ok tt, s)).
  { destruct gripper_arr as [g|]; [|reflexivity].
    by rewrite (Hgrip g eq_refl), Nat.eqb_refl. }
  rewrite Hcheck. unfold bind, gets. rewrite Hsess. reflexivity.
Qed.

(** X3: [predict] compares the numbers of images, poses and gripper
    parameters and then looks for a session, in this order, before it
    writes to a feed array: each failure raises with the state
    unchanged. *)
Theorem predict_checks_before_it_writes :
  forall (s : state) image_arr pose_arr gripper_arr gdm fuel,
    (length image_arr <> length pose_arr ->
     predict' fuel image_arr pose_arr gripper_arr gdm s
     = (Raise (ValueError "Must provide same number of images and poses"), s))
    /\ (forall g,
          length image_arr = length pose_arr ->
          gripper_arr = Some g -> length image_arr <> length g ->
          predict' fuel image_arr pose_arr gripper_arr gdm s
          = (Raise (ValueError "Must provide same number of images and gripper parameters"), s))
    /\ (length image_arr = length pose_arr ->
        (forall g, gripper_arr = Some g -> length g = length image_arr) ->
        _sess (self s) = None ->
        predict' fuel image_arr pose_arr gripper_arr gdm s
        = (Raise (RuntimeError "No TF session open. Please call open_session() first."), s)).
Proof.
  intros s image_arr pose_arr gripper_arr gdm fuel. split; [|split].
  - intros H. unfold predict. apply Nat.eqb_neq in H. by rewrite H.
  - intros g Hp -> Hg. unfold predict. rewrite Hp, Nat.eqb_refl. simpl.
    rewrite <- Hp. apply Nat.eqb_neq in Hg. rewrite Hg. reflexivity.
  - intros Hp Hg Hs. unfold predict. rewrite Hp, Nat.eqb_refl. simpl.
    unfold bind at 1.
    assert (Hcheck : match gripper_arr with
                     | Some g =>
                         if negb (length pose_arr =? length g)
                         then raise (ValueError
                                "Must provide same number of images and gripper parameters")
                         else ret tt
                     | None => ret tt
                     end s = (Ok tt, s)).
    { destruct gripper_arr as [g|]; [|reflexivity].
      by rewrite (Hg g eq_refl), Hp, Nat.eqb_refl. }
    rewrite Hcheck. unfold bind, gets. rewrite Hs. reflexivity.
Qed.

Lemma predict_loop_batch_size_zero fuel :
  forall (s : state) R image_arr pose_arr gripper_arr gdm i out0,
    i < length image_arr ->
    length pose_arr = length image_arr ->
    (forall g, gripper_arr = Some g -> length g = length image_arr) ->
    _batch_size (self s) = 0 ->
    feeds_allocated R (uses_gripper gripper_arr) gdm s ->
    graph_keeps_rows sess_run R ->
    (forall o, out0 = Some o -> length o = length image_arr) ->
    exists s',
      predict_loop' fuel image_arr pose_arr gripper_arr gdm i out0 s = (OutOfFuel, s')
      /\ length (run_log (tf s')) = length (run_log (tf s)) + fuel.
Proof.
  induction fuel as [|fuel IH];
    intros s R image_arr pose_arr gripper_arr gdm i out0 Hi Hpose Hgrip HBs Hfeeds Hgraph Hout.
  - exists s. simpl. rewrite (proj2 (Nat.ltb_lt _ _) Hi). split; [reflexivity|lia].
  - pose proof Hfeeds as ((im & Him & Hlim) & (po & Hpo & Hlpo) & Hg & Hm).
    destruct (predict_chunk_rows s 0 R image_arr pose_arr gripper_arr gdm i out0 im po
                ltac:(lia) Hpose Hgrip HBs Hfeeds Him Hpo Hout ltac:(simpl; lia))
      as (s1 & Hst1 & Him1 & Hpo1 & Hgr1 & Hfeeds1 & Hos1 & Hsc1 & Hlog1 & E1).
    change (0 `min` (length image_arr - i)) with 0 in *.
    rewrite Nat.add_0_r in *.
    set (im1 := map (im_row gdm (self s)) (slice i i image_arr) ++ drop 0 im) in *.
    set (po1 := map (po_row (self s)) (slice i i pose_arr) ++ drop 0 po) in *.
    set (grf := if uses_gripper gripper_arr then _ else None) in *.
    set (o := match out0 with Some o => o | None => repeat zero_out (length image_arr) end) in *.
    assert (Ho : length o = length image_arr).
    { unfold o. destruct out0 as [o0|]; [by apply Hout | apply repeat_length]. }
    assert (Hlim1 : length im1 = R).
    { unfold im1. rewrite length_app, length_map, slice_length, length_drop by lia. lia. }
    destruct (Hgraph Output im1 po1 grf Hlim1) as (gq & Egq & Hlgq).
    set (out1 := take i o ++ take 0 gq ++ drop i o).
    assert (Echunk : predict_chunk' image_arr pose_arr gripper_arr gdm i out0 s
                     = (Ok (i, out1), s1)).
    { rewrite E1. unfold bind at 1. rewrite Egq. unfold bind at 1.
      rewrite assign_rows_slice by (rewrite ?length_take, ?Ho; lia).
      reflexivity. }
    assert (Hlout1 : length out1 = length image_arr).
    { unfold out1. rewrite !length_app, !length_take, length_drop, Ho. lia. }
    assert (HBs1 : _batch_size (self s1) = 0).
    { unfold static in Hst1. injection Hst1; intros; congruence. }
    destruct (IH s1 R image_arr pose_arr gripper_arr gdm i (Some out1)
                Hi Hpose Hgrip HBs1 Hfeeds1 Hgraph) as (s' & Eloop & Hlen).
    { by intros ? [= <-]. }
    exists s'. split.
    { simpl. rewrite (proj2 (Nat.ltb_lt _ _) Hi). unfold bind. rewrite Echunk. exact Eloop. }
    rewrite Hlen, Hlog1, length_app. simpl. lia.
Qed.

(** X4: with a batch size of zero ([update_batch_size(0)]) every pass of
    the loop of [predict] takes a chunk of no row and leaves the index
    where it was: on one image or more the loop runs the graph at every
    pass and never ends.  Whatever the number of passes allowed, the
    model is cut, having run the graph that many times. *)
Theorem predict_with_batch_size_zero_never_returns :
  forall (s : state) R image_arr pose_arr gripper_arr gdm fuel,
    length pose_arr = length image_arr ->
    (forall g, gripper_arr = Some g -> length g = length image_arr) ->
    is_Some (_sess (self s)) ->
    _batch_size (self s) = 0 ->
    feeds_allocated R (uses_gripper gripper_arr) gdm s ->
    graph_keeps_rows sess_run R ->
    1 <= length image_arr ->
    exists s',
      predict' fuel image_arr pose_arr gripper_arr gdm s = (OutOfFuel, s')
      /\ length (run_log (tf s')) = length (run_log (tf s)) + fuel.
Proof.
  intros s R image_arr pose_arr gripper_arr gdm fuel Hpose Hgrip Hsess HBs Hfeeds Hgraph HN.
  rewrite predict_with_session by assumption.
  apply (predict_loop_batch_size_zero fuel s R); try assumption; try lia; discriminate.
Qed.

(** X5: when the batch size exceeds the [R >= 1] rows the feed arrays
    were allocated with and more than [R] images are given, the first
    slice assignment of [predict] raises [ValueError] (numpy cannot
    broadcast the chunk into [R] rows): nothing has been written and the
    graph is not run. *)
Theorem predict_beyond_the_allocated_rows_is_refused :
  forall (s : state) B R image_arr pose_arr gripper_arr gdm fuel im,
    length pose_arr = length image_arr ->
    (forall g, gripper_arr = Some g -> length g = length image_arr) ->
    is_Some (_sess (self s)) ->
    _batch_size (self s) = B ->
    _input_im_arr (self s) = Some im -> length im = R ->
    1 <= R -> R < B -> R < length image_arr ->
    1 <= fuel ->
    predict' fuel image_arr pose_arr gripper_arr gdm s
    = (Raise (ValueError "could not broadcast input array"), s).
Proof.
  intros s B R image_arr pose_arr gripper_arr gdm fuel im
         Hpose Hgrip Hsess HBs Him Hlim HR HRB HRN Hfuel.
  rewrite predict_with_session by assumption.
  destruct fuel as [|fuel]; [lia|]. simpl.
  rewrite (proj2 (Nat.ltb_lt 0 (length image_arr))) by lia.
  unfold bind at 1. unfold predict_chunk. unfold bind at 1, gets at 1. rewrite HBs.
  rewrite Nat.sub_0_r. set (dim := B `min` length image_arr).
  unfold bind at 1. unfold fill_input_im. unfold bind at 1, gets at 1.
  unfold bind at 1, gets at 1. unfold bind at 1. unfold bind at 1, gets at 1.
  rewrite Him. unfold attribute, ret at 1. unfold bind at 1.
  unfold assign_rows.
  rewrite Nat.min_r by (unfold dim; lia). rewrite Nat.sub_0_r.
  change (drop 0 im) with im. rewrite take_ge by lia.
  rewrite length_map, slice_length by (unfold dim; lia).
  rewrite Hlim. replace (0 + dim - 0 =? R) with false
    by (symmetry; apply Nat.eqb_neq; unfold dim; lia).
  destruct (map _ (slice 0 (0 + dim) image_arr)) as [|x [|y l]] eqn:Em.
  - reflexivity.
  - apply (f_equal length) in Em. rewrite length_map, slice_length in Em
      by (unfold dim; lia). simpl in Em. unfold dim in Em. lia.
  - reflexivity.
Qed.


(** ** [featurize] at its edges *)

(** X7: [featurize] refuses a layer whose feature tensor was not
    registered, then inputs of different lengths, with the state
    unchanged (no session is opened); on no image at all it raises
    [TypeError] (it slices [None]) after closing the session it opened,
    and without running the graph. *)
Theorem featurize_refusals :
  forall (s : state) image_arr pose_arr layer fuel,
    (existsb (String.eqb layer) (_feature_tensors (self s)) = false ->
     featurize' fuel image_arr pose_arr layer s
     = (Raise (ValueError ("Feature layer " +:+ layer +:+ " not recognized")), s))
    /\ (existsb (String.eqb layer) (_feature_tensors (self s)) = true ->
        length image_arr <> length pose_arr ->
        featurize' fuel image_arr pose_arr layer s
        = (Raise (ValueError "Must provide same number of images and poses"), s))
    /\ (existsb (String.eqb layer) (_feature_tensors (self s)) = true ->
        image_arr = [] -> pose_arr = [] ->
        exists s',
          featurize' fuel image_arr pose_arr layer s
          = (Raise (TypeError "'NoneType' object has no attribute '__getitem__'"), s')
          /\ _sess (self s') = _sess (self s)
          /\ (runtime_ok (tf s) -> open_sessions (tf s') = open_sessions (tf s))
          /\ run_log (tf s') = run_log (tf s)).
Proof.
  intros s image_arr pose_arr layer fuel. split; [|split].
  - intros H. unfold featurize, bind, gets. by rewrite H.
  - intros H Hl. unfold featurize, bind, gets. rewrite H. simpl.
    apply Nat.eqb_neq in Hl. by rewrite Hl.
  - intros H -> ->. unfold featurize. unfold bind at 1, gets at 1. rewrite H. simpl.
    unfold bind at 1, gets at 1.
    destruct (_sess (self s)) as [sid|] eqn:Hs.
    + exists s. unfold bind, ret. destruct fuel; simpl; by repeat split.
    + eexists. unfold bind, ret, open_session.
      assert (Hl : forall st : state, featurize_loop' fuel [] [] layer 0 None st = (Ok None, st))
        by (intros st; by destruct fuel).
      rewrite Hl. simpl. split; [reflexivity|]. simpl. split; [reflexivity|].
      split; [|reflexivity].
      intros Hrt. rewrite filter_cons_False by (intros Hne; by apply Hne).
      by apply close_after_open.
Qed.

Lemma featurize_loop_appends fuel :
  forall (s : state) B R image_arr pose_arr layer i o net,
    1 <= B <= R ->
    i <= length image_arr ->
    i <= length o ->
    length pose_arr = length image_arr ->
    _batch_size (self s) = B ->
    feeds_allocated R false false s ->
    graph_is_rowwise sess_run (Feature layer) net ->
    length image_arr - i <= fuel ->
    exists more s',
      featurize_loop' fuel image_arr pose_arr layer i (Some o) s = (Ok (Some (o ++ more)), s')
      /\ length image_arr <= length (o ++ more)
      /\ _sess (self s') = _sess (self s)
      /\ open_sessions (tf s') = open_sessions (tf s)
      /\ sessions_created (tf s') = sessions_created (tf s).
Proof.
  induction fuel as [|fuel IH];
    intros s B R image_arr pose_arr layer i o net HB Hi Hio Hpose HBs Hfeeds Hrow Hfuel.
  - exists [], s. simpl. rewrite (proj2 (Nat.ltb_ge _ _)) by lia.
    rewrite app_nil_r. split; [done|]. split; [lia|done].
  - destruct (Nat.ltb_spec i (length image_arr)) as [Hlt|Hge].
    2:{ exists [], s. simpl. rewrite (proj2 (Nat.ltb_ge _ _) Hge).
        rewrite app_nil_r. split; [done|]. split; [lia|done]. }
    pose proof Hfeeds as ((im & Him & Hlim) & (po & Hpo & Hlpo) & _).
    set (dim := B `min` (length image_arr - i)).
    assert (Hdimi : i + dim <= length image_arr) by (unfold dim; lia).
    assert (HdimR : dim <= R) by (unfold dim; lia).
    pose proof (featurize_chunk_rows s B R image_arr pose_arr layer i (Some o) im po
                  ltac:(lia) Hpose HBs Him Hlim Hpo Hlpo HdimR) as E1.
    cbv zeta in E1. fold dim in E1.
    set (im1 := map (fim (self s)) (slice i (i + dim) image_arr) ++ drop dim im) in *.
    set (po1 := map (po_row (self s)) (slice i (i + dim) pose_arr) ++ drop dim po) in *.
    set (s1 := {| self := set_input_pose_arr (Some po1) (set_input_im_arr (Some im1) (self s));
                  tf := _ |}) in E1.
    assert (Hlim1 : length im1 = R).
    { unfold im1. rewrite length_app, length_map, slice_length, length_drop by lia. lia. }
    assert (Hlpo1 : length po1 = R).
    { unfold po1. rewrite length_app, length_map, slice_length, length_drop
        by (rewrite ?Hpose; lia). lia. }
    assert (Hlgq : length (rows_of net im1 po1 None) = R) by (apply rows_of_length; done).
    destruct (IH s1 B R image_arr pose_arr layer (i + dim) (o ++ rows_of net im1 po1 None) net
                HB Hdimi) as (more & s' & Eloop & Hlen & Hs & Hos & Hsc).
    { rewrite length_app, Hlgq. lia. }
    { exact Hpose. }
    { exact HBs. }
    { unfold feeds_allocated. simpl. split; [by exists im1|]. split; [by exists po1|].
      split; discriminate. }
    { exact Hrow. }
    { unfold dim. lia. }
    exists (rows_of net im1 po1 None ++ more), s'. split.
    { simpl. rewrite (proj2 (Nat.ltb_lt _ _) Hlt). unfold bind at 1. rewrite E1.
      unfold bind at 1. rewrite (Hrow im1 po1 None). unfold ret.
      rewrite Eloop. by rewrite <- app_assoc. }
    split; [by rewrite app_assoc|]. by repeat split.
Qed.

(** X8: [featurize] keeps every row of every run.  When the batch size
    [B] is below the rows [R] of the feed arrays and more than [B] images
    are given, the row [B] of the result is the network on the row [B]
    of the feed arrays as they were before the call, not on the image
    [B] (where [predict] takes the first [dim] rows of each run). *)
Theorem featurize_with_a_smaller_batch_returns_stale_rows :
  forall (s : state) B R image_arr pose_arr layer fuel net im po x p,
    1 <= B -> B < R -> B < length image_arr ->
    length pose_arr = length image_arr ->
    existsb (String.eqb layer) (_feature_tensors (self s)) = true ->
    _batch_size (self s) = B ->
    _input_im_arr (self s) = Some im -> length im = R ->
    _input_pose_arr (self s) = Some po -> length po = R ->
    im !! B = Some x -> po !! B = Some p ->
    graph_is_rowwise sess_run (Feature layer) net ->
    length image_arr <= fuel ->
    exists out s',
      featurize' fuel image_arr pose_arr layer s = (Ok out, s')
      /\ length out = length image_arr
      /\ out !! B = Some (net x p None).
Proof.
  intros s B R image_arr pose_arr layer fuel net im po x p
         HB HBR HBN Hpose Hlayer HBs Him Hlim Hpo Hlpo Hx Hp Hrow HN.
  unfold featurize. unfold bind at 1, gets at 1. rewrite Hlayer. cbv iota beta.
  change (negb true) with false. cbv iota.
  rewrite Hpose, Nat.eqb_refl. change (negb true) with false. cbv iota.
  unfold bind at 1, gets at 1.
  (* the state in which the loop starts *)
  assert (Hstart : exists (s0 : state) close,
             match _sess (self s) with
             | Some _ => ret false
             | None => open_session;;; ret true
             end s = (Ok close, s0)
             /\ (close = true -> is_Some (_sess (self s0)))
             /\ _batch_size (self s0) = B
             /\ _input_im_arr (self s0) = Some im
             /\ _input_pose_arr (self s0) = Some po
             /\ _im_mean (self s0) = _im_mean (self s) /\ _im_std (self s0) = _im_std (self s)
             /\ _pose_mean (self s0) = _pose_mean (self s)
             /\ _pose_std (self s0) = _pose_std (self s)).
  { destruct (_sess (self s)) as [sid|].
    - exists s, false. by repeat split.
    - eexists _, true. unfold bind, open_session, ret. split; [reflexivity|].
      simpl. split; [by eexists|]. by repeat split. }
  unfold bind at 1.
  destruct Hstart as (s0 & close & -> & Hclose & HBs0 & Him0 & Hpo0 & _).
  (* the first pass *)
  destruct fuel as [|fuel]; [lia|].
  simpl featurize_loop. rewrite (proj2 (Nat.ltb_lt 0 (length image_arr))) by lia.
  pose proof (featurize_chunk_rows s0 B R image_arr pose_arr layer 0 None im po
                ltac:(lia) Hpose HBs0 Him0 Hlim Hpo0 Hlpo) as E1.
  cbv zeta in E1. rewrite Nat.sub_0_r in E1.
  rewrite Nat.min_l in E1 by lia. specialize (E1 ltac:(lia)).
  set (im1 := map (fim (self s0)) (slice 0 (0 + B) image_arr) ++ drop B im) in *.
  set (po1 := map (po_row (self s0)) (slice 0 (0 + B) pose_arr) ++ drop B po) in *.
  set (s1 := {| self := set_input_pose_arr (Some po1) (set_input_im_arr (Some im1) (self s0));
                tf := _ |}) in E1.
  assert (Hlim1 : length im1 = R).
  { unfold im1. rewrite length_app, length_map, slice_length, length_drop by lia. lia. }
  assert (Hlpo1 : length po1 = R).
  { unfold po1. rewrite length_app, length_map, slice_length, length_drop
      by (rewrite ?Hpose; lia). lia. }
  set (gq := rows_of net im1 po1 None).
  assert (Hlgq : length gq = R) by (apply rows_of_length; done).
  assert (Hrow1 : gq !! B = Some (net x p None)).
  { unfold gq. simpl. apply lookup_zip_with_Some. exists x, p. split; [done|].
    unfold im1, po1.
    rewrite !lookup_app_r
      by (rewrite length_map, slice_length by (rewrite ?Hpose; lia); lia).
    rewrite !length_map, !slice_length by (rewrite ?Hpose; lia).
    rewrite !lookup_drop. replace (B + (B - (0 + B - 0))) with B by lia. done. }
  destruct (featurize_loop_appends fuel s1 B R image_arr pose_arr layer (0 + B) gq net
              ltac:(lia) ltac:(lia) ltac:(lia) Hpose HBs0)
    as (more & s2 & Eloop & Hlen2 & Hs2 & Hos2 & Hsc2).
  { unfold feeds_allocated. simpl. split; [by exists im1|]. split; [by exists po1|].
    split; discriminate. }
  { exact Hrow. }
  { lia. }
  unfold bind at 1. unfold bind at 1.
  rewrite E1. unfold bind at 1. rewrite (Hrow im1 po1 None). unfold ret at 1.
  fold gq. rewrite Eloop.
  assert (Hfin : exists s3 : state, (if close then close_session else ret tt) s2 = (Ok tt, s3)).
  { destruct close; [|by exists s2].
    unfold close_session. rewrite Hs2. simpl.
    destruct (Hclose eq_refl) as [sid ->]. by eexists. }
  cbv beta iota. unfold bind at 1.
  destruct Hfin as (s3 & ->).
  eexists _, s3. unfold bind, ret. split; [reflexivity|].
  split.
  - rewrite length_take. lia.
  - rewrite lookup_take_lt by lia. rewrite lookup_app_l by lia. exact Hrow1.
Qed.

End Loop.

(** ** Sessions *)

(** X9: [open_session] creates a session and makes it the session of
    the network without closing the one the network held: after two
    [open_session] and one [close_session] the first session is still
    open and the network holds none, so that a further [close_session]
    raises [AttributeError]. *)
Theorem a_second_open_session_leaks_the_first :
  forall {Im Pose Grip Stat : Type} (s : Inference.state Im Pose Grip Stat),
    let first := sessions_created (tf s) in
    let s1 := snd (open_session s) in
    let s2 := snd (open_session s1) in
    let r := close_session s2 in
    fst (open_session s) = Ok first
    /\ fst (open_session s1) = Ok (S first)
    /\ _sess (self s2) = Some (S first)
    /\ fst r = Ok tt
    /\ _sess (self (snd r)) = None
    /\ first ∈ open_sessions (tf (snd r))
    /\ fst (close_session (snd r)) = Raise (AttributeError "close").
Proof.
  intros Im Pose Grip Stat s first s1 s2 r. unfold r, s2, s1, first. simpl.
  repeat split.
  rewrite filter_cons_False by (intros H; by apply H).
  rewrite filter_cons_True by lia. apply elem_of_cons. by left.
Qed.


(** ** At concrete inputs *)

Lemma add_graph_is_rowwise f : graph_is_rowwise BatchingExamples.add_graph f BatchingExamples.add_net.
Proof. intros ims poses grips. reflexivity. Qed.

Lemma resized_allocated rows b :
  feeds_allocated rows false false (BatchingExamples.resized rows b).
Proof.
  split; [eexists; split; [reflexivity | apply repeat_length]|].
  split; [eexists; split; [reflexivity | apply repeat_length]|].
  split; discriminate.
Qed.

Lemma resized_ready_allocated rows b :
  feeds_allocated rows false false (BatchingExamples.resized_ready rows b).
Proof.
  split; [eexists; split; [reflexivity | apply repeat_length]|].
  split; [eexists; split; [reflexivity | apply repeat_length]|].
  split; discriminate.
Qed.

(** The theorem at four images, feed arrays of three rows and a batch
    size of two. *)
Lemma predict_maps_the_network_over_the_rows_witness :
  let s := BatchingExamples.resized_ready 3 2 in
  is_Some (_sess (self s))
  /\ _batch_size (self s) = 2
  /\ feeds_allocated 3 false false s
  /\ graph_is_rowwise BatchingExamples.add_graph Output BatchingExamples.add_net
  /\ exists s',
       BatchingExamples.predict_add 4 [1; 2; 3; 4]%Q [5; 6; 7; 8]%Q None false s
       = (Ok (Some (rows_of BatchingExamples.add_net
                      (map (Examples.normalize 0 1) [1; 2; 3; 4]%Q)
                      (map (Examples.normalize 0 1) [5; 6; 7; 8]%Q) None)), s').
Proof.
  intros s.
  split; [by eexists|]. split; [reflexivity|].
  split; [exact (resized_ready_allocated 3 2)|].
  split; [exact (add_graph_is_rowwise Output)|].
  apply (predict_maps_the_network_over_the_rows Q Q Q Q Q
           Examples.normalize Examples.normalize Examples.normalize
           Examples.normalize_channel 0%Q BatchingExamples.add_graph
           s 2 3 [1; 2; 3; 4]%Q [5; 6; 7; 8]%Q None false 4 BatchingExamples.add_net).
  - lia.
  - reflexivity.
  - discriminate.
  - by eexists.
  - reflexivity.
  - exact (resized_ready_allocated 3 2).
  - exact (add_graph_is_rowwise Output).
  - simpl. lia.
Defined.

(** The theorem at five images and a batch size of two: three runs. *)
Lemma predict_runs_the_graph_once_per_chunk_witness :
  let s := Examples.ready 2 in
  feeds_allocated 2 false false s
  /\ graph_keeps_rows Examples.identity_graph 2
  /\ exists res s' feeds,
       Examples.predict 5 [1; 2; 3; 4; 5]%Q [1; 2; 3; 4; 5]%Q None false s = (Ok res, s')
       /\ run_log (tf s') = run_log (tf s) ++ feeds
       /\ length feeds = 3.
Proof.
  intros s.
  assert (Hf : feeds_allocated 2 false false s).
  { split; [by eexists|]. split; [by eexists|]. split; discriminate. }
  split; [exact Hf|]. split; [exact (identity_graph_keeps_rows 2)|].
  destruct (predict_runs_the_graph_once_per_chunk Q Q Q Q Q
              Examples.normalize Examples.normalize Examples.normalize
              Examples.normalize_channel 0%Q Examples.identity_graph
              s 2 2 [1; 2; 3; 4; 5]%Q [1; 2; 3; 4; 5]%Q None false 5)
    as (res & s' & feeds & E & Hlog & Hlen & _).
  - lia.
  - reflexivity.
  - discriminate.
  - by eexists.
  - reflexivity.
  - exact Hf.
  - exact (identity_graph_keeps_rows 2).
  - simpl. lia.
  - exists res, s', feeds. split; [exact E|]. split; [exact Hlog|]. exact Hlen.
Defined.

(** The theorem at two images and one pose, then at a network with no
    session. *)
Lemma predict_checks_before_it_writes_witness :
  length [1; 2]%Q <> length [3]%Q
  /\ Examples.predict 2 [1; 2]%Q [3]%Q None false (Examples.ready 2)
     = (Raise (ValueError "Must provide same number of images and poses"), Examples.ready 2)
  /\ Inference._sess (self (Examples.initialized 2)) = None
  /\ Examples.predict 2 [1; 2]%Q [3; 4]%Q None false (Examples.initialized 2)
     = (Raise (RuntimeError "No TF session open. Please call open_session() first."),
        Examples.initialized 2).
Proof.
  assert (H : length [1; 2]%Q <> length [3]%Q) by discriminate.
  split; [exact H|].
  split.
  - exact (proj1 (predict_checks_before_it_writes Q Q Q Q Q
                    Examples.normalize Examples.normalize Examples.normalize
                    Examples.normalize_channel 0%Q Examples.identity_graph
                    (Examples.ready 2) [1; 2]%Q [3]%Q None false 2) H).
  - split; [reflexivity|].
    apply (proj2 (proj2 (predict_checks_before_it_writes Q Q Q Q Q
                    Examples.normalize Examples.normalize Examples.normalize
                    Examples.normalize_channel 0%Q Examples.identity_graph
                    (Examples.initialized 2) [1; 2]%Q [3; 4]%Q None false 2)));
      [reflexivity | discriminate | reflexivity].
Defined.

(** The theorem at one image, after [update_batch_size(0)]: seven
    passes allowed, seven runs, no result. *)
Lemma predict_with_batch_size_zero_never_returns_witness :
  let s := BatchingExamples.resized_ready 2 0 in
  _batch_size (self s) = 0
  /\ feeds_allocated 2 false false s
  /\ exists s',
       Examples.predict 7 [1]%Q [1]%Q None false s = (OutOfFuel, s')
       /\ length (run_log (tf s')) = length (run_log (tf s)) + 7.
Proof.
  intros s. split; [reflexivity|]. split; [exact (resized_ready_allocated 2 0)|].
  apply (predict_with_batch_size_zero_never_returns Q Q Q Q Q
           Examples.normalize Examples.normalize Examples.normalize
           Examples.normalize_channel 0%Q Examples.identity_graph
           s 2 [1]%Q [1]%Q None false 7).
  - reflexivity.
  - discriminate.
  - by eexists.
  - reflexivity.
  - exact (resized_ready_allocated 2 0).
  - exact (identity_graph_keeps_rows 2).
  - simpl. lia.
Defined.

(** The theorem at three images, feed arrays of two rows and a batch
    size of three. *)
Lemma predict_beyond_the_allocated_rows_is_refused_witness :
  let s := BatchingExamples.resized_ready 2 3 in
  _batch_size (self s) = 3
  /\ _input_im_arr (self s) = Some [0; 0]%Q
  /\ Examples.predict 3 [1; 2; 3]%Q [4; 5; 6]%Q None false s
     = (Raise (ValueError "could not broadcast input array"), s).
Proof.
  intros s. split; [reflexivity|]. split; [reflexivity|].
  apply (predict_beyond_the_allocated_rows_is_refused Q Q Q Q Q
           Examples.normalize Examples.normalize Examples.normalize
           Examples.normalize_channel 0%Q Examples.identity_graph
           s 3 2 [1; 2; 3]%Q [4; 5; 6]%Q None false 3 [0; 0]%Q).
  - reflexivity.
  - discriminate.
  - by eexists.
  - reflexivity.
  - reflexivity.
  - reflexivity.
  - lia.
  - lia.
  - simpl. lia.
  - lia.
Defined.

(** The theorem at three images and a batch size of two, with no
    session open before the call. *)
Lemma featurize_maps_the_network_over_the_rows_witness :
  let s := Examples.initialized 2 in
  feeds_allocated 2 false false s
  /\ runtime_ok (tf s)
  /\ graph_is_rowwise BatchingExamples.add_graph (Feature "conv2_2") BatchingExamples.add_net
  /\ exists s',
       BatchingExamples.featurize_add 3 [1; 2; 3]%Q [4; 5; 6]%Q "conv2_2" s
       = (Ok (rows_of BatchingExamples.add_net
                (map (Examples.normalize 0 1) [1; 2; 3]%Q)
                (map (Examples.normalize 0 1) [4; 5; 6]%Q) None), s')
       /\ _sess (self s') = None
       /\ open_sessions (tf s') = [].
Proof.
  intros s.
  assert (Hf : feeds_allocated 2 false false s).
  { split; [by eexists|]. split; [by eexists|]. split; discriminate. }
  assert (Hrt : runtime_ok (tf s)) by constructor.
  split; [exact Hf|]. split; [exact Hrt|].
  split; [exact (add_graph_is_rowwise _)|].
  apply (featurize_maps_the_network_over_the_rows Q Q Q Q Q
           Examples.normalize Examples.normalize BatchingExamples.add_graph
           s 2 [1; 2; 3]%Q [4; 5; 6]%Q "conv2_2" 3 BatchingExamples.add_net).
  - lia.
  - reflexivity.
  - reflexivity.
  - reflexivity.
  - exact Hf.
  - exact Hrt.
  - exact (add_graph_is_rowwise _).
  - simpl. lia.
Defined.

(** The theorem at a layer that was not built. *)
Lemma featurize_refusals_witness :
  existsb (String.eqb "fc9") (_feature_tensors (self (Examples.initialized 2))) = false
  /\ Examples.featurize 3 [1; 2; 3]%Q [4; 5; 6]%Q "fc9" (Examples.initialized 2)
     = (Raise (ValueError "Feature layer fc9 not recognized"), Examples.initialized 2).
Proof.
  split; [reflexivity|].
  exact (proj1 (featurize_refusals Q Q Q Q Q
                  Examples.normalize Examples.normalize Examples.identity_graph
                  (Examples.initialized 2) [1; 2; 3]%Q [4; 5; 6]%Q "fc9" 3) eq_refl).
Defined.

(** The theorem at three images, feed arrays of three rows and a batch
    size of two: the third feature is that of the third row of the feed
    arrays, the zeros of [initialize_network], not that of the third
    image. *)
Lemma featurize_with_a_smaller_batch_returns_stale_rows_witness :
  let s := BatchingExamples.resized 3 2 in
  _batch_size (self s) = 2
  /\ _input_im_arr (self s) = Some [0; 0; 0]%Q
  /\ _input_pose_arr (self s) = Some [0; 0; 0]%Q
  /\ exists out s',
       BatchingExamples.featurize_add 3 [1; 2; 3]%Q [4; 5; 6]%Q "conv2_2" s = (Ok out, s')
       /\ length out = 3
       /\ out !! 2 = Some (BatchingExamples.add_net 0 0 None).
Proof.
  intros s. split; [reflexivity|]. split; [reflexivity|]. split; [reflexivity|].
  apply (featurize_with_a_smaller_batch_returns_stale_rows Q Q Q Q Q
           Examples.normalize Examples.normalize BatchingExamples.add_graph
           s 2 3 [1; 2; 3]%Q [4; 5; 6]%Q "conv2_2" 3 BatchingExamples.add_net
           [0; 0; 0]%Q [0; 0; 0]%Q 0%Q 0%Q);
    first [ exact (add_graph_is_rowwise _) | reflexivity | simpl; lia ].
Defined.

End BatchingFacts.

(* ===================================================================== *)
(** * Properties of the layer builders *)
(* ===================================================================== *)

Module LayerFacts.
Import Net NetFacts Layers.

(** ** Stepping through a computation that succeeds *)

Lemma bind_ok {A B} (c : M state A) (k : A -> M state B) s r s' :
  bind c k s = (Ok r, s') ->
  exists a s0, c s = (Ok a, s0) /\ k a s0 = (Ok r, s').
Proof.
  unfold bind. destruct (c s) as [[a| |] s0]; try discriminate. eauto.
Qed.

Lemma weights_contains_ok key s has s' :
  weights_contains key s = (Ok has, s') ->
  s' = s /\ exists d, store_of s = Some d /\ has = bool_decide (is_Some (d !! key)).
Proof.
  unfold weights_contains, bind, weights_dict, store_of, ret.
  destruct (w__dict__ (_weights (self s)) !! "weights") as [[t|d']|]; try discriminate;
    intros [= <- <-]; eauto.
Qed.

Lemma np_sqrt_2_over_ok fan_in s std s' :
  np_sqrt_2_over fan_in s = (Ok std, s') -> s' = s /\ std = fan_in /\ fan_in <> 0.
Proof.
  unfold np_sqrt_2_over. destruct (Z.eqb_spec fan_in 0); [discriminate|].
  by intros [= <- <-].
Qed.

Lemma int_div_ok a b s z s' :
  @int_div state a b s = (Ok z, s') -> s' = s /\ z = a / b /\ b <> 0.
Proof.
  unfold int_div. destruct (Z.eqb_spec b 0); [discriminate|]. by intros [= <- <-].
Qed.


Lemma feature_registered name t s :
  _feature_tensors (self (register_feature name t s)) !! name = Some t.
Proof. simpl. apply lookup_insert_eq. Qed.

Lemma registered {A} name node (x : A) s r s' :
  (feature_setitem name node ;;; ret x) s = (Ok r, s') ->
  r = x /\ s' = register_feature name node s.
Proof. unfold bind, feature_setitem, modify, ret. by intros [= <- <-]. Qed.

(** ** The weights of a layer of two keys *)

Lemma reuse_two_keys name s r s0 :
  (let* w := weights_getitem (fmt name "_weights") in
   let* b := weights_getitem (fmt name "_bias") in
   ret (w, b)) s = (Ok r, s0) ->
  s0 = s /\ two_keys name s (fst r) (snd r).
Proof.
  intros H. apply bind_ok in H as (W & s1 & H1 & H).
  apply weights_getitem_ok in H1 as (-> & d & Hd & HW).
  apply bind_ok in H as (b & s2 & H2 & H).
  apply weights_getitem_ok in H2 as (-> & d' & Hd' & Hb).
  injection H as <- <-. split; [done|]. exists d. simplify_eq. by repeat split.
Qed.

Lemma weights_setitem_norm key v s o s' norm :
  weights_setitem key v s = (o, s') -> norm_of norm (self s') = norm_of norm (self s).
Proof.
  unfold weights_setitem.
  destruct (w__dict__ (_weights (self s)) !! "weights") as [[?|?]|];
    intros H; injection H as <- <-; reflexivity.
Qed.

Lemma create_two_keys name iW ib s d :
  store_of s = Some d ->
  let W := tf_Variable (tf_variables (proc s)) iW (fmt name "_weights") in
  let b := tf_Variable (S (tf_variables (proc s))) ib (fmt name "_bias") in
  exists s0,
    (let* w := new_Variable iW (fmt name "_weights") in
     let* b := new_Variable ib (fmt name "_bias") in
     weights_setitem (fmt name "_weights") w ;;;
     weights_setitem (fmt name "_bias") b ;;;
     ret (w, b)) s = (Ok (W, b), s0)
    /\ store_of s0 = Some (<[fmt name "_bias" := b]> (<[fmt name "_weights" := W]> d))
    /\ tf_variables (proc s0) = S (S (tf_variables (proc s)))
    /\ _feature_tensors (self s0) = _feature_tensors (self s)
    /\ (forall norm, norm_of norm (self s0) = norm_of norm (self s)).
Proof.
  intros Hs W b.
  unfold bind at 1. rewrite new_Variable_run. fold W.
  set (s1 := snd (new_Variable iW _ s)).
  unfold bind at 1. rewrite new_Variable_run.
  change (tf_variables (proc s1)) with (S (tf_variables (proc s))). fold b.
  set (s2 := snd (new_Variable ib _ s1)).
  assert (Hs2 : store_of s2 = Some d) by exact Hs.
  destruct (weights_setitem_store s2 d (fmt name "_weights") W Hs2) as (s3 & E3 & Hs3 & Hv3 & Hf3).
  destruct (weights_setitem_store s3 _ (fmt name "_bias") b Hs3) as (s4 & E4 & Hs4 & Hv4 & Hf4).
  exists s4. unfold bind at 1. rewrite E3. unfold bind at 1. rewrite E4.
  split; [reflexivity|]. split; [exact Hs4|].
  split; [by rewrite Hv4, Hv3|]. split; [by rewrite Hf4, Hf3|].
  intros norm.
  rewrite (weights_setitem_norm _ _ _ _ _ norm E4), (weights_setitem_norm _ _ _ _ _ norm E3).
  reflexivity.
Qed.

Lemma created_has_two_keys name iW ib s s0 W b :
  reused_or_created name iW ib s s0 W b ->
  (s0 = s -> exists d, store_of s = Some d /\ d !! fmt name "_bias" = Some b) ->
  two_keys name s0 W b.
Proof.
  intros [(-> & d & Hd & HW)|(d & Hd & Hno & -> & -> & Hs0 & _)] Hb.
  - destruct (Hb eq_refl) as (d' & Hd' & Hb'). exists d. simplify_eq. by repeat split.
  - eexists. split; [exact Hs0|]. split.
    + rewrite lookup_insert_ne by (apply fmt_ne; discriminate). apply lookup_insert_eq.
    + apply lookup_insert_eq.
Qed.

(** What the part of a builder that gets the weights gives, for the
    creation code [create] of the layer. *)
Lemma two_key_weights name iW ib (create : M state (tensor * tensor)) s has s1 r s0 :
  (forall s1 r1 s2, create s1 = (Ok r1, s2) ->
       (let* w := new_Variable iW (fmt name "_weights") in
        let* b := new_Variable ib (fmt name "_bias") in
        weights_setitem (fmt name "_weights") w ;;;
        weights_setitem (fmt name "_bias") b ;;;
        ret (w, b)) s1 = (Ok r1, s2)) ->
  weights_contains (fmt name "_weights") s = (Ok has, s1) ->
  (if has : bool then
     let* w := weights_getitem (fmt name "_weights") in
     let* b := weights_getitem (fmt name "_bias") in
     ret (w, b)
   else create) s1 = (Ok r, s0) ->
  two_keys name s0 (fst r) (snd r)
  /\ reused_or_created name iW ib s s0 (fst r) (snd r)
  /\ _feature_tensors (self s0) = _feature_tensors (self s).
Proof.
  intros Hcreate H1 H.
  apply weights_contains_ok in H1 as (-> & d & Hd & ->).
  destruct (d !! fmt name "_weights") as [W|] eqn:HW.
  - rewrite bool_decide_eq_true_2 in H by (by eexists).
    apply reuse_two_keys in H as (-> & Hk). split; [exact Hk|]. split; [|done].
    left. split; [done|]. exists d. split; [done|].
    destruct Hk as (d' & Hd' & HW' & _). by simplify_eq.
  - rewrite bool_decide_eq_false_2 in H by (by intros [? ?]).
    apply Hcreate in H.
    destruct (create_two_keys name iW ib s d Hd) as (s0' & E & Hs0 & Hv & Hf & Hn).
    rewrite E in H. injection H as <- <-. simpl.
    assert (Hrc : reused_or_created name iW ib s s0'
                    (tf_Variable (tf_variables (proc s)) iW (fmt name "_weights"))
                    (tf_Variable (S (tf_variables (proc s))) ib (fmt name "_bias"))).
    { right. exists d. by repeat split. }
    split; [|by split].
    apply (created_has_two_keys _ _ _ _ _ _ _ Hrc).
    intros ->. exfalso.
    assert (Hvs : tf_variables (proc s) = S (S (tf_variables (proc s)))) by exact Hv. lia.
Qed.

(** ** What each builder gives when it succeeds *)

Lemma pc_layer_built x fan_in out_size name s r s' :
  _build_pc_layer x fan_in out_size name s = (Ok r, s') ->
  exists W b s0,
    two_keys name s0 W b
    /\ reused_or_created name (tf_truncated_normal [fan_in; out_size] fan_in)
                         (tf_truncated_normal [out_size] fan_in) s s0 W b
    /\ _feature_tensors (self s0) = _feature_tensors (self s)
    /\ r = (pc_node_of x W b, out_size)
    /\ s' = register_feature name (pc_node_of x W b) s0.
Proof.
  unfold _build_pc_layer. intros H.
  apply bind_ok in H as (has & s1 & H1 & H).
  apply bind_ok in H as ([W b] & s0 & H2 & H).
  apply registered in H as [-> ->].
  eapply two_key_weights in H2 as (Hk & Hrc & Hf); [| |exact H1].
  - exists W, b, s0. by repeat split.
  - intros sa ra sb Hc. apply bind_ok in Hc as (std & sc & Hstd & Hc).
    apply np_sqrt_2_over_ok in Hstd as (-> & -> & _). exact Hc.
Qed.

Lemma gc_layer_built x fan_in out_size name s r s' :
  _build_gc_layer x fan_in out_size name s = (Ok r, s') ->
  exists W b s0,
    two_keys name s0 W b
    /\ reused_or_created name (tf_truncated_normal [fan_in; out_size] fan_in)
                         (tf_truncated_normal [out_size] fan_in) s s0 W b
    /\ _feature_tensors (self s0) = _feature_tensors (self s)
    /\ r = (pc_node_of x W b, out_size)
    /\ s' = register_feature name (pc_node_of x W b) s0.
Proof.
  unfold _build_gc_layer. intros H.
  apply bind_ok in H as (has & s1 & H1 & H).
  apply bind_ok in H as ([W b] & s0 & H2 & H).
  apply registered in H as [-> ->].
  eapply two_key_weights in H2 as (Hk & Hrc & Hf); [| |exact H1].
  - exists W, b, s0. by repeat split.
  - intros sa ra sb Hc. apply bind_ok in Hc as (std & sc & Hstd & Hc).
    apply np_sqrt_2_over_ok in Hstd as (-> & -> & _). exact Hc.
Qed.

Lemma fc_layer_built x fan_in out_size name multi drop final s r s' :
  _build_fc_layer x fan_in out_size name multi drop final s = (Ok r, s') ->
  exists W b s0,
    two_keys name s0 W b
    /\ reused_or_created name (tf_truncated_normal [fan_in; out_size] fan_in)
                         (if final then tf_constant 0 [out_size]
                          else tf_truncated_normal [out_size] fan_in) s s0 W b
    /\ _feature_tensors (self s0) = _feature_tensors (self s)
    /\ r = (fc_node_of x multi final drop W b, out_size)
    /\ s' = register_feature name (fc_node_of x multi final drop W b) s0.
Proof.
  unfold _build_fc_layer. intros H.
  apply bind_ok in H as (has & s1 & H1 & H).
  apply bind_ok in H as ([W b] & s0 & H2 & H).
  apply registered in H as [-> ->].
  eapply two_key_weights in H2 as (Hk & Hrc & Hf); [| |exact H1].
  - exists W, b, s0. by repeat split.
  - intros sa ra sb Hc. apply bind_ok in Hc as (std & sc & Hstd & Hc).
    apply np_sqrt_2_over_ok in Hstd as (-> & -> & _). by destruct final.
Qed.

Lemma spatial_transformer_built x h w c ntp ow oh name s r s' :
  _build_spatial_transformer x h w c ntp ow oh name s = (Ok r, s') ->
  exists W b s0,
    two_keys name s0 W b
    /\ reused_or_created name (tf_zeros (py_list [py_int (h * w * c); py_int ntp]))
                         (np_array [1 # 2; 0; 0; 0; 1 # 2; 0]%Q) s s0 W b
    /\ _feature_tensors (self s0) = _feature_tensors (self s)
    /\ r = (spatial_transformer_node_of x h w c ow oh W b, oh, ow, c)
    /\ s' = register_feature name (spatial_transformer_node_of x h w c ow oh W b) s0.
Proof.
  unfold _build_spatial_transformer. intros H.
  apply bind_ok in H as (has & s1 & H1 & H).
  apply bind_ok in H as ([W b] & s0 & H2 & H).
  apply registered in H as [-> ->].
  eapply two_key_weights in H2 as (Hk & Hrc & Hf); [| |exact H1].
  - exists W, b, s0. by repeat split.
  - intros sa ra sb Hc. exact Hc.
Qed.

Lemma conv_layer_built x h w c fh fw nf sh sw ps name norm s r s' :
  _build_conv_layer x h w c fh fw nf sh sw ps name norm s = (Ok r, s') ->
  exists W b s0,
    two_keys name s0 W b
    /\ reused_or_created name (tf_truncated_normal [fh; fw; c; nf] (fh * fw * c))
                         (tf_truncated_normal [nf] (fh * fw * c)) s s0 W b
    /\ _feature_tensors (self s0) = _feature_tensors (self s)
    /\ sh <> 0 /\ sw <> 0
    /\ r = (conv_node_of x (norm_of norm (self s0)) ps sh sw W b, h / sh, w / sw, nf)
    /\ s' = register_feature name (conv_node_of x (norm_of norm (self s0)) ps sh sw W b) s0.
Proof.
  unfold _build_conv_layer. intros H.
  apply bind_ok in H as (has & s1 & H1 & H).
  apply bind_ok in H as ([W b] & s0 & H2 & H).
  apply bind_ok in H as (oh & sa & Hoh & H). apply int_div_ok in Hoh as (-> & -> & Hsh).
  apply bind_ok in H as (ow & sa & How & H). apply int_div_ok in How as (-> & -> & Hsw).
  apply bind_ok in H as (convh & sa & Hn & H).
  assert (Hconvh : sa = s0
            /\ tf_nn_max_pool convh [1; ps; ps; 1] [1; sh; sw; 1] SAME
               = conv_node_of x (norm_of norm (self s0)) ps sh sw W b).
  { destruct norm; unfold bind, gets, ret in Hn; by injection Hn as <- <-. }
  destruct Hconvh as [-> Hnode]. rewrite Hnode in H.
  apply registered in H as [-> ->].
  eapply two_key_weights in H2 as (Hk & Hrc & Hf); [| |exact H1].
  - exists W, b, s0. by repeat split.
  - intros sb ra sc Hc. apply bind_ok in Hc as (std & sd & Hstd & Hc).
    apply np_sqrt_2_over_ok in Hstd as (-> & -> & _). exact Hc.
Qed.


(** ** Layers of more than two keys *)

Lemma new_Variable_ok init name s v s' :
  new_Variable init name s = (Ok v, s') ->
  v = tf_Variable (tf_variables (proc s)) init name
  /\ store_of s' = store_of s
  /\ _feature_tensors (self s') = _feature_tensors (self s).
Proof. unfold new_Variable. by intros [= <- <-]. Qed.

Lemma weights_setitem_ok key v s u s' :
  weights_setitem key v s = (Ok u, s') ->
  exists d, store_of s = Some d
            /\ store_of s' = Some (<[key := v]> d)
            /\ _feature_tensors (self s') = _feature_tensors (self s).
Proof.
  intros H. destruct (store_of s) as [d|] eqn:Hs.
  - destruct (weights_setitem_store s d key v Hs) as (s1 & E & Hs1 & _ & Hf).
    rewrite E in H. simplify_eq. by exists d.
  - unfold store_of in Hs. unfold weights_setitem in H.
    destruct (w__dict__ (_weights (self s)) !! "weights") as [[t|d']|]; discriminate.
Qed.

Ltac step H := apply bind_ok in H as (? & ? & ? & H).

Lemma fc_merge_built_2 x1 x2 f1 f2 out_size drop name s r s' :
  _build_fc_merge x1 x2 f1 f2 out_size drop name None None s = (Ok r, s') ->
  exists d W1 W2 b s0,
    store_of s0 = Some d
    /\ d !! fmt name "_input_1_weights" = Some W1
    /\ d !! fmt name "_input_2_weights" = Some W2
    /\ d !! fmt name "_bias" = Some b
    /\ _feature_tensors (self s0) = _feature_tensors (self s)
    /\ r = (merge_node_of x1 x2 None drop W1 W2 None b, out_size)
    /\ s' = register_feature name (merge_node_of x1 x2 None drop W1 W2 None b) s0.
Proof.
  unfold _build_fc_merge. intros H.
  apply bind_ok in H as (fc & s0 & H1 & H).
  apply registered in H as [-> ->].
  apply bind_ok in H1 as (has & sa & Hhas & H1).
  apply weights_contains_ok in Hhas as (-> & d & Hd & ->).
  apply bind_ok in H1 as ([[W1 W2] b] & sb & H2 & H1).
  injection H1 as <- <-.
  destruct (bool_decide _).
  - apply bind_ok in H2 as (w1 & s1 & G1 & H2). apply weights_getitem_ok in G1 as (-> & d1 & Hd1 & K1).
    apply bind_ok in H2 as (w2 & s2 & G2 & H2). apply weights_getitem_ok in G2 as (-> & d2 & Hd2 & K2).
    apply bind_ok in H2 as (b0 & s3 & G3 & H2). apply weights_getitem_ok in G3 as (-> & d3 & Hd3 & K3).
    injection H2 as <- <- <- <-. simplify_eq.
    exists d, w1, w2, b0, s. by repeat split.
  - apply bind_ok in H2 as (std & s1 & G0 & H2). apply np_sqrt_2_over_ok in G0 as (-> & -> & _).
    apply bind_ok in H2 as (w1 & s1 & G1 & H2). apply new_Variable_ok in G1 as (-> & Hs1 & Hf1).
    apply bind_ok in H2 as (w2 & s2 & G2 & H2). apply new_Variable_ok in G2 as (-> & Hs2 & Hf2).
    apply bind_ok in H2 as (b0 & s3 & G3 & H2). apply new_Variable_ok in G3 as (-> & Hs3 & Hf3).
    apply bind_ok in H2 as (u1 & s4 & G4 & H2). apply weights_setitem_ok in G4 as (d4 & Hd4 & Hs4 & Hf4).
    apply bind_ok in H2 as (u2 & s5 & G5 & H2). apply weights_setitem_ok in G5 as (d5 & Hd5 & Hs5 & Hf5).
    apply bind_ok in H2 as (u3 & s6 & G6 & H2). apply weights_setitem_ok in G6 as (d6 & Hd6 & Hs6 & Hf6).
    injection H2 as <- <- <- <-.
    eexists _, _, _, _, s6. split; [exact Hs6|].
    assert (Hne : forall a b : string, a <> b -> fmt name a <> fmt name b)
      by (intros; by apply fmt_ne).
    simplify_eq.
    split; [rewrite !lookup_insert_ne by (apply Hne; discriminate); apply lookup_insert_eq|].
    split; [rewrite !lookup_insert_ne by (apply Hne; discriminate); apply lookup_insert_eq|].
    split; [apply lookup_insert_eq|].
    split; [congruence|]. by split.
Qed.


Lemma fc_merge_built_3 x1 x2 x3 f1 f2 f3 out_size drop name s r s' :
  _build_fc_merge x1 x2 f1 f2 out_size drop name (Some x3) f3 s = (Ok r, s') ->
  exists d W1 W2 W3 b s0,
    store_of s0 = Some d
    /\ d !! fmt name "_input_1_weights" = Some W1
    /\ d !! fmt name "_input_2_weights" = Some W2
    /\ d !! fmt name "_input_3_weights" = Some W3
    /\ d !! fmt name "_bias" = Some b
    /\ _feature_tensors (self s0) = _feature_tensors (self s)
    /\ r = (merge_node_of x1 x2 (Some x3) drop W1 W2 (Some W3) b, out_size)
    /\ s' = register_feature name (merge_node_of x1 x2 (Some x3) drop W1 W2 (Some W3) b) s0.
Proof.
  unfold _build_fc_merge. intros H.
  apply bind_ok in H as (fc & s0 & H1 & H).
  apply registered in H as [-> ->].
  apply bind_ok in H1 as (has & sa & Hhas & H1).
  apply weights_contains_ok in Hhas as (-> & d & Hd & ->).
  apply bind_ok in H1 as ([[[W1 W2] W3] b] & sb & H2 & H1).
  injection H1 as <- <-.
  destruct (bool_decide _).
  - apply bind_ok in H2 as (w1 & s1 & G1 & H2). apply weights_getitem_ok in G1 as (-> & d1 & Hd1 & K1).
    apply bind_ok in H2 as (w2 & s2 & G2 & H2). apply weights_getitem_ok in G2 as (-> & d2 & Hd2 & K2).
    apply bind_ok in H2 as (w3 & s3 & G3 & H2). apply weights_getitem_ok in G3 as (-> & d3 & Hd3 & K3).
    apply bind_ok in H2 as (b0 & s4 & G4 & H2). apply weights_getitem_ok in G4 as (-> & d4 & Hd4 & K4).
    injection H2 as <- <- <- <- <-. simplify_eq.
    exists d, w1, w2, w3, b0, s. by repeat split.
  - apply bind_ok in H2 as (c3 & s0 & G & H2).
    assert (s0 = s) as -> by (destruct f3; unfold int_operand, ret in G; by simplify_eq).
    apply bind_ok in H2 as (std & s1 & G0 & H2). apply np_sqrt_2_over_ok in G0 as (-> & -> & _).
    apply bind_ok in H2 as (w1 & s1 & G1 & H2). apply new_Variable_ok in G1 as (-> & Hs1 & Hf1).
    apply bind_ok in H2 as (w2 & s2 & G2 & H2). apply new_Variable_ok in G2 as (-> & Hs2 & Hf2).
    apply bind_ok in H2 as (w3 & s3 & G3 & H2). apply new_Variable_ok in G3 as (-> & Hs3 & Hf3).
    apply bind_ok in H2 as (b0 & s4 & G4 & H2). apply new_Variable_ok in G4 as (-> & Hs4 & Hf4).
    apply bind_ok in H2 as (u1 & s5 & G5 & H2). apply weights_setitem_ok in G5 as (d5 & Hd5 & Hs5 & Hf5).
    apply bind_ok in H2 as (u2 & s6 & G6 & H2). apply weights_setitem_ok in G6 as (d6 & Hd6 & Hs6 & Hf6).
    apply bind_ok in H2 as (u3 & s7 & G7 & H2). apply weights_setitem_ok in G7 as (d7 & Hd7 & Hs7 & Hf7).
    apply bind_ok in H2 as (u4 & s8 & G8 & H2). apply weights_setitem_ok in G8 as (d8 & Hd8 & Hs8 & Hf8).
    injection H2 as <- <- <- <- <-.
    eexists _, _, _, _, _, s8. split; [exact Hs8|].
    assert (Hne : forall a b : string, a <> b -> fmt name a <> fmt name b)
      by (intros; by apply fmt_ne).
    simplify_eq.
    split; [rewrite !lookup_insert_ne by (apply Hne; discriminate); apply lookup_insert_eq|].
    split; [rewrite !lookup_insert_ne by (apply Hne; discriminate); apply lookup_insert_eq|].
    split; [rewrite !lookup_insert_ne by (apply Hne; discriminate); apply lookup_insert_eq|].
    split; [apply lookup_insert_eq|].
    split; [congruence|]. by split.
Qed.

Lemma residual_layer_built x c fan_in nf fh fw drop name first s r s' :
  _build_residual_layer x c fan_in nf fh fw drop name first s = (Ok r, s') ->
  exists d W1 b1 W2 b2 s0,
    store_of s0 = Some d
    /\ d !! fmt name "_conv1_weights" = Some W1 /\ d !! fmt name "_conv1_bias" = Some b1
    /\ d !! fmt name "_conv2_weights" = Some W2 /\ d !! fmt name "_conv2_bias" = Some b2
    /\ _feature_tensors (self s0) = _feature_tensors (self s)
    /\ let node := spec_residual_output first (residual_bn drop) _leaky_relu
                     (residual_conv W1 b1) (residual_conv W2 b2) x in
       r = (node, nf) /\ s' = register_feature name node (batch_norms_created first s0).
Proof.
  unfold _build_residual_layer. intros H.
  apply bind_ok in H as (has & sa & Hhas & H).
  apply weights_contains_ok in Hhas as (-> & d & Hd & ->).
  apply bind_ok in H as ([[[W1 b1] W2] b2] & s0 & H2 & H).
  assert (Hnode : r = (spec_residual_output first (residual_bn drop) _leaky_relu
                         (residual_conv W1 b1) (residual_conv W2 b2) x, nf)
                  /\ s' = register_feature name
                            (spec_residual_output first (residual_bn drop) _leaky_relu
                               (residual_conv W1 b1) (residual_conv W2 b2) x)
                            (batch_norms_created first s0)).
  { destruct first;
      unfold bind, _build_batch_norm, new_batch_normalization, ret, feature_setitem, modify in H;
      injection H as <- <-; split; reflexivity. }
  destruct Hnode as [-> ->]. clear H.
  destruct (bool_decide _).
  - apply bind_ok in H2 as (w1 & s1 & G1 & H2). apply weights_getitem_ok in G1 as (-> & d1 & Hd1 & K1).
    apply bind_ok in H2 as (w2 & s2 & G2 & H2). apply weights_getitem_ok in G2 as (-> & d2 & Hd2 & K2).
    apply bind_ok in H2 as (w3 & s3 & G3 & H2). apply weights_getitem_ok in G3 as (-> & d3 & Hd3 & K3).
    apply bind_ok in H2 as (w4 & s4 & G4 & H2). apply weights_getitem_ok in G4 as (-> & d4 & Hd4 & K4).
    injection H2 as <- <- <- <- <-. simplify_eq.
    exists d, w1, w2, w3, w4, s. by repeat split.
  - apply bind_ok in H2 as (std & s1 & G0 & H2). apply np_sqrt_2_over_ok in G0 as (-> & -> & _).
    apply bind_ok in H2 as (w1 & s1 & G1 & H2). apply new_Variable_ok in G1 as (-> & Hs1 & Hf1).
    apply bind_ok in H2 as (w2 & s2 & G2 & H2). apply new_Variable_ok in G2 as (-> & Hs2 & Hf2).
    apply bind_ok in H2 as (w3 & s3 & G3 & H2). apply new_Variable_ok in G3 as (-> & Hs3 & Hf3).
    apply bind_ok in H2 as (w4 & s4 & G4 & H2). apply new_Variable_ok in G4 as (-> & Hs4 & Hf4).
    apply bind_ok in H2 as (u1 & s5 & G5 & H2). apply weights_setitem_ok in G5 as (d5 & Hd5 & Hs5 & Hf5).
    apply bind_ok in H2 as (u2 & s6 & G6 & H2). apply weights_setitem_ok in G6 as (d6 & Hd6 & Hs6 & Hf6).
    apply bind_ok in H2 as (u3 & s7 & G7 & H2). apply weights_setitem_ok in G7 as (d7 & Hd7 & Hs7 & Hf7).
    apply bind_ok in H2 as (u4 & s8 & G8 & H2). apply weights_setitem_ok in G8 as (d8 & Hd8 & Hs8 & Hf8).
    injection H2 as <- <- <- <- <-.
    eexists _, _, _, _, _, s8. split; [exact Hs8|].
    assert (Hne : forall a b : string, a <> b -> fmt name a <> fmt name b)
      by (intros; by apply fmt_ne).
    simplify_eq.
    split; [rewrite !lookup_insert_ne by (apply Hne; discriminate); apply lookup_insert_eq|].
    split; [rewrite !lookup_insert_ne by (apply Hne; discriminate); apply lookup_insert_eq|].
    split; [rewrite !lookup_insert_ne by (apply Hne; discriminate); apply lookup_insert_eq|].
    split; [apply lookup_insert_eq|].
    split; [congruence|]. by split.
Qed.


(** ** Building twice *)





(** ** The feature dict *)

Lemma keeps_features_bind {A B} (c : M state A) (k : A -> M state B) :
  keeps_features c -> (forall a, keeps_features (k a)) -> keeps_features (bind c k).
Proof.
  intros Hc Hk s r s'. unfold bind.
  destruct (c s) as [[a| |] s0] eqn:E; intros H.
  - rewrite (Hk a s0 r s' H). by eapply Hc.
  - injection H as <- <-. by eapply Hc.
  - injection H as <- <-. by eapply Hc.
Qed.

Lemma keeps_features_ret {A} (a : A) : keeps_features (ret a).
Proof. by intros s r s' [= <- <-]. Qed.

Lemma keeps_features_getitem key : keeps_features (weights_getitem key).
Proof. intros s r s' H. by apply weights_getitem_state in H as ->. Qed.

Lemma keeps_features_new_Variable init name : keeps_features (new_Variable init name).
Proof. by intros s r s' [= <- <-]. Qed.

Lemma keeps_features_setitem key v : keeps_features (weights_setitem key v).
Proof.
  intros s r s'. unfold weights_setitem.
  destruct (w__dict__ (_weights (self s)) !! "weights") as [[t|d]|]; by intros [= <- <-].
Qed.

(** X11: each of the seven builders of a layer that succeeds leaves the
    feature dict with one entry set, the node it returns under the name
    of the layer, and every other entry as it was.  The two builders of
    fully-convolutional layers never change the feature dict, whatever
    their outcome. *)
Theorem builders_register_their_output :
  forall (s s' : state) (name : string) (x drop : tensor),
    let registers (node : tensor) :=
      _feature_tensors (self s') = <[name := node]> (_feature_tensors (self s)) in
    (forall h w c ntp ow oh node oh' ow' c',
        _build_spatial_transformer x h w c ntp ow oh name s = (Ok (node, oh', ow', c'), s') ->
        registers node)
    /\ (forall h w c fh fw nf sh sw ps norm node oh ow oc,
           _build_conv_layer x h w c fh fw nf sh sw ps name norm s = (Ok (node, oh, ow, oc), s') ->
           registers node)
    /\ (forall fan_in out_size multi final node out,
           _build_fc_layer x fan_in out_size name multi drop final s = (Ok (node, out), s') ->
           registers node)
    /\ (forall fan_in out_size node out,
           _build_pc_layer x fan_in out_size name s = (Ok (node, out), s') -> registers node)
    /\ (forall fan_in out_size node out,
           _build_gc_layer x fan_in out_size name s = (Ok (node, out), s') -> registers node)
    /\ (forall x2 x3 f1 f2 f3 out_size node out,
           _build_fc_merge x x2 f1 f2 out_size drop name x3 f3 s = (Ok (node, out), s') ->
           registers node)
    /\ (forall c fan_in nf fh fw first node out,
           _build_residual_layer x c fan_in nf fh fw drop name first s = (Ok (node, out), s') ->
           registers node)
    /\ (forall fd r,
           _build_fully_conv_layer x fd name s = (r, s') ->
           _feature_tensors (self s') = _feature_tensors (self s))
    /\ (forall x2 fd r,
           _build_fully_conv_merge_layer x x2 fd name s = (r, s') ->
           _feature_tensors (self s') = _feature_tensors (self s)).
Proof.
  intros s s' name x drop registers. subst registers. cbv beta. repeat split.
  - intros h w c ntp ow oh node oh' ow' c' H.
    apply spatial_transformer_built in H as (W & b & s0 & _ & _ & Hf & E & ->).
    injection E as -> _ _ _. simpl. by rewrite Hf.
  - intros h w c fh fw nf sh sw ps norm node oh ow oc H.
    apply conv_layer_built in H as (W & b & s0 & _ & _ & Hf & _ & _ & E & ->).
    injection E as -> _ _ _. simpl. by rewrite Hf.
  - intros fan_in out_size multi final node out H.
    apply fc_layer_built in H as (W & b & s0 & _ & _ & Hf & E & ->).
    injection E as -> _. simpl. by rewrite Hf.
  - intros fan_in out_size node out H.
    apply pc_layer_built in H as (W & b & s0 & _ & _ & Hf & E & ->).
    injection E as -> _. simpl. by rewrite Hf.
  - intros fan_in out_size node out H.
    apply gc_layer_built in H as (W & b & s0 & _ & _ & Hf & E & ->).
    injection E as -> _. simpl. by rewrite Hf.
  - intros x2 [x3|] f1 f2 f3 out_size node out H.
    + apply fc_merge_built_3 in H as (d & W1 & W2 & W3 & b & s0 & _ & _ & _ & _ & _ & Hf & E & ->).
      injection E as -> _. simpl. by rewrite Hf.
    + change (_build_fc_merge x x2 f1 f2 out_size drop name None f3 s)
        with (_build_fc_merge x x2 f1 f2 out_size drop name None None s) in H.
      apply fc_merge_built_2 in H as (d & W1 & W2 & b & s0 & _ & _ & _ & _ & Hf & E & ->).
      injection E as -> _. simpl. by rewrite Hf.
  - intros c fan_in nf fh fw first node out H.
    apply residual_layer_built in H
      as (d & W1 & b1 & W2 & b2 & s0 & _ & _ & _ & _ & _ & Hf & E & ->).
    injection E as -> _. rewrite <- Hf. by destruct first.
  - intros fd r. revert s r s'.
    change (keeps_features (_build_fully_conv_layer x fd name)).
    unfold _build_fully_conv_layer.
    repeat first [ apply keeps_features_ret | apply keeps_features_getitem
                 | apply keeps_features_new_Variable | apply keeps_features_setitem
                 | apply keeps_features_bind; [|intros] ].
  - intros x2 fd r. revert s r s'.
    change (keeps_features (_build_fully_conv_merge_layer x x2 fd name)).
    unfold _build_fully_conv_merge_layer.
    repeat first [ apply keeps_features_ret | apply keeps_features_getitem
                 | apply keeps_features_new_Variable | apply keeps_features_setitem
                 | apply keeps_features_bind; [|intros] ].
Qed.


(** ** Keys that are missing *)

Lemma weights_getitem_missing s d key :
  store_of s = Some d -> d !! key = None -> weights_getitem key s = (Raise (KeyError key), s).
Proof.
  intros H Hk. unfold weights_getitem, bind, getitem.
  by rewrite (weights_dict_store _ _ H), Hk.
Qed.

(** X12: a builder decides between reusing and creating by the key
    ['{}_weights'] alone.  When the store holds the weights of the layer
    and not its bias, the builders of the spatial transformer, of the
    convolution and of the [fc], [pc] and [gc] layers raise the
    [KeyError] of the bias key and leave the state as it was; the
    conversion to a fully-convolutional layer raises it too, after it has
    created the converted kernel and stored it. *)
Theorem stored_weights_without_bias_are_refused :
  forall (s : state) (d : gmap string tensor) (name : string) (x drop W : tensor),
    store_of s = Some d ->
    d !! fmt name "_weights" = Some W ->
    d !! fmt name "_bias" = None ->
    let refused {A} (r : outcome A * state) := r = (Raise (KeyError (fmt name "_bias")), s) in
    (forall h w c ntp ow oh, refused (_build_spatial_transformer x h w c ntp ow oh name s))
    /\ (forall h w c fh fw nf sh sw ps norm,
           refused (_build_conv_layer x h w c fh fw nf sh sw ps name norm s))
    /\ (forall fan_in out_size multi final,
           refused (_build_fc_layer x fan_in out_size name multi drop final s))
    /\ (forall fan_in out_size, refused (_build_pc_layer x fan_in out_size name s))
    /\ (forall fan_in out_size, refused (_build_gc_layer x fan_in out_size name s))
    /\ (forall fd,
           exists s',
             _build_fully_conv_layer x fd name s = (Raise (KeyError (fmt name "_bias")), s')
             /\ tf_variables (proc s') = S (tf_variables (proc s))
             /\ store_of s'
                = Some (<[fmt name "_fully_conv_weights" :=
                            tf_Variable (tf_variables (proc s)) (fully_conv_kernel W fd)
                                        (fmt name "_fully_conv_weights")]> d)).
Proof.
  intros s d name x drop W Hs HW Hb refused. subst refused. cbv beta.
  repeat split; intros.
  - unfold _build_spatial_transformer, bind.
    rewrite (weights_contains_true _ _ _ _ Hs HW), (weights_getitem_store _ _ _ _ Hs HW).
    by rewrite (weights_getitem_missing _ _ _ Hs Hb).
  - unfold _build_conv_layer, bind.
    rewrite (weights_contains_true _ _ _ _ Hs HW), (weights_getitem_store _ _ _ _ Hs HW).
    by rewrite (weights_getitem_missing _ _ _ Hs Hb).
  - unfold _build_fc_layer, bind.
    rewrite (weights_contains_true _ _ _ _ Hs HW), (weights_getitem_store _ _ _ _ Hs HW).
    by rewrite (weights_getitem_missing _ _ _ Hs Hb).
  - unfold _build_pc_layer, bind.
    rewrite (weights_contains_true _ _ _ _ Hs HW), (weights_getitem_store _ _ _ _ Hs HW).
    by rewrite (weights_getitem_missing _ _ _ Hs Hb).
  - unfold _build_gc_layer, bind.
    rewrite (weights_contains_true _ _ _ _ Hs HW), (weights_getitem_store _ _ _ _ Hs HW).
    by rewrite (weights_getitem_missing _ _ _ Hs Hb).
  - unfold _build_fully_conv_layer, bind.
    rewrite (weights_getitem_store _ _ _ _ Hs HW).
    unfold new_Variable at 1.
    match goal with |- context [weights_setitem ?k ?v ?s0] =>
      destruct (weights_setitem_store s0 d k v) as (s1 & E & Hs1 & Hv & _); [exact Hs|]
    end.
    rewrite E.
    rewrite (weights_getitem_missing _ _ _ Hs1)
      by (rewrite lookup_insert_ne by (apply fmt_ne; discriminate); exact Hb).
    exists s1. split; [reflexivity|]. split; [exact Hv|exact Hs1].
Qed.


(** ** Creation *)

Ltac first_steps Hs Hno :=
  unfold bind at 1; rewrite (weights_contains_false _ _ _ Hs Hno);
  unfold bind at 1.

Ltac create_step Hs :=
  match goal with
  | |- context [new_Variable ?iW (fmt ?name "_weights")] =>
      match goal with
      | |- context [new_Variable ?ib (fmt name "_bias")] =>
          let s0 := fresh "s0" in
          let E := fresh "E" in
          destruct (create_two_keys name iW ib _ _ Hs) as (s0 & E & ? & ? & ? & ?);
          cbv zeta in E; rewrite E
      end
  end.

Lemma pc_layer_created x fan_in out_size name s d :
  store_of s = Some d -> d !! fmt name "_weights" = None -> fan_in <> 0 ->
  exists r s', _build_pc_layer x fan_in out_size name s = (Ok r, s').
Proof.
  intros Hs Hno Hf. unfold _build_pc_layer. first_steps Hs Hno.
  unfold bind at 1, np_sqrt_2_over. rewrite (proj2 (Z.eqb_neq _ _) Hf). unfold ret at 1.
  create_step Hs. unfold bind, feature_setitem, modify, ret. eauto.
Qed.

Lemma gc_layer_created x fan_in out_size name s d :
  store_of s = Some d -> d !! fmt name "_weights" = None -> fan_in <> 0 ->
  exists r s', _build_gc_layer x fan_in out_size name s = (Ok r, s').
Proof.
  intros Hs Hno Hf. unfold _build_gc_layer. first_steps Hs Hno.
  unfold bind at 1, np_sqrt_2_over. rewrite (proj2 (Z.eqb_neq _ _) Hf). unfold ret at 1.
  create_step Hs. unfold bind, feature_setitem, modify, ret. eauto.
Qed.

Lemma fc_layer_created x fan_in out_size name multi drop final s d :
  store_of s = Some d -> d !! fmt name "_weights" = None -> fan_in <> 0 ->
  exists r s', _build_fc_layer x fan_in out_size name multi drop final s = (Ok r, s').
Proof.
  intros Hs Hno Hf. unfold _build_fc_layer. first_steps Hs Hno.
  unfold bind at 1, np_sqrt_2_over. rewrite (proj2 (Z.eqb_neq _ _) Hf). unfold ret at 1.
  destruct final; create_step Hs; unfold bind, feature_setitem, modify, ret; eauto.
Qed.

Lemma spatial_transformer_created x h w c ntp ow oh name s d :
  store_of s = Some d -> d !! fmt name "_weights" = None ->
  exists r s', _build_spatial_transformer x h w c ntp ow oh name s = (Ok r, s').
Proof.
  intros Hs Hno. unfold _build_spatial_transformer. first_steps Hs Hno.
  create_step Hs. unfold bind, feature_setitem, modify, ret. eauto.
Qed.

Lemma conv_layer_created x h w c fh fw nf sh sw ps name norm s d :
  store_of s = Some d -> d !! fmt name "_weights" = None ->
  fh * fw * c <> 0 -> sh <> 0 -> sw <> 0 ->
  exists r s', _build_conv_layer x h w c fh fw nf sh sw ps name norm s = (Ok r, s').
Proof.
  intros Hs Hno Hf Hsh Hsw. unfold _build_conv_layer. first_steps Hs Hno.
  unfold bind at 1, np_sqrt_2_over. rewrite (proj2 (Z.eqb_neq _ _) Hf). unfold ret at 1.
  create_step Hs. unfold int_div.
  rewrite (proj2 (Z.eqb_neq _ _) Hsh), (proj2 (Z.eqb_neq _ _) Hsw).
  destruct norm; unfold bind, gets, feature_setitem, modify, ret; eauto.
Qed.

(** X13: when the store has no weights for the layer, a builder creates
    exactly two variables, the weights and then the bias, as the next two
    variables of the process, stores them under ['{}_weights'] and
    ['{}_bias'] and changes no other key, and builds its node from them.
    The initial values are truncated normals of the fan-in of the layer,
    but for the spatial transformer (zeros, and the identity-like bias)
    and the bias of a final dense layer (the constant zero). *)
Theorem missing_weights_are_created :
  forall (s : state) (d : gmap string tensor) (name : string) (x drop : tensor),
    store_of s = Some d ->
    d !! fmt name "_weights" = None ->
    let created {A} (r : outcome A * state) (iW ib : tensor) (result : tensor -> tensor -> A) :=
      let W := tf_Variable (tf_variables (proc s)) iW (fmt name "_weights") in
      let b := tf_Variable (S (tf_variables (proc s))) ib (fmt name "_bias") in
      fst r = Ok (result W b)
      /\ store_of (snd r) = Some (<[fmt name "_bias" := b]> (<[fmt name "_weights" := W]> d))
      /\ tf_variables (proc (snd r)) = S (S (tf_variables (proc s))) in
    (forall h w c ntp ow oh,
        created (_build_spatial_transformer x h w c ntp ow oh name s)
                (tf_zeros (py_list [py_int (h * w * c); py_int ntp]))
                (np_array [1 # 2; 0; 0; 0; 1 # 2; 0]%Q)
                (fun W b => (spatial_transformer_node_of x h w c ow oh W b, oh, ow, c)))
    /\ (forall h w c fh fw nf sh sw ps norm,
           fh * fw * c <> 0 -> sh <> 0 -> sw <> 0 ->
           created (_build_conv_layer x h w c fh fw nf sh sw ps name norm s)
                   (tf_truncated_normal [fh; fw; c; nf] (fh * fw * c))
                   (tf_truncated_normal [nf] (fh * fw * c))
                   (fun W b => (conv_node_of x (norm_of norm (self s)) ps sh sw W b,
                                h / sh, w / sw, nf)))
    /\ (forall fan_in out_size multi final,
           fan_in <> 0 ->
           created (_build_fc_layer x fan_in out_size name multi drop final s)
                   (tf_truncated_normal [fan_in; out_size] fan_in)
                   (if final then tf_constant 0 [out_size]
                    else tf_truncated_normal [out_size] fan_in)
                   (fun W b => (fc_node_of x multi final drop W b, out_size)))
    /\ (forall fan_in out_size,
           fan_in <> 0 ->
           created (_build_pc_layer x fan_in out_size name s)
                   (tf_truncated_normal [fan_in; out_size] fan_in)
                   (tf_truncated_normal [out_size] fan_in)
                   (fun W b => (pc_node_of x W b, out_size)))
    /\ (forall fan_in out_size,
           fan_in <> 0 ->
           created (_build_gc_layer x fan_in out_size name s)
                   (tf_truncated_normal [fan_in; out_size] fan_in)
                   (tf_truncated_normal [out_size] fan_in)
                   (fun W b => (pc_node_of x W b, out_size))).
Proof.
  intros s d name x drop Hs Hno created. subst created. cbv beta zeta.
  assert (Hcreated : forall iW ib s0 W b,
            reused_or_created name iW ib s s0 W b ->
            W = tf_Variable (tf_variables (proc s)) iW (fmt name "_weights")
            /\ b = tf_Variable (S (tf_variables (proc s))) ib (fmt name "_bias")
            /\ store_of s0 = Some (<[fmt name "_bias" := b]> (<[fmt name "_weights" := W]> d))
            /\ tf_variables (proc s0) = S (S (tf_variables (proc s)))).
  { intros iW ib s0 W b [(_ & d' & Hd' & HW)|(d' & Hd' & _ & -> & -> & Hs0 & Hv & _)].
    - rewrite Hs in Hd'. injection Hd' as <-. rewrite Hno in HW. discriminate.
    - rewrite Hs in Hd'. injection Hd' as <-. by repeat split. }
  split; [|split; [|split; [|split]]].
  - intros h w c ntp ow oh.
    destruct (spatial_transformer_created x h w c ntp ow oh name s d Hs Hno) as (r & s' & E).
    rewrite E. apply spatial_transformer_built in E as (W & b & s0 & _ & Hrc & _ & -> & ->).
    destruct (Hcreated _ _ _ _ _ Hrc) as (-> & -> & Hs0 & Hv). by repeat split.
  - intros h w c fh fw nf sh sw ps norm Hf Hsh Hsw.
    destruct (conv_layer_created x h w c fh fw nf sh sw ps name norm s d Hs Hno Hf Hsh Hsw)
      as (r & s' & E).
    rewrite E. apply conv_layer_built in E as (W & b & s0 & _ & Hrc & _ & _ & _ & -> & ->).
    assert (Hself : norm_of norm (self s0) = norm_of norm (self s)).
    { destruct Hrc as [(-> & _)|(d' & _ & _ & _ & _ & _ & _ & _ & Hn)]; [done|apply Hn]. }
    destruct (Hcreated _ _ _ _ _ Hrc) as (-> & -> & Hs0 & Hv).
    rewrite Hself. by repeat split.
  - intros fan_in out_size multi final Hf.
    destruct (fc_layer_created x fan_in out_size name multi drop final s d Hs Hno Hf)
      as (r & s' & E).
    rewrite E. apply fc_layer_built in E as (W & b & s0 & _ & Hrc & _ & -> & ->).
    destruct (Hcreated _ _ _ _ _ Hrc) as (-> & -> & Hs0 & Hv). by repeat split.
  - intros fan_in out_size Hf.
    destruct (pc_layer_created x fan_in out_size name s d Hs Hno Hf) as (r & s' & E).
    rewrite E. apply pc_layer_built in E as (W & b & s0 & _ & Hrc & _ & -> & ->).
    destruct (Hcreated _ _ _ _ _ Hrc) as (-> & -> & Hs0 & Hv). by repeat split.
  - intros fan_in out_size Hf.
    destruct (gc_layer_created x fan_in out_size name s d Hs Hno Hf) as (r & s' & E).
    rewrite E. apply gc_layer_built in E as (W & b & s0 & _ & Hrc & _ & -> & ->).
    destruct (Hcreated _ _ _ _ _ Hrc) as (-> & -> & Hs0 & Hv). by repeat split.
Qed.

(** X14: when the weights have to be created, a fan-in of zero raises
    [ZeroDivisionError] before any variable is created: the state is as
    it was.  A convolution whose pool stride is zero raises it later, in
    the division that computes the output size: by then its two
    variables have been created and stored, and no feature has been
    registered. *)
Theorem a_zero_fan_in_or_stride_is_a_division_by_zero :
  forall (s : state) (d : gmap string tensor) (name : string) (x drop : tensor),
    store_of s = Some d ->
    d !! fmt name "_weights" = None ->
    (forall out_size multi final,
        _build_fc_layer x 0 out_size name multi drop final s = (Raise ZeroDivisionError, s))
    /\ (forall out_size, _build_pc_layer x 0 out_size name s = (Raise ZeroDivisionError, s))
    /\ (forall out_size, _build_gc_layer x 0 out_size name s = (Raise ZeroDivisionError, s))
    /\ (forall h w c fh fw nf sh sw ps norm,
           fh * fw * c = 0 ->
           _build_conv_layer x h w c fh fw nf sh sw ps name norm s
           = (Raise ZeroDivisionError, s))
    /\ (forall h w c fh fw nf sh sw ps norm,
           fh * fw * c <> 0 ->
           sh = 0 \/ sw = 0 ->
           exists s',
             _build_conv_layer x h w c fh fw nf sh sw ps name norm s
             = (Raise ZeroDivisionError, s')
             /\ store_of s'
                = Some (<[fmt name "_bias" :=
                            tf_Variable (S (tf_variables (proc s)))
                                        (tf_truncated_normal [nf] (fh * fw * c))
                                        (fmt name "_bias")]>
                          (<[fmt name "_weights" :=
                               tf_Variable (tf_variables (proc s))
                                           (tf_truncated_normal [fh; fw; c; nf] (fh * fw * c))
                                           (fmt name "_weights")]> d))
             /\ tf_variables (proc s') = S (S (tf_variables (proc s)))
             /\ _feature_tensors (self s') = _feature_tensors (self s)).
Proof.
  intros s d name x drop Hs Hno.
  split; [|split; [|split; [|split]]].
  - intros out_size multi final. unfold _build_fc_layer. first_steps Hs Hno. reflexivity.
  - intros out_size. unfold _build_pc_layer. first_steps Hs Hno. reflexivity.
  - intros out_size. unfold _build_gc_layer. first_steps Hs Hno. reflexivity.
  - intros h w c fh fw nf sh sw ps norm Hf. unfold _build_conv_layer. first_steps Hs Hno.
    unfold bind at 1, np_sqrt_2_over. rewrite (proj2 (Z.eqb_eq _ _) Hf). reflexivity.
  - intros h w c fh fw nf sh sw ps norm Hf Hstride.
    unfold _build_conv_layer. first_steps Hs Hno.
    unfold bind at 1, np_sqrt_2_over. rewrite (proj2 (Z.eqb_neq _ _) Hf). unfold ret at 1.
    create_step Hs. exists s0.
    split; [|by repeat split].
    unfold int_div. destruct (Z.eqb_spec sh 0) as [->|Hsh]; [reflexivity|].
    destruct Hstride as [->| ->]; [done|]. reflexivity.
Qed.


(** ** The builders on the examples *)


Lemma builders_register_their_output_witness :
  _feature_tensors (self Examples.after_fc3)
  = <["fc3" := LayerExamples.fc3_node]> (_feature_tensors (self Examples.fresh)).
Proof.
  pose proof (builders_register_their_output
                Examples.fresh Examples.after_fc3 "fc3"
                Examples.input_im_node Examples.input_drop_rate_node) as H.
  cbv zeta in H. destruct H as (_ & _ & H & _).
  apply (H 8 4 false false LayerExamples.fc3_node 4).
  vm_compute. reflexivity.
Defined.

Lemma stored_weights_without_bias_are_refused_witness :
  store_of LayerExamples.weights_only
  = Some {["fc3_weights" := LayerExamples.loaded_fc3_weights]}
  /\ _build_fc_layer Examples.input_im_node 8 4 "fc3" false Examples.input_drop_rate_node false
                     LayerExamples.weights_only
     = (Raise (KeyError "fc3_bias"), LayerExamples.weights_only).
Proof.
  assert (Hs : store_of LayerExamples.weights_only
               = Some {["fc3_weights" := LayerExamples.loaded_fc3_weights]})
    by (vm_compute; reflexivity).
  split; [exact Hs|].
  pose proof (stored_weights_without_bias_are_refused
                LayerExamples.weights_only
                {["fc3_weights" := LayerExamples.loaded_fc3_weights]} "fc3"
                Examples.input_im_node Examples.input_drop_rate_node
                LayerExamples.loaded_fc3_weights Hs) as H.
  cbv zeta in H.
  destruct H as (_ & _ & H & _); [vm_compute; reflexivity | vm_compute; reflexivity |].
  exact (H 8 4 false false).
Defined.

Lemma missing_weights_are_created_witness :
  store_of Examples.after_fc3
  = Some (<["fc3_bias" := LayerExamples.fc3_bias]>
            (<["fc3_weights" := LayerExamples.fc3_weights]> ∅))
  /\ tf_variables (proc Examples.after_fc3) = 2%nat.
Proof.
  assert (Hs : store_of Examples.fresh = Some ∅) by reflexivity.
  assert (Hno : (∅ : gmap string tensor) !! fmt "fc3" "_weights" = None) by reflexivity.
  pose proof (missing_weights_are_created
                Examples.fresh ∅ "fc3" Examples.input_im_node Examples.input_drop_rate_node
                Hs Hno) as H.
  cbv zeta in H. destruct H as (_ & _ & H & _).
  assert (H8 : 8 <> 0) by lia.
  destruct (H 8 4 false false H8) as (_ & H1 & H2).
  split; [exact H1 | exact H2].
Defined.

Lemma a_zero_fan_in_or_stride_is_a_division_by_zero_witness :
  _build_fc_layer Examples.input_im_node 0 4 "fc3" false Examples.input_drop_rate_node false
                  Examples.fresh
  = (Raise ZeroDivisionError, Examples.fresh)
  /\ exists s',
       _build_conv_layer Examples.input_im_node 32 32 1 3 3 4 0 0 2 "conv1_1" false
                         Examples.fresh
       = (Raise ZeroDivisionError, s')
       /\ tf_variables (proc s') = 2%nat.
Proof.
  assert (Hs : store_of Examples.fresh = Some ∅) by reflexivity.
  split.
  - assert (Hno : (∅ : gmap string tensor) !! fmt "fc3" "_weights" = None) by reflexivity.
    exact (proj1 (a_zero_fan_in_or_stride_is_a_division_by_zero
                    Examples.fresh ∅ "fc3" Examples.input_im_node
                    Examples.input_drop_rate_node Hs Hno) 4 false false).
  - assert (Hno : (∅ : gmap string tensor) !! fmt "conv1_1" "_weights" = None) by reflexivity.
    destruct (a_zero_fan_in_or_stride_is_a_division_by_zero
                Examples.fresh ∅ "conv1_1" Examples.input_im_node
                Examples.input_drop_rate_node Hs Hno) as (_ & _ & _ & _ & H).
    assert (Hf : 3 * 3 * 1 <> 0) by lia.
    destruct (H 32 32 1 3 3 4 0 0 2 false Hf (or_introl eq_refl)) as (s' & E & _ & Hv & _).
    exists s'. split; [exact E | exact Hv].
Defined.

End LayerFacts.

(* ===================================================================== *)
(** * Properties of the streams *)
(* ===================================================================== *)

Module StreamFacts.
Import Net NetFacts Layers LayerFacts Streams.

(** ** The configuration *)

Lemma kc_bind {A B} (c : M state A) (k : A -> M state B) :
  keeps_configuration c -> (forall a, keeps_configuration (k a)) ->
  keeps_configuration (bind c k).
Proof.
  intros Hc Hk s r s'. unfold bind.
  destruct (c s) as [[a| |] s0] eqn:E; intros H.
  - rewrite (Hk a s0 r s' H). by eapply Hc.
  - injection H as <- <-. by eapply Hc.
  - injection H as <- <-. by eapply Hc.
Qed.

Lemma kc_ret {A} (a : A) : keeps_configuration (ret a).
Proof. by intros s r s' [= <- <-]. Qed.

Lemma kc_raise {A} e : keeps_configuration (raise e : M state A).
Proof. by intros s r s' [= <- <-]. Qed.

Lemma kc_gets {A} (f : state -> A) : keeps_configuration (gets f).
Proof. by intros s r s' [= <- <-]. Qed.

Lemma kc_getitem {A} (d : gmap string A) key : keeps_configuration (getitem d key).
Proof. intros s r s'. unfold getitem. destruct (d !! key); by intros [= <- <-]. Qed.

Lemma kc_weights_dict : keeps_configuration weights_dict.
Proof.
  intros s r s'. unfold weights_dict.
  destruct (w__dict__ (_weights (self s)) !! "weights") as [[t|d]|]; by intros [= <- <-].
Qed.

Lemma kc_new_Variable init name : keeps_configuration (new_Variable init name).
Proof. by intros s r s' [= <- <-]. Qed.

Lemma kc_weights_setitem key v : keeps_configuration (weights_setitem key v).
Proof.
  intros s r s'. unfold weights_setitem.
  destruct (w__dict__ (_weights (self s)) !! "weights") as [[t|d]|]; by intros [= <- <-].
Qed.

Lemma kc_feature_setitem name t : keeps_configuration (feature_setitem name t).
Proof. by intros s r s' [= <- <-]. Qed.

Lemma kc_np_sqrt_2_over fan_in : keeps_configuration (np_sqrt_2_over fan_in).
Proof.
  intros s r s'. unfold np_sqrt_2_over. destruct (fan_in =? 0); by intros [= <- <-].
Qed.

Lemma kc_int_div a b : keeps_configuration (int_div a b).
Proof. intros s r s'. unfold int_div. destruct (b =? 0); by intros [= <- <-]. Qed.

Lemma kc_local {A} name (v : option A) : keeps_configuration (local name v).
Proof. intros s r s'. destruct v; by intros [= <- <-]. Qed.

Lemma kc_assign_new_weights_object : keeps_configuration assign_new_weights_object.
Proof. by intros s r s' [= <- <-]. Qed.

Create HintDb kc.

#[local] Hint Resolve kc_ret kc_raise kc_gets kc_getitem kc_weights_dict kc_new_Variable
  kc_weights_setitem kc_feature_setitem kc_np_sqrt_2_over kc_int_div kc_local
  kc_assign_new_weights_object : kc.

Ltac kc :=
  repeat first
    [ solve [auto 1 with kc]
    | apply kc_bind; [|intros ?; cbv beta]
    | match goal with
      | |- keeps_configuration (if ?b then _ else _) => destruct b
      | |- keeps_configuration (match ?x with _ => _ end) => destruct x
      | |- keeps_configuration (let _ := _ in _) => cbv zeta
      end ].

Lemma kc_weights_contains key : keeps_configuration (weights_contains key).
Proof. unfold weights_contains. kc. Qed.

Lemma kc_weights_getitem key : keeps_configuration (weights_getitem key).
Proof. unfold weights_getitem. kc. Qed.

Lemma kc_cfg c key : keeps_configuration (cfg c key).
Proof. unfold cfg. kc. Qed.

Lemma kc_architecture key : keeps_configuration (architecture key).
Proof. unfold architecture. kc. Qed.

#[local] Hint Resolve kc_weights_contains kc_weights_getitem kc_cfg kc_architecture : kc.

Lemma kc_for_each {A L} (body : L -> A -> M state L) :
  (forall v x, keeps_configuration (body v x)) ->
  forall l v, keeps_configuration (for_each body l v).
Proof.
  intros Hbody l. induction l as [|x l IH]; intros v; simpl.
  - apply kc_ret.
  - apply kc_bind; [apply Hbody | apply IH].
Qed.

Lemma kc_int_operand v : keeps_configuration (int_operand v).
Proof. intros s r s'. unfold int_operand. destruct v; by intros [= <- <-]. Qed.

#[local] Hint Resolve kc_int_operand : kc.

Lemma kc_build_batch_norm x ep drop : keeps_configuration (_build_batch_norm x ep drop).
Proof. by intros s r s' [= <- <-]. Qed.

#[local] Hint Resolve kc_build_batch_norm : kc.

Lemma kc_spatial_transformer x h w c ntp ow oh name :
  keeps_configuration (_build_spatial_transformer x h w c ntp ow oh name).
Proof. unfold _build_spatial_transformer. kc. Qed.

Lemma kc_conv_layer x h w c fh fw nf sh sw ps name norm :
  keeps_configuration (_build_conv_layer x h w c fh fw nf sh sw ps name norm).
Proof. unfold _build_conv_layer. kc. Qed.

Lemma kc_fully_conv_layer x fd name : keeps_configuration (_build_fully_conv_layer x fd name).
Proof. unfold _build_fully_conv_layer. kc. Qed.

Lemma kc_fully_conv_merge_layer x1 x2 fd name :
  keeps_configuration (_build_fully_conv_merge_layer x1 x2 fd name).
Proof. unfold _build_fully_conv_merge_layer. kc. Qed.

Lemma kc_fc_layer x fan_in out_size name multi drop final :
  keeps_configuration (_build_fc_layer x fan_in out_size name multi drop final).
Proof. unfold _build_fc_layer. kc. Qed.

Lemma kc_pc_layer x fan_in out_size name :
  keeps_configuration (_build_pc_layer x fan_in out_size name).
Proof. unfold _build_pc_layer. kc. Qed.

Lemma kc_gc_layer x fan_in out_size name :
  keeps_configuration (_build_gc_layer x fan_in out_size name).
Proof. unfold _build_gc_layer. kc. Qed.

Lemma kc_fc_merge x1 x2 f1 f2 out_size drop name x3 f3 :
  keeps_configuration (_build_fc_merge x1 x2 f1 f2 out_size drop name x3 f3).
Proof. unfold _build_fc_merge. kc. Qed.

Lemma kc_residual_layer x c fan_in nf fh fw drop name first :
  keeps_configuration (_build_residual_layer x c fan_in nf fh fw drop name first).
Proof. unfold _build_residual_layer. kc. Qed.

#[local] Hint Resolve kc_spatial_transformer kc_conv_layer kc_fully_conv_layer
  kc_fully_conv_merge_layer kc_fc_layer kc_pc_layer kc_gc_layer kc_fc_merge
  kc_residual_layer : kc.

Lemma kc_im_stream_body drop v item : keeps_configuration (_build_im_stream_body drop v item).
Proof. unfold _build_im_stream_body. kc. Qed.

Lemma kc_pose_stream_body v item : keeps_configuration (_build_pose_stream_body v item).
Proof. unfold _build_pose_stream_body. kc. Qed.

Lemma kc_gripper_stream_body v item : keeps_configuration (_build_gripper_stream_body v item).
Proof. unfold _build_gripper_stream_body. kc. Qed.

Lemma kc_merge_stream_body in1 in2 f1 f2 drop in3 f3 last fd v item :
  keeps_configuration (_build_merge_stream_body in1 in2 f1 f2 drop in3 f3 last fd v item).
Proof. unfold _build_merge_stream_body. kc. Qed.

Lemma kc_im_stream x h w ch drop layers :
  keeps_configuration (_build_im_stream x h w ch drop layers).
Proof.
  unfold _build_im_stream.
  apply kc_bind; [apply kc_gets|intros tw].
  apply kc_bind; [apply kc_for_each, kc_im_stream_body|intros v]. kc.
Qed.

Lemma kc_pose_stream x fan_in layers : keeps_configuration (_build_pose_stream x fan_in layers).
Proof. apply kc_for_each, kc_pose_stream_body. Qed.

Lemma kc_gripper_stream x fan_in layers :
  keeps_configuration (_build_gripper_stream x fan_in layers).
Proof. apply kc_for_each, kc_gripper_stream_body. Qed.

Lemma kc_merge_stream in1 in2 f1 f2 drop layers in3 f3 :
  keeps_configuration (_build_merge_stream in1 in2 f1 f2 drop layers in3 f3).
Proof.
  unfold _build_merge_stream. destruct layers as [|[n0 c0] rest]; [apply kc_raise|].
  destruct (negb (l_type c0 =? "fc_merge")%string); [apply kc_raise|]. cbv zeta.
  apply kc_bind; [apply kc_for_each; intros; apply kc_merge_stream_body|intros v]. kc.
Qed.

#[local] Hint Resolve kc_im_stream kc_pose_stream kc_gripper_stream kc_merge_stream : kc.

Lemma kc_network im pose drop grip : keeps_configuration (_build_network im pose drop grip).
Proof. unfold _build_network. kc. Qed.

Lemma kc_init_weights_file ckpt_vars : keeps_configuration (init_weights_file ckpt_vars).
Proof.
  unfold init_weights_file.
  apply kc_bind; [apply kc_assign_new_weights_object|intros _]. cbv zeta.
  apply kc_bind; [|intros; apply kc_ret].
  apply kc_for_each. intros [] [full short]. kc.
Qed.

Lemma configuration_fully_conv n n' :
  configuration n' = configuration n -> _fully_conv n' = _fully_conv n.
Proof. unfold configuration. congruence. Qed.

(** X15: building the network, or loading the weights of a checkpoint,
    never changes the configuration of the network: the architecture, the
    fully-convolutional flag, the sizes of the images, the dimensions of
    the poses and of the gripper parameters and the normalization
    constants are after the call what they were before it, whatever the
    outcome, an exception included.  What changes is the weights, the
    variables of the process and the feature dict. *)
Theorem building_keeps_the_configuration :
  forall (s s' : state),
    (forall im pose drop grip r,
        _build_network im pose drop grip s = (r, s') ->
        configuration (self s') = configuration (self s))
    /\ (forall ckpt_vars r,
           init_weights_file ckpt_vars s = (r, s') ->
           configuration (self s') = configuration (self s)).
Proof.
  intros s s'. split.
  - intros im pose drop grip r. apply kc_network.
  - intros ckpt_vars r. apply kc_init_weights_file.
Qed.

(** ** The fan-in of the image stream *)

Lemma im_body_leaves_fan_in drop v name c s v' s' :
  leaves_fan_in (l_type c) = true ->
  _build_im_stream_body drop v (name, c) s = (Ok v', s') ->
  im_fan_in v' = im_fan_in v.
Proof.
  unfold leaves_fan_in, _build_im_stream_body. intros Hc.
  destruct (String.eqb (l_type c) "spatial_transformer") eqn:E1.
  { unfold bind.
    repeat match goal with
           | |- context [match ?x with _ => _ end] => destruct x eqn:?; try discriminate
           end.
    intros [= <- <-]; reflexivity. }
  simpl in Hc. rewrite Hc. unfold bind, raise.
  repeat match goal with
         | |- context [match ?x with _ => _ end] => destruct x eqn:?; try discriminate
         | |- context [if ?x then _ else _] => destruct x eqn:?; try discriminate
         end.
  all: intros [= <- <-]; reflexivity.
Qed.

Lemma im_loop_leaves_fan_in drop layers :
  Forall (fun item => leaves_fan_in (l_type item.2) = true) layers ->
  forall v s v' s',
    for_each (_build_im_stream_body drop) layers v s = (Ok v', s') ->
    im_fan_in v' = im_fan_in v.
Proof.
  induction 1 as [|[name c] layers Hc _ IH]; intros v s v' s'; simpl.
  - by intros [= <- <-].
  - intros H. apply bind_ok in H as (v1 & s1 & H1 & H).
    rewrite (IH _ _ _ _ H). by eapply im_body_leaves_fan_in.
Qed.

(** X16: the loop of [_build_im_stream] assigns [fan_in] in its residual
    branch and in its dense branch after a convolution or a residual
    block only.  An image stream made of convolutions and spatial
    transformers, the empty stream included, never returns a value:
    when all its layers build, it raises [UnboundLocalError] for
    [fan_in] at its [return], with the weights of the layers created.
    A stream that starts with a dense layer raises it before anything is
    built, unless the network is fully convolutional. *)
Theorem an_image_stream_without_fan_in_never_returns :
  forall (input : tensor) (h w ch : Z) (drop : tensor) (s : state),
    (forall layers,
        Forall (fun item => leaves_fan_in (l_type item.2) = true) layers ->
        (forall r s', _build_im_stream input h w ch drop layers s <> (Ok r, s'))
        /\ (forall v s1,
               for_each (_build_im_stream_body drop) layers (im_start input h w ch s) s
               = (Ok v, s1) ->
               _build_im_stream input h w ch drop layers s
               = (Raise (UnboundLocalError "fan_in"), s1)))
    /\ (forall name c rest,
           l_type c = "fc" ->
           _fully_conv (self s) = false ->
           _build_im_stream input h w ch drop ((name, c) :: rest) s
           = (Raise (UnboundLocalError "fan_in"), s)).
Proof.
  intros input h w ch drop s. split.
  - intros layers Hl.
    assert (Hloop : forall v s1,
               for_each (_build_im_stream_body drop) layers (im_start input h w ch s) s
               = (Ok v, s1) ->
               _build_im_stream input h w ch drop layers s
               = (Raise (UnboundLocalError "fan_in"), s1)).
    { intros v s1 H. unfold _build_im_stream. unfold bind at 1, gets at 1.
      unfold bind at 1. fold (im_start input h w ch s). rewrite H.
      unfold bind at 1. by rewrite (im_loop_leaves_fan_in _ _ Hl _ _ _ _ H). }
    split; [|exact Hloop].
    intros r s' H.
    destruct (for_each (_build_im_stream_body drop) layers (im_start input h w ch s) s)
      as [[v| |] s1] eqn:E.
    + rewrite (Hloop _ _ eq_refl) in H. discriminate.
    + revert H. unfold _build_im_stream. unfold bind at 1, gets at 1.
      unfold bind at 1. fold (im_start input h w ch s). by rewrite E.
    + revert H. unfold _build_im_stream. unfold bind at 1, gets at 1.
      unfold bind at 1. fold (im_start input h w ch s). by rewrite E.
  - intros name c rest Hc Hfc.
    unfold _build_im_stream. unfold bind at 1, gets at 1. unfold bind at 1.
    simpl for_each. unfold bind at 1.
    unfold _build_im_stream_body. rewrite Hc.
    change ("fc" =? "spatial_transformer")%string with false.
    change ("fc" =? "conv")%string with false.
    change ("fc" =? "fc")%string with true. cbv iota zeta.
    unfold bind at 1, gets at 1. rewrite Hfc. reflexivity.
Qed.

(** X17: convolutions and spatial transformers at the end of an image
    stream do not update [fan_in]: the stream returns the output node of
    its last layer with the fan-in computed before those layers, not the
    size of that output. *)
Theorem trailing_convolutions_leave_the_fan_in_stale :
  forall (input : tensor) (h w ch : Z) (drop : tensor) (pre post : layers)
         (s s1 s' : state) (v1 : im_locals) (out : tensor) (fan : Z),
    for_each (_build_im_stream_body drop) pre (im_start input h w ch s) s = (Ok v1, s1) ->
    Forall (fun item => leaves_fan_in (l_type item.2) = true) post ->
    _build_im_stream input h w ch drop (pre ++ post) s = (Ok (out, fan), s') ->
    im_fan_in v1 = Some fan
    /\ exists v2,
         for_each (_build_im_stream_body drop) post v1 s1 = (Ok v2, s')
         /\ out = im_output_node v2.
Proof.
  intros input h w ch drop pre post s s1 s' v1 out fan Hpre Hpost H.
  unfold _build_im_stream in H. unfold bind at 1, gets at 1 in H.
  fold (im_start input h w ch s) in H.
  apply bind_ok in H as (v2 & s2 & Hloop & H).
  rewrite (for_each_app_ok _ _ _ _ _ _ _ Hpre) in Hloop.
  apply bind_ok in H as (f & s3 & Hf & H).
  rewrite (im_loop_leaves_fan_in _ _ Hpost _ _ _ _ Hloop) in Hf.
  destruct (im_fan_in v1) as [f1|]; [|discriminate].
  injection Hf as <- <-. injection H as <- <- <-.
  split; [reflexivity|]. by exists v2.
Qed.

(** ** The last layer of a stream *)

Lemma cfg_value c key s z s' : cfg c key s = (Ok z, s') -> l_params c !! key = Some z.
Proof. unfold cfg, getitem. destruct (l_params c !! key); by intros [= <- <-]. Qed.

Lemma two_keys_registered name name' t s W b :
  two_keys name s W b -> two_keys name (register_feature name' t s) W b.
Proof. intros (d & Hd & HW & Hb). exists d. by rewrite store_of_register_feature. Qed.

(** X18: in a network that is not fully convolutional, a merge stream
    that ends with a dense layer and builds returns the node of that
    layer built as the final layer: the dropout of [input * W + b], with
    no activation between them, [W] and [b] being stored under the keys
    of the layer.  The node is registered under the name of the layer,
    and the fan-out of the stream is the [out_size] of the layer. *)
Theorem the_last_dense_layer_of_a_merge_stream_is_linear :
  forall (in1 in2 : tensor) (f1 f2 : Z) (drop : tensor) (in3 : option tensor)
         (f3 : option Z) (pre : layers) (name : string) (c : layer_config)
         (s s' : state) (out : tensor) (fan : Z),
    l_type c = "fc" ->
    _fully_conv (self s) = false ->
    _build_merge_stream in1 in2 f1 f2 drop (pre ++ [(name, c)]) in3 f3 s = (Ok (out, fan), s') ->
    exists node W b,
      out = tf_nn_dropout (tf_add (tf_matmul node W) b) (tf_subtract (py_int 1) drop)
      /\ two_keys name s' W b
      /\ _feature_tensors (self s') !! name = Some out
      /\ l_params c !! "out_size" = Some fan.
Proof.
  intros in1 in2 f1 f2 drop in3 f3 pre name c s s' out fan Hc Hfc H.
  unfold _build_merge_stream in H.
  destruct pre as [|[n0 c0] pre'].
  { simpl in H. rewrite Hc in H. discriminate. }
  change (((n0, c0) :: pre') ++ [(name, c)])
    with ((n0, c0) :: (pre' ++ [(name, c)])) in H.
  cbv iota beta in H.
  destruct (negb (l_type c0 =? "fc_merge")%string); [discriminate|].
  cbv zeta in H.
  remember (Z.of_nat (length ((n0, c0) :: pre' ++ [(name, c)])) - 1) as last eqn:Hlast_index.
  apply bind_ok in H as (v & s2 & Hloop & H).
  change ((n0, c0) :: (pre' ++ [(name, c)]))
    with (((n0, c0) :: pre') ++ [(name, c)]) in Hloop.
  rewrite enumerate_from_app in Hloop.
  change (enumerate_from (0 + Z.of_nat (length ((n0, c0) :: pre'))) [(name, c)])
    with [(0 + Z.of_nat (length ((n0, c0) :: pre')), (name, c))] in Hloop.
  assert (Hfin : (0 + Z.of_nat (length ((n0, c0) :: pre')) =? last) = true).
  { subst last. apply Z.eqb_eq. cbn [length]. rewrite length_app. cbn [length]. lia. }
  apply for_each_app_inv in Hloop as ([node fan_in] & s1 & Hpre & Hlast).
  rewrite for_each_singleton in Hlast.
  assert (Hfc1 : _fully_conv (self s1) = false).
  { rewrite <- Hfc. apply configuration_fully_conv.
    eapply kc_for_each; [|exact Hpre]. intros. apply kc_merge_stream_body. }
  unfold _build_merge_stream_body in Hlast. rewrite Hc in Hlast.
  change ("fc" =? "spatial_transformer")%string with false in Hlast.
  change ("fc" =? "conv")%string with false in Hlast.
  change ("fc" =? "fc")%string with true in Hlast. cbv iota zeta in Hlast.
  unfold bind at 1, gets at 1 in Hlast. rewrite Hfc1 in Hlast.
  destruct node as [node|]; [|discriminate].
  unfold bind at 1, local, ret at 1 in Hlast.
  apply bind_ok in Hlast as (out_size & s3 & Hcfg & Hlast).
  pose proof (cfg_ok _ _ _ _ _ Hcfg) as ->. apply cfg_value in Hcfg.
  apply bind_ok in Hlast as ([o f] & s4 & Hbuild & Hlast).
  injection Hlast as <- <-.
  rewrite Hfin in Hbuild.
  apply fc_layer_built in Hbuild as (W & b & s0 & Hk & _ & _ & E & ->).
  injection E as -> ->.
  simpl fst in H. unfold bind at 1, local, ret at 1 in H. injection H as <- <- <-.
  exists node, W, b. split; [reflexivity|]. split; [by apply two_keys_registered|].
  split; [apply feature_registered | exact Hcfg].
Qed.

(** X19: a pose stream with at least one layer that builds ends with a
    layer of type [pc], a gripper stream with at least one layer that
    builds with a layer of type [gc]; the stream returns the node of
    this last layer, which is the activation of [input * W + b] for the
    stored weights of the layer and is registered under its name, and
    the [out_size] of the layer as its fan-out.  A pose or gripper
    stream without layers builds nothing: it returns its input node and
    its fan-in, and the state is as it was. *)
Theorem pose_and_gripper_streams_end_with_their_last_layer :
  forall (input : tensor) (fan_in : Z) (pre : layers) (name : string) (c : layer_config)
         (s s' : state) (out : tensor) (fan : Z),
    let last_layer (layer_type : string) :=
      l_type c = layer_type
      /\ l_params c !! "out_size" = Some fan
      /\ _feature_tensors (self s') !! name = Some out
      /\ exists node W b, out = pc_node_of node W b /\ two_keys name s' W b in
    (_build_pose_stream input fan_in (pre ++ [(name, c)]) s = (Ok (out, fan), s') ->
     last_layer "pc")
    /\ (_build_gripper_stream input fan_in (pre ++ [(name, c)]) s = (Ok (out, fan), s') ->
        last_layer "gc")
    /\ _build_pose_stream input fan_in [] s = (Ok (input, fan_in), s)
    /\ _build_gripper_stream input fan_in [] s = (Ok (input, fan_in), s).
Proof.
  intros input fan_in pre name c s s' out fan last_layer. subst last_layer. cbv beta.
  split; [|split; [|split; reflexivity]]; intros H.
  - unfold _build_pose_stream in H.
    apply for_each_app_inv in H as ([node f] & s1 & _ & H).
    rewrite for_each_singleton in H.
    destruct (String.eqb (l_type c) "pc") eqn:E.
    2:{ rewrite (pose_body_refuses _ _ _ _ E) in H. discriminate. }
    apply String.eqb_eq in E. split; [exact E|].
    unfold _build_pose_stream_body in H. rewrite E in H.
    change ("pc" =? "spatial_transformer")%string with false in H.
    change ("pc" =? "conv")%string with false in H.
    change ("pc" =? "fc")%string with false in H.
    change ("pc" =? "pc")%string with true in H. cbv iota zeta in H.
    apply bind_ok in H as (out_size & s3 & Hcfg & H).
    pose proof (cfg_ok _ _ _ _ _ Hcfg) as ->. apply cfg_value in Hcfg.
    apply pc_layer_built in H as (W & b & s0 & Hk & _ & _ & Er & ->).
    injection Er as -> ->.
    split; [exact Hcfg|]. split; [apply feature_registered|].
    exists node, W, b. split; [reflexivity | by apply two_keys_registered].
  - unfold _build_gripper_stream in H.
    apply for_each_app_inv in H as ([node f] & s1 & _ & H).
    rewrite for_each_singleton in H.
    destruct (String.eqb (l_type c) "gc") eqn:E.
    2:{ rewrite (gripper_body_refuses _ _ _ _ E) in H. discriminate. }
    apply String.eqb_eq in E. split; [exact E|].
    unfold _build_gripper_stream_body in H. rewrite E in H.
    change ("gc" =? "spatial_transformer")%string with false in H.
    change ("gc" =? "conv")%string with false in H.
    change ("gc" =? "fc")%string with false in H.
    change ("gc" =? "pc")%string with false in H.
    change ("gc" =? "gc")%string with true in H. cbv iota zeta in H.
    apply bind_ok in H as (out_size & s3 & Hcfg & H).
    pose proof (cfg_ok _ _ _ _ _ Hcfg) as ->. apply cfg_value in Hcfg.
    apply gc_layer_built in H as (W & b & s0 & Hk & _ & _ & Er & ->).
    injection Er as -> ->.
    split; [exact Hcfg|]. split; [apply feature_registered|].
    exists node, W, b. split; [reflexivity | by apply two_keys_registered].
Qed.

(** ** The streams of the examples *)

Lemma building_keeps_the_configuration_witness :
  (exists out, fst StreamExamples.small_network_built = Ok out)
  /\ configuration (self (snd StreamExamples.small_network_built))
     = configuration (self StreamExamples.small_network).
Proof.
  split; [eexists; vm_compute; reflexivity|].
  apply (proj1 (building_keeps_the_configuration
                  StreamExamples.small_network (snd StreamExamples.small_network_built))
               Examples.input_im_node StreamExamples.input_pose_node
               Examples.input_drop_rate_node None
               (fst StreamExamples.small_network_built)).
  apply surjective_pairing.
Defined.

Lemma an_image_stream_without_fan_in_never_returns_witness :
  _build_im_stream Examples.input_im_node 32 32 1 Examples.input_drop_rate_node
                   [("conv1_1", Examples.conv 2)] Examples.fresh
  = (Raise (UnboundLocalError "fan_in"),
     StreamExamples.state_after [("conv1_1", Examples.conv 2)])
  /\ tf_variables (proc (StreamExamples.state_after [("conv1_1", Examples.conv 2)])) = 2%nat.
Proof.
  split; [|vm_compute; reflexivity].
  assert (Hl : Forall (fun item : string * layer_config => leaves_fan_in (l_type item.2) = true)
                      [("conv1_1", Examples.conv 2)])
    by (repeat constructor).
  apply (proj2 (proj1 (an_image_stream_without_fan_in_never_returns
                         Examples.input_im_node 32 32 1 Examples.input_drop_rate_node
                         Examples.fresh) _ Hl)
               (StreamExamples.locals_after [("conv1_1", Examples.conv 2)])).
  vm_compute. reflexivity.
Defined.

Lemma trailing_convolutions_leave_the_fan_in_stale_witness :
  fst (_build_im_stream Examples.input_im_node 32 32 1 Examples.input_drop_rate_node
                        StreamExamples.im_stream_res_conv Examples.fresh)
  = Ok (im_output_node (StreamExamples.locals_after StreamExamples.im_stream_res_conv), 1024)
  /\ im_fan_in (StreamExamples.locals_after [("res1", Examples.residual)]) = Some 1024
  /\ im_input_height (StreamExamples.locals_after StreamExamples.im_stream_res_conv)
     * im_input_width (StreamExamples.locals_after StreamExamples.im_stream_res_conv)
     * im_input_channels (StreamExamples.locals_after StreamExamples.im_stream_res_conv)
     = 4096.
Proof.
  assert (Hbuild : _build_im_stream Examples.input_im_node 32 32 1 Examples.input_drop_rate_node
                     ([("res1", Examples.residual)] ++ [("conv1", Examples.conv 1)])
                     Examples.fresh
                   = (Ok (im_output_node
                            (StreamExamples.locals_after StreamExamples.im_stream_res_conv),
                          1024),
                      StreamExamples.state_after StreamExamples.im_stream_res_conv))
    by (vm_compute; reflexivity).
  assert (Hpre : for_each (_build_im_stream_body Examples.input_drop_rate_node)
                          [("res1", Examples.residual)]
                          (im_start Examples.input_im_node 32 32 1 Examples.fresh)
                          Examples.fresh
                 = (Ok (StreamExamples.locals_after [("res1", Examples.residual)]),
                    StreamExamples.state_after [("res1", Examples.residual)]))
    by (vm_compute; reflexivity).
  assert (Hpost : Forall (fun item : string * layer_config =>
                            leaves_fan_in (l_type item.2) = true)
                         [("conv1", Examples.conv 1)])
    by (repeat constructor).
  split; [exact (f_equal fst Hbuild)|].
  split; [|vm_compute; reflexivity].
  exact (proj1 (trailing_convolutions_leave_the_fan_in_stale
                  _ _ _ _ _ _ _ _ _ _ _ _ _ Hpre Hpost Hbuild)).
Defined.

Lemma the_last_dense_layer_of_a_merge_stream_is_linear_witness :
  exists node W b,
    StreamExamples.merge_output
    = tf_nn_dropout (tf_add (tf_matmul node W) b)
                    (tf_subtract (py_int 1) Examples.input_drop_rate_node)
    /\ two_keys "fc5" (snd StreamExamples.merge_built) W b
    /\ _feature_tensors (self (snd StreamExamples.merge_built)) !! "fc5"
       = Some StreamExamples.merge_output
    /\ l_params StreamExamples.fc5 !! "out_size" = Some 2.
Proof.
  apply (the_last_dense_layer_of_a_merge_stream_is_linear
           Examples.input_im_node StreamExamples.input_pose_node 8 16
           Examples.input_drop_rate_node None None
           [("fc4", StreamExamples.fc_merge)] "fc5" StreamExamples.fc5 Examples.fresh).
  - reflexivity.
  - reflexivity.
  - vm_compute. reflexivity.
Defined.

Lemma pose_and_gripper_streams_end_with_their_last_layer_witness :
  _feature_tensors
    (self (snd (_build_pose_stream StreamExamples.input_pose_node 1
                                   StreamExamples.pose_stream_pc1 Examples.fresh)))
  !! "pc1" = Some StreamExamples.pc1_node
  /\ _feature_tensors
       (self (snd (_build_gripper_stream StreamExamples.input_gripper_node 1
                                         StreamExamples.gripper_stream_gc1 Examples.fresh)))
     !! "gc1" = Some StreamExamples.gc1_node
  /\ _build_pose_stream StreamExamples.input_pose_node 1 [] Examples.fresh
     = (Ok (StreamExamples.input_pose_node, 1), Examples.fresh)
  /\ _build_gripper_stream StreamExamples.input_gripper_node 1 [] Examples.fresh
     = (Ok (StreamExamples.input_gripper_node, 1), Examples.fresh).
Proof.
  split; [|split].
  - pose proof (pose_and_gripper_streams_end_with_their_last_layer
                  StreamExamples.input_pose_node 1 [] "pc1" Examples.pc Examples.fresh
                  (snd (_build_pose_stream StreamExamples.input_pose_node 1
                                           StreamExamples.pose_stream_pc1 Examples.fresh))
                  StreamExamples.pc1_node 16) as H.
    cbv zeta in H. destruct H as [H _].
    destruct H as (_ & _ & H & _); [vm_compute; reflexivity | exact H].
  - pose proof (pose_and_gripper_streams_end_with_their_last_layer
                  StreamExamples.input_gripper_node 1 [] "gc1" StreamExamples.gc Examples.fresh
                  (snd (_build_gripper_stream StreamExamples.input_gripper_node 1
                                              StreamExamples.gripper_stream_gc1 Examples.fresh))
                  StreamExamples.gc1_node 16) as H.
    cbv zeta in H. destruct H as (_ & H & _).
    destruct H as (_ & _ & H & _); [vm_compute; reflexivity | exact H].
  - pose proof (pose_and_gripper_streams_end_with_their_last_layer
                  StreamExamples.input_pose_node 1 [] "pc1" Examples.pc Examples.fresh
                  Examples.fresh StreamExamples.pc1_node 16) as H.
    pose proof (pose_and_gripper_streams_end_with_their_last_layer
                  StreamExamples.input_gripper_node 1 [] "gc1" StreamExamples.gc Examples.fresh
                  Examples.fresh StreamExamples.gc1_node 16) as H'.
    cbv zeta in H, H'.
    destruct H as (_ & _ & H & _). destruct H' as (_ & _ & _ & H').
    split; [exact H | exact H'].
Defined.

End StreamFacts.

(* ===================================================================== *)
(** * The Weight Store shared by the networks of a process *)
(* ===================================================================== *)

Module SharingFacts.
Import Net NetFacts Layers LayerFacts.





End SharingFacts.

(* ===================================================================== *)
(** * Properties of checkpoint loading, [reduce_shape] and the accessors *)
(* ===================================================================== *)

Module CheckpointFacts.
Import Net NetFacts Checkpoint.

(** ** Short names *)

Lemma after_last_slash_no_slash s acc : has_slash s = false -> after_last_slash s acc = acc.
Proof.
  revert acc. induction s as [|c s IH]; intros acc; simpl; [done|].
  destruct (Ascii.eqb c "/"); [discriminate|]. apply IH.
Qed.

Lemma after_last_slash_scope dir base acc :
  after_last_slash (dir +:+ "/" +:+ base) acc = after_last_slash base base.
Proof.
  revert acc. induction dir as [|c dir IH]; intros acc; simpl; [done|].
  destruct (Ascii.eqb c "/"); apply IH.
Qed.

Lemma append_empty_r s : s +:+ "" = s.
Proof.
  induction s as [|c s IH]; [done|].
  change (String c (s +:+ "") = String c s). by rewrite IH.
Qed.

Lemma append_snoc p c s : (p +:+ String c "") +:+ s = p +:+ String c s.
Proof.
  induction p as [|c' p IH]; [done|].
  change (String c' ((p +:+ String c "") +:+ s) = String c' (p +:+ String c s)).
  by rewrite IH.
Qed.

Lemma has_slash_snoc p c :
  has_slash p = false -> Ascii.eqb c "/" = false -> has_slash (p +:+ String c "") = false.
Proof.
  induction p as [|c' p IH]; simpl; intros Hp Hc.
  - by rewrite Hc.
  - apply orb_false_elim in Hp as [-> Hp]. simpl. by apply IH.
Qed.

Lemma after_last_slash_has_no_slash s p :
  has_slash p = false -> has_slash (after_last_slash s (p +:+ s)) = false.
Proof.
  revert p. induction s as [|c s IH]; intros p Hp; cbn [after_last_slash].
  - by rewrite append_empty_r.
  - destruct (Ascii.eqb c "/") eqn:Hc.
    + apply (IH "" eq_refl).
    + rewrite <- append_snoc. apply IH. by apply has_slash_snoc.
Qed.

(** X20: the key under which [init_weights_file] stores a variable of the
    checkpoint is the part of its name after the last ['/']: it holds no
    ['/'] itself; a name made of scopes, a ['/'] and a last component
    without ['/'] gives that component, whatever the scopes; a name
    without ['/'] is its own key. *)
Theorem short_name_is_the_last_component :
  (forall variable, has_slash (short_name variable) = false)
  /\ (forall scope name,
         has_slash name = false -> short_name (scope +:+ "/" +:+ name) = name)
  /\ (forall variable, has_slash variable = false -> short_name variable = variable).
Proof.
  split; [|split].
  - intros variable. apply (after_last_slash_has_no_slash variable "" eq_refl).
  - intros scope name H. unfold short_name.
    rewrite after_last_slash_scope. by apply after_last_slash_no_slash.
  - intros variable H. by apply after_last_slash_no_slash.
Qed.

Lemma short_name_is_the_last_component_witness :
  short_name "im_stream/st/st_weights" = "st_weights".
Proof.
  exact (proj1 (proj2 short_name_is_the_last_component) "im_stream/st" "st_weights" eq_refl).
Defined.

(** ** Loading a checkpoint *)

Lemma init_weights_loop_exact ckpt_vars s :
  class_level s ->
  exists p',
    for_each (fun (_ : unit) (names : string * string) =>
                let '(full_var_name, short) := names in
                let* v := new_Variable (checkpoint_tensor full_var_name) "Variable" in
                weights_setitem short v)
             (zip ckpt_vars (map short_name ckpt_vars)) tt s
    = (Ok tt, {| self := self s; proc := p' |})
    /\ tf_variables p' = (tf_variables (proc s) + length ckpt_vars)%nat
    /\ (forall key, key ∉ map short_name ckpt_vars ->
                    GQCNNWeights_weights p' !! key = GQCNNWeights_weights (proc s) !! key)
    /\ (forall i full,
           ckpt_vars !! i = Some full ->
           (forall j full', (i < j)%nat -> ckpt_vars !! j = Some full' ->
                            short_name full' <> short_name full) ->
           GQCNNWeights_weights p' !! short_name full
           = Some (loaded_variable (tf_variables (proc s)) i full)).
Proof.
  revert s. induction ckpt_vars as [|full rest IH]; intros s Hc.
  - exists (proc s). simpl. split; [by destruct s|]. split; [lia|]. split; [done|].
    intros i f Hi. by rewrite lookup_nil in Hi.
  - simpl. unfold bind at 1. unfold bind at 1. rewrite new_Variable_run.
    set (s1 := snd (new_Variable _ _ s)).
    assert (Hc1 : class_level s1) by exact Hc.
    rewrite (weights_setitem_class_level _ _ _ Hc1).
    set (v := tf_Variable _ _ _).
    set (s2 := {| self := self s1; proc := _ |}).
    assert (Hc2 : class_level s2) by exact Hc.
    destruct (IH s2 Hc2) as (p' & E & Hn & Hold & Hnew).
    exists p'. split; [exact E|]. split; [rewrite Hn; simpl; lia|]. split.
    + intros key Hk. apply not_elem_of_cons in Hk as [Hne Hk].
      rewrite (Hold key Hk). simpl. by rewrite lookup_insert_ne.
    + intros [|i] f Hi Hlast.
      * injection Hi as <-.
        assert (Hnin : short_name full ∉ map short_name rest).
        { intros Hin. apply list_elem_of_fmap in Hin as (f' & Hsn & Hf').
          apply list_elem_of_lookup in Hf' as (j & Hj).
          apply (Hlast (S j) f'); [lia | exact Hj | by symmetry]. }
        rewrite (Hold _ Hnin). simpl. rewrite lookup_insert_eq.
        unfold loaded_variable, v. by rewrite Nat.add_0_r.
      * rewrite (Hnew i f Hi).
        -- unfold loaded_variable. simpl. do 2 f_equal. lia.
        -- intros j f' Hj Hf'. apply (Hlast (S j) f'); [lia | exact Hf'].
Qed.

(** X21: on the variables a checkpoint lists, in every state,
    [init_weights_file] creates one variable for each variable of the
    checkpoint, in their order, also for those whose short names
    coincide; of the variables of one short name the store keeps the
    last, and the keys that are no short name of the checkpoint keep the
    values the class-level store had. *)
Theorem loading_a_checkpoint_keeps_the_last_variable_of_a_short_name :
  forall (ckpt_vars : list string) (s : state),
    exists s' d,
      init_weights_file ckpt_vars s = (Ok tt, s')
      /\ store_of s' = Some d
      /\ tf_variables (proc s') = (tf_variables (proc s) + length ckpt_vars)%nat
      /\ (forall key, key ∉ map short_name ckpt_vars ->
                      d !! key = GQCNNWeights_weights (proc s) !! key)
      /\ (forall i full,
             ckpt_vars !! i = Some full ->
             (forall j full', (i < j)%nat -> ckpt_vars !! j = Some full' ->
                              short_name full' <> short_name full) ->
             d !! short_name full = Some (loaded_variable (tf_variables (proc s)) i full)).
Proof.
  intros ckpt_vars s.
  unfold init_weights_file. unfold bind at 1.
  unfold assign_new_weights_object at 1, modify at 1.
  set (s0 := {| self := set_weights_obj GQCNNWeights__init__ _; proc := _ |}).
  assert (Hc : class_level s0) by reflexivity.
  destruct (init_weights_loop_exact ckpt_vars s0 Hc) as (p' & E & Hn & Hold & Hnew).
  exists {| self := self s0; proc := p' |}, (GQCNNWeights_weights p').
  unfold bind at 1. rewrite E. split; [reflexivity|].
  split; [reflexivity|]. split; [exact Hn|]. by split.
Qed.

Lemma loading_a_checkpoint_keeps_the_last_variable_of_a_short_name_witness :
  exists s' d,
    init_weights_file CheckpointExamples.with_optimizer_slots Examples.fresh = (Ok tt, s')
    /\ store_of s' = Some d
    /\ tf_variables (proc s') = 4%nat
    /\ d !! "conv1_1_weights" = Some (loaded_variable 0 0 "im_stream/conv1_1_weights")
    /\ d !! "Adam" = Some (loaded_variable 0 3 "im_stream/fc3_weights/Adam").
Proof.
  destruct (loading_a_checkpoint_keeps_the_last_variable_of_a_short_name
              CheckpointExamples.with_optimizer_slots Examples.fresh)
    as (s' & d & E & Hd & Hn & _ & Hlast).
  exists s', d. split; [exact E|]. split; [exact Hd|]. split; [exact Hn|]. split.
  - apply (Hlast 0%nat "im_stream/conv1_1_weights" eq_refl).
    intros [|[|[|[|j]]]] f' Hj Hf'; try lia; try discriminate;
      injection Hf' as <-; vm_compute; discriminate.
  - apply (Hlast 3%nat "im_stream/fc3_weights/Adam" eq_refl).
    intros [|[|[|[|j]]]] f' Hj Hf'; try lia; discriminate.
Defined.

End CheckpointFacts.

Module ShapeFacts.
Import Shapes.

(** ** The size of a flattened layer *)

Lemma reduce_from_known (dims : list Z) (acc : Z) :
  fold_left (fun (x : Z) (y : option Z) => match y with None => 1 | Some y => x * y end)
            (map Some dims) acc
  = acc * fold_right Z.mul 1 dims.
Proof.
  revert acc. induction dims as [|d dims IH]; intros acc; simpl; [lia|].
  rewrite IH. lia.
Qed.

(** X22: [reduce_shape] never looks at the batch dimension.  When the
    other dimensions are all known it gives their product.  An unknown
    dimension makes the fold start again from 1: the dimensions before
    it are dropped, and the result is the product of the dimensions
    after the last unknown one. *)
Theorem reduce_shape_restarts_at_an_unknown_dimension :
  (forall batch dims, reduce_shape (batch :: map Some dims) = fold_right Z.mul 1 dims)
  /\ (forall batch before after,
         reduce_shape (batch :: before ++ None :: after) = reduce_shape (batch :: after))
  /\ (forall batch before dims,
         reduce_shape (batch :: before ++ None :: map Some dims) = fold_right Z.mul 1 dims).
Proof.
  assert (Hrestart : forall batch before after,
             reduce_shape (batch :: before ++ None :: after) = reduce_shape (batch :: after)).
  { intros batch before after. unfold reduce_shape. simpl tail. cbv zeta.
    by rewrite fold_left_app. }
  split; [|split].
  - intros batch dims. unfold reduce_shape. simpl tail. cbv zeta.
    rewrite reduce_from_known. lia.
  - exact Hrestart.
  - intros batch before dims. rewrite Hrestart.
    unfold reduce_shape. simpl tail. cbv zeta. rewrite reduce_from_known. lia.
Qed.

End ShapeFacts.

Module AccessorFacts.
Import Norm.

Lemma getters_of_the_class :
  forallb (fun d : string * member =>
             match d.2 with
             | Getter b =>
                 negb (String.eqb b "_im_mean" || String.eqb b "_im_std"
                       || String.eqb b "_gripper_mean" || String.eqb b "_gripper_std")
             | _ => true
             end)
          (map_to_list class_dict) = true.
Proof. vm_compute. reflexivity. Qed.

(** X23: for every setter and getter of the class, on every instance and
    for every value: the getter called after the setter returns the
    value set exactly when it reads the attribute the setter writes;
    when it reads another attribute the result does not depend on the
    value set, it is what the instance held under that attribute, or an
    [AttributeError].  No getter of the class reads [_im_mean],
    [_im_std], [_gripper_mean] or [_gripper_std]. *)
Theorem a_getter_returns_what_its_attribute_holds :
  (forall (setter getter a b : string) (v : value) (self : instance),
      class_dict !! setter = Some (Setter a) ->
      class_dict !! getter = Some (Getter b) ->
      class_dict !! a = None ->
      class_dict !! b = None ->
      set_then_get setter getter v self
      = Some (if decide (a = b) then Ok v
              else match self !! b with
                   | Some old => Ok old
                   | None => Raise (AttributeError b)
                   end))
  /\ (forall (getter b : string),
         class_dict !! getter = Some (Getter b) ->
         b <> "_im_mean" /\ b <> "_im_std" /\ b <> "_gripper_mean" /\ b <> "_gripper_std").
Proof.
  split.
  2:{ intros getter b Hg.
      pose proof getters_of_the_class as H.
      rewrite forallb_forall in H.
      apply elem_of_map_to_list in Hg. apply list_elem_of_In in Hg.
      specialize (H (getter, Getter b) Hg).
      change (negb (String.eqb b "_im_mean" || String.eqb b "_im_std"
                    || String.eqb b "_gripper_mean" || String.eqb b "_gripper_std") = true)
        in H.
      apply negb_true_iff in H.
      apply orb_false_elim in H as [H H4]. apply orb_false_elim in H as [H H3].
      apply orb_false_elim in H as [H1 H2].
      clear Hg.
      split; [intros ->; discriminate H1|].
      split; [intros ->; discriminate H2|].
      split; [intros ->; discriminate H3 | intros ->; discriminate H4]. }
  intros setter getter a b v self Hs Hg Ha Hb.
  unfold set_then_get, call. rewrite Hs, Hg. f_equal.
  unfold bind, setattr, getattr, ret. rewrite Ha, Hb. cbv beta iota. simpl fst.
  destruct (decide (a = b)) as [->|Hne].
  - unfold instance in *. by rewrite (lookup_insert_eq (M := gmap string)).
  - unfold instance in *. rewrite (lookup_insert_ne (M := gmap string)) by done.
    by destruct (self !! b).
Qed.

Lemma a_getter_returns_what_its_attribute_holds_witness :
  set_then_get "update_pose_mean" "get_pose_mean" (Arr [6]%Q) (new_instance 1 1)
  = Some (Ok (Arr [6]%Q))
  /\ set_then_get "update_im_mean" "get_im_mean" (Num 5)
                  (<["im_mean" := Num 7]> (new_instance 1 1))
     = Some (Ok (Num 7)).
Proof.
  split.
  - exact (proj1 a_getter_returns_what_its_attribute_holds
             "update_pose_mean" "get_pose_mean" "_pose_mean" "_pose_mean"
             (Arr [6]%Q) (new_instance 1 1) eq_refl eq_refl eq_refl eq_refl).
  - exact (proj1 a_getter_returns_what_its_attribute_holds
             "update_im_mean" "get_im_mean" "_im_mean" "im_mean"
             (Num 5) (<["im_mean" := Num 7]> (new_instance 1 1))
             eq_refl eq_refl eq_refl eq_refl).
Defined.

End AccessorFacts.
